(** * Valley Legend: the client-side game-state engine and the save manager

    A shallow embedding of [frontend/app/page.tsx], [frontend/lib/storyline.ts]
    and [savemanager.go].

    Conventions of the embedding.
    - A JavaScript [number] that holds a fractional quantity (amount, rate,
      capacity, a production boost) is an exact rational [Q]; IEEE rounding
      of doubles is not modelled.  Counters that the code only ever moves by
      whole steps (ticks, seconds, tenants, workers, morale points, skill
      levels) are [Z].
    - The [useState] cells and the [useRef] of the [Home] component that the
      engine reads or writes are the fields of the record [Game] (dialog and
      panel toggles are left out); a handler or an effect body is a function
      [Game -> Game] that performs the setter calls of the source in order.
      Values captured by the closure and values seen by functional updaters
      coincide, because each handler is run on the committed state.
    - For the codec every serialized cell is a JavaScript value ([json]),
      gathered in the record [Cells]; [cells_of_game] gives the cells of a
      typed state.
    - [Record<ResourceKey, T>] objects that always carry the six keys are
      total functions [ResourceKey -> T]; their enumeration order is
      [RESOURCE_KEYS].  Object literals used as partial records are
      association lists in literal order.  Objects keyed by arbitrary
      strings are [gmap string _].
    - Presentation-only fields (labels, descriptions, icons) are left out of
      the catalogue records; log lines are kept as structured [LogEntry]
      values instead of the rendered English or Chinese sentence. *)

From Stdlib Require Import ZArith QArith Qround Qminmax Lqa Lia List String.
From stdpp Require Import gmap strings list fin_maps pretty.

Set Warnings "-register-all".

#[local] Open Scope string_scope.
#[local] Open Scope Z_scope.
#[local] Open Scope list_scope.

(** ** JavaScript number helpers *)

(** [Number(x.toFixed(1))]: the closest multiple of one tenth, ties away
    from zero. *)
Definition round_half_up_tenth (q : Q) : Q :=
  (Qfloor (q * 10 + (1 # 2)) # 10)%Q.

Definition toFixed1 (q : Q) : Q :=
  if Qle_bool 0 q then round_half_up_tenth q
  else (- round_half_up_tenth (- q))%Q.

(** [!x] on a number. *)
Definition falsyQ (q : Q) : bool := Qeq_bool q 0.

Definition Qlt_bool (a b : Q) : bool := negb (Qle_bool b a).

(** [Math.min] and [Math.max] on two rationals. *)
Definition Math_min (a b : Q) : Q := if Qle_bool a b then a else b.
Definition Math_max (a b : Q) : Q := if Qle_bool a b then b else a.

(** ** Catalogue *)

Inductive ResourceKey : Type :=
| sunleaf | wood | stone | science | energy | execution.

#[global] Instance ResourceKey_eq_dec : EqDecision ResourceKey.
Proof. solve_decision. Defined.

Definition RESOURCE_KEYS : list ResourceKey :=
  [sunleaf; wood; stone; science; energy; execution].

Definition key_name (k : ResourceKey) : string :=
  match k with
  | sunleaf => "sunleaf" | wood => "wood" | stone => "stone"
  | science => "science" | energy => "energy" | execution => "execution"
  end.

Record Resource : Type := mkResource {
  key : ResourceKey;
  amount : Q;
  rate : Q;
  capacity : Q
}.

(** [Partial<Record<ResourceKey, number>>] written as an object literal. *)
Definition ResourceDelta : Type := list (ResourceKey * Q).

Fixpoint delta_get (d : ResourceDelta) (k : ResourceKey) : option Q :=
  match d with
  | [] => None
  | (k', v) :: rest => if decide (k' = k) then Some v else delta_get rest k
  end.

Definition INITIAL_RESOURCES : list Resource :=
  [ mkResource sunleaf 0 0 40;
    mkResource wood 0 0 40;
    mkResource stone 0 0 30;
    mkResource science 0 0 25;
    mkResource energy 0 0 20;
    mkResource execution 0 0 10 ].

Record Recipe : Type := mkRecipe {
  recipe_id : string;
  recipe_cost : ResourceDelta;
  recipe_craftTime : Z;
  capacityBoost : Q;
  recipe_requiredStage : Z
}.

Definition RECIPES : list Recipe :=
  [ mkRecipe "storage-chest" [(wood, -10)%Q] 60 10 0;
    mkRecipe "reinforced-vault" [(wood, -20)%Q; (stone, -15)%Q] 120 25 2 ].

Record ToolRecipe : Type := mkToolRecipe {
  tool_id : string;
  tool_cost : ResourceDelta;
  tool_craftTime : Z;
  toolType : string;
  harvestBonus : ResourceDelta;
  cooldownReduction : Z;
  tool_requiredStage : Z
}.

Definition TOOL_RECIPES : list ToolRecipe :=
  [ mkToolRecipe "wooden-saw" [(wood, -5)%Q] 30 "saw" [(wood, 1%Q)] 5 0;
    mkToolRecipe "stone-saw" [(wood, -8)%Q; (stone, -6)%Q] 45 "saw"
      [(wood, 2%Q)] 8 1;
    mkToolRecipe "celestial-saw" [(wood, -12)%Q; (energy, -8)%Q] 60 "saw"
      [(wood, 3%Q)] 12 2;
    mkToolRecipe "alloy-saw" [(wood, -15)%Q; (stone, -10)%Q; (energy, -5)%Q]
      90 "saw" [(wood, 5%Q)] 15 3;
    mkToolRecipe "wooden-pickaxe" [(wood, -6)%Q] 30 "pickaxe"
      [(stone, 1%Q)] 5 0;
    mkToolRecipe "stone-pickaxe" [(wood, -5)%Q; (stone, -8)%Q] 45 "pickaxe"
      [(stone, 2%Q)] 8 1;
    mkToolRecipe "celestial-pickaxe"
      [(wood, -8)%Q; (stone, -10)%Q; (energy, -6)%Q] 60 "pickaxe"
      [(stone, 4%Q)] 12 2;
    mkToolRecipe "alloy-pickaxe"
      [(wood, -10)%Q; (stone, -15)%Q; (energy, -8)%Q] 90 "pickaxe"
      [(stone, 6%Q)] 15 3;
    mkToolRecipe "wooden-shears" [(wood, -4)%Q] 25 "shears"
      [(sunleaf, 2%Q)] 5 0;
    mkToolRecipe "stone-shears" [(wood, -6)%Q; (stone, -5)%Q] 40 "shears"
      [(sunleaf, 4%Q)] 8 1;
    mkToolRecipe "celestial-shears"
      [(wood, -8)%Q; (stone, -6)%Q; (energy, -5)%Q] 55 "shears"
      [(sunleaf, 6%Q)] 12 2;
    mkToolRecipe "alloy-shears"
      [(wood, -10)%Q; (stone, -8)%Q; (energy, -6)%Q] 80 "shears"
      [(sunleaf, 8%Q)] 15 3 ].

Record Facility : Type := mkFacility {
  facility_id : string;
  facility_cost : ResourceDelta;
  facility_capacity : Z;
  facility_requiredStage : Z
}.

Definition FACILITIES : list Facility :=
  [ mkFacility "cabin" [(wood, -20)%Q] 2 0;
    mkFacility "city-hall" [(sunleaf, -40)%Q; (wood, -10)%Q] 0 0 ].

Definition INITIAL_FACILITY_COUNTS : gmap string Z :=
  foldl (fun acc f => <[facility_id f := 0]> acc) ∅ FACILITIES.

Record District : Type := mkDistrict {
  district_id : string;
  progress : Q;
  stability : Q;
  district_requiredStage : Z;
  buildingCount : Z;
  expansionCost : ResourceDelta;
  productionBoost : ResourceDelta
}.

Definition DISTRICTS : list District :=
  [ mkDistrict "terraced-fields" 0 0 0 0
      [(sunleaf, -10)%Q; (wood, -5)%Q] [(sunleaf, 1 # 2)%Q];
    mkDistrict "lumber-groves" 0 0 0 0
      [(sunleaf, -30)%Q; (wood, -10)%Q] [(wood, 3 # 2)%Q];
    mkDistrict "aurora-forge" 0 0 1 0
      [(wood, -8)%Q; (stone, -6)%Q] [(stone, 3 # 10)%Q];
    mkDistrict "moonwater-archives" 0 0 2 0
      [(stone, -10)%Q; (science, -4)%Q] [(science, 2 # 10)%Q];
    mkDistrict "sky-harbor" 0 0 3 0
      [(wood, -12)%Q; (energy, -6)%Q] [(energy, 4 # 10)%Q] ].

Record Action : Type := mkAction {
  action_id : string;
  duration : option Z;
  delta : option ResourceDelta;
  rateDelta : option ResourceDelta;
  capacityDelta : option ResourceDelta;
  action_requiredStage : Z
}.

Definition ACTIONS : list Action :=
  [ mkAction "forage-sunleaf" (Some 300) (Some [(execution, -5)%Q])
      (Some [(sunleaf, 2 # 10)%Q]) None 0;
    mkAction "reinforce-trusses" None (Some [(execution, -3)%Q])
      None (Some [(wood, 120%Q)]) 2;
    mkAction "archive-colloquium" None
      (Some [(execution, -2)%Q; (science, 24%Q)])
      (Some [(science, 16 # 10)%Q]) None 1;
    mkAction "ignite-furnaces" None
      (Some [(execution, -3)%Q; (stone, 28%Q)])
      (Some [(stone, 18 # 10)%Q]) None 3 ].

Definition MANUAL_HARVEST_REWARDS (k : ResourceKey) : ResourceDelta :=
  match k with
  | sunleaf => [(sunleaf, 3%Q)]
  | wood => [(wood, 1%Q)]
  | stone => [(stone, 2%Q)]
  | science => [(science, 1%Q)]
  | energy => [(energy, 1%Q)]
  | execution => [(execution, 1 # 2)%Q]
  end.

Definition MANUAL_HARVEST_COOLDOWN_SECONDS : Z := 30.
Definition PHASES_length : Z := 4.
Definition DAYS_PER_SEASON : Z := 91.
Definition DAYS_PER_YEAR : Z := 365.
Definition SUNLEAF_SEASON_MULTIPLIERS : list Q :=
  [(12 # 10)%Q; (12 # 10)%Q; (8 # 10)%Q; (5 # 10)%Q].
Definition WAGE_PER_TENANT_PER_DAY : Z := 5.
Definition SKILL_EXP_PER_LEVEL : Z := 100.
Definition MAX_SKILL_LEVEL : Z := 100.

Inductive SkillType : Type := mining | gathering.

#[global] Instance SkillType_eq_dec : EqDecision SkillType.
Proof. solve_decision. Defined.

Record Skill : Type := mkSkill {
  skill_type : SkillType;
  level : Z;
  experience : Z;
  maxLevel : Z
}.

Definition SKILL_RESOURCE_MAP (k : ResourceKey) : option SkillType :=
  match k with
  | sunleaf => Some gathering
  | wood => Some gathering
  | stone => Some mining
  | science => None
  | energy => Some gathering
  | execution => None
  end.

Definition INITIAL_SKILLS : list Skill :=
  [ mkSkill mining 1 0 MAX_SKILL_LEVEL;
    mkSkill gathering 1 0 MAX_SKILL_LEVEL ].

Inductive Metric : Type := metric_amount | metric_capacity.

Record TutorialGoal : Type := mkGoal {
  goal_resource : ResourceKey;
  target : Q;
  metric : option Metric
}.

Record TutorialStage : Type := mkStage {
  stage_index : Z;
  goals : list TutorialGoal
}.

Definition TUTORIAL_STAGES : list TutorialStage :=
  [ mkStage 0 [mkGoal sunleaf 20 None];
    mkStage 1 [mkGoal stone 30 None; mkGoal science 5 None];
    mkStage 2 [mkGoal energy 12 None; mkGoal wood 100 (Some metric_capacity)];
    mkStage 3 [] ].

(** [lib/storyline.ts] *)
Inductive StoryTrigger : Type :=
| TriggerStage (stage : Z)
| TriggerPurchase (itemId : string)
| TriggerResource (resource : string) (amount : Q)
| TriggerMilestone (label : string).

Record StoryChapter : Type := mkChapter {
  chapter_id : string;
  order : Z;
  trigger : StoryTrigger
}.

Definition STORY_CHAPTERS : list StoryChapter :=
  [ mkChapter "chapter-1" 1 (TriggerStage 0);
    mkChapter "chapter-2" 2 (TriggerResource "sunleaf" 80);
    mkChapter "chapter-3" 3 (TriggerResource "wood" 15);
    mkChapter "chapter-4" 4 (TriggerResource "stone" 10);
    mkChapter "chapter-5" 5 (TriggerResource "wood" 150);
    mkChapter "chapter-6" 6 (TriggerMilestone "store-preview-opened");
    mkChapter "chapter-7" 7 (TriggerStage 2);
    mkChapter "chapter-8" 8 (TriggerPurchase "market-charter");
    mkChapter "chapter-9" 9 (TriggerStage 3);
    mkChapter "chapter-10" 10 (TriggerMilestone "all-chapters-complete") ].

Record ResourceUnlockInfo : Type := mkUnlockInfo {
  unlock_stage : option Z;
  unlock_cost : option ResourceDelta
}.

Definition RESOURCE_UNLOCK_DATA (k : ResourceKey) : ResourceUnlockInfo :=
  match k with
  | sunleaf => mkUnlockInfo (Some 0) None
  | wood => mkUnlockInfo None (Some [(sunleaf, -40)%Q])
  | stone => mkUnlockInfo (Some 1) None
  | science => mkUnlockInfo (Some 1) None
  | energy => mkUnlockInfo (Some 2) None
  | execution => mkUnlockInfo None (Some [(wood, -30)%Q])
  end.

(** ** State of the [Home] component *)

(** The lines pushed on the council log, one constructor per template. *)
Inductive LogEntry : Type :=
| LogDefault (n : nat)
| LogUnlockResource (k : ResourceKey)
| LogSkillLevelUp (t : SkillType) (newLevel : Z)
| LogManualHarvest (k : ResourceKey) (gained : option Q)
| LogExpand (districtId : string)
| LogDemolish (districtId : string)
| LogCraftStart (recipeId : string)
| LogBuildFacility (facilityId : string)
| LogRecruit
| LogAssignTenants (toAssign : Z)
| LogAssignWorker (k : ResourceKey)
| LogUnassignWorker (k : ResourceKey)
| LogWagesInsufficient (totalWage : Z)
| LogWagesPaid (totalWage : Z) (tenants : Z)
| LogAllocate (recipeId : string) (k : ResourceKey) (boost : Q)
| LogChapter (chapterId : string)
| LogWagesMissed
| LogAttrition (departures : Z)
| LogStageOpened (nextIndex : Z)
| LogPhase (tick : Z)
| LogToolCrafted (toolId : string)
| LogRecipeCrafted (recipeId : string)
| LogTenantTimeout (pending : Z)
| LogAction (actionId : string).

(** A callback registered with [window.setTimeout] and not yet run: the
    stage-advance effect is the only caller. *)
Record Timeout : Type := mkTimeout {
  delay_ms : Z;
  timeout_nextIndex : Z
}.

Record PendingAllocation : Type := mkPending {
  pending_recipeId : string;
  pending_boost : Q
}.

Record ActiveBoost : Type := mkBoost {
  boost_actionId : string;
  remainingTicks : Z;
  totalDuration : Z;
  boost_rateDelta : ResourceDelta
}.

Record Game : Type := mkGame {
  resources : list Resource;
  tick : Z;
  manualCooldowns : ResourceKey -> Z;
  manualHarvestActive : ResourceKey -> bool;
  log : list LogEntry;
  stageIndex : Z;
  showTutorial : bool;
  nextStageRef : Z;
  timeouts : list Timeout;
  unlockedChapters : list string;
  activeChapterId : string;
  milestones : list string;
  completedPurchases : list string;
  purchaseCounts : gmap string Z;
  civilizationLevel : Z;
  showIntroDialogue : bool;
  introIndex : Z;
  districts : list District;
  craftingRecipe : option string;
  craftingProgress : Z;
  pendingAllocation : option PendingAllocation;
  equippedTools : gmap string string;
  facilityCounts : gmap string Z;
  selectedFacilityId : option string;
  tenantRecruitCooldown : Z;
  pendingTenants : Z;
  tenantTimeout : Z;
  assignedTenants : Z;
  tenantMorale : list Z;
  autoPayWages : bool;
  lastPayDay : Z;
  skills : list Skill;
  resourceWorkers : ResourceKey -> Z;
  manuallyUnlockedResources : list ResourceKey;
  activeBoosts : list ActiveBoost
}.

(** One setter per cell: [setX v s] is the state after [setX(v)]. *)

Definition setResources (v : list Resource) (s : Game) : Game :=
  mkGame v (tick s) (manualCooldowns s) (manualHarvestActive s) (log s)
    (stageIndex s) (showTutorial s) (nextStageRef s) (timeouts s)
    (unlockedChapters s) (activeChapterId s) (milestones s)
    (completedPurchases s) (purchaseCounts s) (civilizationLevel s)
    (showIntroDialogue s) (introIndex s) (districts s) (craftingRecipe s)
    (craftingProgress s) (pendingAllocation s) (equippedTools s)
    (facilityCounts s) (selectedFacilityId s) (tenantRecruitCooldown s)
    (pendingTenants s) (tenantTimeout s) (assignedTenants s)
    (tenantMorale s) (autoPayWages s) (lastPayDay s) (skills s)
    (resourceWorkers s) (manuallyUnlockedResources s) (activeBoosts s).

Definition setTick (v : Z) (s : Game) : Game :=
  mkGame (resources s) v (manualCooldowns s) (manualHarvestActive s)
    (log s) (stageIndex s) (showTutorial s) (nextStageRef s) (timeouts s)
    (unlockedChapters s) (activeChapterId s) (milestones s)
    (completedPurchases s) (purchaseCounts s) (civilizationLevel s)
    (showIntroDialogue s) (introIndex s) (districts s) (craftingRecipe s)
    (craftingProgress s) (pendingAllocation s) (equippedTools s)
    (facilityCounts s) (selectedFacilityId s) (tenantRecruitCooldown s)
    (pendingTenants s) (tenantTimeout s) (assignedTenants s)
    (tenantMorale s) (autoPayWages s) (lastPayDay s) (skills s)
    (resourceWorkers s) (manuallyUnlockedResources s) (activeBoosts s).

Definition setManualCooldowns (v : ResourceKey -> Z) (s : Game) : Game :=
  mkGame (resources s) (tick s) v (manualHarvestActive s) (log s)
    (stageIndex s) (showTutorial s) (nextStageRef s) (timeouts s)
    (unlockedChapters s) (activeChapterId s) (milestones s)
    (completedPurchases s) (purchaseCounts s) (civilizationLevel s)
    (showIntroDialogue s) (introIndex s) (districts s) (craftingRecipe s)
    (craftingProgress s) (pendingAllocation s) (equippedTools s)
    (facilityCounts s) (selectedFacilityId s) (tenantRecruitCooldown s)
    (pendingTenants s) (tenantTimeout s) (assignedTenants s)
    (tenantMorale s) (autoPayWages s) (lastPayDay s) (skills s)
    (resourceWorkers s) (manuallyUnlockedResources s) (activeBoosts s).

Definition setManualHarvestActive (v : ResourceKey -> bool) (s : Game) : Game :=
  mkGame (resources s) (tick s) (manualCooldowns s) v (log s)
    (stageIndex s) (showTutorial s) (nextStageRef s) (timeouts s)
    (unlockedChapters s) (activeChapterId s) (milestones s)
    (completedPurchases s) (purchaseCounts s) (civilizationLevel s)
    (showIntroDialogue s) (introIndex s) (districts s) (craftingRecipe s)
    (craftingProgress s) (pendingAllocation s) (equippedTools s)
    (facilityCounts s) (selectedFacilityId s) (tenantRecruitCooldown s)
    (pendingTenants s) (tenantTimeout s) (assignedTenants s)
    (tenantMorale s) (autoPayWages s) (lastPayDay s) (skills s)
    (resourceWorkers s) (manuallyUnlockedResources s) (activeBoosts s).

Definition setLog (v : list LogEntry) (s : Game) : Game :=
  mkGame (resources s) (tick s) (manualCooldowns s) (manualHarvestActive s)
    v (stageIndex s) (showTutorial s) (nextStageRef s) (timeouts s)
    (unlockedChapters s) (activeChapterId s) (milestones s)
    (completedPurchases s) (purchaseCounts s) (civilizationLevel s)
    (showIntroDialogue s) (introIndex s) (districts s) (craftingRecipe s)
    (craftingProgress s) (pendingAllocation s) (equippedTools s)
    (facilityCounts s) (selectedFacilityId s) (tenantRecruitCooldown s)
    (pendingTenants s) (tenantTimeout s) (assignedTenants s)
    (tenantMorale s) (autoPayWages s) (lastPayDay s) (skills s)
    (resourceWorkers s) (manuallyUnlockedResources s) (activeBoosts s).

Definition setStageIndex (v : Z) (s : Game) : Game :=
  mkGame (resources s) (tick s) (manualCooldowns s) (manualHarvestActive s)
    (log s) v (showTutorial s) (nextStageRef s) (timeouts s)
    (unlockedChapters s) (activeChapterId s) (milestones s)
    (completedPurchases s) (purchaseCounts s) (civilizationLevel s)
    (showIntroDialogue s) (introIndex s) (districts s) (craftingRecipe s)
    (craftingProgress s) (pendingAllocation s) (equippedTools s)
    (facilityCounts s) (selectedFacilityId s) (tenantRecruitCooldown s)
    (pendingTenants s) (tenantTimeout s) (assignedTenants s)
    (tenantMorale s) (autoPayWages s) (lastPayDay s) (skills s)
    (resourceWorkers s) (manuallyUnlockedResources s) (activeBoosts s).

Definition setShowTutorial (v : bool) (s : Game) : Game :=
  mkGame (resources s) (tick s) (manualCooldowns s) (manualHarvestActive s)
    (log s) (stageIndex s) v (nextStageRef s) (timeouts s)
    (unlockedChapters s) (activeChapterId s) (milestones s)
    (completedPurchases s) (purchaseCounts s) (civilizationLevel s)
    (showIntroDialogue s) (introIndex s) (districts s) (craftingRecipe s)
    (craftingProgress s) (pendingAllocation s) (equippedTools s)
    (facilityCounts s) (selectedFacilityId s) (tenantRecruitCooldown s)
    (pendingTenants s) (tenantTimeout s) (assignedTenants s)
    (tenantMorale s) (autoPayWages s) (lastPayDay s) (skills s)
    (resourceWorkers s) (manuallyUnlockedResources s) (activeBoosts s).

Definition setNextStageRef (v : Z) (s : Game) : Game :=
  mkGame (resources s) (tick s) (manualCooldowns s) (manualHarvestActive s)
    (log s) (stageIndex s) (showTutorial s) v (timeouts s)
    (unlockedChapters s) (activeChapterId s) (milestones s)
    (completedPurchases s) (purchaseCounts s) (civilizationLevel s)
    (showIntroDialogue s) (introIndex s) (districts s) (craftingRecipe s)
    (craftingProgress s) (pendingAllocation s) (equippedTools s)
    (facilityCounts s) (selectedFacilityId s) (tenantRecruitCooldown s)
    (pendingTenants s) (tenantTimeout s) (assignedTenants s)
    (tenantMorale s) (autoPayWages s) (lastPayDay s) (skills s)
    (resourceWorkers s) (manuallyUnlockedResources s) (activeBoosts s).

Definition setTimeouts (v : list Timeout) (s : Game) : Game :=
  mkGame (resources s) (tick s) (manualCooldowns s) (manualHarvestActive s)
    (log s) (stageIndex s) (showTutorial s) (nextStageRef s) v
    (unlockedChapters s) (activeChapterId s) (milestones s)
    (completedPurchases s) (purchaseCounts s) (civilizationLevel s)
    (showIntroDialogue s) (introIndex s) (districts s) (craftingRecipe s)
    (craftingProgress s) (pendingAllocation s) (equippedTools s)
    (facilityCounts s) (selectedFacilityId s) (tenantRecruitCooldown s)
    (pendingTenants s) (tenantTimeout s) (assignedTenants s)
    (tenantMorale s) (autoPayWages s) (lastPayDay s) (skills s)
    (resourceWorkers s) (manuallyUnlockedResources s) (activeBoosts s).

Definition setUnlockedChapters (v : list string) (s : Game) : Game :=
  mkGame (resources s) (tick s) (manualCooldowns s) (manualHarvestActive s)
    (log s) (stageIndex s) (showTutorial s) (nextStageRef s) (timeouts s) v
    (activeChapterId s) (milestones s) (completedPurchases s)
    (purchaseCounts s) (civilizationLevel s) (showIntroDialogue s)
    (introIndex s) (districts s) (craftingRecipe s) (craftingProgress s)
    (pendingAllocation s) (equippedTools s) (facilityCounts s)
    (selectedFacilityId s) (tenantRecruitCooldown s) (pendingTenants s)
    (tenantTimeout s) (assignedTenants s) (tenantMorale s) (autoPayWages s)
    (lastPayDay s) (skills s) (resourceWorkers s)
    (manuallyUnlockedResources s) (activeBoosts s).

Definition setActiveChapterId (v : string) (s : Game) : Game :=
  mkGame (resources s) (tick s) (manualCooldowns s) (manualHarvestActive s)
    (log s) (stageIndex s) (showTutorial s) (nextStageRef s) (timeouts s)
    (unlockedChapters s) v (milestones s) (completedPurchases s)
    (purchaseCounts s) (civilizationLevel s) (showIntroDialogue s)
    (introIndex s) (districts s) (craftingRecipe s) (craftingProgress s)
    (pendingAllocation s) (equippedTools s) (facilityCounts s)
    (selectedFacilityId s) (tenantRecruitCooldown s) (pendingTenants s)
    (tenantTimeout s) (assignedTenants s) (tenantMorale s) (autoPayWages s)
    (lastPayDay s) (skills s) (resourceWorkers s)
    (manuallyUnlockedResources s) (activeBoosts s).

Definition setMilestones (v : list string) (s : Game) : Game :=
  mkGame (resources s) (tick s) (manualCooldowns s) (manualHarvestActive s)
    (log s) (stageIndex s) (showTutorial s) (nextStageRef s) (timeouts s)
    (unlockedChapters s) (activeChapterId s) v (completedPurchases s)
    (purchaseCounts s) (civilizationLevel s) (showIntroDialogue s)
    (introIndex s) (districts s) (craftingRecipe s) (craftingProgress s)
    (pendingAllocation s) (equippedTools s) (facilityCounts s)
    (selectedFacilityId s) (tenantRecruitCooldown s) (pendingTenants s)
    (tenantTimeout s) (assignedTenants s) (tenantMorale s) (autoPayWages s)
    (lastPayDay s) (skills s) (resourceWorkers s)
    (manuallyUnlockedResources s) (activeBoosts s).

Definition setCompletedPurchases (v : list string) (s : Game) : Game :=
  mkGame (resources s) (tick s) (manualCooldowns s) (manualHarvestActive s)
    (log s) (stageIndex s) (showTutorial s) (nextStageRef s) (timeouts s)
    (unlockedChapters s) (activeChapterId s) (milestones s) v
    (purchaseCounts s) (civilizationLevel s) (showIntroDialogue s)
    (introIndex s) (districts s) (craftingRecipe s) (craftingProgress s)
    (pendingAllocation s) (equippedTools s) (facilityCounts s)
    (selectedFacilityId s) (tenantRecruitCooldown s) (pendingTenants s)
    (tenantTimeout s) (assignedTenants s) (tenantMorale s) (autoPayWages s)
    (lastPayDay s) (skills s) (resourceWorkers s)
    (manuallyUnlockedResources s) (activeBoosts s).

Definition setPurchaseCounts (v : gmap string Z) (s : Game) : Game :=
  mkGame (resources s) (tick s) (manualCooldowns s) (manualHarvestActive s)
    (log s) (stageIndex s) (showTutorial s) (nextStageRef s) (timeouts s)
    (unlockedChapters s) (activeChapterId s) (milestones s)
    (completedPurchases s) v (civilizationLevel s) (showIntroDialogue s)
    (introIndex s) (districts s) (craftingRecipe s) (craftingProgress s)
    (pendingAllocation s) (equippedTools s) (facilityCounts s)
    (selectedFacilityId s) (tenantRecruitCooldown s) (pendingTenants s)
    (tenantTimeout s) (assignedTenants s) (tenantMorale s) (autoPayWages s)
    (lastPayDay s) (skills s) (resourceWorkers s)
    (manuallyUnlockedResources s) (activeBoosts s).

Definition setCivilizationLevel (v : Z) (s : Game) : Game :=
  mkGame (resources s) (tick s) (manualCooldowns s) (manualHarvestActive s)
    (log s) (stageIndex s) (showTutorial s) (nextStageRef s) (timeouts s)
    (unlockedChapters s) (activeChapterId s) (milestones s)
    (completedPurchases s) (purchaseCounts s) v (showIntroDialogue s)
    (introIndex s) (districts s) (craftingRecipe s) (craftingProgress s)
    (pendingAllocation s) (equippedTools s) (facilityCounts s)
    (selectedFacilityId s) (tenantRecruitCooldown s) (pendingTenants s)
    (tenantTimeout s) (assignedTenants s) (tenantMorale s) (autoPayWages s)
    (lastPayDay s) (skills s) (resourceWorkers s)
    (manuallyUnlockedResources s) (activeBoosts s).

Definition setShowIntroDialogue (v : bool) (s : Game) : Game :=
  mkGame (resources s) (tick s) (manualCooldowns s) (manualHarvestActive s)
    (log s) (stageIndex s) (showTutorial s) (nextStageRef s) (timeouts s)
    (unlockedChapters s) (activeChapterId s) (milestones s)
    (completedPurchases s) (purchaseCounts s) (civilizationLevel s) v
    (introIndex s) (districts s) (craftingRecipe s) (craftingProgress s)
    (pendingAllocation s) (equippedTools s) (facilityCounts s)
    (selectedFacilityId s) (tenantRecruitCooldown s) (pendingTenants s)
    (tenantTimeout s) (assignedTenants s) (tenantMorale s) (autoPayWages s)
    (lastPayDay s) (skills s) (resourceWorkers s)
    (manuallyUnlockedResources s) (activeBoosts s).

Definition setIntroIndex (v : Z) (s : Game) : Game :=
  mkGame (resources s) (tick s) (manualCooldowns s) (manualHarvestActive s)
    (log s) (stageIndex s) (showTutorial s) (nextStageRef s) (timeouts s)
    (unlockedChapters s) (activeChapterId s) (milestones s)
    (completedPurchases s) (purchaseCounts s) (civilizationLevel s)
    (showIntroDialogue s) v (districts s) (craftingRecipe s)
    (craftingProgress s) (pendingAllocation s) (equippedTools s)
    (facilityCounts s) (selectedFacilityId s) (tenantRecruitCooldown s)
    (pendingTenants s) (tenantTimeout s) (assignedTenants s)
    (tenantMorale s) (autoPayWages s) (lastPayDay s) (skills s)
    (resourceWorkers s) (manuallyUnlockedResources s) (activeBoosts s).

Definition setDistricts (v : list District) (s : Game) : Game :=
  mkGame (resources s) (tick s) (manualCooldowns s) (manualHarvestActive s)
    (log s) (stageIndex s) (showTutorial s) (nextStageRef s) (timeouts s)
    (unlockedChapters s) (activeChapterId s) (milestones s)
    (completedPurchases s) (purchaseCounts s) (civilizationLevel s)
    (showIntroDialogue s) (introIndex s) v (craftingRecipe s)
    (craftingProgress s) (pendingAllocation s) (equippedTools s)
    (facilityCounts s) (selectedFacilityId s) (tenantRecruitCooldown s)
    (pendingTenants s) (tenantTimeout s) (assignedTenants s)
    (tenantMorale s) (autoPayWages s) (lastPayDay s) (skills s)
    (resourceWorkers s) (manuallyUnlockedResources s) (activeBoosts s).

Definition setCraftingRecipe (v : option string) (s : Game) : Game :=
  mkGame (resources s) (tick s) (manualCooldowns s) (manualHarvestActive s)
    (log s) (stageIndex s) (showTutorial s) (nextStageRef s) (timeouts s)
    (unlockedChapters s) (activeChapterId s) (milestones s)
    (completedPurchases s) (purchaseCounts s) (civilizationLevel s)
    (showIntroDialogue s) (introIndex s) (districts s) v
    (craftingProgress s) (pendingAllocation s) (equippedTools s)
    (facilityCounts s) (selectedFacilityId s) (tenantRecruitCooldown s)
    (pendingTenants s) (tenantTimeout s) (assignedTenants s)
    (tenantMorale s) (autoPayWages s) (lastPayDay s) (skills s)
    (resourceWorkers s) (manuallyUnlockedResources s) (activeBoosts s).

Definition setCraftingProgress (v : Z) (s : Game) : Game :=
  mkGame (resources s) (tick s) (manualCooldowns s) (manualHarvestActive s)
    (log s) (stageIndex s) (showTutorial s) (nextStageRef s) (timeouts s)
    (unlockedChapters s) (activeChapterId s) (milestones s)
    (completedPurchases s) (purchaseCounts s) (civilizationLevel s)
    (showIntroDialogue s) (introIndex s) (districts s) (craftingRecipe s) v
    (pendingAllocation s) (equippedTools s) (facilityCounts s)
    (selectedFacilityId s) (tenantRecruitCooldown s) (pendingTenants s)
    (tenantTimeout s) (assignedTenants s) (tenantMorale s) (autoPayWages s)
    (lastPayDay s) (skills s) (resourceWorkers s)
    (manuallyUnlockedResources s) (activeBoosts s).

Definition setPendingAllocation (v : option PendingAllocation) (s : Game) : Game :=
  mkGame (resources s) (tick s) (manualCooldowns s) (manualHarvestActive s)
    (log s) (stageIndex s) (showTutorial s) (nextStageRef s) (timeouts s)
    (unlockedChapters s) (activeChapterId s) (milestones s)
    (completedPurchases s) (purchaseCounts s) (civilizationLevel s)
    (showIntroDialogue s) (introIndex s) (districts s) (craftingRecipe s)
    (craftingProgress s) v (equippedTools s) (facilityCounts s)
    (selectedFacilityId s) (tenantRecruitCooldown s) (pendingTenants s)
    (tenantTimeout s) (assignedTenants s) (tenantMorale s) (autoPayWages s)
    (lastPayDay s) (skills s) (resourceWorkers s)
    (manuallyUnlockedResources s) (activeBoosts s).

Definition setEquippedTools (v : gmap string string) (s : Game) : Game :=
  mkGame (resources s) (tick s) (manualCooldowns s) (manualHarvestActive s)
    (log s) (stageIndex s) (showTutorial s) (nextStageRef s) (timeouts s)
    (unlockedChapters s) (activeChapterId s) (milestones s)
    (completedPurchases s) (purchaseCounts s) (civilizationLevel s)
    (showIntroDialogue s) (introIndex s) (districts s) (craftingRecipe s)
    (craftingProgress s) (pendingAllocation s) v (facilityCounts s)
    (selectedFacilityId s) (tenantRecruitCooldown s) (pendingTenants s)
    (tenantTimeout s) (assignedTenants s) (tenantMorale s) (autoPayWages s)
    (lastPayDay s) (skills s) (resourceWorkers s)
    (manuallyUnlockedResources s) (activeBoosts s).

Definition setFacilityCounts (v : gmap string Z) (s : Game) : Game :=
  mkGame (resources s) (tick s) (manualCooldowns s) (manualHarvestActive s)
    (log s) (stageIndex s) (showTutorial s) (nextStageRef s) (timeouts s)
    (unlockedChapters s) (activeChapterId s) (milestones s)
    (completedPurchases s) (purchaseCounts s) (civilizationLevel s)
    (showIntroDialogue s) (introIndex s) (districts s) (craftingRecipe s)
    (craftingProgress s) (pendingAllocation s) (equippedTools s) v
    (selectedFacilityId s) (tenantRecruitCooldown s) (pendingTenants s)
    (tenantTimeout s) (assignedTenants s) (tenantMorale s) (autoPayWages s)
    (lastPayDay s) (skills s) (resourceWorkers s)
    (manuallyUnlockedResources s) (activeBoosts s).

Definition setSelectedFacilityId (v : option string) (s : Game) : Game :=
  mkGame (resources s) (tick s) (manualCooldowns s) (manualHarvestActive s)
    (log s) (stageIndex s) (showTutorial s) (nextStageRef s) (timeouts s)
    (unlockedChapters s) (activeChapterId s) (milestones s)
    (completedPurchases s) (purchaseCounts s) (civilizationLevel s)
    (showIntroDialogue s) (introIndex s) (districts s) (craftingRecipe s)
    (craftingProgress s) (pendingAllocation s) (equippedTools s)
    (facilityCounts s) v (tenantRecruitCooldown s) (pendingTenants s)
    (tenantTimeout s) (assignedTenants s) (tenantMorale s) (autoPayWages s)
    (lastPayDay s) (skills s) (resourceWorkers s)
    (manuallyUnlockedResources s) (activeBoosts s).

Definition setTenantRecruitCooldown (v : Z) (s : Game) : Game :=
  mkGame (resources s) (tick s) (manualCooldowns s) (manualHarvestActive s)
    (log s) (stageIndex s) (showTutorial s) (nextStageRef s) (timeouts s)
    (unlockedChapters s) (activeChapterId s) (milestones s)
    (completedPurchases s) (purchaseCounts s) (civilizationLevel s)
    (showIntroDialogue s) (introIndex s) (districts s) (craftingRecipe s)
    (craftingProgress s) (pendingAllocation s) (equippedTools s)
    (facilityCounts s) (selectedFacilityId s) v (pendingTenants s)
    (tenantTimeout s) (assignedTenants s) (tenantMorale s) (autoPayWages s)
    (lastPayDay s) (skills s) (resourceWorkers s)
    (manuallyUnlockedResources s) (activeBoosts s).

Definition setPendingTenants (v : Z) (s : Game) : Game :=
  mkGame (resources s) (tick s) (manualCooldowns s) (manualHarvestActive s)
    (log s) (stageIndex s) (showTutorial s) (nextStageRef s) (timeouts s)
    (unlockedChapters s) (activeChapterId s) (milestones s)
    (completedPurchases s) (purchaseCounts s) (civilizationLevel s)
    (showIntroDialogue s) (introIndex s) (districts s) (craftingRecipe s)
    (craftingProgress s) (pendingAllocation s) (equippedTools s)
    (facilityCounts s) (selectedFacilityId s) (tenantRecruitCooldown s) v
    (tenantTimeout s) (assignedTenants s) (tenantMorale s) (autoPayWages s)
    (lastPayDay s) (skills s) (resourceWorkers s)
    (manuallyUnlockedResources s) (activeBoosts s).

Definition setTenantTimeout (v : Z) (s : Game) : Game :=
  mkGame (resources s) (tick s) (manualCooldowns s) (manualHarvestActive s)
    (log s) (stageIndex s) (showTutorial s) (nextStageRef s) (timeouts s)
    (unlockedChapters s) (activeChapterId s) (milestones s)
    (completedPurchases s) (purchaseCounts s) (civilizationLevel s)
    (showIntroDialogue s) (introIndex s) (districts s) (craftingRecipe s)
    (craftingProgress s) (pendingAllocation s) (equippedTools s)
    (facilityCounts s) (selectedFacilityId s) (tenantRecruitCooldown s)
    (pendingTenants s) v (assignedTenants s) (tenantMorale s)
    (autoPayWages s) (lastPayDay s) (skills s) (resourceWorkers s)
    (manuallyUnlockedResources s) (activeBoosts s).

Definition setAssignedTenants (v : Z) (s : Game) : Game :=
  mkGame (resources s) (tick s) (manualCooldowns s) (manualHarvestActive s)
    (log s) (stageIndex s) (showTutorial s) (nextStageRef s) (timeouts s)
    (unlockedChapters s) (activeChapterId s) (milestones s)
    (completedPurchases s) (purchaseCounts s) (civilizationLevel s)
    (showIntroDialogue s) (introIndex s) (districts s) (craftingRecipe s)
    (craftingProgress s) (pendingAllocation s) (equippedTools s)
    (facilityCounts s) (selectedFacilityId s) (tenantRecruitCooldown s)
    (pendingTenants s) (tenantTimeout s) v (tenantMorale s)
    (autoPayWages s) (lastPayDay s) (skills s) (resourceWorkers s)
    (manuallyUnlockedResources s) (activeBoosts s).

Definition setTenantMorale (v : list Z) (s : Game) : Game :=
  mkGame (resources s) (tick s) (manualCooldowns s) (manualHarvestActive s)
    (log s) (stageIndex s) (showTutorial s) (nextStageRef s) (timeouts s)
    (unlockedChapters s) (activeChapterId s) (milestones s)
    (completedPurchases s) (purchaseCounts s) (civilizationLevel s)
    (showIntroDialogue s) (introIndex s) (districts s) (craftingRecipe s)
    (craftingProgress s) (pendingAllocation s) (equippedTools s)
    (facilityCounts s) (selectedFacilityId s) (tenantRecruitCooldown s)
    (pendingTenants s) (tenantTimeout s) (assignedTenants s) v
    (autoPayWages s) (lastPayDay s) (skills s) (resourceWorkers s)
    (manuallyUnlockedResources s) (activeBoosts s).

Definition setAutoPayWages (v : bool) (s : Game) : Game :=
  mkGame (resources s) (tick s) (manualCooldowns s) (manualHarvestActive s)
    (log s) (stageIndex s) (showTutorial s) (nextStageRef s) (timeouts s)
    (unlockedChapters s) (activeChapterId s) (milestones s)
    (completedPurchases s) (purchaseCounts s) (civilizationLevel s)
    (showIntroDialogue s) (introIndex s) (districts s) (craftingRecipe s)
    (craftingProgress s) (pendingAllocation s) (equippedTools s)
    (facilityCounts s) (selectedFacilityId s) (tenantRecruitCooldown s)
    (pendingTenants s) (tenantTimeout s) (assignedTenants s)
    (tenantMorale s) v (lastPayDay s) (skills s) (resourceWorkers s)
    (manuallyUnlockedResources s) (activeBoosts s).

Definition setLastPayDay (v : Z) (s : Game) : Game :=
  mkGame (resources s) (tick s) (manualCooldowns s) (manualHarvestActive s)
    (log s) (stageIndex s) (showTutorial s) (nextStageRef s) (timeouts s)
    (unlockedChapters s) (activeChapterId s) (milestones s)
    (completedPurchases s) (purchaseCounts s) (civilizationLevel s)
    (showIntroDialogue s) (introIndex s) (districts s) (craftingRecipe s)
    (craftingProgress s) (pendingAllocation s) (equippedTools s)
    (facilityCounts s) (selectedFacilityId s) (tenantRecruitCooldown s)
    (pendingTenants s) (tenantTimeout s) (assignedTenants s)
    (tenantMorale s) (autoPayWages s) v (skills s) (resourceWorkers s)
    (manuallyUnlockedResources s) (activeBoosts s).

Definition setSkills (v : list Skill) (s : Game) : Game :=
  mkGame (resources s) (tick s) (manualCooldowns s) (manualHarvestActive s)
    (log s) (stageIndex s) (showTutorial s) (nextStageRef s) (timeouts s)
    (unlockedChapters s) (activeChapterId s) (milestones s)
    (completedPurchases s) (purchaseCounts s) (civilizationLevel s)
    (showIntroDialogue s) (introIndex s) (districts s) (craftingRecipe s)
    (craftingProgress s) (pendingAllocation s) (equippedTools s)
    (facilityCounts s) (selectedFacilityId s) (tenantRecruitCooldown s)
    (pendingTenants s) (tenantTimeout s) (assignedTenants s)
    (tenantMorale s) (autoPayWages s) (lastPayDay s) v (resourceWorkers s)
    (manuallyUnlockedResources s) (activeBoosts s).

Definition setResourceWorkers (v : ResourceKey -> Z) (s : Game) : Game :=
  mkGame (resources s) (tick s) (manualCooldowns s) (manualHarvestActive s)
    (log s) (stageIndex s) (showTutorial s) (nextStageRef s) (timeouts s)
    (unlockedChapters s) (activeChapterId s) (milestones s)
    (completedPurchases s) (purchaseCounts s) (civilizationLevel s)
    (showIntroDialogue s) (introIndex s) (districts s) (craftingRecipe s)
    (craftingProgress s) (pendingAllocation s) (equippedTools s)
    (facilityCounts s) (selectedFacilityId s) (tenantRecruitCooldown s)
    (pendingTenants s) (tenantTimeout s) (assignedTenants s)
    (tenantMorale s) (autoPayWages s) (lastPayDay s) (skills s) v
    (manuallyUnlockedResources s) (activeBoosts s).

Definition setManuallyUnlockedResources (v : list ResourceKey) (s : Game) : Game :=
  mkGame (resources s) (tick s) (manualCooldowns s) (manualHarvestActive s)
    (log s) (stageIndex s) (showTutorial s) (nextStageRef s) (timeouts s)
    (unlockedChapters s) (activeChapterId s) (milestones s)
    (completedPurchases s) (purchaseCounts s) (civilizationLevel s)
    (showIntroDialogue s) (introIndex s) (districts s) (craftingRecipe s)
    (craftingProgress s) (pendingAllocation s) (equippedTools s)
    (facilityCounts s) (selectedFacilityId s) (tenantRecruitCooldown s)
    (pendingTenants s) (tenantTimeout s) (assignedTenants s)
    (tenantMorale s) (autoPayWages s) (lastPayDay s) (skills s)
    (resourceWorkers s) v (activeBoosts s).

Definition setActiveBoosts (v : list ActiveBoost) (s : Game) : Game :=
  mkGame (resources s) (tick s) (manualCooldowns s) (manualHarvestActive s)
    (log s) (stageIndex s) (showTutorial s) (nextStageRef s) (timeouts s)
    (unlockedChapters s) (activeChapterId s) (milestones s)
    (completedPurchases s) (purchaseCounts s) (civilizationLevel s)
    (showIntroDialogue s) (introIndex s) (districts s) (craftingRecipe s)
    (craftingProgress s) (pendingAllocation s) (equippedTools s)
    (facilityCounts s) (selectedFacilityId s) (tenantRecruitCooldown s)
    (pendingTenants s) (tenantTimeout s) (assignedTenants s)
    (tenantMorale s) (autoPayWages s) (lastPayDay s) (skills s)
    (resourceWorkers s) (manuallyUnlockedResources s) v.
(** [[entry, ...prev].slice(0, 6)] *)
Definition pushLog (entry : LogEntry) (s : Game) : Game :=
  setLog (take 6 (entry :: log s)) s.

Definition localizedDefaults : list LogEntry :=
  [LogDefault 0; LogDefault 1; LogDefault 2].

Definition all_zero : ResourceKey -> Z := fun _ => 0.
Definition all_false : ResourceKey -> bool := fun _ => false.

Definition initialChapterId : string :=
  match STORY_CHAPTERS with
  | c :: _ => chapter_id c
  | [] => ""
  end.

(** The values passed to [useState] and [useRef], which are also the values
    [handleNewGame] writes back. *)
Definition initialGame : Game :=
  {| resources := INITIAL_RESOURCES;
     tick := 0;
     manualCooldowns := all_zero;
     manualHarvestActive := all_false;
     log := localizedDefaults;
     stageIndex := 0;
     showTutorial := false;
     nextStageRef := 0;
     timeouts := [];
     unlockedChapters :=
       if bool_decide (initialChapterId = "") then [] else [initialChapterId];
     activeChapterId := initialChapterId;
     milestones := [];
     completedPurchases := [];
     purchaseCounts := ∅;
     civilizationLevel := 0;
     showIntroDialogue := true;
     introIndex := 0;
     districts := DISTRICTS;
     craftingRecipe := None;
     craftingProgress := 0;
     pendingAllocation := None;
     equippedTools := ∅;
     facilityCounts := INITIAL_FACILITY_COUNTS;
     selectedFacilityId := None;
     tenantRecruitCooldown := 0;
     pendingTenants := 0;
     tenantTimeout := 0;
     assignedTenants := 0;
     tenantMorale := [];
     autoPayWages := false;
     lastPayDay := 0;
     skills := INITIAL_SKILLS;
     resourceWorkers := all_zero;
     manuallyUnlockedResources := [];
     activeBoosts := [] |}.

(** [{ ...prev, [k]: v }] on a record with all six keys. *)
Definition record_set {A : Type} (f : ResourceKey -> A) (k : ResourceKey)
    (v : A) : ResourceKey -> A :=
  fun k' => if decide (k' = k) then v else f k'.

(** [arr[i]] for a whole number [i]. *)
Definition js_index {A : Type} (l : list A) (i : Z) : option A :=
  if i <? 0 then None else l !! Z.to_nat i.

(** ** Derived time values (the [useMemo] over [tick]) *)

Definition phaseIndex (tick : Z) : Z := Z.rem tick PHASES_length.
Definition cycle (tick : Z) : Z := tick / PHASES_length.
Definition day (tick : Z) : Z := cycle tick + 1.
Definition seasonIndex (tick : Z) : Z :=
  Z.rem (day tick - 1) DAYS_PER_YEAR / DAYS_PER_SEASON.

(** ** Resource ledger *)

Definition find_resource (l : list Resource) (k : ResourceKey)
    : option Resource :=
  List.find (fun r => bool_decide (key r = k)) l.

Definition applyResourceDelta (l : list Resource) (d : ResourceDelta)
    : list Resource :=
  map (fun resource =>
         match delta_get d (key resource) with
         | None => resource
         | Some change =>
             if falsyQ change then resource
             else
               let next := (amount resource + change)%Q in
               let limited :=
                 Math_min (capacity resource) (Math_max 0 next) in
               mkResource (key resource) (toFixed1 limited) (rate resource)
                 (capacity resource)
         end) l.

Definition applyRateDelta (l : list Resource) (d : ResourceDelta)
    : list Resource :=
  map (fun resource =>
         match delta_get d (key resource) with
         | None => resource
         | Some change =>
             if falsyQ change then resource
             else
               mkResource (key resource) (amount resource)
                 (toFixed1 (rate resource + change)) (capacity resource)
         end) l.

Definition applyCapacityDelta (l : list Resource) (d : ResourceDelta)
    : list Resource :=
  map (fun resource =>
         match delta_get d (key resource) with
         | None => resource
         | Some change =>
             if falsyQ change then resource
             else
               mkResource (key resource) (amount resource) (rate resource)
                 (Math_max 0 (capacity resource + change))
         end) l.

(** The body shared by [canAffordExpansion], [canAffordRecipe],
    [canAffordToolRecipe] and [canAffordFacility]. *)
Definition canAffordCost (l : list Resource) (cost : ResourceDelta) : bool :=
  forallb (fun '(k, c) =>
             match find_resource l k with
             | None => true
             | Some resource => Qle_bool 0 (amount resource + c)
             end) cost.

Definition canAffordExpansion (s : Game) (d : District) : bool :=
  canAffordCost (resources s) (expansionCost d).
Definition canAffordRecipe (s : Game) (r : Recipe) : bool :=
  canAffordCost (resources s) (recipe_cost r).
Definition canAffordToolRecipe (s : Game) (r : ToolRecipe) : bool :=
  canAffordCost (resources s) (tool_cost r).
Definition canAffordFacility (s : Game) (f : Facility) : bool :=
  canAffordCost (resources s) (facility_cost f).

(** [passiveRates]: the [useMemo] over [districts]. *)
Definition passiveRates_add (boosts : ResourceDelta) (count : Z)
    (rates : ResourceKey -> option Q) : ResourceKey -> option Q :=
  foldl (fun acc '(k, boost) =>
           if falsyQ boost then acc
           else record_set acc k
                  (Some (default 0%Q (acc k) + boost * inject_Z count)%Q))
        rates boosts.

Definition passiveRates (ds : list District) : ResourceKey -> option Q :=
  foldl (fun rates d =>
           if buildingCount d =? 0 then rates
           else passiveRates_add (productionBoost d) (buildingCount d) rates)
        (fun _ => None) ds.

(** ** Manual harvest and skills *)

Definition toolTypeMap (k : ResourceKey) : string :=
  match k with
  | wood => "saw"
  | stone => "pickaxe"
  | sunleaf => "shears"
  | science => ""
  | energy => ""
  | execution => ""
  end.

Record ToolBonus : Type := mkToolBonus {
  bonus : Q;
  bonus_cooldownReduction : Z
}.

Definition find_tool (id : string) : option ToolRecipe :=
  List.find (fun t => String.eqb (tool_id t) id) TOOL_RECIPES.

Definition find_recipe (id : string) : option Recipe :=
  List.find (fun r => String.eqb (recipe_id r) id) RECIPES.

Definition getEquippedToolBonus (s : Game) (resourceKey : ResourceKey)
    : ToolBonus :=
  let toolType := toolTypeMap resourceKey in
  if String.eqb toolType "" then mkToolBonus 0 0
  else
    match equippedTools s !! toolType with
    | None => mkToolBonus 0 0
    | Some equippedToolId =>
        if String.eqb equippedToolId "" then mkToolBonus 0 0
        else
          match find_tool equippedToolId with
          | None => mkToolBonus 0 0
          | Some tool =>
              mkToolBonus
                (default 0%Q (delta_get (harvestBonus tool) resourceKey))
                (cooldownReduction tool)
          end
    end.

(** The updater given to [setSkills], together with the log line it pushes
    when the skill levels up. *)
Definition harvestSkill (skillType : SkillType) (skill : Skill)
    : Skill * option LogEntry :=
  if negb (bool_decide (skill_type skill = skillType))
     || (maxLevel skill <=? level skill)
  then (skill, None)
  else
    let newExp := experience skill + 10 in
    let requiredExp := level skill * SKILL_EXP_PER_LEVEL in
    if requiredExp <=? newExp then
      let newLevel := level skill + 1 in
      (mkSkill (skill_type skill) newLevel (newExp - requiredExp)
         (maxLevel skill),
       Some (LogSkillLevelUp (skill_type skill) newLevel))
    else
      (mkSkill (skill_type skill) (level skill) newExp (maxLevel skill),
       None).

Definition pushLogs (entries : list LogEntry) (s : Game) : Game :=
  foldl (fun acc e => pushLog e acc) s entries.

(** The level-up lines are pushed where [setSkills] stands in the source,
    before the harvest line. *)
Definition handleManualHarvest (resourceKey : ResourceKey) (s : Game)
    : Game :=
  if 0 <? manualCooldowns s resourceKey then s
  else
    let baseReward := MANUAL_HARVEST_REWARDS resourceKey in
    let tb := getEquippedToolBonus s resourceKey in
    let boostedReward : ResourceDelta :=
      map (fun '(rKey, v) =>
             (rKey, ((if falsyQ v then 0 else v) + bonus tb)%Q)) baseReward in
    let s1 := setResources (applyResourceDelta (resources s) boostedReward) s in
    let adjustedCooldown :=
      Z.max 5 (MANUAL_HARVEST_COOLDOWN_SECONDS - bonus_cooldownReduction tb) in
    let s2 :=
      setManualCooldowns
        (record_set (manualCooldowns s1) resourceKey adjustedCooldown) s1 in
    let s3 :=
      setManualHarvestActive
        (record_set (manualHarvestActive s2) resourceKey true) s2 in
    let s4 :=
      match SKILL_RESOURCE_MAP resourceKey with
      | None => s3
      | Some skillType =>
          let updated := map (harvestSkill skillType) (skills s3) in
          pushLogs (omap snd updated) (setSkills (map fst updated) s3)
      end in
    pushLog (LogManualHarvest resourceKey (delta_get boostedReward resourceKey))
      s4.

(** The one-second interval armed by the cooldown effect: it exists only
    while some key is active, and counts the active keys down. *)
Definition cooldownSecond (s : Game) : Game :=
  let activeKeys := List.filter (manualHarvestActive s) RESOURCE_KEYS in
  match activeKeys with
  | [] => s
  | _ =>
      let prevCooldowns := manualCooldowns s in
      let nextCooldowns :=
        foldl (fun acc k => record_set acc k (Z.max 0 (prevCooldowns k - 1)))
          prevCooldowns activeKeys in
      let cooledKeys :=
        List.filter (fun k => Z.max 0 (prevCooldowns k - 1) <=? 0)
          activeKeys in
      let nextActive :=
        foldl (fun acc k => record_set acc k false)
          (manualHarvestActive s) cooledKeys in
      setManualCooldowns nextCooldowns
        (match cooledKeys with
         | [] => s
         | _ => setManualHarvestActive nextActive s
         end)
  end.

Definition handleUnlockResource (resourceKey : ResourceKey) (s : Game)
    : Game :=
  match unlock_cost (RESOURCE_UNLOCK_DATA resourceKey) with
  | None => s
  | Some cost =>
      let canAfford :=
        forallb (fun resource =>
                   Qle_bool 0
                     (amount resource
                      + default 0%Q (delta_get cost (key resource))))
          (resources s) in
      if negb canAfford then s
      else
        let s1 := setResources (applyResourceDelta (resources s) cost) s in
        let s2 :=
          setManuallyUnlockedResources
            (manuallyUnlockedResources s1 ++ [resourceKey]) s1 in
        pushLog (LogUnlockResource resourceKey) s2
  end.

(** ** Districts *)

Definition find_district (ds : list District) (id : string)
    : option District :=
  List.find (fun d => String.eqb (district_id d) id) ds.

Definition setBuildingCount (d : District) (n : Z) : District :=
  mkDistrict (district_id d) (progress d) (stability d)
    (district_requiredStage d) n (expansionCost d) (productionBoost d).

Definition handleExpand (districtId : string) (s : Game) : Game :=
  match find_district (districts s) districtId with
  | None => s
  | Some district =>
      if negb (canAffordExpansion s district) then s
      else
        let updated :=
          applyRateDelta
            (applyResourceDelta (resources s) (expansionCost district))
            (productionBoost district) in
        let s1 := setResources updated s in
        let s2 :=
          setDistricts
            (map (fun d =>
                    if String.eqb (district_id d) districtId
                    then setBuildingCount d (buildingCount d + 1) else d)
               (districts s1)) s1 in
        pushLog (LogExpand districtId) s2
  end.

Definition handleDemolish (districtId : string) (s : Game) : Game :=
  match find_district (districts s) districtId with
  | None => s
  | Some district =>
      if buildingCount district <=? 0 then s
      else
        let negativeBoost : ResourceDelta :=
          map (fun '(k, value) => (k, (- value)%Q))
            (productionBoost district) in
        let s1 := setResources (applyRateDelta (resources s) negativeBoost) s in
        let s2 :=
          setDistricts
            (map (fun d =>
                    if String.eqb (district_id d) districtId
                    then setBuildingCount d (buildingCount d - 1) else d)
               (districts s1)) s1 in
        pushLog (LogDemolish districtId) s2
  end.

(** ** Crafting *)

(** Truthiness of [craftingRecipe : string | null]. *)
Definition truthy_id (o : option string) : bool :=
  match o with
  | None => false
  | Some id => negb (String.eqb id "")
  end.

Definition handleStartCraft (recipeId : string) (s : Game) : Game :=
  match find_recipe recipeId with
  | None => s
  | Some recipe =>
      if negb (canAffordRecipe s recipe) || truthy_id (craftingRecipe s)
      then s
      else
        let s1 :=
          setResources (applyResourceDelta (resources s) (recipe_cost recipe))
            s in
        let s2 := setCraftingRecipe (Some recipeId) s1 in
        let s3 := setCraftingProgress 0 s2 in
        pushLog (LogCraftStart recipeId) s3
  end.

Definition handleStartToolCraft (recipeId : string) (s : Game) : Game :=
  match find_tool recipeId with
  | None => s
  | Some recipe =>
      if negb (canAffordToolRecipe s recipe) || truthy_id (craftingRecipe s)
      then s
      else
        let s1 :=
          setResources (applyResourceDelta (resources s) (tool_cost recipe))
            s in
        let s2 := setCraftingRecipe (Some recipeId) s1 in
        let s3 := setCraftingProgress 0 s2 in
        pushLog (LogCraftStart recipeId) s3
  end.

(** The one-second interval armed by the crafting effect.  The effect arms
    no interval when nothing is being crafted, when [craftingProgress] has
    reached 100, or when the id is in neither catalogue. *)
Definition craftingSecond (s : Game) : Game :=
  match craftingRecipe s with
  | None => s
  | Some craftingId =>
      if String.eqb craftingId "" || (100 <=? craftingProgress s) then s
      else
        let recipe := find_recipe craftingId in
        let toolRecipe := find_tool craftingId in
        let craftTime :=
          match recipe, toolRecipe with
          | Some r, _ => Some (recipe_craftTime r)
          | None, Some t => Some (tool_craftTime t)
          | None, None => None
          end in
        match craftTime with
        | None => s
        | Some craftTime =>
            let next := craftingProgress s + 1 in
            if craftTime <=? next then
              let s1 :=
                match recipe, toolRecipe with
                | Some r, _ =>
                    setPendingAllocation
                      (Some (mkPending craftingId (capacityBoost r))) s
                | None, Some t =>
                    pushLog (LogToolCrafted (tool_id t))
                      (setEquippedTools
                         (<[toolType t := tool_id t]> (equippedTools s)) s)
                | None, None => s
                end in
              let s2 := setCraftingRecipe None s1 in
              let s3 :=
                match recipe with
                | Some r => pushLog (LogRecipeCrafted (recipe_id r)) s2
                | None => s2
                end in
              setCraftingProgress 0 s3
            else setCraftingProgress next s
        end
  end.

Definition handleAllocateCapacity (resourceKey : ResourceKey) (s : Game)
    : Game :=
  match pendingAllocation s with
  | None => s
  | Some pending =>
      match find_recipe (pending_recipeId pending) with
      | None => s
      | Some recipe =>
          let s1 :=
            setResources
              (map (fun r =>
                      if bool_decide (key r = resourceKey)
                      then mkResource (key r) (amount r) (rate r)
                             (capacity r + pending_boost pending)%Q
                      else r) (resources s)) s in
          let s2 :=
            pushLog
              (LogAllocate (recipe_id recipe) resourceKey
                 (pending_boost pending)) s1 in
          setPendingAllocation None s2
      end
  end.

(** ** Facilities, tenants and workers *)

Definition find_facility (id : string) : option Facility :=
  List.find (fun f => String.eqb (facility_id f) id) FACILITIES.

Definition handleBuildFacility (facilityId : string) (s : Game) : Game :=
  match find_facility facilityId with
  | None => s
  | Some facility =>
      if stageIndex s <? facility_requiredStage facility then s
      else if negb (canAffordFacility s facility) then s
      else
        let s1 :=
          setResources
            (applyResourceDelta (resources s) (facility_cost facility)) s in
        let s2 :=
          setFacilityCounts
            (<[facilityId := default 0 (facilityCounts s1 !! facilityId) + 1]>
               (facilityCounts s1)) s1 in
        pushLog (LogBuildFacility facilityId) s2
  end.

Definition hasCityHall (s : Game) : bool :=
  0 <? default 0 (facilityCounts s !! "city-hall").

Definition totalHousingCapacity (s : Game) : Z :=
  foldl (fun total facility =>
           total
           + default 0 (facilityCounts s !! facility_id facility)
             * facility_capacity facility)
    0 FACILITIES.

Definition availableHousing (s : Game) : Z :=
  totalHousingCapacity s - assignedTenants s.

Definition handleRecruitTenants (s : Game) : Game :=
  if negb (hasCityHall s) then s
  else if 0 <? tenantRecruitCooldown s then s
  else
    let s1 := setPendingTenants (pendingTenants s + 5) s in
    let s2 := setTenantRecruitCooldown 300 s1 in
    let s3 := setTenantTimeout 120 s2 in
    pushLog LogRecruit s3.

Definition handleAssignTenants (s : Game) : Game :=
  if pendingTenants s <=? 0 then s
  else
    let toAssign := Z.min (pendingTenants s) (availableHousing s) in
    if toAssign <=? 0 then s
    else
      let s1 := setPendingTenants (pendingTenants s - toAssign) s in
      let s2 := setAssignedTenants (assignedTenants s1 + toAssign) s1 in
      let s3 :=
        setTenantMorale
          (tenantMorale s2 ++ repeat 100 (Z.to_nat toAssign)) s2 in
      let s4 := setTenantTimeout 0 s3 in
      pushLog (LogAssignTenants toAssign) s4.

(** [Object.values(resourceWorkers).reduce((sum, count) => sum + count, 0)] *)
Definition totalAssignedWorkers (s : Game) : Z :=
  foldl (fun sum k => sum + resourceWorkers s k) 0 RESOURCE_KEYS.

Definition idleWorkers (s : Game) : Z :=
  assignedTenants s - totalAssignedWorkers s.

Definition handleAssignWorker (resourceKey : ResourceKey) (s : Game) : Game :=
  if idleWorkers s <=? 0 then s
  else
    let s1 :=
      setResourceWorkers
        (record_set (resourceWorkers s) resourceKey
           (resourceWorkers s resourceKey + 1)) s in
    pushLog (LogAssignWorker resourceKey) s1.

Definition handleUnassignWorker (resourceKey : ResourceKey) (s : Game)
    : Game :=
  let current := resourceWorkers s resourceKey in
  if current <=? 0 then s
  else
    let s1 :=
      setResourceWorkers
        (record_set (resourceWorkers s) resourceKey (current - 1)) s in
    pushLog (LogUnassignWorker resourceKey) s1.

(** The one-second intervals of the recruitment cooldown and of the pending
    tenants' timeout. *)
Definition recruitCooldownSecond (s : Game) : Game :=
  if tenantRecruitCooldown s <=? 0 then s
  else setTenantRecruitCooldown (Z.max 0 (tenantRecruitCooldown s - 1)) s.

Definition tenantTimeoutSecond (s : Game) : Game :=
  if (tenantTimeout s <=? 0) || (pendingTenants s <=? 0) then s
  else
    let next := Z.max 0 (tenantTimeout s - 1) in
    let s1 :=
      if (next =? 0) && (0 <? pendingTenants s)
      then setPendingTenants 0 (pushLog (LogTenantTimeout (pendingTenants s)) s)
      else s in
    setTenantTimeout next s1.

(** ** Wages *)

(** [handlePayWages] returns whether the wages were paid. *)
Definition handlePayWages (s : Game) : bool * Game :=
  let totalWage := assignedTenants s * WAGE_PER_TENANT_PER_DAY in
  match find_resource (resources s) sunleaf with
  | None => (false, pushLog (LogWagesInsufficient totalWage) s)
  | Some sunleafResource =>
      if Qlt_bool (amount sunleafResource) (inject_Z totalWage)
      then (false, pushLog (LogWagesInsufficient totalWage) s)
      else
        let s1 :=
          setResources
            (map (fun resource =>
                    if bool_decide (key resource = sunleaf)
                    then mkResource (key resource)
                           (amount resource - inject_Z totalWage)%Q
                           (rate resource) (capacity resource)
                    else resource) (resources s)) s in
        (true, pushLog (LogWagesPaid totalWage (assignedTenants s)) s1)
  end.

Definition wagesEffect (s : Game) : Game :=
  let currentDay := day (tick s) in
  if (currentDay =? lastPayDay s) || (assignedTenants s =? 0) then s
  else
    let '(paid, s1) :=
      if autoPayWages s then handlePayWages s else (false, s) in
    if paid then setLastPayDay currentDay s1
    else if lastPayDay s + 1 <? currentDay then
      let s2 :=
        setTenantMorale (map (fun morale => Z.max 0 (morale - 10))
                           (tenantMorale s1)) s1 in
      let s3 := pushLog LogWagesMissed s2 in
      setLastPayDay currentDay s3
    else s1.

(** ** Attrition *)

(** [tenantMorale.filter(...)]: [rnd i] is the value of the [i]-th call of
    [Math.random()]; a call is made only for a tenant whose morale is below
    50.  The result is the kept entries, the number of departures and the
    number of calls made. *)
Fixpoint attritionFilter (rnd : nat -> Q) (calls : nat) (morale : list Z)
    : list Z * Z * nat :=
  match morale with
  | [] => ([], 0, calls)
  | m :: rest =>
      if m <? 50 then
        if Qlt_bool (rnd calls) (1 # 2) then
          let '(kept, departures, calls') :=
            attritionFilter rnd (S calls) rest in
          (kept, departures + 1, calls')
        else
          let '(kept, departures, calls') :=
            attritionFilter rnd (S calls) rest in
          (m :: kept, departures, calls')
      else
        let '(kept, departures, calls') := attritionFilter rnd calls rest in
        (m :: kept, departures, calls')
  end.

(** The [for (const key of Object.keys(updated))] loop. *)
Fixpoint removeExcessWorkers (keys : list ResourceKey)
    (updated : ResourceKey -> Z) (toRemove : Z) : ResourceKey -> Z :=
  match keys with
  | [] => updated
  | k :: rest =>
      if toRemove <=? 0 then updated
      else
        let remove := Z.min (updated k) toRemove in
        removeExcessWorkers rest (record_set updated k (updated k - remove))
          (toRemove - remove)
  end.

Definition attritionEffect (rnd : nat -> Q) (s : Game) : Game :=
  let currentDay := day (tick s) in
  if (assignedTenants s =? 0) || (Z.of_nat (length (tenantMorale s)) =? 0)
  then s
  else if currentDay =? lastPayDay s then s
  else
    let '(updatedMorale, departures, _) :=
      attritionFilter rnd 0 (tenantMorale s) in
    if 0 <? departures then
      let s1 := setTenantMorale updatedMorale s in
      let s2 := setAssignedTenants (assignedTenants s1 - departures) s1 in
      let excessWorkers :=
        totalAssignedWorkers s - (assignedTenants s - departures) in
      let s3 :=
        if 0 <? excessWorkers
        then setResourceWorkers
               (removeExcessWorkers RESOURCE_KEYS (resourceWorkers s2)
                  excessWorkers) s2
        else s2 in
      pushLog (LogAttrition departures) s3
    else s.

(** The dependency array of the attrition effect (the language is fixed).
    React runs the effect body again after every commit in which one of
    these values differs from the previous commit. *)
Definition attritionDeps (s : Game) : Z * list Z * Z * Z * Z :=
  (day (tick s), tenantMorale s, assignedTenants s, totalAssignedWorkers s,
   lastPayDay s).

(** ** Tutorial stage machine *)

Definition goalMet (l : list Resource) (goal : TutorialGoal) : bool :=
  match find_resource l (goal_resource goal) with
  | None => false
  | Some resource =>
      let value :=
        match metric goal with
        | Some metric_capacity => capacity resource
        | _ => amount resource
        end in
      Qle_bool (target goal) value
  end.

Definition TUTORIAL_STAGES_length : Z := Z.of_nat (length TUTORIAL_STAGES).

(** The stage-advance effect, run after a commit in which [resources] or
    [stageIndex] changed.  [window.setTimeout] stands outside the test on
    [nextStageRef]. *)
Definition stageAdvanceEffect (s : Game) : Game :=
  match js_index TUTORIAL_STAGES (stageIndex s) with
  | None => s
  | Some activeStage =>
      let goalsMet := forallb (goalMet (resources s)) (goals activeStage) in
      if goalsMet && (stageIndex s <? TUTORIAL_STAGES_length - 1) then
        let nextIndex := stageIndex s + 1 in
        let s1 :=
          if negb (nextStageRef s =? nextIndex)
          then pushLog (LogStageOpened nextIndex) (setNextStageRef nextIndex s)
          else s in
        setTimeouts (timeouts s1 ++ [mkTimeout 750 nextIndex]) s1
      else s
  end.

(** Every goal of the active stage holds. *)
Definition goalsSatisfied (s : Game) : bool :=
  match js_index TUTORIAL_STAGES (stageIndex s) with
  | None => false
  | Some activeStage => forallb (goalMet (resources s)) (goals activeStage)
  end.

(** The callback of one registered timeout. *)
Definition runTimeout (t : Timeout) (s : Game) : Game :=
  setShowTutorial true (setStageIndex (timeout_nextIndex t) s).

(** The oldest registered timeout elapses. *)
Definition fireTimeout (s : Game) : Game :=
  match timeouts s with
  | [] => s
  | t :: rest => runTimeout t (setTimeouts rest s)
  end.

Definition registerMilestone (label : string) (s : Game) : Game :=
  setMilestones
    (if existsb (String.eqb label) (milestones s) then milestones s
     else milestones s ++ [label]) s.

Definition handleDismissTutorial (s : Game) : Game :=
  let s1 := setShowTutorial false s in
  if 0 <? stageIndex s then registerMilestone "tutorial-overlay-dismissed" s1
  else s1.

(** ** Story trigger evaluator *)

Definition includes (l : list string) (x : string) : bool :=
  existsb (String.eqb x) l.

Definition isTriggerMet (s : Game) (t : StoryTrigger) : bool :=
  match t with
  | TriggerStage stage => stage <=? stageIndex s
  | TriggerResource name threshold =>
      match List.find (fun item => String.eqb (key_name (key item)) name)
              (resources s) with
      | None => false
      | Some resource => Qle_bool threshold (amount resource)
      end
  | TriggerMilestone label => includes (milestones s) label
  | TriggerPurchase itemId => includes (completedPurchases s) itemId
  end.

Definition newlyUnlocked (s : Game) : list StoryChapter :=
  List.filter
    (fun chapter =>
       negb (includes (unlockedChapters s) (chapter_id chapter))
       && isTriggerMet s (trigger chapter))
    STORY_CHAPTERS.

(** The chapter-unlock effect, run after a commit in which [stageIndex],
    [resources], [milestones], [completedPurchases] or [unlockedChapters]
    changed. *)
Definition chapterUnlockEffect (s : Game) : Game :=
  match STORY_CHAPTERS with
  | [] => s
  | _ =>
      let batch := newlyUnlocked s in
      match last batch with
      | None => s
      | Some latest =>
          let updated := unlockedChapters s ++ map chapter_id batch in
          let s1 := setUnlockedChapters updated s in
          let s2 := setActiveChapterId (chapter_id latest) s1 in
          pushLog (LogChapter (chapter_id latest)) s2
      end
  end.

(** ** Per-tick production *)

Definition seasonMultiplier (seasonIdx : Z) : Q :=
  match js_index SUNLEAF_SEASON_MULTIPLIERS seasonIdx with
  | None => 1%Q
  | Some m => if falsyQ m then 1%Q else m
  end.

Definition produce (workersOf : ResourceKey -> Z)
    (passive : ResourceKey -> option Q) (seasonIdx : Z) (resource : Resource)
    : Resource :=
  let workers := workersOf (key resource) in
  let passiveRate := default 0%Q (passive (key resource)) in
  let workerRate := (rate resource * inject_Z workers)%Q in
  let totalRate := (workerRate + passiveRate)%Q in
  let totalRate :=
    if bool_decide (key resource = sunleaf)
    then (totalRate * seasonMultiplier seasonIdx)%Q else totalRate in
  if Qle_bool totalRate 0 then resource
  else
    let perPhaseGain := (totalRate / ((20 # 1) / (5 # 1)))%Q in
    if Qeq_bool perPhaseGain 0 then resource
    else
      let nextAmount := (amount resource + perPhaseGain)%Q in
      let limited := Math_min (capacity resource) (Math_max 0 nextAmount) in
      mkResource (key resource) limited (rate resource) (capacity resource).

(** The per-tick production as the specification words it: the total rate
    is [rate * assignedWorkers + passiveDistrictRate], times the season
    multiplier for sunleaf; the increment is the total rate divided by the
    number of ticks per day; the new amount is clamped into
    [[0, capacity]]. *)
Definition TICKS_PER_DAY : Q := 4.

Definition clamp (lo hi x : Q) : Q := Math_min hi (Math_max lo x).

Definition spec_totalRate (assignedWorkers : Z) (passiveDistrictRate : Q)
    (multiplier : Q) (resource : Resource) : Q :=
  let totalRate :=
    (rate resource * inject_Z assignedWorkers + passiveDistrictRate)%Q in
  if bool_decide (key resource = sunleaf) then (totalRate * multiplier)%Q
  else totalRate.

Definition spec_nextAmount (assignedWorkers : Z) (passiveDistrictRate : Q)
    (multiplier : Q) (resource : Resource) : Q :=
  clamp 0 (capacity resource)
    (amount resource
     + spec_totalRate assignedWorkers passiveDistrictRate multiplier resource
       / TICKS_PER_DAY)%Q.

(** The passive rate of a resource as the specification words it: the sum
    over the districts of [productionBoost[resource] * buildingCount]. *)
Definition spec_passiveRate (ds : list District) (k : ResourceKey) : Q :=
  foldr (fun d sum =>
           (default 0%Q (delta_get (productionBoost d) k)
            * inject_Z (buildingCount d) + sum)%Q)
    0%Q ds.

(** The production effect, run after every change of [tick] (and of the
    workers, the passive rates or the season). *)
Definition productionEffect (s : Game) : Game :=
  if tick s =? 0 then s
  else
    setResources
      (map (produce (resourceWorkers s) (passiveRates (districts s))
              (seasonIndex (tick s)))
         (resources s)) s.

(** The 5-second phase timer, which is not armed while the introductory
    dialogue is showing. *)
Definition tickTimer (s : Game) : Game :=
  if showIntroDialogue s then s else setTick (tick s + 1) s.

(** ** Temporary boosts and council directives *)

Definition boostExpiryEffect (s : Game) : Game :=
  match activeBoosts s with
  | [] => s
  | _ =>
      setActiveBoosts
        (List.filter (fun b => 0 <? remainingTicks b)
           (map (fun b =>
                   mkBoost (boost_actionId b) (remainingTicks b - 1)
                     (totalDuration b) (boost_rateDelta b))
              (activeBoosts s))) s
  end.

Definition totalRateBoost (boosts : list ActiveBoost) (k : ResourceKey) : Q :=
  foldl (fun acc b => (acc + default 0%Q (delta_get (boost_rateDelta b) k))%Q)
    0%Q boosts.

Definition boostRateEffect (s : Game) : Game :=
  setResources
    (map (fun resource =>
            let baseRate :=
              (rate resource - totalRateBoost (activeBoosts s) (key resource))%Q
            in
            mkResource (key resource) (amount resource)
              (baseRate + totalRateBoost (activeBoosts s) (key resource))%Q
              (capacity resource))
       (resources s)) s.

Definition canExecute (s : Game) (action : Action) : bool :=
  match delta action with
  | None => true
  | Some d =>
      forallb (fun resource =>
                 let change := default 0%Q (delta_get d (key resource)) in
                 if Qle_bool 0 change then true
                 else Qle_bool 0 (amount resource + change))
        (resources s)
  end.

Definition truthyZ (o : option Z) : bool :=
  match o with
  | None => false
  | Some z => negb (z =? 0)
  end.

(** [Math.ceil(duration / (PHASE_INTERVAL_MS / 1000))] *)
Definition durationInTicks (d : Z) : Z := - ((- d) / 5).

Definition handleAction (action : Action) (s : Game) : Game :=
  if negb (canExecute s action) then s
  else
    let next := resources s in
    let next :=
      match delta action with
      | Some d => applyResourceDelta next d
      | None => next
      end in
    let next :=
      match rateDelta action with
      | Some d => if truthyZ (duration action) then next
                  else applyRateDelta next d
      | None => next
      end in
    let next :=
      match capacityDelta action with
      | Some d => applyCapacityDelta next d
      | None => next
      end in
    let s1 := setResources next s in
    let s2 :=
      match duration action, rateDelta action with
      | Some d, Some rd =>
          if negb (d =? 0) then
            setActiveBoosts
              (List.filter
                 (fun b => negb (String.eqb (boost_actionId b)
                                   (action_id action)))
                 (activeBoosts s1)
               ++ [mkBoost (action_id action) (durationInTicks d)
                     (durationInTicks d) rd]) s1
          else s1
      | _, _ => s1
      end in
    pushLog (LogAction (action_id action)) s2.

(** ** Introductory dialogue and facility selection *)

Definition INTRO_DIALOGUE_length : Z := 7.

Definition introSkip (s : Game) : Game :=
  setShowTutorial true (setShowIntroDialogue false s).

Definition introContinue (s : Game) : Game :=
  if introIndex s <? INTRO_DIALOGUE_length - 1
  then setIntroIndex (introIndex s + 1) s
  else introSkip s.

Definition unlockedFacilities (s : Game) : list Facility :=
  List.filter (fun facility => facility_requiredStage facility <=? stageIndex s)
    FACILITIES.

Definition facilitySelectionEffect (s : Game) : Game :=
  match unlockedFacilities s with
  | [] => setSelectedFacilityId None s
  | first :: _ =>
      if negb (truthy_id (selectedFacilityId s))
         || negb (existsb
                    (fun facility =>
                       bool_decide
                         (Some (facility_id facility) = selectedFacilityId s))
                    (unlockedFacilities s))
      then setSelectedFacilityId (Some (facility_id first)) s
      else s
  end.

(** ** Events of a session

    Player actions, timer callbacks and effect bodies, each run as one
    atomic transition on the committed state. *)
Inductive Event : Type :=
| EvTickTimer
| EvProductionEffect
| EvBoostExpiryEffect
| EvBoostRateEffect
| EvWagesEffect
| EvAttritionEffect (rnd : nat -> Q)
| EvStageAdvanceEffect
| EvFireTimeout
| EvChapterUnlockEffect
| EvCooldownSecond
| EvRecruitCooldownSecond
| EvTenantTimeoutSecond
| EvCraftingSecond
| EvManualHarvest (k : ResourceKey)
| EvUnlockResource (k : ResourceKey)
| EvExpand (districtId : string)
| EvDemolish (districtId : string)
| EvStartCraft (recipeId : string)
| EvStartToolCraft (recipeId : string)
| EvAllocateCapacity (k : ResourceKey)
| EvDismissAllocation
| EvBuildFacility (facilityId : string)
| EvRecruitTenants
| EvAssignTenants
| EvAssignWorker (k : ResourceKey)
| EvUnassignWorker (k : ResourceKey)
| EvPayWages
| EvSetAutoPayWages (checked : bool)
| EvDismissTutorial
| EvReviewTutorial
| EvIntroContinue
| EvIntroSkip
| EvSelectFacility (facilityId : string)
| EvFacilitySelectionEffect
| EvAction (n : nat).

Definition step (e : Event) (s : Game) : Game :=
  match e with
  | EvTickTimer => tickTimer s
  | EvProductionEffect => productionEffect s
  | EvBoostExpiryEffect => boostExpiryEffect s
  | EvBoostRateEffect => boostRateEffect s
  | EvWagesEffect => wagesEffect s
  | EvAttritionEffect rnd => attritionEffect rnd s
  | EvStageAdvanceEffect => stageAdvanceEffect s
  | EvFireTimeout => fireTimeout s
  | EvChapterUnlockEffect => chapterUnlockEffect s
  | EvCooldownSecond => cooldownSecond s
  | EvRecruitCooldownSecond => recruitCooldownSecond s
  | EvTenantTimeoutSecond => tenantTimeoutSecond s
  | EvCraftingSecond => craftingSecond s
  | EvManualHarvest k => handleManualHarvest k s
  | EvUnlockResource k => handleUnlockResource k s
  | EvExpand districtId => handleExpand districtId s
  | EvDemolish districtId => handleDemolish districtId s
  | EvStartCraft recipeId => handleStartCraft recipeId s
  | EvStartToolCraft recipeId => handleStartToolCraft recipeId s
  | EvAllocateCapacity k => handleAllocateCapacity k s
  | EvDismissAllocation => setPendingAllocation None s
  | EvBuildFacility facilityId => handleBuildFacility facilityId s
  | EvRecruitTenants => handleRecruitTenants s
  | EvAssignTenants => handleAssignTenants s
  | EvAssignWorker k => handleAssignWorker k s
  | EvUnassignWorker k => handleUnassignWorker k s
  | EvPayWages => snd (handlePayWages s)
  | EvSetAutoPayWages checked => setAutoPayWages checked s
  | EvDismissTutorial => handleDismissTutorial s
  | EvReviewTutorial => setShowTutorial true s
  | EvIntroContinue => introContinue s
  | EvIntroSkip => introSkip s
  | EvSelectFacility facilityId => setSelectedFacilityId (Some facilityId) s
  | EvFacilitySelectionEffect => facilitySelectionEffect s
  | EvAction n =>
      match ACTIONS !! n with
      | Some action => handleAction action s
      | None => s
      end
  end.

(** The state after a list of events, oldest first. *)
Definition run_events (events : list Event) (s : Game) : Game :=
  foldl (fun acc e => step e acc) s events.

(** A session starts from a new game and proceeds by events. *)
Inductive reachable : Game -> Prop :=
| reachable_init : reachable initialGame
| reachable_step e s : reachable s -> reachable (step e s).

(** ** Persistence codec

    A save document is the value [JSON.parse] returns; [JSON.stringify]
    followed by [JSON.parse] is taken to be the identity on such values.
    A property that is absent reads as [None] ([undefined]). *)

Inductive json : Type :=
| JNull
| JBool (b : bool)
| JNum (q : Q)
| JStr (s : string)
| JArr (items : list json)
| JObj (props : gmap string json).

(** [value.name], for the property names the codec reads (none of them is
    an own property of an array or of a primitive). *)
Definition get_prop (value : json) (name : string) : option json :=
  match value with
  | JObj props => props !! name
  | _ => None
  end.

(** [Boolean(x)] *)
Definition Boolean (x : option json) : bool :=
  match x with
  | None => false
  | Some JNull => false
  | Some (JBool b) => b
  | Some (JNum q) => negb (Qeq_bool q 0)
  | Some (JStr s) => negb (String.eqb s "")
  | Some (JArr _) => true
  | Some (JObj _) => true
  end.

(** [x && typeof x === "object"] *)
Definition is_object (x : option json) : bool :=
  match x with
  | Some (JArr _) => true
  | Some (JObj _) => true
  | _ => false
  end.

(** [typeof incoming.name === "number" ? incoming.name : fallback] *)
Definition number_or (incoming : json) (name : string) (fallback : Q) : Q :=
  match get_prop incoming name with
  | Some (JNum q) => q
  | _ => fallback
  end.

(** [item?.name === k] against a string [k]. *)
Definition prop_is (name : string) (k : string) (item : json) : bool :=
  match get_prop item name with
  | Some (JStr s) => String.eqb s k
  | _ => false
  end.

(** The own enumerable properties an object spread copies. *)
Definition spread_props (value : json) : gmap string json :=
  match value with
  | JObj props => props
  | JArr items =>
      list_to_map (imap (fun i item => (pretty (N.of_nat i), item)) items)
  | _ => ∅
  end.

Definition delta_json (d : ResourceDelta) : json :=
  JObj (list_to_map (map (fun '(k, v) => (key_name k, JNum v)) d)).

Definition record_json {A : Type} (enc : A -> json) (f : ResourceKey -> A)
    : json :=
  JObj (list_to_map (map (fun k => (key_name k, enc (f k))) RESOURCE_KEYS)).

Definition JInt (z : Z) : json := JNum (inject_Z z).

Definition option_json (o : option string) : json :=
  match o with
  | None => JNull
  | Some s => JStr s
  end.

Definition resource_json (r : Resource) : json :=
  JObj (list_to_map
          [("key", JStr (key_name (key r))); ("amount", JNum (amount r));
           ("rate", JNum (rate r)); ("capacity", JNum (capacity r))]).

(** [{ ...district, buildingCount, progress, stability }] *)
Definition district_json_with (d : District) (count prog stab : Q) : json :=
  JObj (list_to_map
          [("id", JStr (district_id d)); ("progress", JNum prog);
           ("stability", JNum stab);
           ("requiredStage", JInt (district_requiredStage d));
           ("buildingCount", JNum count);
           ("expansionCost", delta_json (expansionCost d));
           ("productionBoost", delta_json (productionBoost d))]).

Definition district_json (d : District) : json :=
  district_json_with d (inject_Z (buildingCount d)) (progress d) (stability d).

Definition skill_type_name (t : SkillType) : string :=
  match t with
  | mining => "mining"
  | gathering => "gathering"
  end.

(** [{ ...skill, level, experience }] *)
Definition skill_json_with (sk : Skill) (lvl exp : Q) : json :=
  JObj (list_to_map
          [("type", JStr (skill_type_name (skill_type sk)));
           ("level", JNum lvl); ("experience", JNum exp);
           ("maxLevel", JInt (maxLevel sk))]).

Definition skill_json (sk : Skill) : json :=
  skill_json_with sk (inject_Z (level sk)) (inject_Z (experience sk)).

(** What each serialized [useState] cell holds, as a JavaScript value. *)
Record Cells : Type := mkCells {
  cell_resources : json;
  cell_tick : json;
  cell_stageIndex : json;
  cell_showTutorial : json;
  cell_showIntroDialogue : json;
  cell_introIndex : json;
  cell_unlockedChapters : json;
  cell_activeChapterId : json;
  cell_milestones : json;
  cell_completedPurchases : json;
  cell_purchaseCounts : json;
  cell_civilizationLevel : json;
  cell_manualCooldowns : json;
  cell_manualHarvestActive : json;
  cell_log : json;
  cell_districts : json;
  cell_craftingRecipe : json;
  cell_craftingProgress : json;
  cell_equippedTools : json;
  cell_facilityCounts : json;
  cell_selectedFacilityId : json;
  cell_tenantRecruitCooldown : json;
  cell_pendingTenants : json;
  cell_tenantTimeout : json;
  cell_assignedTenants : json;
  cell_tenantMorale : json;
  cell_autoPayWages : json;
  cell_lastPayDay : json;
  cell_skills : json;
  cell_resourceWorkers : json;
  cell_manuallyUnlockedResources : json
}.

Section WithLanguage.

(** [language] comes from the language context, [render] is the sentence
    a log line is displayed as in that language. *)
Variable language : string.
Variable render : LogEntry -> string.

(** The cells of a typed game state. *)
Definition cells_of_game (g : Game) : Cells :=
  {| cell_resources := JArr (map resource_json (resources g));
     cell_tick := JInt (tick g);
     cell_stageIndex := JInt (stageIndex g);
     cell_showTutorial := JBool (showTutorial g);
     cell_showIntroDialogue := JBool (showIntroDialogue g);
     cell_introIndex := JInt (introIndex g);
     cell_unlockedChapters := JArr (map JStr (unlockedChapters g));
     cell_activeChapterId := JStr (activeChapterId g);
     cell_milestones := JArr (map JStr (milestones g));
     cell_completedPurchases := JArr (map JStr (completedPurchases g));
     cell_purchaseCounts := JObj (JInt <$> purchaseCounts g);
     cell_civilizationLevel := JInt (civilizationLevel g);
     cell_manualCooldowns := record_json JInt (manualCooldowns g);
     cell_manualHarvestActive := record_json JBool (manualHarvestActive g);
     cell_log := JArr (map (fun e => JStr (render e)) (log g));
     cell_districts := JArr (map district_json (districts g));
     cell_craftingRecipe := option_json (craftingRecipe g);
     cell_craftingProgress := JInt (craftingProgress g);
     cell_equippedTools := JObj (JStr <$> equippedTools g);
     cell_facilityCounts := JObj (JInt <$> facilityCounts g);
     cell_selectedFacilityId := option_json (selectedFacilityId g);
     cell_tenantRecruitCooldown := JInt (tenantRecruitCooldown g);
     cell_pendingTenants := JInt (pendingTenants g);
     cell_tenantTimeout := JInt (tenantTimeout g);
     cell_assignedTenants := JInt (assignedTenants g);
     cell_tenantMorale := JArr (map JInt (tenantMorale g));
     cell_autoPayWages := JBool (autoPayWages g);
     cell_lastPayDay := JInt (lastPayDay g);
     cell_skills := JArr (map skill_json (skills g));
     cell_resourceWorkers := record_json JInt (resourceWorkers g);
     cell_manuallyUnlockedResources :=
       JArr (map (fun k => JStr (key_name k))
               (manuallyUnlockedResources g)) |}.

(** The cells of a new game. *)
Definition initialCells : Cells := cells_of_game initialGame.

(** The payload of [serializeState] (and of [saveGame]). *)
Definition serializeState (c : Cells) : json :=
  JObj (list_to_map
          [("version", JNum 1);
           ("resources", cell_resources c);
           ("tick", cell_tick c);
           ("stageIndex", cell_stageIndex c);
           ("showTutorial", cell_showTutorial c);
           ("showIntroDialogue", cell_showIntroDialogue c);
           ("introIndex", cell_introIndex c);
           ("unlockedChapters", cell_unlockedChapters c);
           ("activeChapterId", cell_activeChapterId c);
           ("milestones", cell_milestones c);
           ("completedPurchases", cell_completedPurchases c);
           ("purchaseCounts", cell_purchaseCounts c);
           ("civilizationLevel", cell_civilizationLevel c);
           ("manualCooldowns", cell_manualCooldowns c);
           ("manualHarvestActive", cell_manualHarvestActive c);
           ("log", cell_log c);
           ("language", JStr language);
           ("districts", cell_districts c);
           ("craftingRecipe", cell_craftingRecipe c);
           ("craftingProgress", cell_craftingProgress c);
           ("equippedTools", cell_equippedTools c);
           ("facilityCounts", cell_facilityCounts c);
           ("selectedFacilityId", cell_selectedFacilityId c);
           ("tenantRecruitCooldown", cell_tenantRecruitCooldown c);
           ("pendingTenants", cell_pendingTenants c);
           ("tenantTimeout", cell_tenantTimeout c);
           ("assignedTenants", cell_assignedTenants c);
           ("tenantMorale", cell_tenantMorale c);
           ("autoPayWages", cell_autoPayWages c);
           ("lastPayDay", cell_lastPayDay c);
           ("skills", cell_skills c);
           ("resourceWorkers", cell_resourceWorkers c);
           ("manuallyUnlockedResources", cell_manuallyUnlockedResources c)]).

(** Readers for one top-level property of the parsed document. *)
Definition number_cell (parsed : json) (name : string) (fallback : json)
    : json :=
  match get_prop parsed name with
  | Some (JNum q) => JNum q
  | _ => fallback
  end.

Definition array_cell (parsed : json) (name : string) (fallback : json)
    : json :=
  match get_prop parsed name with
  | Some (JArr items) => JArr items
  | _ => fallback
  end.

Definition string_cell (parsed : json) (name : string) (fallback : json)
    : json :=
  match get_prop parsed name with
  | Some (JStr s) => JStr s
  | _ => fallback
  end.

Definition object_cell (parsed : json) (name : string) (fallback : json)
    : json :=
  match get_prop parsed name with
  | Some value => if is_object (Some value) then value else fallback
  | None => fallback
  end.

Definition boolean_cell (parsed : json) (name : string) (fallback : json)
    : json :=
  match get_prop parsed name with
  | Some (JBool b) => JBool b
  | _ => fallback
  end.

Definition reconcileResource (incomingList : list json) (resource : Resource)
    : json :=
  match List.find (prop_is "key" (key_name (key resource))) incomingList with
  | None => resource_json resource
  | Some incoming =>
      resource_json
        (mkResource (key resource)
           (number_or incoming "amount" (amount resource))
           (number_or incoming "rate" (rate resource))
           (number_or incoming "capacity" (capacity resource)))
  end.

Definition resources_cell (parsed : json) : json :=
  match get_prop parsed "resources" with
  | Some (JArr incomingList) =>
      JArr (map (reconcileResource incomingList) INITIAL_RESOURCES)
  | _ => JArr (map resource_json INITIAL_RESOURCES)
  end.

(** [deserializeState] falls back on the catalogue entry's own values. *)
Definition reconcileDistrict (incomingList : list json) (district : District)
    : json :=
  match List.find (prop_is "id" (district_id district)) incomingList with
  | None => district_json district
  | Some incoming =>
      district_json_with district
        (number_or incoming "buildingCount"
           (inject_Z (buildingCount district)))
        (number_or incoming "progress" (progress district))
        (number_or incoming "stability" (stability district))
  end.

(** [loadGame] falls back on 0. *)
Definition reconcileDistrictLoad (incomingList : list json)
    (district : District) : json :=
  match List.find (prop_is "id" (district_id district)) incomingList with
  | None => district_json district
  | Some incoming =>
      district_json_with district
        (number_or incoming "buildingCount" 0)
        (number_or incoming "progress" 0)
        (number_or incoming "stability" 0)
  end.

Definition districts_cell
    (reconcile : list json -> District -> json) (parsed : json) : json :=
  match get_prop parsed "districts" with
  | Some (JArr incomingList) => JArr (map (reconcile incomingList) DISTRICTS)
  | _ => JArr (map district_json DISTRICTS)
  end.

Definition reconcileSkill (incomingList : list json) (skill : Skill) : json :=
  match List.find (prop_is "type" (skill_type_name (skill_type skill)))
          incomingList with
  | None => skill_json skill
  | Some incoming =>
      skill_json_with skill
        (match get_prop incoming "level" with
         | Some (JNum q) => Math_min (inject_Z MAX_SKILL_LEVEL) q
         | _ => inject_Z (level skill)
         end)
        (number_or incoming "experience" (inject_Z (experience skill)))
  end.

Definition skills_cell (parsed : json) : json :=
  match get_prop parsed "skills" with
  | Some (JArr incomingList) =>
      JArr (map (reconcileSkill incomingList) INITIAL_SKILLS)
  | _ => JArr (map skill_json INITIAL_SKILLS)
  end.

Definition resourceWorkers_cell (parsed : json) : json :=
  match get_prop parsed "resourceWorkers" with
  | Some workers =>
      if is_object (Some workers)
      then record_json (fun k => JNum (number_or workers (key_name k) 0)) id
      else record_json JInt all_zero
  | None => record_json JInt all_zero
  end.

Definition log_cell (parsed : json) : json :=
  match get_prop parsed "log" with
  | Some (JArr entries) => JArr (take 6 entries)
  | _ => JArr (map (fun e => JStr (render e)) localizedDefaults)
  end.

Definition INITIAL_FACILITY_COUNTS_json : gmap string json :=
  JInt <$> INITIAL_FACILITY_COUNTS.

(** The statements of [deserializeState] between [JSON.parse] and the
    [catch], on a parsed value that passed the object test: every setter
    call, as the value its cell holds afterwards ([cur] is the state before
    the call). *)
Definition deserializeBody (cur : Cells) (parsed : json) : Cells :=
  {| cell_resources := resources_cell parsed;
     cell_tick := number_cell parsed "tick" (JNum 0);
     cell_stageIndex := number_cell parsed "stageIndex" (JNum 0);
     cell_showTutorial := JBool (Boolean (get_prop parsed "showTutorial"));
     cell_showIntroDialogue :=
       JBool (Boolean (get_prop parsed "showIntroDialogue"));
     cell_introIndex := number_cell parsed "introIndex" (JNum 0);
     cell_unlockedChapters := array_cell parsed "unlockedChapters" (JArr []);
     cell_activeChapterId :=
       string_cell parsed "activeChapterId" (JStr initialChapterId);
     cell_milestones := array_cell parsed "milestones" (JArr []);
     cell_completedPurchases := array_cell parsed "completedPurchases" (JArr []);
     cell_purchaseCounts := object_cell parsed "purchaseCounts" (JObj ∅);
     cell_civilizationLevel := number_cell parsed "civilizationLevel" (JNum 0);
     cell_manualCooldowns :=
       object_cell parsed "manualCooldowns" (cell_manualCooldowns cur);
     cell_manualHarvestActive :=
       object_cell parsed "manualHarvestActive"
         (object_cell parsed "manualHarvestPending"
            (cell_manualHarvestActive cur));
     cell_log := log_cell parsed;
     cell_districts := districts_cell reconcileDistrict parsed;
     cell_craftingRecipe := string_cell parsed "craftingRecipe" JNull;
     cell_craftingProgress :=
       match get_prop parsed "craftingProgress" with
       | Some value => value
       | None => cell_craftingProgress cur
       end;
     cell_equippedTools := object_cell parsed "equippedTools" (cell_equippedTools cur);
     cell_facilityCounts :=
       match get_prop parsed "facilityCounts" with
       | Some counts =>
           if is_object (Some counts)
           then JObj (spread_props counts ∪ INITIAL_FACILITY_COUNTS_json)
           else JObj INITIAL_FACILITY_COUNTS_json
       | None => JObj INITIAL_FACILITY_COUNTS_json
       end;
     cell_selectedFacilityId := string_cell parsed "selectedFacilityId" JNull;
     cell_tenantRecruitCooldown :=
       number_cell parsed "tenantRecruitCooldown" (JNum 0);
     cell_pendingTenants := number_cell parsed "pendingTenants" (JNum 0);
     cell_tenantTimeout := number_cell parsed "tenantTimeout" (JNum 0);
     cell_assignedTenants := number_cell parsed "assignedTenants" (JNum 0);
     cell_tenantMorale := array_cell parsed "tenantMorale" (JArr []);
     cell_autoPayWages := JBool (Boolean (get_prop parsed "autoPayWages"));
     cell_lastPayDay := number_cell parsed "lastPayDay" (JNum 0);
     cell_skills := skills_cell parsed;
     cell_resourceWorkers := resourceWorkers_cell parsed;
     cell_manuallyUnlockedResources :=
       array_cell parsed "manuallyUnlockedResources"
         (cell_manuallyUnlockedResources cur) |}.

(** [deserializeState]: [Some] is the state after a run that reached the end
    of the [try] block, [None] a run that went through [throw] and [catch]
    (the state is then the one before the call). *)
Definition deserializeState (cur : Cells) (parsed : json) : option Cells :=
  if is_object (Some parsed) then Some (deserializeBody cur parsed) else None.

(** The statements of [loadGame] between [JSON.parse] and [return true]. *)
Definition loadGameBody (cur : Cells) (parsed : json) : Cells :=
  {| cell_resources := resources_cell parsed;
     cell_tick := number_cell parsed "tick" (JNum 0);
     cell_stageIndex := number_cell parsed "stageIndex" (JNum 0);
     cell_showTutorial := JBool (Boolean (get_prop parsed "showTutorial"));
     cell_showIntroDialogue :=
       JBool (Boolean (get_prop parsed "showIntroDialogue"));
     cell_introIndex := number_cell parsed "introIndex" (JNum 0);
     cell_unlockedChapters := array_cell parsed "unlockedChapters" (JArr []);
     cell_activeChapterId :=
       string_cell parsed "activeChapterId" (JStr initialChapterId);
     cell_milestones := array_cell parsed "milestones" (JArr []);
     cell_completedPurchases := array_cell parsed "completedPurchases" (JArr []);
     cell_purchaseCounts := object_cell parsed "purchaseCounts" (JObj ∅);
     cell_civilizationLevel := number_cell parsed "civilizationLevel" (JNum 0);
     cell_manualCooldowns :=
       object_cell parsed "manualCooldowns" (cell_manualCooldowns cur);
     cell_manualHarvestActive :=
       object_cell parsed "manualHarvestActive" (cell_manualHarvestActive cur);
     cell_log := log_cell parsed;
     cell_districts := districts_cell reconcileDistrictLoad parsed;
     cell_craftingRecipe := string_cell parsed "craftingRecipe" JNull;
     cell_craftingProgress :=
       match get_prop parsed "craftingProgress" with
       | Some (JNum q) => JNum q
       | Some _ => JNum 0
       | None => cell_craftingProgress cur
       end;
     cell_equippedTools := object_cell parsed "equippedTools" (cell_equippedTools cur);
     cell_facilityCounts :=
       object_cell parsed "facilityCounts" (cell_facilityCounts cur);
     cell_selectedFacilityId :=
       string_cell parsed "selectedFacilityId" (cell_selectedFacilityId cur);
     cell_tenantRecruitCooldown :=
       number_cell parsed "tenantRecruitCooldown" (cell_tenantRecruitCooldown cur);
     cell_pendingTenants :=
       number_cell parsed "pendingTenants" (cell_pendingTenants cur);
     cell_tenantTimeout := number_cell parsed "tenantTimeout" (cell_tenantTimeout cur);
     cell_assignedTenants :=
       number_cell parsed "assignedTenants" (cell_assignedTenants cur);
     cell_tenantMorale := number_cell parsed "tenantMorale" (cell_tenantMorale cur);
     cell_autoPayWages := boolean_cell parsed "autoPayWages" (cell_autoPayWages cur);
     cell_lastPayDay := number_cell parsed "lastPayDay" (cell_lastPayDay cur);
     cell_skills :=
       array_cell parsed "skills" (JArr (map skill_json INITIAL_SKILLS));
     cell_resourceWorkers := resourceWorkers_cell parsed;
     cell_manuallyUnlockedResources :=
       array_cell parsed "manuallyUnlockedResources"
         (cell_manuallyUnlockedResources cur) |}.

End WithLanguage.

(** ** The file-backed save manager ([savemanager.go])

    The file system is what the two [ioutil] calls answer: the entries of a
    directory or an error, the bytes of a file or an error.  A Go [error]
    result is [None] for [nil]. *)

Module SaveManager.

Inductive error : Type :=
| ErrNotExist
| ErrPermission
| ErrOther (msg : string).

Record FileInfo : Type := mkFileInfo {
  Name : string;
  IsDir : bool
}.

Record FileSystem : Type := mkFileSystem {
  ReadDir : string -> list FileInfo + error;
  ReadFile : string -> string + error
}.

Record SaveManager : Type := mkSaveManager {
  dataDir : string
}.

(** The path separator, [/]. *)
Definition Separator : Ascii.ascii := Ascii.ascii_of_nat 47.

(** The pieces of a path between its separators. *)
Fixpoint path_elements (path : string) : list string :=
  match path with
  | EmptyString => [EmptyString]
  | String c rest =>
      if Ascii.eqb c Separator then EmptyString :: path_elements rest
      else
        match path_elements rest with
        | elem :: elems => String c elem :: elems
        | [] => [String c EmptyString]
        end
  end.

(** One element read by [filepath.Clean].  [out] holds the elements written
    so far, the last one first: an empty element and [.] are skipped, [..]
    takes the last element back when there is one to take, is dropped at
    the root and is written otherwise. *)
Definition clean_element (rooted : bool) (out : list string) (elem : string)
    : list string :=
  if String.eqb elem "" || String.eqb elem "." then out
  else if String.eqb elem ".." then
    match out with
    | last :: before => if String.eqb last ".." then elem :: out else before
    | [] => if rooted then [] else [elem]
    end
  else elem :: out.

Fixpoint join_elements (elems : list string) : string :=
  match elems with
  | [] => ""
  | [elem] => elem
  | elem :: rest =>
      String.append elem (String.append "/" (join_elements rest))
  end.

Definition is_rooted (path : string) : bool :=
  match path with
  | EmptyString => false
  | String c _ => Ascii.eqb c Separator
  end.

Definition root_of (rooted : bool) : string := if rooted then "/" else "".

(** [filepath.Clean], on a system whose separator is [/] and whose paths
    have no volume name. *)
Definition Clean (path : string) : string :=
  match path with
  | EmptyString => "."
  | String _ _ =>
      let rooted := is_rooted path in
      match rev (foldl (clean_element rooted) [] (path_elements path)) with
      | [] => if rooted then "/" else "."
      | out => String.append (root_of rooted) (join_elements out)
      end
  end.

(** [filepath.Join] of a directory and one element: the elements from the
    first non-empty one on are joined by separators and the result is
    cleaned. *)
Definition Join (dir elem : string) : string :=
  if negb (String.eqb dir "") then
    Clean (String.append dir (String.append "/" elem))
  else if negb (String.eqb elem "") then Clean elem
  else "".

(** [strings.HasSuffix] *)
Definition HasSuffix (s suffix : string) : bool :=
  let n := String.length s in
  let m := String.length suffix in
  if (m <=? n)%nat then String.eqb (String.substring (n - m) m s) suffix
  else false.

(** [strings.TrimSuffix] *)
Definition TrimSuffix (s suffix : string) : string :=
  if HasSuffix s suffix
  then String.substring 0 (String.length s - String.length suffix) s
  else s.

Definition LoadGame (fs : FileSystem) (s : SaveManager) (saveName : string)
    : string * option error :=
  let filename := Join (dataDir s) (String.append saveName ".json") in
  match ReadFile fs filename with
  | inr err => ("", Some err)
  | inl data => (data, None)
  end.

Definition GetAllSaves (fs : FileSystem) (s : SaveManager)
    : list string * option error :=
  match ReadDir fs (dataDir s) with
  | inr _ => ([], None)
  | inl files =>
      let saves :=
        foldl (fun saves file =>
                 if negb (IsDir file) && HasSuffix (Name file) ".json"
                 then saves ++ [TrimSuffix (Name file) ".json"]
                 else saves)
          [] files in
      (saves, None)
  end.

Definition GetLastSave (fs : FileSystem) (s : SaveManager)
    : string * option error :=
  let filename := Join (dataDir s) ".last_save" in
  match ReadFile fs filename with
  | inr _ => ("", None)
  | inl data => (data, None)
  end.

End SaveManager.

(** ** Invariants of a session *)

(** Districts with non-negative counts and boosts. *)
Definition districts_nonneg (ds : list District) : Prop :=
  Forall (fun d =>
            0 <= buildingCount d
            /\ Forall (fun entry => (0 <= snd entry)%Q) (productionBoost d))
    ds.

(** The ledger of a state holds nothing negative. *)
Definition ledger_nonneg (s : Game) : Prop :=
  Forall (fun r => (0 <= rate r)%Q /\ (0 <= amount r <= capacity r)%Q)
    (resources s)
  /\ (forall k, 0 <= resourceWorkers s k)
  /\ districts_nonneg (districts s).

(** A multiple of one tenth: every capacity of the catalogue and every
    capacity boost is one. *)
Definition whole_tenths (q : Q) : Prop := exists z : Z, (q == z # 10)%Q.

Definition within_capacity (r : Resource) : Prop :=
  (0 <= amount r <= capacity r)%Q.

Definition ledger_ok (r : Resource) : Prop :=
  within_capacity r /\ whole_tenths (capacity r).

Definition boost_ok (q : Q) : Prop := (0 <= q)%Q /\ whole_tenths q.

Definition pending_ok (pending : option PendingAllocation) : Prop :=
  match pending with
  | None => True
  | Some p => boost_ok (pending_boost p)
  end.

(** What a session keeps true about the cells that feed the ledger: the
    six resources stay in place, every amount lies within its capacity,
    there are at least as many tenants as morale entries, and a pending
    capacity boost is not negative. *)
Definition inv_fields (rs : list Resource) (morale : list Z) (assigned : Z)
    (pending : option PendingAllocation) : Prop :=
  (map key rs = RESOURCE_KEYS /\ Forall ledger_ok rs)
  /\ Z.of_nat (length morale) <= assigned
  /\ pending_ok pending.

Definition session_invariant (s : Game) : Prop :=
  inv_fields (resources s) (tenantMorale s) (assignedTenants s)
    (pendingAllocation s).

(** The workers assigned over a list of keys. *)
Definition sum_workers (keys : list ResourceKey) (w : ResourceKey -> Z) : Z :=
  foldr (fun k sum => w k + sum) 0 keys.

(** What the codec relies on: the collections keep the catalogue's entries
    in the catalogue's order, no skill is above the maximum level, the log
    has at most six lines and every facility has a count. *)
Definition same_catalogue_district (d d0 : District) : Prop :=
  district_id d = district_id d0
  /\ district_requiredStage d = district_requiredStage d0
  /\ expansionCost d = expansionCost d0
  /\ productionBoost d = productionBoost d0.

Definition same_catalogue_skill (sk sk0 : Skill) : Prop :=
  skill_type sk = skill_type sk0
  /\ maxLevel sk = maxLevel sk0
  /\ level sk <= MAX_SKILL_LEVEL.

Definition shape_fields (ds : list District) (sks : list Skill)
    (lines : list LogEntry) (counts : gmap string Z) : Prop :=
  Forall2 same_catalogue_district ds DISTRICTS
  /\ Forall2 same_catalogue_skill sks INITIAL_SKILLS
  /\ (length lines <= 6)%nat
  /\ (is_Some (counts !! "cabin") /\ is_Some (counts !! "city-hall")).

Definition codec_wf (g : Game) : Prop :=
  map key (resources g) = RESOURCE_KEYS
  /\ shape_fields (districts g) (skills g) (log g) (facilityCounts g).

(** The test [deserializeState] applies to a top-level property before it
    uses it. *)
Inductive CellKind : Type :=
| KNumber
| KArray
| KString
| KObject
| KAny.

Definition accepts (kind : CellKind) (value : json) : bool :=
  match kind, value with
  | KNumber, JNum _ => true
  | KArray, JArr _ => true
  | KString, JStr _ => true
  | KObject, JArr _ => true
  | KObject, JObj _ => true
  | KAny, _ => true
  | _, _ => false
  end.

(** The property is absent, or present with a value the test rejects. *)
Definition missing_or_malformed (parsed : json) (name : string)
    (kind : CellKind) : Prop :=
  match get_prop parsed name with
  | None => True
  | Some value => accepts kind value = false
  end.

(** The serialized cells: the property name, the test applied to it and the
    cell it is stored in. *)
Definition CELLS : list (string * CellKind * (Cells -> json)) :=
  [ ("resources", KArray, cell_resources);
    ("tick", KNumber, cell_tick);
    ("stageIndex", KNumber, cell_stageIndex);
    ("showTutorial", KAny, cell_showTutorial);
    ("showIntroDialogue", KAny, cell_showIntroDialogue);
    ("introIndex", KNumber, cell_introIndex);
    ("unlockedChapters", KArray, cell_unlockedChapters);
    ("activeChapterId", KString, cell_activeChapterId);
    ("milestones", KArray, cell_milestones);
    ("completedPurchases", KArray, cell_completedPurchases);
    ("purchaseCounts", KObject, cell_purchaseCounts);
    ("civilizationLevel", KNumber, cell_civilizationLevel);
    ("manualCooldowns", KObject, cell_manualCooldowns);
    ("manualHarvestActive", KObject, cell_manualHarvestActive);
    ("log", KArray, cell_log);
    ("districts", KArray, cell_districts);
    ("craftingRecipe", KString, cell_craftingRecipe);
    ("craftingProgress", KAny, cell_craftingProgress);
    ("equippedTools", KObject, cell_equippedTools);
    ("facilityCounts", KObject, cell_facilityCounts);
    ("selectedFacilityId", KString, cell_selectedFacilityId);
    ("tenantRecruitCooldown", KNumber, cell_tenantRecruitCooldown);
    ("pendingTenants", KNumber, cell_pendingTenants);
    ("tenantTimeout", KNumber, cell_tenantTimeout);
    ("assignedTenants", KNumber, cell_assignedTenants);
    ("tenantMorale", KArray, cell_tenantMorale);
    ("autoPayWages", KAny, cell_autoPayWages);
    ("lastPayDay", KNumber, cell_lastPayDay);
    ("skills", KArray, cell_skills);
    ("resourceWorkers", KObject, cell_resourceWorkers);
    ("manuallyUnlockedResources", KArray, cell_manuallyUnlockedResources) ].

Section Fallbacks.

Variable render : LogEntry -> string.

(** What [deserializeState] leaves in each cell when the document says
    nothing usable about it: a constant for most cells, the value held
    before the call ([cur]) for five of them. *)
Definition fallbackCells (cur : Cells) : Cells :=
  {| cell_resources := JArr (map resource_json INITIAL_RESOURCES);
     cell_tick := JNum 0;
     cell_stageIndex := JNum 0;
     cell_showTutorial := JBool false;
     cell_showIntroDialogue := JBool false;
     cell_introIndex := JNum 0;
     cell_unlockedChapters := JArr [];
     cell_activeChapterId := JStr initialChapterId;
     cell_milestones := JArr [];
     cell_completedPurchases := JArr [];
     cell_purchaseCounts := JObj ∅;
     cell_civilizationLevel := JNum 0;
     cell_manualCooldowns := cell_manualCooldowns cur;
     cell_manualHarvestActive := cell_manualHarvestActive cur;
     cell_log := JArr (map (fun e => JStr (render e)) localizedDefaults);
     cell_districts := JArr (map district_json DISTRICTS);
     cell_craftingRecipe := JNull;
     cell_craftingProgress := cell_craftingProgress cur;
     cell_equippedTools := cell_equippedTools cur;
     cell_facilityCounts := JObj INITIAL_FACILITY_COUNTS_json;
     cell_selectedFacilityId := JNull;
     cell_tenantRecruitCooldown := JNum 0;
     cell_pendingTenants := JNum 0;
     cell_tenantTimeout := JNum 0;
     cell_assignedTenants := JNum 0;
     cell_tenantMorale := JArr [];
     cell_autoPayWages := JBool false;
     cell_lastPayDay := JNum 0;
     cell_skills := JArr (map skill_json INITIAL_SKILLS);
     cell_resourceWorkers := record_json JInt all_zero;
     cell_manuallyUnlockedResources := cell_manuallyUnlockedResources cur |}.

End Fallbacks.

(** What a session keeps true about rates: no building count and no worker
    count is negative, and every rate is a multiple of one tenth that
    covers the passive rate of the buildings standing. *)
Definition rate_ok (ds : list District) (r : Resource) : Prop :=
  whole_tenths (rate r) /\ (spec_passiveRate ds (key r) <= rate r)%Q.

Definition rates_fields (rs : list Resource) (ds : list District)
    (workers : ResourceKey -> Z) : Prop :=
  Forall2 same_catalogue_district ds DISTRICTS
  /\ Forall (fun d => 0 <= buildingCount d) ds
  /\ (forall k, 0 <= workers k)
  /\ Forall (rate_ok ds) rs.

Definition rates_invariant (s : Game) : Prop :=
  rates_fields (resources s) (districts s) (resourceWorkers s).

(** The boosts of the districts whose id is [id], for one resource. *)
Definition matching_boost (id : string) (ds : list District)
    (k : ResourceKey) : Q :=
  foldr (fun d sum =>
           if String.eqb (district_id d) id
           then (default 0%Q (delta_get (productionBoost d) k) + sum)%Q
           else sum)
    0%Q ds.

(** ** The save manager's writes ([savemanager.go])

    [SaveGame], [SetLastSave] and [DeleteSave] change the disk.  A [Disk] is
    a kind of disk state together with the calls the save manager makes on
    it: what [ioutil.ReadDir] and [ioutil.ReadFile] answer ([files]), and
    [ioutil.WriteFile] and [os.Remove], which return the next state and the
    Go [error].  The permission bits are left out. *)

Module SaveDisk.

Import SaveManager.

Record Disk : Type := mkDisk {
  disk : Type;
  files : disk -> FileSystem;
  WriteFile : string -> string -> disk -> disk * option error;
  Remove : string -> disk -> disk * option error
}.

Arguments files {_} _.
Arguments WriteFile {_} _ _ _.
Arguments Remove {_} _ _.

Definition SaveGame {D : Disk} (s : SaveManager) (saveName saveData : string)
    (st : disk D) : disk D * option error :=
  let filename := Join (dataDir s) (String.append saveName ".json") in
  WriteFile filename saveData st.

Definition SetLastSave {D : Disk} (s : SaveManager) (saveName : string)
    (st : disk D) : disk D * option error :=
  let filename := Join (dataDir s) ".last_save" in
  WriteFile filename saveName st.

Definition DeleteSave {D : Disk} (s : SaveManager) (saveName : string)
    (st : disk D) : disk D * option error :=
  let filename := Join (dataDir s) (String.append saveName ".json") in
  Remove filename st.

(** A name that is one path element: it holds no separator. *)
Fixpoint no_separator (name : string) : bool :=
  match name with
  | EmptyString => true
  | String c rest => negb (Ascii.eqb c Separator) && no_separator rest
  end.

(** A name [filepath.Clean] keeps as it is: not empty, not [.], not [..]. *)
Definition kept_by_Clean (name : string) : bool :=
  negb (String.eqb name "" || String.eqb name "." || String.eqb name "..").

(** What [filepath.Join] puts before a kept one-element name. *)
Definition clean_prefix (rooted : bool) (before : list string) : string :=
  String.append (root_of rooted)
    match rev (foldl (clean_element rooted) [] before) with
    | [] => ""
    | out => String.append (join_elements out) "/"
    end.

Definition join_prefix (dir : string) : string :=
  if String.eqb dir "" then ""
  else clean_prefix (is_rooted dir) (path_elements dir).

(** What the save manager relies on from the disk.  A file that was written
    reads back; writing or removing one path leaves every other path as it
    was; a file written into a directory under a one-element name that
    [filepath.Clean] keeps shows in a listing of that directory as a
    regular file; a removed file no longer
    reads, and a failed removal changes nothing. *)
Record DiskLaws (D : Disk) : Prop := mkDiskLaws {
  write_read :
    forall path data (st st' : disk D),
      WriteFile path data st = (st', None) ->
      ReadFile (files st') path = inl data;
  write_other :
    forall path data (st st' : disk D) err other,
      WriteFile path data st = (st', err) ->
      other <> path ->
      ReadFile (files st') other = ReadFile (files st) other;
  write_listed :
    forall dir name data (st st' : disk D) entries,
      WriteFile (Join dir name) data st = (st', None) ->
      no_separator name = true ->
      kept_by_Clean name = true ->
      ReadDir (files st') dir = inl entries ->
      In (mkFileInfo name false) entries;
  remove_read :
    forall path (st st' : disk D),
      Remove path st = (st', None) ->
      exists err, ReadFile (files st') path = inr err;
  remove_other :
    forall path (st st' : disk D) err other,
      Remove path st = (st', err) ->
      other <> path ->
      ReadFile (files st') other = ReadFile (files st) other;
  remove_failed :
    forall path (st st' : disk D) err,
      Remove path st = (st', Some err) ->
      files st' = files st
}.

(** [GetAllSaves] as a filter followed by a map. *)
Definition is_save_file (file : FileInfo) : bool :=
  negb (IsDir file) && HasSuffix (Name file) ".json".

Definition save_names (entries : list FileInfo) : list string :=
  map (fun file => TrimSuffix (Name file) ".json")
    (List.filter is_save_file entries).

(** *** A disk in memory

    The regular files of a disk, by path; there are no directories of their
    own, a directory lists the files stored right below it. *)
Fixpoint strip_prefix (prefix s : string) : option string :=
  match prefix, s with
  | EmptyString, _ => Some s
  | String a prefix', String b s' =>
      if Ascii.eqb a b then strip_prefix prefix' s' else None
  | String _ _, EmptyString => None
  end.

Definition entry_of (dir : string) (path : string) : option FileInfo :=
  match strip_prefix (join_prefix dir) path with
  | Some name =>
      if no_separator name && kept_by_Clean name
      then Some (mkFileInfo name false)
      else None
  | None => None
  end.

Definition memory_files (st : gmap string string) : FileSystem :=
  mkFileSystem
    (fun dir => inl (omap (fun entry => entry_of dir (fst entry))
                       (map_to_list st)))
    (fun path => match st !! path with
                 | Some data => inl data
                 | None => inr ErrNotExist
                 end).

Definition memory_disk : Disk :=
  mkDisk (gmap string string) memory_files
    (fun path data st => (<[path := data]> st, None))
    (fun path st => match st !! path with
                    | Some _ => (delete path st, None)
                    | None => (st, Some ErrNotExist)
                    end).

End SaveDisk.

(** ** The rest of the page

    The effects, handlers and memoised views of [Home] that the sections
    above left aside. *)

(** *** Time *)

Definition isNight (tick : Z) : bool :=
  phaseIndex tick =? PHASES_length - 1.

Definition yearCount (tick : Z) : Z := (day tick - 1) / DAYS_PER_YEAR + 1.

(** The phase line of the council log, run after every change of [tick]:
    it is pushed every second day. *)
Definition phaseLogEffect (s : Game) : Game :=
  if (tick s =? 0) || negb (Z.rem (tick s) (PHASES_length * 2) =? 0) then s
  else pushLog (LogPhase (tick s)) s.

(** *** Story panel *)

(** The chapter buttons: one for every unlocked id that the catalogue
    holds, shown once more than one chapter is unlocked. *)
Definition selectChapter (chapterId : string) (s : Game) : Game :=
  if (1 <? Z.of_nat (length (unlockedChapters s)))
     && includes (unlockedChapters s) chapterId
     && existsb (fun chapter => String.eqb (chapter_id chapter) chapterId)
          STORY_CHAPTERS
  then setActiveChapterId chapterId s
  else s.

Definition find_chapter (id : string) : option StoryChapter :=
  List.find (fun chapter => String.eqb (chapter_id chapter) id) STORY_CHAPTERS.

Definition activeChapter (s : Game) : option StoryChapter :=
  let first := head STORY_CHAPTERS in
  if String.eqb (activeChapterId s) "" then first
  else
    match find_chapter (activeChapterId s) with
    | Some chapter => Some chapter
    | None => first
    end.

Definition nextChapter (s : Game) : option StoryChapter :=
  List.find (fun chapter =>
               negb (includes (unlockedChapters s) (chapter_id chapter)))
    STORY_CHAPTERS.

(** *** New game

    [trimmedName] is [newGameName.trim()].  The setters the handler calls
    are these; [nextStageRef], the registered timeouts, [pendingAllocation]
    and [activeBoosts] are not among them. *)
Definition handleNewGame (trimmedName : string) (s : Game) : Game :=
  if String.eqb trimmedName "" then s
  else
    let s := setResources INITIAL_RESOURCES s in
    let s := setTick 0 s in
    let s := setStageIndex 0 s in
    let s := setShowTutorial false s in
    let s := setShowIntroDialogue true s in
    let s := setIntroIndex 0 s in
    let s :=
      setUnlockedChapters
        (if String.eqb initialChapterId "" then [] else [initialChapterId])
        s in
    let s := setActiveChapterId initialChapterId s in
    let s := setMilestones [] s in
    let s := setCompletedPurchases [] s in
    let s := setPurchaseCounts ∅ s in
    let s := setCivilizationLevel 0 s in
    let s := setManualCooldowns all_zero s in
    let s := setManualHarvestActive all_false s in
    let s := setLog localizedDefaults s in
    let s := setDistricts DISTRICTS s in
    let s := setCraftingRecipe None s in
    let s := setCraftingProgress 0 s in
    let s := setEquippedTools ∅ s in
    let s := setFacilityCounts INITIAL_FACILITY_COUNTS s in
    let s := setSelectedFacilityId None s in
    let s := setTenantRecruitCooldown 0 s in
    let s := setPendingTenants 0 s in
    let s := setTenantTimeout 0 s in
    let s := setAssignedTenants 0 s in
    let s := setTenantMorale [] s in
    let s := setAutoPayWages false s in
    let s := setLastPayDay 0 s in
    let s := setSkills INITIAL_SKILLS s in
    let s := setResourceWorkers all_zero s in
    setManuallyUnlockedResources [] s.

(** *** A play session

    Everything that moves the state while the page is open, short of
    loading a save: the events of [step], the phase line, a click on a
    chapter button and a new game. *)
Inductive SessionEvent : Type :=
| SeStep (e : Event)
| SePhaseLogEffect
| SeSelectChapter (chapterId : string)
| SeNewGame (trimmedName : string).

Definition session_step (e : SessionEvent) (s : Game) : Game :=
  match e with
  | SeStep e => step e s
  | SePhaseLogEffect => phaseLogEffect s
  | SeSelectChapter chapterId => selectChapter chapterId s
  | SeNewGame trimmedName => handleNewGame trimmedName s
  end.

Definition run_session (events : list SessionEvent) (s : Game) : Game :=
  foldl (fun acc e => session_step e acc) s events.

Inductive session : Game -> Prop :=
| session_start : session initialGame
| session_next e s : session s -> session (session_step e s).

(** *** Unlocked and locked views *)

Definition includes_key (l : list ResourceKey) (k : ResourceKey) : bool :=
  existsb (fun k' => bool_decide (k' = k)) l.

Definition stage_reached (s : Game) (stage : option Z) : bool :=
  match stage with
  | Some stage => stage <=? stageIndex s
  | None => false
  end.

Definition unlockedResources (s : Game) : list Resource :=
  List.filter
    (fun resource =>
       let info := RESOURCE_UNLOCK_DATA (key resource) in
       if stage_reached s (unlock_stage info) then true
       else if includes_key (manuallyUnlockedResources s) (key resource)
       then true
       else false)
    (resources s).

Definition lockedResources (s : Game) : list Resource :=
  List.filter
    (fun resource =>
       let info := RESOURCE_UNLOCK_DATA (key resource) in
       if stage_reached s (unlock_stage info) then false
       else if includes_key (manuallyUnlockedResources s) (key resource)
       then false
       else true)
    (resources s).

Definition unlockedDistricts (s : Game) : list District :=
  List.filter (fun district => district_requiredStage district <=? stageIndex s)
    (districts s).

Definition unlockedActions (s : Game) : list Action :=
  List.filter (fun action => action_requiredStage action <=? stageIndex s)
    ACTIONS.

Definition lockedActions (s : Game) : list Action :=
  List.filter (fun action => stageIndex s <? action_requiredStage action)
    ACTIONS.

Definition unlockedRecipes (s : Game) : list Recipe :=
  List.filter (fun recipe => recipe_requiredStage recipe <=? stageIndex s)
    RECIPES.

Definition lockedRecipes (s : Game) : list Recipe :=
  List.filter (fun recipe => stageIndex s <? recipe_requiredStage recipe)
    RECIPES.

(** *** Progress of the active stage *)

(** [Math.round] *)
Definition Math_round (q : Q) : Z := Qfloor (q + (1 # 2)).

Definition stageGoals (s : Game) : list TutorialGoal :=
  match js_index TUTORIAL_STAGES (stageIndex s) with
  | Some activeStage => goals activeStage
  | None => []
  end.

Definition goalValue (goal : TutorialGoal) (resource : Resource) : Q :=
  match metric goal with
  | Some metric_capacity => capacity resource
  | _ => amount resource
  end.

(** The targets of the catalogue are positive, so that the division is the
    division of rationals. *)
Definition stageCompletionPercent (s : Game) : Z :=
  match stageGoals s with
  | [] => 100
  | _ =>
      let total :=
        foldl (fun acc goal =>
                 match find_resource (resources s) (goal_resource goal) with
                 | None => acc
                 | Some resource =>
                     (acc + Math_min 1 (goalValue goal resource / target goal))%Q
                 end)
          0%Q (stageGoals s) in
      Math_round
        (total / inject_Z (Z.of_nat (length (stageGoals s))) * 100)
  end.

(** The [percent] field of [getGoalProgress]. *)
Definition getGoalProgress_percent (s : Game) (goal : TutorialGoal) : Q :=
  match find_resource (resources s) (goal_resource goal) with
  | None => 0%Q
  | Some resource =>
      Math_min 100 (Math_max 0 (goalValue goal resource / target goal * 100))
  end.

(** *** What a session keeps true, beyond the ledger *)

(** Workers and tenants: no count is negative, no more workers are
    assigned than there are tenants, every tenant has a morale entry
    between 0 and 100, and the tenants fit the housing that stands. *)
Definition workforce_fields (workers : ResourceKey -> Z) (assigned : Z)
    (morale : list Z) (pending : Z) (counts : gmap string Z) : Prop :=
  (forall k, 0 <= workers k)
  /\ sum_workers RESOURCE_KEYS workers <= assigned
  /\ Z.of_nat (length morale) = assigned
  /\ Forall (fun m => 0 <= m <= 100) morale
  /\ 0 <= pending
  /\ map_Forall (fun _ count => 0 <= count) counts
  /\ assigned
     <= foldl (fun total facility =>
                 total
                 + default 0 (counts !! facility_id facility)
                   * facility_capacity facility)
          0 FACILITIES.

Definition workforce_invariant (s : Game) : Prop :=
  workforce_fields (resourceWorkers s) (assignedTenants s) (tenantMorale s)
    (pendingTenants s) (facilityCounts s).

(** The chapters whose trigger a session can meet. *)
Definition REACHABLE_CHAPTERS : list string :=
  ["chapter-1"; "chapter-2"; "chapter-3"; "chapter-4"; "chapter-5";
   "chapter-7"; "chapter-9"].

Definition story_fields (purchases : list string) (counts : gmap string Z)
    (civilization : Z) (labels : list string) (unlocked : list string)
    (active : string) : Prop :=
  purchases = []
  /\ counts = ∅
  /\ civilization = 0
  /\ Forall (fun label => label = "tutorial-overlay-dismissed") labels
  /\ Forall (fun id => In id REACHABLE_CHAPTERS) unlocked
  /\ NoDup unlocked
  /\ In active unlocked.

Definition story_invariant (s : Game) : Prop :=
  story_fields (completedPurchases s) (purchaseCounts s)
    (civilizationLevel s) (milestones s) (unlockedChapters s)
    (activeChapterId s).

(** Counters and timers. *)
Definition counters_fields (t stage intro progress recruit timeout : Z)
    (pendingTimeouts : list Timeout) (cooldowns : ResourceKey -> Z)
    (lines : list LogEntry) : Prop :=
  0 <= t
  /\ 0 <= stage < TUTORIAL_STAGES_length
  /\ 0 <= intro < INTRO_DIALOGUE_length
  /\ 0 <= progress <= 100
  /\ 0 <= recruit <= 300
  /\ 0 <= timeout <= 120
  /\ Forall (fun callback =>
               0 < timeout_nextIndex callback < TUTORIAL_STAGES_length)
       pendingTimeouts
  /\ (forall k, 0 <= cooldowns k <= MANUAL_HARVEST_COOLDOWN_SECONDS)
  /\ (1 <= length lines <= 6)%nat.

Definition counters_invariant (s : Game) : Prop :=
  counters_fields (tick s) (stageIndex s) (introIndex s)
    (craftingProgress s) (tenantRecruitCooldown s) (tenantTimeout s)
    (timeouts s) (manualCooldowns s) (log s).

(** Timed boosts: one per directive at most, each with ticks left. *)
Definition boosts_ok (boosts : list ActiveBoost) : Prop :=
  NoDup (map boost_actionId boosts)
  /\ Forall (fun b => 0 < remainingTicks b <= totalDuration b) boosts.

(** [n] runs of a handler or of a timer callback. *)
Definition repeated (n : nat) (f : Game -> Game) (s : Game) : Game :=
  Nat.iter n f s.

(** A skill as a session keeps it: its level lies between 1 and the maximum
    level, and its experience is a multiple of ten below the experience the
    level asks for. *)
Definition skill_ok (skill : Skill) : Prop :=
  maxLevel skill = MAX_SKILL_LEVEL
  /\ 1 <= level skill <= MAX_SKILL_LEVEL
  /\ 0 <= experience skill < level skill * SKILL_EXP_PER_LEVEL
  /\ Z.rem (experience skill) 10 = 0.

(** The skill after [n] harvests that train it. *)
Definition trained (n : nat) (skill : Skill) : Skill :=
  Nat.iter n (fun sk => fst (harvestSkill (skill_type skill) sk)) skill.

(** *** The production formula of the specification, in a state

    The season multiplier is the entry of the table at the season index,
    and 1 where the table has none. *)
Definition spec_seasonMultiplier (seasonIdx : Z) : Q :=
  default 1%Q (SUNLEAF_SEASON_MULTIPLIERS !! Z.to_nat seasonIdx).

(** [r'] is [r] advanced by the formula at tick [t], with the workers and
    the districts of [s]. *)
Definition advanced_by_formula (s : Game) (t : Z) (r r' : Resource) : Prop :=
  key r' = key r /\ rate r' = rate r /\ capacity r' = capacity r
  /\ (amount r'
      == spec_nextAmount (resourceWorkers s (key r))
           (spec_passiveRate (districts s) (key r))
           (spec_seasonMultiplier (seasonIndex t)) r)%Q.

(** *** A cost that was paid

    [r'] is [r] after [cost] was taken from the ledger once: key, rate and
    capacity are those of [r]; a resource the cost does not name keeps its
    amount, and one it names holds its amount plus the (negative) entry,
    rounded to one decimal, which is that sum itself when the amount was a
    multiple of one tenth. *)
Definition cost_paid (cost : ResourceDelta) (r r' : Resource) : Prop :=
  key r' = key r /\ rate r' = rate r /\ capacity r' = capacity r
  /\ match delta_get cost (key r) with
     | None => amount r' = amount r
     | Some entry =>
         (amount r' == toFixed1 (amount r + entry))%Q
         /\ (whole_tenths (amount r) -> (amount r' == amount r + entry)%Q)
     end.

(** *** The tool that shortens a harvest

    Timber is cut with a saw, stone with a pickaxe and sunleaf with shears;
    the other resources have no tool. *)
Definition TOOL_OF_RESOURCE : list (ResourceKey * string) :=
  [(wood, "saw"); (stone, "pickaxe"); (sunleaf, "shears")].

(** [reduction] is the cooldown reduction of the tool equipped for [k]: that
    of the catalogue's tool whose id is equipped under the tool type of
    [k], and 0 when no tool is equipped for [k]. *)
Definition tool_reduction (s : Game) (k : ResourceKey) (reduction : Z)
    : Prop :=
  (exists toolType toolId tool,
      In (k, toolType) TOOL_OF_RESOURCE
      /\ equippedTools s !! toolType = Some toolId
      /\ In tool TOOL_RECIPES
      /\ tool_id tool = toolId
      /\ reduction = cooldownReduction tool)
  \/ ((forall toolType,
         In (k, toolType) TOOL_OF_RESOURCE ->
         equippedTools s !! toolType = None)
      /\ reduction = 0).

(** ** The store ([lib/storyline.ts], second document) *)

Module Store.

Inductive StoreResourceKey : Type :=
| store_sunleaf
| store_wood
| store_stone
| store_science
| store_energy.

(** [Partial<Record<StoreResourceKey, number>>], as [Object.entries] walks
    it. *)
Definition ResourceCost : Type := list (StoreResourceKey * Q).

Record SnapshotDetails : Type := mkDetails {
  details_amount : Q;
  details_capacity : Q;
  details_rate : Q
}.

(** The code tests [details] before it reads it, so a key may be absent. *)
Definition StorePurchaseSnapshot : Type :=
  StoreResourceKey -> option SnapshotDetails.

Definition canAfford (cost : ResourceCost) (snapshot : StorePurchaseSnapshot)
    : bool :=
  forallb (fun entry =>
             let '(key, value) := entry in
             if falsyQ value then true
             else
               match snapshot key with
               | Some details => Qle_bool value (details_amount details)
               | None => false
               end)
    cost.

Inductive Limit : Type :=
| LimitOnce
| LimitNumber (n : Z).

(** The pair is [{ count, allowed }]. *)
Definition nextPurchaseCount (itemId : string) (currentCounts : gmap string Z)
    (limit : option Limit) : Z * bool :=
  let existing := default 0 (currentCounts !! itemId) in
  match limit with
  | Some LimitOnce => (existing + 1, existing =? 0)
  | Some (LimitNumber n) => (existing + 1, existing <? n)
  | None => (existing + 1, true)
  end.

(** One snapshot holds at least as much as another: every resource the
    second knows is known to the first, with no smaller amount. *)
Definition holds_at_least (richer poorer : StorePurchaseSnapshot) : Prop :=
  forall key details,
    poorer key = Some details ->
    exists details',
      richer key = Some details'
      /\ (details_amount details <= details_amount details')%Q.

End Store.

(** ** Concrete states and documents used by the examples below *)

(** A file system on which every read fails. *)
Definition failing_fs : SaveManager.FileSystem :=
  SaveManager.mkFileSystem (fun _ => inr SaveManager.ErrPermission)
    (fun _ => inr SaveManager.ErrNotExist).

Definition home_manager : SaveManager.SaveManager :=
  SaveManager.mkSaveManager "/home/player/.valley-legend/data".

(** A data directory that holds a save, the sentinel file, a directory
    whose name ends in [.json] and a file named [.json]; no file reads. *)
Definition listing_fs : SaveManager.FileSystem :=
  SaveManager.mkFileSystem
    (fun _ =>
       inl [SaveManager.mkFileInfo "alpha.json" false;
            SaveManager.mkFileInfo ".last_save" false;
            SaveManager.mkFileInfo "backup.json" true;
            SaveManager.mkFileInfo ".json" false])
    (fun _ => inr SaveManager.ErrNotExist).

(** A disk in memory that holds one save, [autumn]. *)
Definition autumn_disk : gmap string string :=
  {[ "/home/player/.valley-legend/data/autumn.json" := "leaves" ]}.

(** Five tenants wait at City Hall, two cabins stand and one tenant is
    housed: three places are free. *)
Definition five_pending_three_free : Game :=
  setTenantTimeout 90
    (setPendingTenants 5
       (setTenantMorale [80]
          (setAssignedTenants 1
             (setFacilityCounts (<["cabin" := 2]> INITIAL_FACILITY_COUNTS)
                initialGame)))).

(** A ledger holding 25 timber, and the state one instant after a storage
    chest was started from it. *)
Definition wood_stocked : Game :=
  setResources
    [ mkResource sunleaf 0 0 40;
      mkResource wood 25 0 40;
      mkResource stone 0 0 30;
      mkResource science 0 0 25;
      mkResource energy 0 0 20;
      mkResource execution 0 0 10 ]
    initialGame.

Definition busy_crafting : Game := handleStartCraft "storage-chest" wood_stocked.

(** The state right after the first sunleaf harvest of a new game. *)
Definition after_first_harvest : Game := handleManualHarvest sunleaf initialGame.

(** A first-stage ledger with 80 sunleaf and 15 timber: the triggers of
    chapters 2 and 3 are met, chapter 1 is already unlocked. *)
Definition two_triggers_met : Game :=
  setResources
    [ mkResource sunleaf 80 0 120;
      mkResource wood 15 0 40;
      mkResource stone 0 0 30;
      mkResource science 0 0 25;
      mkResource energy 0 0 20;
      mkResource execution 0 0 10 ]
    initialGame.

(** Stage 0 with the sunleaf goal just reached: amount 20. *)
Definition goal_reached : Game :=
  setResources
    [ mkResource sunleaf 20 0 40;
      mkResource wood 0 0 40;
      mkResource stone 0 0 30;
      mkResource science 0 0 25;
      mkResource energy 0 0 20;
      mkResource execution 0 0 10 ]
    initialGame.

(** The third tick of a new game in which two terraced fields stand, one
    worker gathers sunleaf at rate 1 and 10 sunleaf are in stock. *)
Definition sunleaf_farm : Game :=
  setTick 3
    (setShowIntroDialogue false
       (setResourceWorkers (record_set all_zero sunleaf 1)
          (setDistricts
             (map (fun d =>
                     if String.eqb (district_id d) "terraced-fields"
                     then setBuildingCount d 2 else d) DISTRICTS)
             (setResources
                [ mkResource sunleaf 10 1 40;
                  mkResource wood 0 0 40;
                  mkResource stone 0 0 30;
                  mkResource science 0 0 25;
                  mkResource energy 0 0 20;
                  mkResource execution 0 0 10 ]
                initialGame)))).

(** Fourteen sunleaf harvests, each followed by its thirty seconds of
    cooldown: the last one reaches the capacity of 40. *)
Definition harvest_round : list Event :=
  EvManualHarvest sunleaf :: repeat EvCooldownSecond 30.

Definition fourteen_harvests : list Event :=
  concat (repeat harvest_round 14).

(** Day 20 of a session in which wages were last settled on day 19: two
    tenants, both at morale 40, no worker assigned, automatic payment off. *)
Definition unpaid_day : Game :=
  setTick 76
    (setLastPayDay 19
       (setShowIntroDialogue false
          (setTenantMorale [40; 40]
             (setAssignedTenants 2
                (setFacilityCounts
                   (<["cabin" := 1]> (<["city-hall" := 1]>
                                        INITIAL_FACILITY_COUNTS))
                   initialGame))))).

(** The values [Math.random()] returns during the first and the second run
    of the attrition effect on that day. *)
Definition rolls_first_run (i : nat) : Q :=
  match i with
  | O => (1 # 10)%Q
  | S _ => (9 # 10)%Q
  end.

Definition rolls_second_run (i : nat) : Q := (1 # 10)%Q.

(** A mid-game state: sunleaf is cooling down for 12 more seconds and a
    craft is 7 seconds in. *)
Definition mid_game : Game :=
  setCraftingProgress 7
    (setCraftingRecipe (Some "storage-chest")
       (setManualHarvestActive (record_set all_false sunleaf true)
          (setManualCooldowns (record_set all_zero sunleaf 12) initialGame))).

(** A hand-written document that says nothing, and one whose only field
    has the wrong type. *)
Definition empty_document : json := JObj ∅.

Definition malformed_cooldowns_document : json :=
  JObj {[ "manualCooldowns" := JStr "none" ]}.

(** A rendering of the log lines that keeps only the kind of each line. *)
Definition render_kind (e : LogEntry) : string :=
  match e with
  | LogDefault _ => "default"
  | LogUnlockResource _ => "unlock-resource"
  | LogSkillLevelUp _ _ => "skill-level-up"
  | LogManualHarvest _ _ => "manual-harvest"
  | LogExpand _ => "expand"
  | LogDemolish _ => "demolish"
  | LogCraftStart _ => "craft-start"
  | LogBuildFacility _ => "build-facility"
  | LogRecruit => "recruit"
  | LogAssignTenants _ => "assign-tenants"
  | LogAssignWorker _ => "assign-worker"
  | LogUnassignWorker _ => "unassign-worker"
  | LogWagesInsufficient _ => "wages-insufficient"
  | LogWagesPaid _ _ => "wages-paid"
  | LogAllocate _ _ _ => "allocate"
  | LogChapter _ => "chapter"
  | LogWagesMissed => "wages-missed"
  | LogAttrition _ => "attrition"
  | LogStageOpened _ => "stage-opened"
  | LogPhase _ => "phase"
  | LogToolCrafted _ => "tool-crafted"
  | LogRecipeCrafted _ => "recipe-crafted"
  | LogTenantTimeout _ => "tenant-timeout"
  | LogAction _ => "action"
  end.

Definition mid_game_cells : Cells := cells_of_game render_kind mid_game.

(** One tenant at morale 40 who gathers sunleaf, on a day whose wages are
    not settled. *)
Definition lone_worker : Game :=
  setResourceWorkers (record_set all_zero sunleaf 1)
    (setTenantMorale [40] (setAssignedTenants 1 unpaid_day)).

(** A reinforced vault (craft time 120) was started a hundred seconds ago. *)
Definition vault_at_hundred : Game :=
  setCraftingProgress 100 (setCraftingRecipe (Some "reinforced-vault")
                             initialGame).

(** Day 3 of a session in which wages were last settled on day 1: two
    tenants, one of them already at morale 5. *)
Definition two_days_unpaid : Game :=
  setTick 8
    (setLastPayDay 1
       (setShowIntroDialogue false
          (setTenantMorale [100; 5] (setAssignedTenants 2 initialGame)))).

(** A session that founds a settlement: the dialogue is skipped, thirty
    rounds of sunleaf and timber harvests fill the stores, a City Hall and
    a cabin are built, tenants are recruited and housed, two of them are
    sent to the sunleaf terraces, a terrace is laid out and the first
    phase passes. *)
Definition gathering_round : list SessionEvent :=
  SeStep (EvManualHarvest sunleaf) :: SeStep (EvManualHarvest wood)
  :: repeat (SeStep EvCooldownSecond) 30.

Definition settlement_session : list SessionEvent :=
  SeStep EvIntroSkip
  :: concat (repeat gathering_round 30)
  ++ [ SeStep (EvBuildFacility "city-hall");
       SeStep (EvBuildFacility "cabin");
       SeStep EvRecruitTenants;
       SeStep EvAssignTenants;
       SeStep (EvAssignWorker sunleaf);
       SeStep (EvAssignWorker sunleaf) ]
  ++ concat (repeat gathering_round 15)
  ++ [ SeStep (EvExpand "terraced-fields");
       SeStep EvTickTimer;
       SeStep EvProductionEffect;
       SePhaseLogEffect;
       SeStep EvWagesEffect;
       SeStep EvChapterUnlockEffect;
       SeStep EvStageAdvanceEffect ].

Definition settlement : Game := run_session settlement_session initialGame.

(** The settlement after ten harvests of the council's own energy, which
    pay for the timed directive [forage-sunleaf], and one phase under its
    boost. *)
Definition council_round : list SessionEvent :=
  SeStep (EvManualHarvest execution) :: repeat (SeStep EvCooldownSecond) 30.

Definition foraging_session : list SessionEvent :=
  settlement_session
  ++ concat (repeat council_round 10)
  ++ [ SeStep (EvAction 0);
       SeStep EvBoostRateEffect;
       SeStep EvTickTimer;
       SeStep EvBoostExpiryEffect;
       SeStep EvProductionEffect ].

Definition foraging : Game := run_session foraging_session initialGame.

(** The settlement once its recruit cooldown has run out. *)
Definition rested_settlement : Game :=
  repeated 300 recruitCooldownSecond settlement.

(** Two store snapshots, the second with more sunleaf and with stone. *)
Definition lean_snapshot : Store.StorePurchaseSnapshot :=
  fun key =>
    match key with
    | Store.store_sunleaf => Some (Store.mkDetails 45 120 0)
    | Store.store_wood => Some (Store.mkDetails 25 40 0)
    | _ => None
    end.

Definition full_snapshot : Store.StorePurchaseSnapshot :=
  fun key =>
    match key with
    | Store.store_sunleaf => Some (Store.mkDetails 60 120 0)
    | Store.store_wood => Some (Store.mkDetails 25 40 0)
    | Store.store_stone => Some (Store.mkDetails 10 30 0)
    | _ => None
    end.

(** The settlement at the first tick of the 365th day of its first year. *)
Definition year_end : Game :=
  run_session (settlement_session ++ repeat (SeStep EvTickTimer) 1455)
    initialGame.

(** The settlement after it made wooden shears, which take 25 seconds. *)
Definition shears_equipped : Game :=
  run_session
    (settlement_session
     ++ SeStep (EvStartToolCraft "wooden-shears")
        :: repeat (SeStep EvCraftingSecond) 25)
    initialGame.

(** The settlement once the council has the energy for a directive, and
    the one timed directive of the catalogue. *)
Definition council_ready : Game :=
  run_session (settlement_session ++ concat (repeat council_round 10))
    initialGame.

Definition forage_sunleaf : Action :=
  mkAction "forage-sunleaf" (Some 300) (Some [(execution, -5)%Q])
    (Some [(sunleaf, 2 # 10)%Q]) None 0.

(** * Properties *)

(** ** Shared lemmas and tactics *)

Lemma pushLogs_only_log (entries : list LogEntry) (s : Game) :
  pushLogs entries s = setLog (log (pushLogs entries s)) s.
Proof.
  revert s. induction entries as [|e entries IH]; intros s.
  - destruct s; reflexivity.
  - unfold pushLogs in *. simpl. rewrite IH. reflexivity.
Qed.

(** Unfolds a handler down to setter calls and splits its tests. *)
Ltac unfold_handlers :=
  unfold step, tickTimer, productionEffect, boostExpiryEffect,
    boostRateEffect, wagesEffect, handlePayWages, attritionEffect,
    stageAdvanceEffect, fireTimeout, runTimeout, chapterUnlockEffect,
    cooldownSecond, recruitCooldownSecond, tenantTimeoutSecond,
    craftingSecond, handleManualHarvest, handleUnlockResource, handleExpand,
    handleDemolish, handleStartCraft, handleStartToolCraft,
    handleAllocateCapacity, handleBuildFacility, handleRecruitTenants,
    handleAssignTenants, handleAssignWorker, handleUnassignWorker,
    handleDismissTutorial, registerMilestone, introContinue, introSkip,
    facilitySelectionEffect, handleAction, pushLog in *.

(** Splits the innermost test first, so that a [let '(a, b) := ...] is only
    split once its right-hand side is a pair. *)
Ltac split_tests :=
  repeat match goal with
         | |- context [pushLogs ?l ?s] =>
             rewrite (pushLogs_only_log l s);
             generalize (log (pushLogs l s)); intros ?
         | |- context [match ?x with _ => _ end] =>
             lazymatch x with
             | context [match _ with _ => _ end] => fail
             | _ => destruct x eqn:?
             end
         end.

Ltac handler_cases := unfold_handlers; split_tests; cbn.



(** ** Save manager *)

(** C10: [GetAllSaves] and [GetLastSave] return a nil error whatever the
    file system answers; when the data directory cannot be read
    [GetAllSaves] returns the empty list, and when the sentinel file cannot
    be read [GetLastSave] returns the empty string. *)
Theorem save_listing_never_errors
    (fs : SaveManager.FileSystem) (s : SaveManager.SaveManager) :
  snd (SaveManager.GetAllSaves fs s) = None
  /\ snd (SaveManager.GetLastSave fs s) = None
  /\ (forall err,
        SaveManager.ReadDir fs (SaveManager.dataDir s) = inr err ->
        SaveManager.GetAllSaves fs s = ([], None))
  /\ (forall err,
        SaveManager.ReadFile fs
          (SaveManager.Join (SaveManager.dataDir s) ".last_save") = inr err ->
        SaveManager.GetLastSave fs s = ("", None)).
Proof.
  unfold SaveManager.GetAllSaves, SaveManager.GetLastSave.
  repeat split.
  - destruct (SaveManager.ReadDir fs _); reflexivity.
  - destruct (SaveManager.ReadFile fs _); reflexivity.
  - intros err Herr. rewrite Herr. reflexivity.
  - intros err Herr. rewrite Herr. reflexivity.
Qed.

Lemma save_listing_never_errors_witness :
  SaveManager.GetAllSaves failing_fs home_manager = ([], None)
  /\ SaveManager.GetLastSave failing_fs home_manager = ("", None).
Proof.
  destruct (save_listing_never_errors failing_fs home_manager)
    as (_ & _ & Hdir & Hfile).
  split.
  - apply (Hdir SaveManager.ErrPermission). reflexivity.
  - apply (Hfile SaveManager.ErrNotExist). reflexivity.
Defined.

(** By contrast [LoadGame] hands the read error to its caller. *)
Lemma LoadGame_propagates_error fs s saveName err :
  SaveManager.ReadFile fs
    (SaveManager.Join (SaveManager.dataDir s)
       (String.append saveName ".json")) = inr err ->
  SaveManager.LoadGame fs s saveName = ("", Some err).
Proof.
  intros Herr. unfold SaveManager.LoadGame. rewrite Herr. reflexivity.
Qed.

(** Only regular files ending in [.json] are listed, without the suffix. *)
Example GetAllSaves_lists_json_files :
  SaveManager.GetAllSaves
    (SaveManager.mkFileSystem
       (fun _ =>
          inl [SaveManager.mkFileInfo "alpha.json" false;
               SaveManager.mkFileInfo ".last_save" false;
               SaveManager.mkFileInfo "backup.json" true;
               SaveManager.mkFileInfo "beta.json" false])
       (fun _ => inr SaveManager.ErrNotExist))
    home_manager
  = (["alpha"; "beta"], None).
Proof. reflexivity. Qed.

(** ** Tenant assignment *)

(** C8: with tenants pending and housing available, assignment moves
    [min(pendingTenants, availableHousing)] tenants from pending to
    assigned, appends that many morale entries equal to 100 and resets
    [tenantTimeout] to 0, also when some tenants stay pending. *)
Theorem handleAssignTenants_moves_min (s : Game) :
  0 < pendingTenants s ->
  0 < availableHousing s ->
  let toAssign := Z.min (pendingTenants s) (availableHousing s) in
  let s' := handleAssignTenants s in
  pendingTenants s' = pendingTenants s - toAssign
  /\ assignedTenants s' = assignedTenants s + toAssign
  /\ tenantMorale s' = tenantMorale s ++ repeat 100 (Z.to_nat toAssign)
  /\ Z.of_nat (length (tenantMorale s'))
     = Z.of_nat (length (tenantMorale s)) + toAssign
  /\ tenantTimeout s' = 0.
Proof.
  intros Hpending Hhousing toAssign s'.
  subst s'. unfold handleAssignTenants.
  destruct (pendingTenants s <=? 0) eqn:Hp; [lia|].
  fold toAssign.
  destruct (toAssign <=? 0) eqn:Hn; [subst toAssign; lia|].
  cbn. repeat split; try reflexivity.
  rewrite length_app, repeat_length. subst toAssign. lia.
Qed.

Lemma handleAssignTenants_moves_min_witness :
  pendingTenants (handleAssignTenants five_pending_three_free) = 2
  /\ assignedTenants (handleAssignTenants five_pending_three_free) = 4
  /\ tenantMorale (handleAssignTenants five_pending_three_free)
     = [80; 100; 100; 100]
  /\ tenantTimeout (handleAssignTenants five_pending_three_free) = 0.
Proof.
  assert (Hp : 0 < pendingTenants five_pending_three_free)
    by (vm_compute; reflexivity).
  assert (Hh : 0 < availableHousing five_pending_three_free)
    by (vm_compute; reflexivity).
  destruct (handleAssignTenants_moves_min five_pending_three_free Hp Hh)
    as (H1 & H2 & H3 & _ & H5).
  split; [|split; [|split]].
  - exact H1.
  - exact H2.
  - exact H3.
  - exact H5.
Defined.

(** Without pending tenants, or without free housing, nothing changes. *)
Lemma handleAssignTenants_rejected (s : Game) :
  pendingTenants s <= 0 \/ availableHousing s <= 0 ->
  handleAssignTenants s = s.
Proof.
  intros H. unfold handleAssignTenants.
  destruct (pendingTenants s <=? 0) eqn:Hp; [reflexivity|].
  destruct (Z.min (pendingTenants s) (availableHousing s) <=? 0) eqn:Hn;
    [reflexivity | lia].
Qed.

(** ** Crafting *)

Lemma craftingSecond_resources (s : Game) :
  resources (craftingSecond s) = resources s.
Proof. handler_cases; reflexivity. Qed.

Lemma craftingSeconds_resources (n : nat) (s : Game) :
  resources (Nat.iter n craftingSecond s) = resources s.
Proof.
  induction n as [|n IH]; [reflexivity|].
  simpl. rewrite craftingSecond_resources. exact IH.
Qed.

(** The storage chest takes ten timber off the 25 in stock, and the ledger
    reads the same when the chest is done a minute later. *)
Example storage_chest_costs_ten_timber :
  amount <$> find_resource (resources busy_crafting) wood = Some (150 # 10)%Q
  /\ amount <$> find_resource
                  (resources (Nat.iter 60 craftingSecond busy_crafting)) wood
     = Some (150 # 10)%Q
  /\ craftingRecipe (Nat.iter 60 craftingSecond busy_crafting) = None
  /\ pendingAllocation (Nat.iter 60 craftingSecond busy_crafting)
     = Some (mkPending "storage-chest" 10).
Proof. vm_compute. repeat split; reflexivity. Qed.

(** The crafting timer is not armed once [craftingProgress] has reached 100:
    a recipe whose craft time is above 100 seconds stays in the slot. *)
Lemma craft_stalls_at_hundred (s : Game) :
  100 <= craftingProgress s -> craftingSecond s = s.
Proof.
  intros H. unfold craftingSecond.
  destruct (craftingRecipe s) as [craftingId|]; [|reflexivity].
  destruct (100 <=? craftingProgress s) eqn:E; [|lia].
  rewrite orb_true_r. reflexivity.
Qed.

Example vault_never_completes (seconds : nat) :
  craftingRecipe (Nat.iter seconds craftingSecond vault_at_hundred)
  = Some "reinforced-vault".
Proof.
  induction seconds as [|n IH]; [reflexivity|].
  simpl. rewrite craft_stalls_at_hundred; [exact IH|].
  clear IH. induction n as [|n IH]; [vm_compute; discriminate|].
  simpl. rewrite craft_stalls_at_hundred; exact IH.
Qed.

(** ** Manual harvest *)

Lemma foldl_record_set_nonneg (keys : list ResourceKey)
    (prev acc : ResourceKey -> Z) :
  (forall k, 0 <= acc k) ->
  forall k,
    0 <= foldl (fun acc k => record_set acc k (Z.max 0 (prev k - 1))) acc
           keys k.
Proof.
  revert acc. induction keys as [|k0 keys IH]; intros acc Hacc k.
  - apply Hacc.
  - simpl. apply IH. intros k'. unfold record_set.
    destruct (decide (k' = k0)); [lia | apply Hacc].
Qed.

Lemma harvest_rejected_when_cooling (s : Game) (k : ResourceKey) :
  0 < manualCooldowns s k -> handleManualHarvest k s = s.
Proof.
  intros H. unfold handleManualHarvest.
  destruct (0 <? manualCooldowns s k) eqn:E; [reflexivity | lia].
Qed.

Lemma harvest_sets_cooldown (s : Game) (k : ResourceKey) :
  manualCooldowns s k <= 0 ->
  manualCooldowns (handleManualHarvest k s)
  = record_set (manualCooldowns s) k
      (Z.max 5 (30 - bonus_cooldownReduction (getEquippedToolBonus s k)))
  /\ manualHarvestActive (handleManualHarvest k s)
     = record_set (manualHarvestActive s) k true.
Proof.
  intros Hready. unfold handleManualHarvest.
  destruct (0 <? manualCooldowns s k) eqn:E; [lia|].
  unfold pushLog.
  destruct (SKILL_RESOURCE_MAP k); [rewrite pushLogs_only_log|];
    split; reflexivity.
Qed.

(** Cooldowns never go below zero in a session. *)
Lemma step_cooldowns_nonneg (e : Event) (s : Game) :
  (forall k, 0 <= manualCooldowns s k) ->
  forall k, 0 <= manualCooldowns (step e s) k.
Proof.
  intros Hs k.
  destruct e; try (handler_cases; solve [apply Hs]).
  - (* cooldown second *)
    unfold step, cooldownSecond.
    destruct (List.filter (manualHarvestActive s) RESOURCE_KEYS) as [|k0 ks]
      eqn:Hactive; [apply Hs|].
    assert (Hfold := foldl_record_set_nonneg (k0 :: ks) (manualCooldowns s)
                       (manualCooldowns s) Hs k).
    destruct (List.filter _ (k0 :: ks)); exact Hfold.
  - (* manual harvest *)
    unfold step.
    destruct (Z_lt_le_dec 0 (manualCooldowns s k0)) as [Hcool | Hready].
    + rewrite harvest_rejected_when_cooling by exact Hcool. apply Hs.
    + rewrite (proj1 (harvest_sets_cooldown s k0 Hready)).
      unfold record_set. destruct (decide (k = k0)); [lia | apply Hs].
Qed.

Lemma reachable_cooldowns_nonneg (s : Game) :
  reachable s -> forall k, 0 <= manualCooldowns s k.
Proof.
  induction 1 as [|e s _ IH].
  - intros k. cbn. unfold all_zero. lia.
  - apply step_cooldowns_nonneg. exact IH.
Qed.

(** Five sunleaf harvests of a new game with no tool, each followed by the
    thirty seconds of its cooldown, bring the amount to 15. *)
Example five_harvests_give_fifteen :
  let round s := Nat.iter 30 cooldownSecond (handleManualHarvest sunleaf s) in
  (amount <$> find_resource (resources (Nat.iter 5 round initialGame)) sunleaf
   = Some (150 # 10)%Q)
  /\ manualCooldowns (handleManualHarvest sunleaf initialGame) sunleaf = 30
  /\ manualCooldowns (Nat.iter 5 round initialGame) sunleaf = 0.
Proof. vm_compute. repeat split; reflexivity. Qed.

(** The wooden shears shorten the sunleaf cooldown to 25 seconds, and no
    tool brings it under 15. *)
Example shears_shorten_cooldown :
  manualCooldowns
    (handleManualHarvest sunleaf
       (setEquippedTools {["shears" := "wooden-shears"]} initialGame))
    sunleaf = 25
  /\ Forall (fun t => Z.max 5 (30 - cooldownReduction t) >= 15) TOOL_RECIPES.
Proof.
  split; [vm_compute; reflexivity|].
  unfold TOOL_RECIPES. repeat constructor; cbn; lia.
Qed.

(** ** Story chapters *)

Lemma includes_In (l : list string) (x : string) :
  includes l x = true <-> In x l.
Proof.
  unfold includes. rewrite existsb_exists. split.
  - intros (y & Hy & Heq). apply String.eqb_eq in Heq. subst. exact Hy.
  - intros Hx. exists x. split; [exact Hx | apply String.eqb_refl].
Qed.

Lemma includes_app (l1 l2 : list string) (x : string) :
  includes (l1 ++ l2) x = includes l1 x || includes l2 x.
Proof. unfold includes. apply existsb_app. Qed.

Lemma filter_sublist {A : Type} (f : A -> bool) (l : list A) :
  sublist (List.filter f l) l.
Proof.
  induction l as [|x l IH]; simpl.
  - constructor.
  - destruct (f x); [apply sublist_skip | apply sublist_cons]; exact IH.
Qed.

Lemma last_None_nil {A : Type} (l : list A) : last l = None -> l = [].
Proof.
  destruct l as [|x l]; [reflexivity|].
  intros H. exfalso. revert x H.
  induction l as [|y l IH]; intros x H; [discriminate|].
  apply (IH y). exact H.
Qed.

(** The effect either finds nothing new and changes nothing, or appends
    the batch. *)
Lemma chapterUnlockEffect_cases (s : Game) :
  (newlyUnlocked s = [] /\ chapterUnlockEffect s = s)
  \/ (exists latest,
        last (newlyUnlocked s) = Some latest
        /\ chapterUnlockEffect s
           = pushLog (LogChapter (chapter_id latest))
               (setActiveChapterId (chapter_id latest)
                  (setUnlockedChapters
                     (unlockedChapters s
                      ++ map chapter_id (newlyUnlocked s)) s))).
Proof.
  unfold chapterUnlockEffect.
  change (match STORY_CHAPTERS with [] => s | _ :: _ => ?x end) with x.
  cbv zeta.
  destruct (last (newlyUnlocked s)) as [latest|] eqn:Hlast.
  - right. exists latest. split; reflexivity.
  - left. split; [apply last_None_nil; exact Hlast | reflexivity].
Qed.

Lemma isTriggerMet_after_unlock (s : Game) (t : StoryTrigger) :
  isTriggerMet (chapterUnlockEffect s) t = isTriggerMet s t.
Proof.
  destruct (chapterUnlockEffect_cases s) as [(_ & ->) | (latest & _ & ->)];
    [reflexivity|].
  destruct t; reflexivity.
Qed.

Lemma unlocked_after_effect (s : Game) :
  exists batch,
    unlockedChapters (chapterUnlockEffect s)
    = unlockedChapters s ++ map chapter_id batch
    /\ batch = newlyUnlocked s.
Proof.
  exists (newlyUnlocked s). split; [|reflexivity].
  destruct (chapterUnlockEffect_cases s) as [(Hnil & ->) | (latest & _ & ->)].
  - rewrite Hnil. simpl. rewrite app_nil_r. reflexivity.
  - reflexivity.
Qed.

Lemma chapterUnlockEffect_complete (s : Game) (c : StoryChapter) :
  In c STORY_CHAPTERS ->
  isTriggerMet s (trigger c) = true ->
  In (chapter_id c) (unlockedChapters (chapterUnlockEffect s)).
Proof.
  intros Hin Hmet.
  destruct (unlocked_after_effect s) as (batch & -> & ->).
  apply in_or_app.
  destruct (includes (unlockedChapters s) (chapter_id c)) eqn:Hinc.
  - left. apply includes_In. exact Hinc.
  - right. apply in_map. apply filter_In.
    split; [exact Hin|]. rewrite Hinc, Hmet. reflexivity.
Qed.

Lemma newlyUnlocked_In (s : Game) (c : StoryChapter) :
  In c (newlyUnlocked s) <->
  In c STORY_CHAPTERS
  /\ includes (unlockedChapters s) (chapter_id c) = false
  /\ isTriggerMet s (trigger c) = true.
Proof.
  unfold newlyUnlocked. rewrite filter_In, andb_true_iff, negb_true_iff.
  reflexivity.
Qed.

Lemma last_Some_In {A : Type} (l : list A) (x : A) :
  last l = Some x -> In x l.
Proof.
  intros H. apply list_elem_of_In. eapply last_Some_elem_of. exact H.
Qed.

Lemma chapterUnlockEffect_idempotent (s : Game) :
  chapterUnlockEffect (chapterUnlockEffect s) = chapterUnlockEffect s.
Proof.
  destruct (chapterUnlockEffect_cases (chapterUnlockEffect s))
    as [(_ & H) | (latest & Hlast & _)]; [exact H|].
  exfalso.
  apply last_Some_In, newlyUnlocked_In in Hlast.
  destruct Hlast as (Hcat & Hnot & Hmet).
  rewrite isTriggerMet_after_unlock in Hmet.
  pose proof (chapterUnlockEffect_complete s latest Hcat Hmet) as Hdone.
  apply includes_In in Hdone. congruence.
Qed.

(** No event of a session removes an unlocked chapter. *)
Lemma step_keeps_unlocked (e : Event) (s : Game) (id : string) :
  In id (unlockedChapters s) -> In id (unlockedChapters (step e s)).
Proof.
  intros Hin.
  destruct e; try (handler_cases; solve [exact Hin]).
  unfold step.
  destruct (unlocked_after_effect s) as (batch & -> & _).
  apply in_or_app. left. exact Hin.
Qed.

(** C7: one run of the chapter-unlock effect appends to [unlockedChapters]
    exactly the catalogue chapters that were not unlocked and whose trigger
    holds, in catalogue order; the last of them becomes the active chapter;
    afterwards every chapter whose trigger holds is unlocked, a second run
    changes nothing, and no event of the session removes a chapter from
    [unlockedChapters]. *)
Theorem chapter_unlock_batch_monotonic (s : Game) :
  (exists batch,
      unlockedChapters (chapterUnlockEffect s)
      = unlockedChapters s ++ map chapter_id batch
      /\ sublist batch STORY_CHAPTERS
      /\ (forall c,
            In c batch <->
            In c STORY_CHAPTERS
            /\ ~ In (chapter_id c) (unlockedChapters s)
            /\ isTriggerMet s (trigger c) = true)
      /\ (forall latest,
            last batch = Some latest ->
            activeChapterId (chapterUnlockEffect s) = chapter_id latest)
      /\ (batch = [] -> chapterUnlockEffect s = s))
  /\ (forall c,
        In c STORY_CHAPTERS ->
        isTriggerMet s (trigger c) = true ->
        In (chapter_id c) (unlockedChapters (chapterUnlockEffect s)))
  /\ chapterUnlockEffect (chapterUnlockEffect s) = chapterUnlockEffect s
  /\ (forall e id,
        In id (unlockedChapters s) -> In id (unlockedChapters (step e s))).
Proof.
  split; [|split; [|split]].
  - exists (newlyUnlocked s).
    destruct (unlocked_after_effect s) as (batch & Happ & ->).
    split; [exact Happ|]. split; [apply filter_sublist|].
    split; [|split].
    + intros c. unfold newlyUnlocked. rewrite filter_In, andb_true_iff,
        negb_true_iff.
      split.
      * intros (Hcat & Hnot & Hmet). repeat split; try assumption.
        intros Hin. apply includes_In in Hin. congruence.
      * intros (Hcat & Hnot & Hmet). repeat split; try assumption.
        destruct (includes (unlockedChapters s) (chapter_id c)) eqn:E;
          [|reflexivity].
        apply includes_In in E. contradiction.
    + intros latest Hlast.
      destruct (chapterUnlockEffect_cases s)
        as [(Hnil & _) | (latest' & Hlast' & ->)].
      * rewrite Hnil in Hlast. discriminate.
      * rewrite Hlast in Hlast'. injection Hlast' as <-. reflexivity.
    + intros Hnil.
      destruct (chapterUnlockEffect_cases s)
        as [(_ & H) | (latest' & Hlast' & _)]; [exact H|].
      rewrite Hnil in Hlast'. discriminate.
  - apply chapterUnlockEffect_complete.
  - apply chapterUnlockEffect_idempotent.
  - intros e id. apply step_keeps_unlocked.
Qed.

Lemma chapter_unlock_batch_monotonic_witness :
  In "chapter-3" (unlockedChapters (chapterUnlockEffect two_triggers_met))
  /\ In "chapter-1"
       (unlockedChapters (step (EvManualHarvest wood) two_triggers_met)).
Proof.
  destruct (chapter_unlock_batch_monotonic two_triggers_met)
    as (_ & Hcomplete & _ & Hkeep).
  split.
  - apply (Hcomplete (mkChapter "chapter-3" 3 (TriggerResource "wood" 15))).
    + unfold STORY_CHAPTERS. simpl. tauto.
    + reflexivity.
  - apply Hkeep. simpl. tauto.
Defined.

(** With 80 sunleaf and 15 timber, chapters 2 and 3 are unlocked together,
    in that order, and chapter 3 becomes the active one. *)
Example two_chapters_in_one_batch :
  unlockedChapters (chapterUnlockEffect two_triggers_met)
  = ["chapter-1"; "chapter-2"; "chapter-3"]
  /\ activeChapterId (chapterUnlockEffect two_triggers_met) = "chapter-3".
Proof. vm_compute. split; reflexivity. Qed.

(** ** Tutorial stage machine *)

Lemma stageAdvanceEffect_met (s : Game) :
  goalsSatisfied s = true ->
  stageIndex s < TUTORIAL_STAGES_length - 1 ->
  stageAdvanceEffect s
  = let nextIndex := stageIndex s + 1 in
    let s1 :=
      if negb (nextStageRef s =? nextIndex)
      then pushLog (LogStageOpened nextIndex) (setNextStageRef nextIndex s)
      else s in
    setTimeouts (timeouts s1 ++ [mkTimeout 750 nextIndex]) s1.
Proof.
  unfold goalsSatisfied, stageAdvanceEffect. intros Hgoals Hlast.
  destruct (js_index TUTORIAL_STAGES (stageIndex s)); [|discriminate].
  rewrite Hgoals.
  destruct (stageIndex s <? TUTORIAL_STAGES_length - 1) eqn:E; [|lia].
  reflexivity.
Qed.

(** The claim as the specification words it fails: two evaluations of the
    goal check before the delay elapses register two callbacks. *)
Lemma stage_advance_scheduled_twice :
  timeouts goal_reached = []
  /\ goalsSatisfied goal_reached = true
  /\ timeouts (stageAdvanceEffect (stageAdvanceEffect goal_reached))
     = [mkTimeout 750 1; mkTimeout 750 1].
Proof. vm_compute. repeat split; reflexivity. Qed.

Lemma stageAdvanceEffect_again (s : Game) :
  goalsSatisfied s = true ->
  stageIndex s < TUTORIAL_STAGES_length - 1 ->
  nextStageRef s = stageIndex s + 1 ->
  stageAdvanceEffect s
  = setTimeouts (timeouts s ++ [mkTimeout 750 (stageIndex s + 1)]) s.
Proof.
  intros Hgoals Hlast Href.
  rewrite stageAdvanceEffect_met by assumption.
  cbv zeta. rewrite Href, Z.eqb_refl. reflexivity.
Qed.

(** Further evaluations of the goal check, before any callback has run. *)
Lemma stageAdvanceEffect_repeated (s : Game) (n : nat) :
  goalsSatisfied s = true ->
  stageIndex s < TUTORIAL_STAGES_length - 1 ->
  nextStageRef s = stageIndex s + 1 ->
  let sn := Nat.iter n stageAdvanceEffect s in
  stageIndex sn = stageIndex s
  /\ resources sn = resources s
  /\ log sn = log s
  /\ nextStageRef sn = nextStageRef s
  /\ timeouts sn
     = timeouts s ++ repeat (mkTimeout 750 (stageIndex s + 1)) n.
Proof.
  intros Hgoals Hlast Href. cbv zeta.
  induction n as [|n (Hstage & Hres & Hlog & Hmark & Htime)].
  - simpl. rewrite app_nil_r. repeat split; reflexivity.
  - simpl Nat.iter.
    rewrite stageAdvanceEffect_again;
      [| unfold goalsSatisfied in *; rewrite Hstage, Hres; exact Hgoals
       | rewrite Hstage; exact Hlast
       | rewrite Hmark, Hstage; exact Href].
    cbn. rewrite Hstage, Htime, <- app_assoc.
    repeat split; try assumption.
    f_equal. change (mkTimeout 750 (stageIndex s + 1)
                     :: repeat (mkTimeout 750 (stageIndex s + 1)) n)
      with (repeat (mkTimeout 750 (stageIndex s + 1)) (S n)).
    rewrite <- repeat_cons. reflexivity.
Qed.

(** C4 (amended): when every goal of a non-terminal stage holds, an
    evaluation of the goal check leaves [stageIndex] as it is and registers
    a callback for the next index with a delay of 750 ms.  It writes the
    log line and sets the marker exactly when the marker differs from the
    next index.  Every further evaluation before a callback runs registers
    one more callback for the same index and writes nothing.  Running such
    callbacks, however many, leaves the stage at the next index with the
    tutorial overlay shown.  A new game keeps the marker. *)
Theorem stage_advance_deferred (s : Game) :
  goalsSatisfied s = true ->
  stageIndex s < TUTORIAL_STAGES_length - 1 ->
  let next := stageIndex s + 1 in
  let s1 := stageAdvanceEffect s in
  (stageIndex s1 = stageIndex s /\ showTutorial s1 = showTutorial s)
  /\ timeouts s1 = timeouts s ++ [mkTimeout 750 next]
  /\ nextStageRef s1 = next
  /\ log s1
     = (if nextStageRef s =? next then log s
        else take 6 (LogStageOpened next :: log s))
  /\ (forall n,
        let sn := Nat.iter n stageAdvanceEffect s1 in
        stageIndex sn = stageIndex s
        /\ log sn = log s1
        /\ nextStageRef sn = next
        /\ timeouts sn = timeouts s ++ repeat (mkTimeout 750 next) (S n))
  /\ (forall n u,
        let un := Nat.iter (S n) (runTimeout (mkTimeout 750 next)) u in
        stageIndex un = next /\ showTutorial un = true)
  /\ (forall trimmedName,
        nextStageRef (handleNewGame trimmedName s1) = next).
Proof.
  intros Hgoals Hlast next s1.
  assert (H1 : s1
               = setTimeouts
                   (timeouts
                      (if negb (nextStageRef s =? next)
                       then pushLog (LogStageOpened next)
                              (setNextStageRef next s)
                       else s) ++ [mkTimeout 750 next])
                   (if negb (nextStageRef s =? next)
                    then pushLog (LogStageOpened next)
                           (setNextStageRef next s)
                    else s)).
  { subst s1. rewrite stageAdvanceEffect_met by assumption. reflexivity. }
  assert (Hstage1 : stageIndex s1 = stageIndex s).
  { rewrite H1. destruct (nextStageRef s =? next); reflexivity. }
  assert (Hres1 : resources s1 = resources s).
  { rewrite H1. destruct (nextStageRef s =? next); reflexivity. }
  assert (Href1 : nextStageRef s1 = next).
  { rewrite H1. destruct (nextStageRef s =? next) eqn:E; cbn; [lia|].
    reflexivity. }
  assert (Htime1 : timeouts s1 = timeouts s ++ [mkTimeout 750 next]).
  { rewrite H1. destruct (nextStageRef s =? next); reflexivity. }
  assert (Hgoals1 : goalsSatisfied s1 = true).
  { unfold goalsSatisfied in *. rewrite Hstage1, Hres1. exact Hgoals. }
  split; [|split; [|split; [|split; [|split; [|split]]]]].
  - split; [exact Hstage1|].
    rewrite H1. destruct (nextStageRef s =? next); reflexivity.
  - exact Htime1.
  - exact Href1.
  - rewrite H1. destruct (nextStageRef s =? next); reflexivity.
  - intros n.
    destruct (stageAdvanceEffect_repeated s1 n Hgoals1
                ltac:(rewrite Hstage1; exact Hlast)
                ltac:(rewrite Hstage1; exact Href1))
      as (Hstage & _ & Hlog & Hmark & Htime).
    cbv zeta. rewrite Hstage, Hlog, Hmark, Htime, Hstage1, Htime1, Href1.
    fold next. rewrite <- app_assoc. repeat split; reflexivity.
  - intros n u. induction n; split; reflexivity.
  - intros trimmedName. unfold handleNewGame.
    destruct (String.eqb trimmedName ""); exact Href1.
Qed.

Lemma stage_advance_deferred_witness :
  stageIndex (stageAdvanceEffect goal_reached) = 0
  /\ timeouts (stageAdvanceEffect goal_reached) = [mkTimeout 750 1]
  /\ log (Nat.iter 3 stageAdvanceEffect (stageAdvanceEffect goal_reached))
     = log (stageAdvanceEffect goal_reached)
  /\ timeouts (Nat.iter 3 stageAdvanceEffect (stageAdvanceEffect goal_reached))
     = repeat (mkTimeout 750 1) 4.
Proof.
  assert (Hgoals : goalsSatisfied goal_reached = true) by reflexivity.
  assert (Hlast : stageIndex goal_reached < TUTORIAL_STAGES_length - 1)
    by reflexivity.
  destruct (stage_advance_deferred goal_reached Hgoals Hlast)
    as ((Hstage & _) & Htime & _ & _ & Hmore & _).
  destruct (Hmore 3%nat) as (_ & Hlog & _ & Htimes).
  split; [exact Hstage|]. split; [exact Htime|].
  split; [exact Hlog | exact Htimes].
Defined.

(** The marker outlives a game: in a second game started after the first
    one opened stage 1, the same advance is scheduled without a log
    line. *)
Example second_game_advance_without_log_line :
  let first := stageAdvanceEffect goal_reached in
  let second :=
    setResources (resources goal_reached) (handleNewGame "second" first) in
  goalsSatisfied second = true
  /\ stageIndex second = 0
  /\ log (stageAdvanceEffect second) = log second
  /\ In (mkTimeout 750 1) (timeouts (stageAdvanceEffect second)).
Proof. vm_compute. repeat split; try reflexivity. left. reflexivity. Qed.

(** The stage-0 scenario: one log line however often the check runs, and
    stage 1 with the overlay once the callbacks have run. *)
Example stage_zero_scenario :
  let s2 := stageAdvanceEffect (stageAdvanceEffect goal_reached) in
  log s2 = LogStageOpened 1 :: localizedDefaults
  /\ stageIndex s2 = 0
  /\ stageIndex (fireTimeout (fireTimeout s2)) = 1
  /\ showTutorial (fireTimeout (fireTimeout s2)) = true
  /\ timeouts (fireTimeout (fireTimeout s2)) = [].
Proof. vm_compute. repeat split; reflexivity. Qed.

(** The terminal stage has no goals and never advances. *)
Lemma terminal_stage_never_advances (s : Game) :
  stageIndex s = TUTORIAL_STAGES_length - 1 -> stageAdvanceEffect s = s.
Proof.
  intros H. unfold stageAdvanceEffect. rewrite H.
  destruct (js_index _ _); [|reflexivity].
  rewrite Z.ltb_irrefl, andb_false_r. reflexivity.
Qed.

(** ** Per-tick production *)

Lemma Math_max_l (a b : Q) : (b <= a)%Q -> (Math_max a b == a)%Q.
Proof.
  intros H. unfold Math_max. destruct (Qle_bool a b) eqn:E; [|reflexivity].
  apply Qle_bool_iff in E. lra.
Qed.

Lemma Math_max_r (a b : Q) : (a <= b)%Q -> Math_max a b = b.
Proof.
  intros H. unfold Math_max. apply Qle_bool_iff in H. rewrite H. reflexivity.
Qed.

Lemma Math_max_bounds (a b : Q) : (a <= Math_max a b /\ b <= Math_max a b)%Q.
Proof.
  unfold Math_max. destruct (Qle_bool a b) eqn:E.
  - apply Qle_bool_iff in E. lra.
  - assert (~ (a <= b)%Q) by (rewrite <- Qle_bool_iff; congruence). lra.
Qed.

Lemma Math_min_bounds (a b : Q) : (Math_min a b <= a /\ Math_min a b <= b)%Q.
Proof.
  unfold Math_min. destruct (Qle_bool a b) eqn:E.
  - apply Qle_bool_iff in E. lra.
  - assert (~ (a <= b)%Q) by (rewrite <- Qle_bool_iff; congruence). lra.
Qed.

Lemma Math_min_cases (a b : Q) : Math_min a b = a \/ Math_min a b = b.
Proof. unfold Math_min. destruct (Qle_bool a b); auto. Qed.

Lemma Math_max_cases (a b : Q) : Math_max a b = a \/ Math_max a b = b.
Proof. unfold Math_max. destruct (Qle_bool a b); auto. Qed.

(** A clamped value lies between the bounds. *)
Lemma clamp_bounds (hi x : Q) :
  (0 <= hi)%Q ->
  (0 <= Math_min hi (Math_max 0 x) <= hi)%Q.
Proof.
  intros Hhi.
  pose proof (Math_min_bounds hi (Math_max 0 x)) as (H1 & H2).
  pose proof (Math_max_bounds 0 x) as (H3 & H4).
  split; [|exact H1].
  destruct (Math_min_cases hi (Math_max 0 x)) as [-> | ->]; assumption.
Qed.

Lemma clamp_Qeq (hi x y : Q) :
  (x == y)%Q ->
  (Math_min hi (Math_max 0 x) == Math_min hi (Math_max 0 y))%Q.
Proof.
  intros Hxy. unfold Math_min, Math_max.
  destruct (Qle_bool 0 x) eqn:Ex; destruct (Qle_bool 0 y) eqn:Ey.
  - destruct (Qle_bool hi x) eqn:Ehx; destruct (Qle_bool hi y) eqn:Ehy;
      try reflexivity; try exact Hxy;
      repeat match goal with
             | H : Qle_bool _ _ = true |- _ => apply Qle_bool_iff in H
             | H : Qle_bool ?a ?b = false |- _ =>
                 assert (~ (a <= b)%Q) by (rewrite <- Qle_bool_iff; congruence);
                 clear H
             end; lra.
  - apply Qle_bool_iff in Ex.
    assert (~ (0 <= y)%Q) by (rewrite <- Qle_bool_iff; congruence). lra.
  - apply Qle_bool_iff in Ey.
    assert (~ (0 <= x)%Q) by (rewrite <- Qle_bool_iff; congruence). lra.
  - reflexivity.
Qed.

Lemma clamp_id (hi x : Q) :
  (0 <= x <= hi)%Q -> (Math_min hi (Math_max 0 x) == x)%Q.
Proof.
  intros (H0 & Hhi). rewrite (Math_max_r 0 x H0).
  unfold Math_min. destruct (Qle_bool hi x) eqn:E; [|reflexivity].
  apply Qle_bool_iff in E. lra.
Qed.

Lemma seasonMultiplier_positive (seasonIdx : Z) :
  (0 < seasonMultiplier seasonIdx)%Q.
Proof.
  unfold seasonMultiplier, js_index.
  destruct (seasonIdx <? 0); [reflexivity|].
  destruct (Z.to_nat seasonIdx) as [|[|[|[|n]]]]; reflexivity.
Qed.

(** Inside the table the multiplier is the table's entry. *)
Lemma seasonMultiplier_in_table (seasonIdx : Z) :
  0 <= seasonIdx < 4 ->
  SUNLEAF_SEASON_MULTIPLIERS !! Z.to_nat seasonIdx
  = Some (seasonMultiplier seasonIdx).
Proof.
  intros H.
  assert (Hcases : seasonIdx = 0 \/ seasonIdx = 1 \/ seasonIdx = 2
                   \/ seasonIdx = 3) by lia.
  destruct Hcases as [-> | [-> | [-> | ->]]]; reflexivity.
Qed.

(** The season index stays within the table except on the 365th day of a
    year, where it is 4 and the multiplier falls back to 1. *)
Lemma seasonIndex_range (t : Z) : 0 <= t -> 0 <= seasonIndex t <= 4.
Proof.
  intros Ht. unfold seasonIndex, day, cycle, PHASES_length, DAYS_PER_YEAR,
    DAYS_PER_SEASON.
  assert (H0 : 0 <= t / 4) by (apply Z.div_pos; lia).
  replace (t / 4 + 1 - 1) with (t / 4) by lia.
  rewrite Z.rem_mod_nonneg by lia.
  pose proof (Z.mod_pos_bound (t / 4) 365 ltac:(lia)) as Hm.
  split.
  - apply Z.div_pos; lia.
  - apply Z.div_le_upper_bound; lia.
Qed.

Example last_day_of_year_uses_one :
  day 1456 = 365 /\ seasonIndex 1456 = 4 /\ seasonMultiplier 4 = 1%Q.
Proof. repeat split; reflexivity. Qed.

Lemma passiveRates_add_nonneg (boosts : ResourceDelta) (count : Z)
    (rates : ResourceKey -> option Q) :
  0 <= count ->
  Forall (fun entry => (0 <= snd entry)%Q) boosts ->
  (forall k, (0 <= default 0 (rates k))%Q) ->
  forall k, (0 <= default 0 (passiveRates_add boosts count rates k))%Q.
Proof.
  intros Hcount Hboosts. revert rates.
  unfold passiveRates_add.
  induction Hboosts as [|[k0 boost] boosts Hb _ IH]; intros rates Hrates k.
  - apply Hrates.
  - simpl. apply IH. intros k'.
    destruct (falsyQ boost); [apply Hrates|].
    unfold record_set. destruct (decide (k' = k0)); [|apply Hrates].
    simpl in *. specialize (Hrates k0).
    assert (0 <= inject_Z count)%Q.
    { change 0%Q with (inject_Z 0). rewrite <- Zle_Qle. exact Hcount. }
    assert (0 <= boost * inject_Z count)%Q
      by (apply Qmult_le_0_compat; assumption).
    lra.
Qed.

Lemma passiveRates_nonneg_from (ds : list District)
    (rates : ResourceKey -> option Q) :
  districts_nonneg ds ->
  (forall k, (0 <= default 0 (rates k))%Q) ->
  forall k,
    (0 <= default 0
            (foldl (fun rates d =>
                      if buildingCount d =? 0 then rates
                      else passiveRates_add (productionBoost d)
                             (buildingCount d) rates) rates ds k))%Q.
Proof.
  intros Hds. revert rates.
  induction Hds as [|d ds (Hcount & Hboosts) _ IH]; intros rates Hrates k.
  - apply Hrates.
  - simpl. apply IH.
    destruct (buildingCount d =? 0); [exact Hrates|].
    apply passiveRates_add_nonneg; assumption.
Qed.

Lemma passiveRates_nonneg (ds : list District) (k : ResourceKey) :
  districts_nonneg ds -> (0 <= default 0 (passiveRates ds k))%Q.
Proof.
  intros Hds. unfold passiveRates.
  apply passiveRates_nonneg_from; [exact Hds|].
  intros k'. simpl. lra.
Qed.

(** On one resource, the code and the specification's formula agree when
    nothing in the ledger is negative. *)
Lemma produce_matches_spec (workersOf : ResourceKey -> Z)
    (passive : ResourceKey -> option Q) (seasonIdx : Z) (r : Resource) :
  (0 <= rate r)%Q ->
  (0 <= amount r <= capacity r)%Q ->
  0 <= workersOf (key r) ->
  (0 <= default 0 (passive (key r)))%Q ->
  let r' := produce workersOf passive seasonIdx r in
  key r' = key r /\ rate r' = rate r /\ capacity r' = capacity r
  /\ (amount r'
      == spec_nextAmount (workersOf (key r)) (default 0%Q (passive (key r)))
           (seasonMultiplier seasonIdx) r)%Q.
Proof.
  intros Hrate Hamount Hworkers Hpassive r'.
  subst r'. unfold produce, spec_nextAmount, spec_totalRate, clamp,
    TICKS_PER_DAY.
  set (total :=
         if bool_decide (key r = sunleaf)
         then ((rate r * inject_Z (workersOf (key r))
                + default 0%Q (passive (key r)))
               * seasonMultiplier seasonIdx)%Q
         else (rate r * inject_Z (workersOf (key r))
               + default 0%Q (passive (key r)))%Q).
  assert (Hw : (0 <= inject_Z (workersOf (key r)))%Q).
  { change 0%Q with (inject_Z 0). rewrite <- Zle_Qle. exact Hworkers. }
  assert (Hbase : (0 <= rate r * inject_Z (workersOf (key r))
                        + default 0%Q (passive (key r)))%Q).
  { assert (0 <= rate r * inject_Z (workersOf (key r)))%Q
      by (apply Qmult_le_0_compat; assumption).
    lra. }
  assert (Htotal : (0 <= total)%Q).
  { subst total. destruct (bool_decide (key r = sunleaf)); [|exact Hbase].
    apply Qmult_le_0_compat; [exact Hbase|].
    apply Qlt_le_weak, seasonMultiplier_positive. }
  assert (Hdiv : (total / ((20 # 1) / (5 # 1)) == total / 4)%Q)
    by (apply Qmult_comp; reflexivity).
  assert (Hidle : (total / 4 == 0)%Q ->
                  (amount r
                   == Math_min (capacity r)
                        (Math_max 0 (amount r + total / 4)))%Q).
  { intros Hgain.
    assert (Hx : (amount r + total / 4 == amount r)%Q)
      by (rewrite Hgain; ring).
    rewrite clamp_id; [rewrite Hx; reflexivity | rewrite Hx; lra]. }
  destruct (Qle_bool total 0) eqn:Ele.
  - apply Qle_bool_iff in Ele.
    repeat split; try reflexivity.
    apply Hidle.
    assert (Hzero : (total == 0)%Q) by lra.
    rewrite Hzero. reflexivity.
  - destruct (Qeq_bool (total / ((20 # 1) / (5 # 1))) 0) eqn:Egain.
    + apply Qeq_bool_iff in Egain. rewrite Hdiv in Egain.
      repeat split; try reflexivity.
      apply Hidle. exact Egain.
    + repeat split; try reflexivity.
      cbn. apply clamp_Qeq. rewrite Hdiv. reflexivity.
Qed.

Lemma delta_get_None (d : ResourceDelta) (k : ResourceKey) :
  ~ In k (map fst d) -> delta_get d k = None.
Proof.
  induction d as [|[k0 v] d IH]; intros Hnot; [reflexivity|].
  simpl in *. destruct (decide (k0 = k)); [tauto|]. apply IH. tauto.
Qed.

Lemma passiveRates_add_sum (boosts : ResourceDelta) (count : Z)
    (rates : ResourceKey -> option Q) (k : ResourceKey) :
  NoDup (map fst boosts) ->
  (default 0 (passiveRates_add boosts count rates k)
   == default 0 (rates k)
      + default 0 (delta_get boosts k) * inject_Z count)%Q.
Proof.
  unfold passiveRates_add. revert rates.
  induction boosts as [|[k0 boost] boosts IH]; intros rates Hnodup.
  - simpl. ring.
  - apply NoDup_cons in Hnodup. destruct Hnodup as (Hfresh & Hnodup).
    simpl. rewrite IH by exact Hnodup.
    destruct (decide (k0 = k)) as [-> | Hne].
    + rewrite delta_get_None
        by (intros Hin; apply Hfresh, list_elem_of_In; exact Hin).
      simpl. destruct (falsyQ boost) eqn:Ezero.
      * apply Qeq_bool_iff in Ezero. rewrite Ezero. ring.
      * unfold record_set. destruct (decide (k = k)); [|congruence].
        simpl. ring.
    + destruct (falsyQ boost); [reflexivity|].
      unfold record_set. destruct (decide (k = k0)); [congruence|].
      reflexivity.
Qed.

Lemma passiveRates_sum_from (ds : list District)
    (rates : ResourceKey -> option Q) (k : ResourceKey) :
  Forall (fun d => NoDup (map fst (productionBoost d))) ds ->
  (default 0
     (foldl (fun rates d =>
               if buildingCount d =? 0 then rates
               else passiveRates_add (productionBoost d) (buildingCount d)
                      rates) rates ds k)
   == default 0 (rates k) + spec_passiveRate ds k)%Q.
Proof.
  intros Hds. revert rates.
  induction Hds as [|d ds Hd _ IH]; intros rates.
  - simpl. ring.
  - simpl. rewrite IH.
    destruct (buildingCount d =? 0) eqn:Ecount.
    + apply Z.eqb_eq in Ecount. rewrite Ecount.
      change (inject_Z 0) with 0%Q. ring.
    + rewrite passiveRates_add_sum by exact Hd. ring.
Qed.

(** The passive rate the code accumulates is the sum over the districts of
    [productionBoost[resource] * buildingCount]. *)
Lemma passiveRates_matches_spec (ds : list District) (k : ResourceKey) :
  Forall (fun d => NoDup (map fst (productionBoost d))) ds ->
  (default 0 (passiveRates ds k) == spec_passiveRate ds k)%Q.
Proof.
  intros Hds. unfold passiveRates. rewrite passiveRates_sum_from by exact Hds.
  simpl. ring.
Qed.

(** On the farm of the example, sunleaf gains
    [(1 * 1 + 0.5 * 2) * 1.2 / 4 = 0.6] in one tick. *)
Example sunleaf_farm_gain :
  (amount <$> find_resource (resources (productionEffect sunleaf_farm)) sunleaf)
  = Some ((10 + (1 * 1 + (1 # 2) * 2) * (12 # 10) / ((20 # 1) / (5 # 1))))%Q
  /\ Qeq_bool (10 + (1 * 1 + (1 # 2) * 2) * (12 # 10) / ((20 # 1) / (5 # 1)))
       (106 # 10) = true.
Proof. vm_compute. split; reflexivity. Qed.

(** ** The ledger invariant *)

Lemma tenth_Qle (a b : Z) : a <= b -> (a # 10 <= b # 10)%Q.
Proof. intros H. unfold Qle. simpl. lia. Qed.

Lemma tenth_scale (c : Q) (z : Z) :
  (c == z # 10)%Q -> (c * 10 == inject_Z z)%Q.
Proof. intros H. rewrite H. unfold Qeq, Qmult, inject_Z. simpl. lia. Qed.

Lemma whole_tenths_plus (a b : Q) :
  whole_tenths a -> whole_tenths b -> whole_tenths (a + b).
Proof.
  intros (za & Ha) (zb & Hb). exists (za + zb). rewrite Ha, Hb.
  unfold Qeq, Qplus. simpl. lia.
Qed.

(** Rounding to one decimal keeps a value under a capacity that is itself
    a multiple of one tenth. *)
Lemma toFixed1_within (x c : Q) :
  (0 <= x <= c)%Q -> whole_tenths c -> (0 <= toFixed1 x <= c)%Q.
Proof.
  intros (H0 & Hc) (zc & Hzc).
  unfold toFixed1. apply Qle_bool_iff in H0 as Hb. rewrite Hb.
  unfold round_half_up_tenth.
  set (f := Qfloor (x * 10 + (1 # 2))).
  assert (Hlow : 0 <= f).
  { subst f. change 0 with (Qfloor 0). apply Qfloor_resp_le. lra. }
  assert (Hup : f <= zc).
  { pose proof (Qfloor_le (x * 10 + (1 # 2))) as Hf. fold f in Hf.
    pose proof (tenth_scale c zc Hzc) as Hs.
    assert (Hlt : (inject_Z f < inject_Z (zc + 1))%Q).
    { rewrite inject_Z_plus. change (inject_Z 1) with 1%Q. lra. }
    rewrite <- Zlt_Qlt in Hlt. lia. }
  split.
  - unfold Qle. simpl. lia.
  - rewrite Hzc. apply tenth_Qle. exact Hup.
Qed.

Lemma map_key_preserved (f : Resource -> Resource) (l : list Resource) :
  (forall r, key (f r) = key r) -> map key (map f l) = map key l.
Proof.
  intros Hf. induction l as [|r l IH]; [reflexivity|].
  simpl. rewrite Hf, IH. reflexivity.
Qed.

Lemma Forall_map_ok (f : Resource -> Resource) (l : list Resource) :
  (forall r, ledger_ok r -> ledger_ok (f r)) ->
  Forall ledger_ok l -> Forall ledger_ok (map f l).
Proof.
  intros Hf Hl. induction Hl as [|r l Hr _ IH]; simpl; constructor; auto.
Qed.

(** A ledger update that keeps keys and per-resource bounds keeps the
    ledger part of the invariant. *)
Lemma ledger_map_ok (f : Resource -> Resource) (l : list Resource) :
  (forall r, key (f r) = key r) ->
  (forall r, ledger_ok r -> ledger_ok (f r)) ->
  map key l = RESOURCE_KEYS /\ Forall ledger_ok l ->
  map key (map f l) = RESOURCE_KEYS /\ Forall ledger_ok (map f l).
Proof.
  intros Hkey Hok (Hkeys & Hall). split.
  - rewrite map_key_preserved by exact Hkey. exact Hkeys.
  - apply Forall_map_ok; assumption.
Qed.

Lemma applyResourceDelta_ok (l : list Resource) (d : ResourceDelta) :
  map key l = RESOURCE_KEYS /\ Forall ledger_ok l ->
  map key (applyResourceDelta l d) = RESOURCE_KEYS
  /\ Forall ledger_ok (applyResourceDelta l d).
Proof.
  apply ledger_map_ok.
  - intros r. destruct (delta_get d (key r)) as [c|]; [|reflexivity].
    destruct (falsyQ c); reflexivity.
  - intros r ((H0 & Hc) & Hten).
    destruct (delta_get d (key r)) as [c|]; [|split; [split|]; assumption].
    destruct (falsyQ c); [split; [split|]; assumption|].
    split; [|exact Hten]. unfold within_capacity. cbn.
    apply toFixed1_within; [|exact Hten].
    apply clamp_bounds. lra.
Qed.

Lemma applyRateDelta_ok (l : list Resource) (d : ResourceDelta) :
  map key l = RESOURCE_KEYS /\ Forall ledger_ok l ->
  map key (applyRateDelta l d) = RESOURCE_KEYS
  /\ Forall ledger_ok (applyRateDelta l d).
Proof.
  apply ledger_map_ok.
  - intros r. destruct (delta_get d (key r)) as [c|]; [|reflexivity].
    destruct (falsyQ c); reflexivity.
  - intros r Hr.
    destruct (delta_get d (key r)) as [c|]; [|exact Hr].
    destruct (falsyQ c); exact Hr.
Qed.

Lemma delta_get_In (d : ResourceDelta) (k : ResourceKey) (c : Q) :
  delta_get d k = Some c -> In (k, c) d.
Proof.
  induction d as [|[k0 v] d IH]; [discriminate|].
  simpl. destruct (decide (k0 = k)) as [-> | _].
  - intros [= ->]. left. reflexivity.
  - intros H. right. apply IH. exact H.
Qed.

(** Raising a capacity by a non-negative boost keeps the amount within it. *)
Lemma raise_capacity_ok (r : Resource) (boost : Q) :
  ledger_ok r -> boost_ok boost ->
  ledger_ok (mkResource (key r) (amount r) (rate r) (capacity r + boost)).
Proof.
  intros ((H0 & Hc) & Hten) (Hb & Hbten).
  split; [|apply whole_tenths_plus; assumption].
  unfold within_capacity. cbn. lra.
Qed.

Lemma applyCapacityDelta_ok (l : list Resource) (d : ResourceDelta) :
  Forall (fun entry => boost_ok (snd entry)) d ->
  map key l = RESOURCE_KEYS /\ Forall ledger_ok l ->
  map key (applyCapacityDelta l d) = RESOURCE_KEYS
  /\ Forall ledger_ok (applyCapacityDelta l d).
Proof.
  intros Hd. apply ledger_map_ok.
  - intros r. destruct (delta_get d (key r)) as [c|]; [|reflexivity].
    destruct (falsyQ c); reflexivity.
  - intros r Hr.
    destruct (delta_get d (key r)) as [c|] eqn:Hget; [|exact Hr].
    destruct (falsyQ c); [exact Hr|].
    apply delta_get_In, list_elem_of_In in Hget.
    rewrite Forall_forall in Hd. specialize (Hd _ Hget). simpl in Hd.
    destruct Hr as ((H0 & Hc) & Hten). destruct Hd as (Hb & Hbten).
    rewrite Math_max_r by lra.
    apply raise_capacity_ok; [split; [split|]; assumption | split; assumption].
Qed.

Lemma produce_ok (workersOf : ResourceKey -> Z)
    (passive : ResourceKey -> option Q) (seasonIdx : Z) (r : Resource) :
  key (produce workersOf passive seasonIdx r) = key r
  /\ (ledger_ok r -> ledger_ok (produce workersOf passive seasonIdx r)).
Proof.
  unfold produce.
  destruct (Qle_bool _ 0); [split; [reflexivity | auto]|].
  destruct (Qeq_bool _ 0); [split; [reflexivity | auto]|].
  split; [reflexivity|].
  intros ((H0 & Hc) & Hten). split; [|exact Hten].
  unfold within_capacity. cbn. apply clamp_bounds. lra.
Qed.

Lemma attritionFilter_counts (rnd : nat -> Q) (calls : nat) (morale : list Z) :
  0 <= snd (fst (attritionFilter rnd calls morale))
  /\ Z.of_nat (length (fst (fst (attritionFilter rnd calls morale))))
     + snd (fst (attritionFilter rnd calls morale))
     = Z.of_nat (length morale).
Proof.
  revert calls. induction morale as [|m morale IH]; intros calls.
  - simpl. lia.
  - simpl. destruct (m <? 50).
    + specialize (IH (S calls)).
      destruct (attritionFilter rnd (S calls) morale) as ((kept & dep) & n).
      destruct (Qlt_bool (rnd calls) (1 # 2)); simpl in *; lia.
    + specialize (IH calls).
      destruct (attritionFilter rnd calls morale) as ((kept & dep) & n).
      simpl in *. lia.
Qed.

Lemma find_recipe_boost_ok (id : string) (r : Recipe) :
  find_recipe id = Some r -> boost_ok (capacityBoost r).
Proof.
  intros H. apply find_some in H. destruct H as (Hin & _).
  unfold RECIPES in Hin. simpl in Hin.
  destruct Hin as [<- | [<- | []]]; simpl; split; try discriminate.
  - exists 100. reflexivity.
  - exists 250. reflexivity.
Qed.

Lemma catalogue_capacityDelta_ok (n : nat) (action : Action) (d : ResourceDelta) :
  ACTIONS !! n = Some action ->
  capacityDelta action = Some d ->
  Forall (fun entry => boost_ok (snd entry)) d.
Proof.
  intros Hn Hd.
  destruct n as [|[|[|[|n]]]]; simpl in Hn; try discriminate;
    injection Hn as <-; simpl in Hd; try discriminate.
  injection Hd as <-. repeat constructor; simpl; try discriminate.
  exists 1200. reflexivity.
Qed.

Arguments inv_fields : simpl never.

Lemma inv_fields_resources (rs rs' : list Resource) (morale : list Z)
    (assigned : Z) (pending : option PendingAllocation) :
  inv_fields rs morale assigned pending ->
  (map key rs = RESOURCE_KEYS /\ Forall ledger_ok rs ->
   map key rs' = RESOURCE_KEYS /\ Forall ledger_ok rs') ->
  inv_fields rs' morale assigned pending.
Proof.
  intros (Hled & Hten & Hpend) Hstep.
  split; [apply Hstep; exact Hled | split; assumption].
Qed.

Lemma inv_fields_pending (rs : list Resource) (morale : list Z)
    (assigned : Z) (pending pending' : option PendingAllocation) :
  inv_fields rs morale assigned pending ->
  pending_ok pending' ->
  inv_fields rs morale assigned pending'.
Proof.
  intros (Hled & Hten & _) Hpend. split; [|split]; assumption.
Qed.

Lemma inv_fields_tenants (rs : list Resource) (morale morale' : list Z)
    (assigned assigned' : Z) (pending : option PendingAllocation) :
  inv_fields rs morale assigned pending ->
  Z.of_nat (length morale') <= assigned' ->
  inv_fields rs morale' assigned' pending.
Proof.
  intros (Hled & _ & Hpend) Hten. split; [|split]; assumption.
Qed.

(** Closes the goals of a handler whose ledger updates are the three
    delta functions. *)
Ltac ledger_step :=
  lazymatch goal with
  | |- _ -> _ => let H := fresh in intros H; ledger_step
  | |- map key (applyResourceDelta _ _) = _ /\ _ =>
      apply applyResourceDelta_ok; ledger_step
  | |- map key (applyRateDelta _ _) = _ /\ _ =>
      apply applyRateDelta_ok; ledger_step
  | |- _ => assumption
  end.

Ltac keep_invariant Hinv :=
  unfold session_invariant in *; cbn;
  first
    [ exact Hinv
    | apply (inv_fields_resources _ _ _ _ _ Hinv); ledger_step ].

Lemma handlePayWages_invariant (s : Game) :
  session_invariant s -> session_invariant (snd (handlePayWages s)).
Proof.
  intros Hinv. unfold handlePayWages.
  destruct (find_resource (resources s) sunleaf) as [sunleafResource|] eqn:Hfind;
    [|unfold pushLog; keep_invariant Hinv].
  destruct (Qlt_bool (amount sunleafResource)
              (inject_Z (assignedTenants s * WAGE_PER_TENANT_PER_DAY)))
    eqn:Hpoor; [unfold pushLog; keep_invariant Hinv|].
  unfold pushLog, session_invariant in *. cbn.
  apply (inv_fields_resources _ _ _ _ _ Hinv).
  destruct Hinv as ((Hkeys & Hled) & Hten & _).
  intros _.
  assert (Hwage : (0 <= inject_Z (assignedTenants s
                                  * WAGE_PER_TENANT_PER_DAY))%Q).
  { change 0%Q with (inject_Z 0). rewrite <- Zle_Qle.
    unfold WAGE_PER_TENANT_PER_DAY. lia. }
  unfold Qlt_bool in Hpoor. apply negb_false_iff, Qle_bool_iff in Hpoor.
  destruct (resources s) as [|r1 [|r2 [|r3 [|r4 [|r5 [|r6 [|r7 rest]]]]]]];
    try discriminate Hkeys.
  destruct r1, r2, r3, r4, r5, r6. simpl in Hkeys.
  injection Hkeys as -> -> -> -> -> ->.
  unfold find_resource in Hfind. simpl in Hfind. injection Hfind as <-.
  simpl. split; [reflexivity|].
  inversion Hled as [|? ? H1 Hrest]; subst.
  constructor; [|exact Hrest].
  destruct H1 as ((H0 & Hc) & Htenths).
  split; [|exact Htenths]. unfold within_capacity in *. cbn in *. lra.
Qed.

Lemma productionEffect_invariant (s : Game) :
  session_invariant s -> session_invariant (productionEffect s).
Proof.
  intros Hinv. unfold productionEffect.
  destruct (tick s =? 0); [exact Hinv|].
  unfold session_invariant in *. cbn.
  apply (inv_fields_resources _ _ _ _ _ Hinv).
  apply ledger_map_ok; intros r; apply produce_ok.
Qed.

Lemma boostRateEffect_invariant (s : Game) :
  session_invariant s -> session_invariant (boostRateEffect s).
Proof.
  intros Hinv. unfold boostRateEffect, session_invariant in *. cbn.
  apply (inv_fields_resources _ _ _ _ _ Hinv).
  apply ledger_map_ok; intros r; [reflexivity|].
  intros Hr. exact Hr.
Qed.

Lemma wagesEffect_invariant (s : Game) :
  session_invariant s -> session_invariant (wagesEffect s).
Proof.
  intros Hinv. unfold wagesEffect.
  destruct ((day (tick s) =? lastPayDay s) || (assignedTenants s =? 0));
    [exact Hinv|].
  assert (Hpaid :
            session_invariant
              (snd (if autoPayWages s then handlePayWages s else (false, s)))).
  { destruct (autoPayWages s); [apply handlePayWages_invariant|]; exact Hinv. }
  destruct (if autoPayWages s then handlePayWages s else (false, s))
    as (paid & s1).
  simpl in Hpaid.
  destruct paid; [exact Hpaid|].
  destruct (lastPayDay s + 1 <? day (tick s)); [|exact Hpaid].
  unfold pushLog, session_invariant in *. cbn.
  apply (inv_fields_tenants _ _ _ _ _ _ Hpaid).
  rewrite length_map. destruct Hpaid as (_ & Hten & _). exact Hten.
Qed.

Lemma attritionEffect_invariant (rnd : nat -> Q) (s : Game) :
  session_invariant s -> session_invariant (attritionEffect rnd s).
Proof.
  intros Hinv. unfold attritionEffect.
  destruct ((assignedTenants s =? 0)
            || (Z.of_nat (length (tenantMorale s)) =? 0)); [exact Hinv|].
  destruct (day (tick s) =? lastPayDay s); [exact Hinv|].
  pose proof (attritionFilter_counts rnd 0 (tenantMorale s)) as (Hdep & Hlen).
  destruct (attritionFilter rnd 0 (tenantMorale s)) as ((kept & dep) & calls).
  simpl in Hdep, Hlen.
  destruct (0 <? dep); [|exact Hinv].
  assert (Hten : Z.of_nat (length kept) <= assignedTenants s - dep).
  { destruct Hinv as (_ & Hten & _). lia. }
  unfold pushLog, session_invariant in *.
  destruct (0 <? totalAssignedWorkers s - (assignedTenants s - dep)); cbn;
    apply (inv_fields_tenants _ _ _ _ _ _ Hinv); exact Hten.
Qed.

Lemma craftingSecond_invariant (s : Game) :
  session_invariant s -> session_invariant (craftingSecond s).
Proof.
  intros Hinv. unfold craftingSecond.
  destruct (craftingRecipe s) as [craftingId|]; [|exact Hinv].
  destruct (String.eqb craftingId "" || (100 <=? craftingProgress s));
    [exact Hinv|].
  destruct (find_recipe craftingId) as [recipe|] eqn:Hrecipe.
  - destruct (recipe_craftTime recipe <=? craftingProgress s + 1);
      [|exact Hinv].
    unfold pushLog, session_invariant in *. cbn.
    apply (inv_fields_pending _ _ _ _ _ Hinv).
    simpl. eapply find_recipe_boost_ok. exact Hrecipe.
  - destruct (find_tool craftingId) as [tool|]; [|exact Hinv].
    destruct (tool_craftTime tool <=? craftingProgress s + 1); exact Hinv.
Qed.

Lemma handleAllocateCapacity_invariant (k : ResourceKey) (s : Game) :
  session_invariant s -> session_invariant (handleAllocateCapacity k s).
Proof.
  intros Hinv. unfold handleAllocateCapacity.
  destruct (pendingAllocation s) as [pending|] eqn:Hpending; [|exact Hinv].
  destruct (find_recipe (pending_recipeId pending)); [|exact Hinv].
  assert (Hboost : boost_ok (pending_boost pending)).
  { destruct Hinv as (_ & _ & Hp). rewrite Hpending in Hp. exact Hp. }
  unfold pushLog, session_invariant in *. cbn.
  apply inv_fields_pending with (pending := pendingAllocation s);
    [|exact I].
  apply (inv_fields_resources _ _ _ _ _ Hinv).
  apply ledger_map_ok; intros res.
  - destruct (bool_decide (key res = k)); reflexivity.
  - intros Hres. destruct (bool_decide (key res = k)); [|exact Hres].
    apply raise_capacity_ok; assumption.
Qed.

Lemma handleAssignTenants_invariant (s : Game) :
  session_invariant s -> session_invariant (handleAssignTenants s).
Proof.
  intros Hinv. unfold handleAssignTenants.
  destruct (pendingTenants s <=? 0); [exact Hinv|].
  destruct (Z.min (pendingTenants s) (availableHousing s) <=? 0) eqn:Hmin;
    [exact Hinv|].
  unfold pushLog, session_invariant in *. cbn.
  apply (inv_fields_tenants _ _ _ _ _ _ Hinv).
  rewrite length_app, repeat_length. destruct Hinv as (_ & Hten & _). lia.
Qed.

Lemma handleAction_invariant (n : nat) (action : Action) (s : Game) :
  ACTIONS !! n = Some action ->
  session_invariant s -> session_invariant (handleAction action s).
Proof.
  intros Hn Hinv. unfold handleAction.
  destruct (negb (canExecute s action)); [exact Hinv|].
  assert (Hinv' :
            inv_fields
              (match capacityDelta action with
               | Some d =>
                   applyCapacityDelta
                     (match rateDelta action with
                      | Some d0 =>
                          if truthyZ (duration action)
                          then match delta action with
                               | Some d1 => applyResourceDelta (resources s) d1
                               | None => resources s
                               end
                          else applyRateDelta
                                 (match delta action with
                                  | Some d1 =>
                                      applyResourceDelta (resources s) d1
                                  | None => resources s
                                  end) d0
                      | None =>
                          match delta action with
                          | Some d1 => applyResourceDelta (resources s) d1
                          | None => resources s
                          end
                      end) d
               | None =>
                   match rateDelta action with
                   | Some d0 =>
                       if truthyZ (duration action)
                       then match delta action with
                            | Some d1 => applyResourceDelta (resources s) d1
                            | None => resources s
                            end
                       else applyRateDelta
                              (match delta action with
                               | Some d1 => applyResourceDelta (resources s) d1
                               | None => resources s
                               end) d0
                   | None =>
                       match delta action with
                       | Some d1 => applyResourceDelta (resources s) d1
                       | None => resources s
                       end
                   end
               end)
              (tenantMorale s) (assignedTenants s) (pendingAllocation s)).
  { apply (inv_fields_resources _ _ _ _ _ Hinv). intros Hled.
    assert (H1 : map key
                   (match delta action with
                    | Some d1 => applyResourceDelta (resources s) d1
                    | None => resources s
                    end) = RESOURCE_KEYS
                 /\ Forall ledger_ok
                      (match delta action with
                       | Some d1 => applyResourceDelta (resources s) d1
                       | None => resources s
                       end)).
    { destruct (delta action); [apply applyResourceDelta_ok|]; exact Hled. }
    assert (H2 : map key
                   (match rateDelta action with
                    | Some d0 =>
                        if truthyZ (duration action)
                        then match delta action with
                             | Some d1 => applyResourceDelta (resources s) d1
                             | None => resources s
                             end
                        else applyRateDelta
                               (match delta action with
                                | Some d1 =>
                                    applyResourceDelta (resources s) d1
                                | None => resources s
                                end) d0
                    | None =>
                        match delta action with
                        | Some d1 => applyResourceDelta (resources s) d1
                        | None => resources s
                        end
                    end) = RESOURCE_KEYS
                 /\ Forall ledger_ok
                      (match rateDelta action with
                       | Some d0 =>
                           if truthyZ (duration action)
                           then match delta action with
                                | Some d1 =>
                                    applyResourceDelta (resources s) d1
                                | None => resources s
                                end
                           else applyRateDelta
                                  (match delta action with
                                   | Some d1 =>
                                       applyResourceDelta (resources s) d1
                                   | None => resources s
                                   end) d0
                       | None =>
                           match delta action with
                           | Some d1 => applyResourceDelta (resources s) d1
                           | None => resources s
                           end
                       end)).
    { destruct (rateDelta action); [|exact H1].
      destruct (truthyZ (duration action)); [exact H1|].
      apply applyRateDelta_ok. exact H1. }
    destruct (capacityDelta action) as [d|] eqn:Hd; [|exact H2].
    apply applyCapacityDelta_ok; [|exact H2].
    eapply catalogue_capacityDelta_ok; eassumption. }
  unfold pushLog, session_invariant.
  destruct (duration action) as [d|]; destruct (rateDelta action) as [rd|];
    try destruct (negb (d =? 0)); cbn; exact Hinv'.
Qed.

Lemma initialGame_invariant : session_invariant initialGame.
Proof.
  unfold session_invariant, inv_fields. cbn.
  split; [split; [reflexivity|] | split; [lia | exact I]].
  unfold INITIAL_RESOURCES.
  repeat constructor; cbn; try discriminate;
    match goal with
    | |- whole_tenths 40 => exists 400
    | |- whole_tenths 30 => exists 300
    | |- whole_tenths 25 => exists 250
    | |- whole_tenths 20 => exists 200
    | |- whole_tenths 10 => exists 100
    end; reflexivity.
Qed.

(** Every event of a session keeps the invariant. *)
Lemma step_invariant (e : Event) (s : Game) :
  session_invariant s -> session_invariant (step e s).
Proof.
  intros Hinv.
  destruct e;
    try (handler_cases; solve [keep_invariant Hinv]); unfold step.
  - apply productionEffect_invariant. exact Hinv.
  - apply boostRateEffect_invariant. exact Hinv.
  - apply wagesEffect_invariant. exact Hinv.
  - apply attritionEffect_invariant. exact Hinv.
  - apply craftingSecond_invariant. exact Hinv.
  - apply handleAllocateCapacity_invariant. exact Hinv.
  - unfold session_invariant in *. cbn.
    apply (inv_fields_pending _ _ _ _ _ Hinv). exact I.
  - apply handleAssignTenants_invariant. exact Hinv.
  - apply handlePayWages_invariant. exact Hinv.
  - destruct (ACTIONS !! n) as [action|] eqn:Hn; [|exact Hinv].
    eapply handleAction_invariant; eassumption.
Qed.

Lemma reachable_invariant (s : Game) :
  reachable s -> session_invariant s.
Proof.
  induction 1 as [|e s _ IH].
  - apply initialGame_invariant.
  - apply step_invariant. exact IH.
Qed.

(** C2: in every state a session reaches from a new game, by ticks, timer
    callbacks, effects and player actions, every resource satisfies
    [0 <= amount <= capacity]. *)
Theorem amount_within_capacity (s : Game) :
  reachable s ->
  Forall (fun r => (0 <= amount r <= capacity r)%Q) (resources s).
Proof.
  intros Hreach.
  destruct (reachable_invariant s Hreach) as ((_ & Hled) & _).
  induction Hled as [|r rs (Hr & _) _ IH]; constructor; assumption.
Qed.

Lemma reachable_run_events (events : list Event) (s : Game) :
  reachable s -> reachable (run_events events s).
Proof.
  unfold run_events. revert s.
  induction events as [|e events IH]; intros s Hs; [exact Hs|].
  simpl. apply IH. constructor. exact Hs.
Qed.

Lemma amount_within_capacity_witness :
  Forall (fun r => (0 <= amount r <= capacity r)%Q)
    (resources (run_events fourteen_harvests initialGame)).
Proof.
  apply amount_within_capacity.
  apply reachable_run_events. exact reachable_init.
Defined.

(** The fourteenth harvest would bring sunleaf to 42; the ledger holds it
    at the capacity of 40. *)
Example fourteen_harvests_fill_the_store :
  amount <$> find_resource
               (resources (run_events fourteen_harvests initialGame)) sunleaf
  = Some (400 # 10)%Q.
Proof. vm_compute. reflexivity. Qed.

(** ** Wages *)

(** A day skipped without payment costs every tenant ten points of morale,
    never below zero, and settles the day. *)
Example skipped_day_lowers_morale :
  tenantMorale (wagesEffect two_days_unpaid) = [90; 0]
  /\ lastPayDay (wagesEffect two_days_unpaid) = 3
  /\ wagesEffect (wagesEffect two_days_unpaid) = wagesEffect two_days_unpaid.
Proof. vm_compute. repeat split; reflexivity. Qed.

(** ** Attrition *)

(** What one run of the effect does when somebody leaves: the morale list
    loses one entry per departure and [assignedTenants] drops by the same
    number. *)
Lemma attritionEffect_departures (rnd : nat -> Q) (s : Game) :
  let s' := attritionEffect rnd s in
  let departures := assignedTenants s - assignedTenants s' in
  0 <= departures
  /\ Z.of_nat (length (tenantMorale s'))
     = Z.of_nat (length (tenantMorale s)) - departures.
Proof.
  cbv zeta. unfold attritionEffect.
  destruct ((assignedTenants s =? 0)
            || (Z.of_nat (length (tenantMorale s)) =? 0)); [lia|].
  destruct (day (tick s) =? lastPayDay s); [lia|].
  pose proof (attritionFilter_counts rnd 0 (tenantMorale s)) as (Hdep & Hlen).
  destruct (attritionFilter rnd 0 (tenantMorale s)) as ((kept & dep) & calls).
  simpl in Hdep, Hlen.
  destruct (0 <? dep); [|lia].
  unfold pushLog.
  destruct (0 <? totalAssignedWorkers s - (assignedTenants s - dep)); cbn;
    lia.
Qed.

(** A tenant whose morale is 50 or more is never removed, whatever the
    rolls. *)
Lemma attritionFilter_keeps_content (rnd : nat -> Q) (calls : nat)
    (morale : list Z) :
  Forall (fun m => 50 <= m) morale ->
  fst (attritionFilter rnd calls morale) = (morale, 0).
Proof.
  intros H. revert calls.
  induction H as [|m morale Hm _ IH]; intros calls; [reflexivity|].
  simpl. destruct (m <? 50) eqn:E; [lia|].
  specialize (IH calls).
  destruct (attritionFilter rnd calls morale) as ((kept & dep) & n).
  simpl in *. injection IH as -> ->. reflexivity.
Qed.

Lemma removeExcessWorkers_bounds (keys : list ResourceKey)
    (updated : ResourceKey -> Z) (toRemove : Z) :
  (forall k, 0 <= updated k) ->
  forall k,
    0 <= removeExcessWorkers keys updated toRemove k <= updated k.
Proof.
  revert updated toRemove.
  induction keys as [|k0 keys IH]; intros updated toRemove Hpos k.
  - simpl. specialize (Hpos k). lia.
  - simpl. destruct (toRemove <=? 0) eqn:E; [specialize (Hpos k); lia|].
    set (updated' :=
           record_set updated k0
             (updated k0 - Z.min (updated k0) toRemove)).
    assert (Hpos' : forall k', 0 <= updated' k' <= updated k').
    { intros k'. subst updated'. unfold record_set.
      pose proof (Hpos k0). pose proof (Hpos k').
      destruct (decide (k' = k0)); [subst|]; lia. }
    specialize (IH updated' (toRemove - Z.min (updated k0) toRemove)
                  (fun k' => proj1 (Hpos' k')) k).
    specialize (Hpos' k). lia.
Qed.

Lemma sum_workers_cons (k : ResourceKey) (keys : list ResourceKey)
    (w : ResourceKey -> Z) :
  sum_workers (k :: keys) w = w k + sum_workers keys w.
Proof. reflexivity. Qed.

Lemma sum_workers_record_set_fresh (keys : list ResourceKey)
    (w : ResourceKey -> Z) (k : ResourceKey) (v : Z) :
  ~ In k keys -> sum_workers keys (record_set w k v) = sum_workers keys w.
Proof.
  induction keys as [|k0 keys IH]; intros Hfresh; [reflexivity|].
  rewrite !sum_workers_cons. simpl in Hfresh. rewrite IH by tauto.
  unfold record_set.
  destruct (decide (k0 = k)); [subst; tauto | reflexivity].
Qed.

Lemma sum_workers_nonneg (keys : list ResourceKey) (w : ResourceKey -> Z) :
  (forall k, 0 <= w k) -> 0 <= sum_workers keys w.
Proof.
  intros Hpos. induction keys as [|k keys IH]; [reflexivity|].
  rewrite sum_workers_cons. specialize (Hpos k). lia.
Qed.

Lemma removeExcessWorkers_fresh (keys : list ResourceKey)
    (updated : ResourceKey -> Z) (toRemove : Z) (k : ResourceKey) :
  ~ In k keys -> removeExcessWorkers keys updated toRemove k = updated k.
Proof.
  revert updated toRemove.
  induction keys as [|k0 keys IH]; intros updated toRemove Hfresh;
    [reflexivity|].
  simpl in *. destruct (toRemove <=? 0); [reflexivity|].
  rewrite IH by tauto. unfold record_set.
  destruct (decide (k = k0)); [subst; tauto | reflexivity].
Qed.

(** The loop takes away exactly the excess, as long as that many workers
    are assigned. *)
Lemma removeExcessWorkers_sum (keys : list ResourceKey)
    (updated : ResourceKey -> Z) (toRemove : Z) :
  NoDup keys ->
  (forall k, 0 <= updated k) ->
  0 <= toRemove <= sum_workers keys updated ->
  sum_workers keys (removeExcessWorkers keys updated toRemove)
  = sum_workers keys updated - toRemove.
Proof.
  intros Hnodup. revert updated toRemove.
  induction Hnodup as [|k0 keys Hfresh _ IH]; intros updated toRemove Hpos Hrange.
  - simpl in *. lia.
  - rewrite list_elem_of_In in Hfresh.
    cbn [removeExcessWorkers].
    destruct (toRemove <=? 0) eqn:E; [lia|].
    set (remove := Z.min (updated k0) toRemove).
    set (updated' := record_set updated k0 (updated k0 - remove)).
    assert (Hk0 : updated' k0 = updated k0 - remove).
    { subst updated'. unfold record_set.
      destruct (decide (k0 = k0)); congruence. }
    assert (Hrest : sum_workers keys updated' = sum_workers keys updated).
    { apply sum_workers_record_set_fresh. exact Hfresh. }
    assert (Hpos' : forall k, 0 <= updated' k).
    { intros k. subst updated'. unfold record_set.
      pose proof (Hpos k0). pose proof (Hpos k).
      destruct (decide (k = k0)); subst remove; lia. }
    rewrite !sum_workers_cons in *.
    rewrite removeExcessWorkers_fresh by exact Hfresh.
    rewrite IH.
    + rewrite Hk0, Hrest. clearbody updated' remove. lia.
    + exact Hpos'.
    + rewrite Hrest. pose proof (Hpos k0).
      pose proof (sum_workers_nonneg keys updated Hpos).
      subst remove. lia.
Qed.

(** The lone tenant departs on the roll: no tenant and no morale entry are
    left, and the sunleaf worker is taken off without any count going
    negative. *)
Example lone_worker_departs :
  let s' := attritionEffect rolls_second_run lone_worker in
  assignedTenants s' = 0 /\ tenantMorale s' = []
  /\ resourceWorkers s' sunleaf = 0
  /\ Forall (fun k => 0 <= resourceWorkers s' k) RESOURCE_KEYS
  /\ log s' = LogAttrition 1 :: localizedDefaults.
Proof.
  vm_compute. repeat split; try reflexivity.
  repeat constructor; discriminate.
Qed.

(** Without a City Hall, recruiting changes nothing. *)
Lemma recruit_needs_city_hall (s : Game) :
  hasCityHall s = false -> handleRecruitTenants s = s.
Proof. intros H. unfold handleRecruitTenants. rewrite H. reflexivity. Qed.

Example recruit_on_new_game :
  handleRecruitTenants initialGame = initialGame.
Proof. apply recruit_needs_city_hall. reflexivity. Qed.

(** C9, evaluated on the code: on day 20, with wages last settled on day
    19, the effect removes the first tenant and keeps the second; the
    values it depends on have changed, the day and [lastPayDay] have not
    (the wages effect leaves the state alone that day), so the effect body
    runs again and removes, on the same day, the tenant who had survived
    the roll. *)
Theorem attrition_runs_again_same_day :
  let s1 := attritionEffect rolls_first_run unpaid_day in
  let s2 := attritionEffect rolls_second_run s1 in
  (day (tick unpaid_day) = 20 /\ lastPayDay unpaid_day = 19
   /\ wagesEffect unpaid_day = unpaid_day)
  /\ (tenantMorale s1 = [40] /\ assignedTenants s1 = 1)
  /\ (attritionDeps s1 <> attritionDeps unpaid_day
      /\ day (tick s1) = 20 /\ lastPayDay s1 = 19 /\ wagesEffect s1 = s1)
  /\ (tenantMorale s2 = [] /\ assignedTenants s2 = 0).
Proof.
  cbv zeta.
  split; [|split; [|split]].
  - repeat split; reflexivity.
  - split; reflexivity.
  - split; [|repeat split; reflexivity].
    vm_compute. discriminate.
  - split; reflexivity.
Qed.

(** ** Persistence codec *)

Arguments shape_fields : simpl never.

Lemma take6_length {A : Type} (l : list A) : (length (take 6 l) <= 6)%nat.
Proof. rewrite length_take. lia. Qed.

Ltac log_bound :=
  first [ apply take6_length | simpl; rewrite ?length_take; lia ].

Lemma shape_fields_log (ds : list District) (sks : list Skill)
    (lines lines' : list LogEntry) (counts : gmap string Z) :
  shape_fields ds sks lines counts ->
  (length lines' <= 6)%nat ->
  shape_fields ds sks lines' counts.
Proof.
  intros (Hd & Hs & _ & Hf) Hl. split; [|split; [|split]]; assumption.
Qed.

Lemma harvestSkill_same_catalogue (t : SkillType) (sk sk0 : Skill) :
  maxLevel sk0 = MAX_SKILL_LEVEL ->
  same_catalogue_skill sk sk0 ->
  same_catalogue_skill (fst (harvestSkill t sk)) sk0.
Proof.
  intros Hmax (Htype & Hm & Hlevel). unfold harvestSkill.
  destruct (negb (bool_decide (skill_type sk = t))
            || (maxLevel sk <=? level sk)) eqn:Eskip;
    [split; [|split]; assumption|].
  apply orb_false_iff in Eskip. destruct Eskip as (_ & Eroom).
  apply Z.leb_gt in Eroom.
  destruct (level sk * SKILL_EXP_PER_LEVEL <=? experience sk + 10);
    simpl; split; try split; try assumption; simpl; lia.
Qed.

Lemma harvest_skills_same_catalogue (t : SkillType) (sks : list Skill) :
  Forall2 same_catalogue_skill sks INITIAL_SKILLS ->
  Forall2 same_catalogue_skill (map fst (map (harvestSkill t) sks))
    INITIAL_SKILLS.
Proof.
  assert (Hmax : Forall (fun sk0 => maxLevel sk0 = MAX_SKILL_LEVEL)
                   INITIAL_SKILLS) by (repeat constructor).
  revert Hmax. generalize INITIAL_SKILLS.
  induction sks as [|sk sks IH]; intros l Hmax H;
    inversion H as [|? sk0 ? l0 Hsk Hrest]; subst; [constructor|].
  inversion Hmax; subst. simpl. constructor.
  - apply harvestSkill_same_catalogue; assumption.
  - apply IH; assumption.
Qed.

Lemma setBuildingCount_same_catalogue (f : District -> Z) (id : string)
    (ds : list District) :
  Forall2 same_catalogue_district ds DISTRICTS ->
  Forall2 same_catalogue_district
    (map (fun d =>
            if String.eqb (district_id d) id then setBuildingCount d (f d)
            else d) ds)
    DISTRICTS.
Proof.
  generalize DISTRICTS.
  induction ds as [|d ds IH]; intros l H;
    inversion H as [|? d0 ? l0 Hd Hrest]; subst; [constructor|].
  simpl. constructor; [|apply IH; exact Hrest].
  destruct (String.eqb (district_id d) id); exact Hd.
Qed.

Lemma handleManualHarvest_shape (k : ResourceKey) (s : Game) :
  shape_fields (districts s) (skills s) (log s) (facilityCounts s) ->
  shape_fields (districts (handleManualHarvest k s))
    (skills (handleManualHarvest k s)) (log (handleManualHarvest k s))
    (facilityCounts (handleManualHarvest k s)).
Proof.
  intros (Hd & Hs & Hl & Hf). unfold handleManualHarvest.
  destruct (0 <? manualCooldowns s k);
    [split; [|split; [|split]]; assumption|].
  unfold pushLog.
  destruct (SKILL_RESOURCE_MAP k) as [t|].
  - rewrite pushLogs_only_log. cbn.
    split; [exact Hd | split; [|split; [log_bound | exact Hf]]].
    apply harvest_skills_same_catalogue. exact Hs.
  - cbn. split; [exact Hd | split; [exact Hs | split; [|exact Hf]]].
    log_bound.
Qed.

Ltac keep_shape Hshape :=
  cbn;
  first
    [ exact Hshape
    | apply (shape_fields_log _ _ _ _ _ Hshape); log_bound ].

(** Every event keeps the shape the codec relies on. *)
Lemma step_shape (e : Event) (s : Game) :
  shape_fields (districts s) (skills s) (log s) (facilityCounts s) ->
  shape_fields (districts (step e s)) (skills (step e s)) (log (step e s))
    (facilityCounts (step e s)).
Proof.
  intros Hshape.
  destruct e; try (handler_cases; solve [keep_shape Hshape]); unfold step.
  - apply handleManualHarvest_shape. exact Hshape.
  - (* expand *)
    destruct Hshape as (Hd & Hs & Hl & Hf). unfold handleExpand, pushLog.
    destruct (find_district (districts s) districtId);
      [|split; [|split; [|split]]; assumption].
    destruct (negb (canAffordExpansion s d));
      [split; [|split; [|split]]; assumption|].
    cbn. split; [|split; [exact Hs | split; [log_bound | exact Hf]]].
    apply (setBuildingCount_same_catalogue
             (fun d => buildingCount d + 1)). exact Hd.
  - (* demolish *)
    destruct Hshape as (Hd & Hs & Hl & Hf). unfold handleDemolish, pushLog.
    destruct (find_district (districts s) districtId);
      [|split; [|split; [|split]]; assumption].
    destruct (buildingCount d <=? 0);
      [split; [|split; [|split]]; assumption|].
    cbn. split; [|split; [exact Hs | split; [log_bound | exact Hf]]].
    apply (setBuildingCount_same_catalogue
             (fun d => buildingCount d - 1)). exact Hd.
  - (* build facility *)
    destruct Hshape as (Hd & Hs & Hl & Hcabin & Hhall).
    unfold handleBuildFacility, pushLog.
    destruct (find_facility facilityId);
      [|split; [|split; [|split]]; try split; assumption].
    destruct (stageIndex s <? facility_requiredStage f);
      [split; [|split; [|split]]; try split; assumption|].
    destruct (negb (canAffordFacility s f));
      [split; [|split; [|split]]; try split; assumption|].
    cbn. split; [exact Hd | split; [exact Hs | split; [log_bound|]]].
    split; apply lookup_insert_is_Some';
      (destruct (decide (facilityId = "cabin"));
       destruct (decide (facilityId = "city-hall")); tauto).
Qed.

Lemma initialGame_shape :
  shape_fields (districts initialGame) (skills initialGame) (log initialGame)
    (facilityCounts initialGame).
Proof.
  split; [|split; [|split]].
  - unfold initialGame, DISTRICTS. cbn.
    repeat constructor.
  - unfold initialGame, INITIAL_SKILLS. cbn.
    repeat constructor; cbn; unfold MAX_SKILL_LEVEL; lia.
  - cbn. lia.
  - split; vm_compute; eexists; reflexivity.
Qed.

Lemma reachable_codec_wf (g : Game) : reachable g -> codec_wf g.
Proof.
  intros Hreach. split.
  - destruct (reachable_invariant g Hreach) as ((Hkeys & _) & _).
    exact Hkeys.
  - induction Hreach as [|e s _ IH]; [apply initialGame_shape|].
    apply step_shape. exact IH.
Qed.

Section CodecProperties.

Variable language : string.
Variable render : LogEntry -> string.

Lemma roundtrip_resources (rs : list Resource) :
  map key rs = RESOURCE_KEYS ->
  resources_cell
    (JObj {[ "resources" := JArr (map resource_json rs) ]})
  = JArr (map resource_json rs).
Proof.
  intros Hkeys.
  destruct rs as [|r1 [|r2 [|r3 [|r4 [|r5 [|r6 [|r7 rest]]]]]]];
    try discriminate Hkeys.
  destruct r1, r2, r3, r4, r5, r6. simpl in Hkeys.
  injection Hkeys as -> -> -> -> -> ->.
  reflexivity.
Qed.

Lemma roundtrip_districts (ds : list District) :
  Forall2 same_catalogue_district ds DISTRICTS ->
  districts_cell reconcileDistrict
    (JObj {[ "districts" := JArr (map district_json ds) ]})
  = JArr (map district_json ds).
Proof.
  intros Hds. unfold DISTRICTS in Hds.
  repeat match goal with
         | H : Forall2 _ _ (_ :: _) |- _ =>
             apply Forall2_cons_inv_r in H;
             destruct H as (? & ? & (? & ? & ? & ?) & ? & ->)
         | H : Forall2 _ _ [] |- _ => apply Forall2_nil_inv_r in H; subst
         end.
  repeat match goal with
         | d : District |- _ => destruct d
         end.
  simpl in *. subst. reflexivity.
Qed.

Lemma Qle_bool_inject_Z (a b : Z) :
  Qle_bool (inject_Z a) (inject_Z b) = (a <=? b).
Proof. unfold Qle_bool. simpl. rewrite !Z.mul_1_r. reflexivity. Qed.

Lemma Math_min_level (l : Z) :
  l <= MAX_SKILL_LEVEL ->
  Math_min (inject_Z MAX_SKILL_LEVEL) (inject_Z l) = inject_Z l.
Proof.
  intros H. unfold Math_min. rewrite Qle_bool_inject_Z.
  destruct (MAX_SKILL_LEVEL <=? l) eqn:E; [|reflexivity].
  apply Z.leb_le in E. f_equal. lia.
Qed.

Lemma roundtrip_skills (sks : list Skill) :
  Forall2 same_catalogue_skill sks INITIAL_SKILLS ->
  skills_cell (JObj {[ "skills" := JArr (map skill_json sks) ]})
  = JArr (map skill_json sks).
Proof.
  intros Hsks. unfold INITIAL_SKILLS in Hsks.
  repeat match goal with
         | H : Forall2 _ _ (_ :: _) |- _ =>
             apply Forall2_cons_inv_r in H;
             destruct H as (? & ? & (? & ? & ?) & ? & ->)
         | H : Forall2 _ _ [] |- _ => apply Forall2_nil_inv_r in H; subst
         end.
  match goal with
  | sk1 : Skill, sk2 : Skill |- _ =>
      destruct sk1 as [t1 l1 e1 m1]; destruct sk2 as [t2 l2 e2 m2]
  end.
  simpl in *. subst.
  change (JArr
            [skill_json_with (mkSkill gathering 1 0 MAX_SKILL_LEVEL)
               (Math_min (inject_Z MAX_SKILL_LEVEL) (inject_Z l2))
               (inject_Z e2);
             skill_json_with (mkSkill mining 1 0 MAX_SKILL_LEVEL)
               (Math_min (inject_Z MAX_SKILL_LEVEL) (inject_Z l1))
               (inject_Z e1)]
          = JArr
              [skill_json (mkSkill gathering l2 e2 MAX_SKILL_LEVEL);
               skill_json (mkSkill mining l1 e1 MAX_SKILL_LEVEL)])
    || change (JArr
            [skill_json_with (mkSkill mining 1 0 MAX_SKILL_LEVEL)
               (Math_min (inject_Z MAX_SKILL_LEVEL) (inject_Z l1))
               (inject_Z e1);
             skill_json_with (mkSkill gathering 1 0 MAX_SKILL_LEVEL)
               (Math_min (inject_Z MAX_SKILL_LEVEL) (inject_Z l2))
               (inject_Z e2)]
          = JArr
              [skill_json (mkSkill mining l1 e1 MAX_SKILL_LEVEL);
               skill_json (mkSkill gathering l2 e2 MAX_SKILL_LEVEL)]).
  all: rewrite !Math_min_level by assumption; reflexivity.
Qed.

Lemma INITIAL_FACILITY_COUNTS_json_lookup (name : string) :
  name <> "cabin" -> name <> "city-hall" ->
  INITIAL_FACILITY_COUNTS_json !! name = None.
Proof.
  intros H1 H2. unfold INITIAL_FACILITY_COUNTS_json, INITIAL_FACILITY_COUNTS.
  simpl. rewrite lookup_fmap, !lookup_insert_ne by congruence.
  reflexivity.
Qed.

Lemma roundtrip_facilityCounts (counts : gmap string Z) :
  is_Some (counts !! "cabin") -> is_Some (counts !! "city-hall") ->
  (JInt <$> counts) ∪ INITIAL_FACILITY_COUNTS_json = JInt <$> counts.
Proof.
  intros Hcabin Hhall. apply map_eq. intros name.
  rewrite lookup_union, lookup_fmap.
  destruct (counts !! name) as [count|] eqn:Hcount.
  - simpl. destruct (INITIAL_FACILITY_COUNTS_json !! name); reflexivity.
  - simpl. rewrite INITIAL_FACILITY_COUNTS_json_lookup; [reflexivity| |];
      intros ->; rewrite Hcount in *;
      [destruct Hcabin | destruct Hhall]; discriminate.
Qed.

Lemma roundtrip_resourceWorkers (w : ResourceKey -> Z) :
  resourceWorkers_cell (JObj {[ "resourceWorkers" := record_json JInt w ]})
  = record_json JInt w.
Proof. reflexivity. Qed.

(** Every property [deserializeState] reads is in the document
    [serializeState] writes, holding its cell. *)
Lemma serialized_properties (c : Cells) :
  Forall (fun entry =>
            get_prop (serializeState language c) (fst (fst entry))
            = Some (snd entry c))
    CELLS.
Proof. unfold CELLS. repeat constructor. Qed.

(** The round trip, for every state that keeps the catalogue's shape. *)
Lemma roundtrip_wf (g : Game) (cur : Cells) :
  codec_wf g ->
  deserializeState render cur
    (serializeState language (cells_of_game render g))
  = Some (cells_of_game render g).
Proof.
  intros (Hkeys & Hds & Hsks & Hlog & Hcabin & Hhall).
  unfold deserializeState.
  change (is_object (Some (serializeState language
                             (cells_of_game render g)))) with true.
  cbv iota. f_equal.
  unfold deserializeBody, cells_of_game. f_equal.
  - rewrite <- (roundtrip_resources (resources g) Hkeys) at 2. reflexivity.
  - unfold log_cell.
    change (get_prop _ "log")
      with (Some (JArr (map (fun e => JStr (render e)) (log g)))).
    cbv iota. rewrite take_ge; [reflexivity|].
    rewrite length_map. exact Hlog.
  - rewrite <- (roundtrip_districts (districts g) Hds) at 2. reflexivity.
  - destruct (craftingRecipe g); reflexivity.
  - change (get_prop _ "facilityCounts")
      with (Some (JObj (JInt <$> facilityCounts g))).
    cbn [is_object spread_props].
    rewrite roundtrip_facilityCounts by assumption. reflexivity.
  - destruct (selectedFacilityId g); reflexivity.
  - rewrite <- (roundtrip_skills (skills g) Hsks) at 2. reflexivity.
Qed.

(** A property that is absent or fails its test leaves the fallback in
    its cell.  [manualHarvestActive] has a second chance under its former
    name [manualHarvestPending]. *)
Lemma fallback_per_cell (cur : Cells) (parsed : json) :
  missing_or_malformed parsed "manualHarvestPending" KObject ->
  Forall (fun entry =>
            missing_or_malformed parsed (fst (fst entry)) (snd (fst entry)) ->
            snd entry (deserializeBody render cur parsed)
            = snd entry (fallbackCells render cur))
    CELLS.
Proof.
  intros Hlegacy. unfold CELLS, missing_or_malformed in *.
  repeat constructor; cbn [fst snd];
    unfold deserializeBody, fallbackCells; cbn [cell_resources cell_tick
      cell_stageIndex cell_showTutorial cell_showIntroDialogue cell_introIndex
      cell_unlockedChapters cell_activeChapterId cell_milestones
      cell_completedPurchases cell_purchaseCounts cell_civilizationLevel
      cell_manualCooldowns cell_manualHarvestActive cell_log cell_districts
      cell_craftingRecipe cell_craftingProgress cell_equippedTools
      cell_facilityCounts cell_selectedFacilityId cell_tenantRecruitCooldown
      cell_pendingTenants cell_tenantTimeout cell_assignedTenants
      cell_tenantMorale cell_autoPayWages cell_lastPayDay cell_skills
      cell_resourceWorkers cell_manuallyUnlockedResources];
    unfold resources_cell, districts_cell, skills_cell, log_cell,
      resourceWorkers_cell, number_cell, array_cell, string_cell,
      object_cell;
    intros Hmiss;
    repeat match goal with
           | H : match get_prop parsed ?name with _ => _ end
             |- context [get_prop parsed ?name] =>
               destruct (get_prop parsed name) as [[]|]; simpl in H
           end;
    try discriminate; reflexivity.
Qed.

(** The three boolean cells are coerced by truthiness. *)
Lemma coerced_cells (cur : Cells) (parsed : json) :
  cell_showTutorial (deserializeBody render cur parsed)
  = JBool (Boolean (get_prop parsed "showTutorial"))
  /\ cell_showIntroDialogue (deserializeBody render cur parsed)
     = JBool (Boolean (get_prop parsed "showIntroDialogue"))
  /\ cell_autoPayWages (deserializeBody render cur parsed)
     = JBool (Boolean (get_prop parsed "autoPayWages")).
Proof. repeat split. Qed.

(** [loadGame] differs from [deserializeState] on the morale list: it tests
    [typeof parsed.tenantMorale === "number"], so the list written by
    [saveGame] is never read back and the cell keeps what it held. *)
Lemma loadGame_keeps_old_morale (g : Game) (cur : Cells) :
  cell_tenantMorale
    (loadGameBody render cur
       (serializeState language (cells_of_game render g)))
  = cell_tenantMorale cur.
Proof. reflexivity. Qed.

End CodecProperties.

(** ** Rates stay non-negative in a session *)

Arguments rates_fields : simpl never.

Lemma whole_tenths_Qeq (a b : Q) : (a == b)%Q -> whole_tenths a -> whole_tenths b.
Proof. intros Hab (z & Hz). exists z. rewrite <- Hab. exact Hz. Qed.

Lemma Qfloor_half (z : Z) : Qfloor (inject_Z z + (1 # 2)) = z.
Proof.
  pose proof (Qfloor_le (inject_Z z + (1 # 2))) as Hle.
  pose proof (Qlt_floor (inject_Z z + (1 # 2))) as Hlt.
  set (f := Qfloor (inject_Z z + (1 # 2))) in *.
  assert (H1 : (inject_Z f < inject_Z (z + 1))%Q).
  { rewrite inject_Z_plus. change (inject_Z 1) with 1%Q. lra. }
  assert (H2 : (inject_Z z < inject_Z (f + 1))%Q) by lra.
  rewrite <- Zlt_Qlt in H1, H2. lia.
Qed.

Lemma round_half_up_tenth_fixed (z : Z) :
  (round_half_up_tenth (z # 10) == z # 10)%Q.
Proof.
  unfold round_half_up_tenth.
  assert (H : ((z # 10) * 10 + (1 # 2) == inject_Z z + (1 # 2))%Q).
  { rewrite (tenth_scale (z # 10) z) by reflexivity. reflexivity. }
  rewrite (Qfloor_comp _ _ H), Qfloor_half. reflexivity.
Qed.

(** Rounding to one decimal leaves a multiple of one tenth as it is. *)
Lemma toFixed1_tenths (x : Q) : whole_tenths x -> (toFixed1 x == x)%Q.
Proof.
  intros (z & Hz). unfold toFixed1.
  destruct (Qle_bool 0 x).
  - unfold round_half_up_tenth.
    assert (H : (x * 10 + (1 # 2) == inject_Z z + (1 # 2))%Q)
      by (rewrite (tenth_scale x z Hz); reflexivity).
    rewrite (Qfloor_comp _ _ H), Qfloor_half. symmetry. exact Hz.
  - unfold round_half_up_tenth.
    assert (H : (- x * 10 + (1 # 2) == inject_Z (- z) + (1 # 2))%Q).
    { rewrite inject_Z_opp, <- (tenth_scale x z Hz). ring. }
    rewrite (Qfloor_comp _ _ H), Qfloor_half. rewrite Hz.
    unfold Qeq, Qopp. simpl. lia.
Qed.

Lemma toFixed1_is_tenths (x : Q) : whole_tenths (toFixed1 x).
Proof.
  unfold toFixed1, round_half_up_tenth.
  destruct (Qle_bool 0 x).
  - eexists. reflexivity.
  - exists (- Qfloor (- x * 10 + (1 # 2))). unfold Qeq, Qopp. simpl. lia.
Qed.

Lemma spec_passiveRate_nonneg (ds : list District) (k : ResourceKey) :
  districts_nonneg ds -> (0 <= spec_passiveRate ds k)%Q.
Proof.
  intros Hds. induction Hds as [|d ds (Hcount & Hboosts) _ IH]; simpl; [lra|].
  assert (Hb : (0 <= default 0 (delta_get (productionBoost d) k))%Q).
  { destruct (delta_get (productionBoost d) k) as [c|] eqn:Hget; simpl; [|lra].
    apply delta_get_In, list_elem_of_In in Hget.
    rewrite Forall_forall in Hboosts. apply (Hboosts _ Hget). }
  assert (Hc : (0 <= inject_Z (buildingCount d))%Q).
  { change 0%Q with (inject_Z 0). rewrite <- Zle_Qle. exact Hcount. }
  assert (0 <= default 0 (delta_get (productionBoost d) k)
               * inject_Z (buildingCount d))%Q
    by (apply Qmult_le_0_compat; assumption).
  lra.
Qed.

(** The boosts of the catalogue are non-negative multiples of one tenth. *)
Lemma catalogue_boosts_ok (d0 : District) :
  In d0 DISTRICTS ->
  Forall (fun entry => boost_ok (snd entry)) (productionBoost d0).
Proof.
  unfold DISTRICTS. simpl.
  intros [<- | [<- | [<- | [<- | [<- | []]]]]]; simpl;
    repeat constructor; simpl; try discriminate.
  - exists 5. reflexivity.
  - exists 15. reflexivity.
  - exists 3. reflexivity.
  - exists 2. reflexivity.
  - exists 4. reflexivity.
Qed.

Lemma same_catalogue_boosts_ok (ds : list District) :
  Forall2 same_catalogue_district ds DISTRICTS ->
  Forall (fun d => Forall (fun entry => boost_ok (snd entry))
                     (productionBoost d)) ds.
Proof.
  assert (Hcat : Forall (fun d0 =>
                           Forall (fun entry => boost_ok (snd entry))
                             (productionBoost d0)) DISTRICTS).
  { apply Forall_forall. intros d0 Hin. apply catalogue_boosts_ok.
    apply list_elem_of_In. exact Hin. }
  revert Hcat. generalize DISTRICTS.
  induction ds as [|d ds IH]; intros l Hcat H;
    inversion H as [|? d0 ? l0 (_ & _ & _ & Hboost) Hrest]; subst;
    [constructor|].
  inversion Hcat; subst. constructor.
  - rewrite Hboost. assumption.
  - eapply IH; eassumption.
Qed.

Lemma same_catalogue_ids (ds : list District) :
  Forall2 same_catalogue_district ds DISTRICTS ->
  map district_id ds = map district_id DISTRICTS.
Proof.
  generalize DISTRICTS.
  induction ds as [|d ds IH]; intros l H;
    inversion H as [|? d0 ? l0 (Hid & _) Hrest]; subst; [reflexivity|].
  simpl. rewrite Hid, (IH _ Hrest). reflexivity.
Qed.

Lemma same_catalogue_NoDup (ds : list District) :
  Forall2 same_catalogue_district ds DISTRICTS ->
  NoDup (map district_id ds).
Proof.
  intros H. rewrite (same_catalogue_ids ds H).
  unfold DISTRICTS. simpl.
  repeat (apply NoDup_cons_2;
          [rewrite ?elem_of_cons, ?elem_of_nil; intuition discriminate|]).
  apply NoDup_nil_2.
Qed.

Lemma districts_nonneg_of_shape (ds : list District) :
  Forall2 same_catalogue_district ds DISTRICTS ->
  Forall (fun d => 0 <= buildingCount d) ds ->
  districts_nonneg ds.
Proof.
  intros Hshape Hcounts. pose proof (same_catalogue_boosts_ok ds Hshape) as Hb.
  unfold districts_nonneg. apply Forall_and. split; [exact Hcounts|].
  eapply Forall_impl; [exact Hb|].
  intros d Hd. eapply Forall_impl; [exact Hd|].
  intros entry (He & _). exact He.
Qed.

(** *** Expanding and demolishing move the passive rate by the boost *)

Lemma spec_passiveRate_update (id : string) (step : Z) (ds : list District)
    (k : ResourceKey) :
  (spec_passiveRate
     (map (fun d =>
             if String.eqb (district_id d) id
             then setBuildingCount d (buildingCount d + step) else d) ds) k
   == spec_passiveRate ds k + matching_boost id ds k * inject_Z step)%Q.
Proof.
  induction ds as [|d ds IH]; simpl; [ring|].
  rewrite IH. destruct (String.eqb (district_id d) id); simpl; [|ring].
  rewrite inject_Z_plus. ring.
Qed.

Lemma matching_boost_absent (id : string) (ds : list District)
    (k : ResourceKey) :
  ~ In id (map district_id ds) -> matching_boost id ds k = 0%Q.
Proof.
  induction ds as [|d ds IH]; intros Hnot; [reflexivity|].
  simpl in *. destruct (String.eqb_spec (district_id d) id); [tauto|].
  apply IH. tauto.
Qed.

(** With distinct ids, the matching boost is the boost of the district
    [find] returns. *)
Lemma matching_boost_found (id : string) (ds : list District)
    (district : District) (k : ResourceKey) :
  NoDup (map district_id ds) ->
  find_district ds id = Some district ->
  (matching_boost id ds k
   == default 0 (delta_get (productionBoost district) k))%Q.
Proof.
  induction ds as [|d ds IH]; intros Hnodup Hfind; [discriminate|].
  simpl in Hnodup. apply NoDup_cons in Hnodup.
  destruct Hnodup as (Hfresh & Hnodup).
  unfold find_district in Hfind. simpl in *.
  destruct (String.eqb_spec (district_id d) id) as [Heq | Hne].
  - injection Hfind as <-.
    rewrite matching_boost_absent; [ring|].
    intros Hin. apply Hfresh. rewrite Heq. apply list_elem_of_In. exact Hin.
  - apply IH; assumption.
Qed.

Lemma find_district_In (id : string) (ds : list District)
    (district : District) :
  find_district ds id = Some district ->
  In district ds /\ district_id district = id.
Proof.
  intros H. apply find_some in H. destruct H as (Hin & Heq).
  split; [exact Hin|]. apply String.eqb_eq. exact Heq.
Qed.

(** With distinct ids, only the district [find] returns has the id. *)
Lemma matching_district_unique (id : string) (ds : list District)
    (district d : District) :
  NoDup (map district_id ds) ->
  find_district ds id = Some district ->
  In d ds -> district_id d = id -> d = district.
Proof.
  induction ds as [|d0 ds IH]; intros Hnodup Hfind Hin Hid; [destruct Hin|].
  simpl in Hnodup. apply NoDup_cons in Hnodup.
  destruct Hnodup as (Hfresh & Hnodup).
  unfold find_district in Hfind. simpl in Hfind.
  destruct (String.eqb_spec (district_id d0) id) as [Heq | Hne].
  - injection Hfind as <-. destruct Hin as [-> | Hin]; [reflexivity|].
    exfalso. apply Hfresh. rewrite Heq, <- Hid.
    apply list_elem_of_In, in_map. exact Hin.
  - destruct Hin as [-> | Hin]; [contradiction|].
    apply IH; assumption.
Qed.

(** *** Ledger updates and the rate invariant *)

Lemma rate_ok_map (ds : list District) (f : Resource -> Resource)
    (rs : list Resource) :
  (forall r, key (f r) = key r /\ rate (f r) = rate r) ->
  Forall (rate_ok ds) rs -> Forall (rate_ok ds) (map f rs).
Proof.
  intros Hf Hrs. induction Hrs as [|r rs (Hten & Hle) _ IH]; simpl;
    constructor; [|exact IH].
  destruct (Hf r) as (Hkey & Hrate). unfold rate_ok.
  rewrite Hkey, Hrate. split; assumption.
Qed.

Lemma applyResourceDelta_rate_ok (ds : list District) (rs : list Resource)
    (d : ResourceDelta) :
  Forall (rate_ok ds) rs -> Forall (rate_ok ds) (applyResourceDelta rs d).
Proof.
  apply rate_ok_map. intros r.
  destruct (delta_get d (key r)) as [c|]; [|split; reflexivity].
  destruct (falsyQ c); split; reflexivity.
Qed.

Lemma applyCapacityDelta_rate_ok (ds : list District) (rs : list Resource)
    (d : ResourceDelta) :
  Forall (rate_ok ds) rs -> Forall (rate_ok ds) (applyCapacityDelta rs d).
Proof.
  apply rate_ok_map. intros r.
  destruct (delta_get d (key r)) as [c|]; [|split; reflexivity].
  destruct (falsyQ c); split; reflexivity.
Qed.

(** A rate delta made of multiples of one tenth adds its entry to the
    rate, exactly. *)
Lemma applyRateDelta_adds (ds ds' : list District) (rs : list Resource)
    (d : ResourceDelta) :
  Forall (fun entry => whole_tenths (snd entry)) d ->
  (forall k,
      (spec_passiveRate ds' k
       <= spec_passiveRate ds k + default 0 (delta_get d k))%Q) ->
  Forall (rate_ok ds) rs -> Forall (rate_ok ds') (applyRateDelta rs d).
Proof.
  intros Hd Hpassive Hrs.
  induction Hrs as [|r rs (Hten & Hle) _ IH]; simpl; constructor;
    [|exact IH].
  specialize (Hpassive (key r)). unfold rate_ok.
  destruct (delta_get d (key r)) as [c|] eqn:Hget; simpl in *.
  - assert (Hc : whole_tenths c).
    { apply delta_get_In, list_elem_of_In in Hget.
      rewrite Forall_forall in Hd. apply (Hd _ Hget). }
    destruct (falsyQ c) eqn:Ezero.
    + apply Qeq_bool_iff in Ezero. split; [exact Hten|]. lra.
    + cbn. split; [apply toFixed1_is_tenths|].
      rewrite toFixed1_tenths by (apply whole_tenths_plus; assumption). lra.
  - split; [exact Hten|]. lra.
Qed.

Lemma delta_get_negate (d : ResourceDelta) (k : ResourceKey) :
  delta_get (map (fun '(k0, value) => (k0, (- value)%Q)) d) k
  = option_map Qopp (delta_get d k).
Proof.
  induction d as [|[k0 v] d IH]; [reflexivity|].
  simpl. destruct (decide (k0 = k)); [reflexivity | exact IH].
Qed.

Lemma whole_tenths_opp (q : Q) : whole_tenths q -> whole_tenths (- q).
Proof.
  intros (z & Hz). exists (- z). rewrite Hz. unfold Qeq, Qopp. simpl. lia.
Qed.

Lemma boost_ok_tenths (d : ResourceDelta) :
  Forall (fun entry => boost_ok (snd entry)) d ->
  Forall (fun entry => whole_tenths (snd entry)) d.
Proof.
  intros H. eapply Forall_impl; [exact H|]. intros entry (_ & Hten). exact Hten.
Qed.

Lemma boost_ok_default (d : ResourceDelta) (k : ResourceKey) :
  Forall (fun entry => boost_ok (snd entry)) d ->
  (0 <= default 0 (delta_get d k))%Q.
Proof.
  intros H. destruct (delta_get d k) as [c|] eqn:Hget; simpl; [|lra].
  apply delta_get_In, list_elem_of_In in Hget.
  rewrite Forall_forall in H. apply (H _ Hget).
Qed.

Lemma rates_fields_resources (rs rs' : list Resource) (ds : list District)
    (workers : ResourceKey -> Z) :
  rates_fields rs ds workers ->
  (Forall (rate_ok ds) rs -> Forall (rate_ok ds) rs') ->
  rates_fields rs' ds workers.
Proof.
  intros (Hshape & Hcounts & Hworkers & Hrates) Hstep.
  split; [|split; [|split]]; auto.
Qed.

Lemma rates_fields_workers (rs : list Resource) (ds : list District)
    (workers workers' : ResourceKey -> Z) :
  rates_fields rs ds workers ->
  (forall k, 0 <= workers' k) ->
  rates_fields rs ds workers'.
Proof.
  intros (Hshape & Hcounts & _ & Hrates) Hworkers.
  split; [|split; [|split]]; auto.
Qed.

Lemma handleExpand_rates (districtId : string) (s : Game) :
  rates_invariant s -> rates_invariant (handleExpand districtId s).
Proof.
  intros Hinv. unfold handleExpand.
  destruct (find_district (districts s) districtId) as [district|] eqn:Hfind;
    [|exact Hinv].
  destruct (negb (canAffordExpansion s district)); [exact Hinv|].
  destruct Hinv as (Hshape & Hcounts & Hworkers & Hrates).
  pose proof (same_catalogue_NoDup _ Hshape) as Hnodup.
  pose proof (same_catalogue_boosts_ok _ Hshape) as Hboosts.
  destruct (find_district_In _ _ _ Hfind) as (Hin & Hid).
  assert (Hb : Forall (fun entry => boost_ok (snd entry))
                 (productionBoost district)).
  { rewrite Forall_forall in Hboosts. apply Hboosts.
    apply list_elem_of_In. exact Hin. }
  unfold pushLog, rates_invariant. cbn.
  split; [|split; [|split]].
  - apply (setBuildingCount_same_catalogue (fun d => buildingCount d + 1)).
    exact Hshape.
  - apply Forall_map. eapply Forall_impl; [exact Hcounts|].
    intros d Hd. simpl in *.
    destruct (String.eqb (district_id d) districtId); simpl; lia.
  - exact Hworkers.
  - apply applyRateDelta_adds with (ds := districts s).
    + apply boost_ok_tenths. exact Hb.
    + intros k.
      rewrite (spec_passiveRate_update districtId 1 (districts s) k).
      rewrite (matching_boost_found _ _ _ k Hnodup Hfind).
      change (inject_Z 1) with 1%Q. lra.
    + apply applyResourceDelta_rate_ok. exact Hrates.
Qed.

Lemma handleDemolish_rates (districtId : string) (s : Game) :
  rates_invariant s -> rates_invariant (handleDemolish districtId s).
Proof.
  intros Hinv. unfold handleDemolish.
  destruct (find_district (districts s) districtId) as [district|] eqn:Hfind;
    [|exact Hinv].
  destruct (buildingCount district <=? 0) eqn:Ecount; [exact Hinv|].
  apply Z.leb_gt in Ecount.
  destruct Hinv as (Hshape & Hcounts & Hworkers & Hrates).
  pose proof (same_catalogue_NoDup _ Hshape) as Hnodup.
  pose proof (same_catalogue_boosts_ok _ Hshape) as Hboosts.
  destruct (find_district_In _ _ _ Hfind) as (Hin & Hid).
  assert (Hb : Forall (fun entry => boost_ok (snd entry))
                 (productionBoost district)).
  { rewrite Forall_forall in Hboosts. apply Hboosts.
    apply list_elem_of_In. exact Hin. }
  unfold pushLog, rates_invariant. cbn.
  split; [|split; [|split]].
  - apply (setBuildingCount_same_catalogue (fun d => buildingCount d - 1)).
    exact Hshape.
  - apply Forall_map. rewrite Forall_forall in Hcounts |- *.
    intros d Hd. simpl.
    destruct (String.eqb_spec (district_id d) districtId) as [Heq | Hne];
      [|apply Hcounts; exact Hd].
    assert (d = district) as ->.
    { eapply matching_district_unique; eauto.
      apply list_elem_of_In. exact Hd. }
    simpl. lia.
  - exact Hworkers.
  - apply applyRateDelta_adds with (ds := districts s).
    + apply Forall_map. eapply Forall_impl; [exact Hb|].
      intros [k0 v] (_ & Hten). simpl in *. apply whole_tenths_opp. exact Hten.
    + intros k.
      pose proof (spec_passiveRate_update districtId (-1) (districts s) k)
        as Hupd.
      replace (fun d : District =>
                 if String.eqb (district_id d) districtId
                 then setBuildingCount d (buildingCount d + -1) else d)
        with (fun d : District =>
                if String.eqb (district_id d) districtId
                then setBuildingCount d (buildingCount d - 1) else d)
        in Hupd by reflexivity.
      rewrite Hupd.
      rewrite (matching_boost_found _ _ _ k Hnodup Hfind).
      rewrite delta_get_negate.
      destruct (delta_get (productionBoost district) k); simpl;
        change (inject_Z (-1)) with (-1)%Q; lra.
    + exact Hrates.
Qed.

Lemma produce_rate_ok (ds : list District) (workersOf : ResourceKey -> Z)
    (passive : ResourceKey -> option Q) (seasonIdx : Z)
    (rs : list Resource) :
  Forall (rate_ok ds) rs ->
  Forall (rate_ok ds) (map (produce workersOf passive seasonIdx) rs).
Proof.
  apply rate_ok_map. intros r. unfold produce.
  repeat match goal with
         | |- context [if ?b then _ else _] => destruct b
         end; split; reflexivity.
Qed.

Lemma boostRate_rate_ok (ds : list District) (boost : ResourceKey -> Q)
    (rs : list Resource) :
  Forall (rate_ok ds) rs ->
  Forall (rate_ok ds)
    (map (fun resource =>
            mkResource (key resource) (amount resource)
              (rate resource - boost (key resource)
               + boost (key resource))%Q
              (capacity resource)) rs).
Proof.
  intros Hrs. induction Hrs as [|r rs (Hten & Hle) _ IH]; simpl;
    constructor; [|exact IH].
  unfold rate_ok. cbn.
  assert (Heq : (rate r - boost (key r) + boost (key r) == rate r)%Q) by ring.
  split; [|lra].
  apply (whole_tenths_Qeq (rate r)); [symmetry; exact Heq | exact Hten].
Qed.

Lemma record_set_nonneg (workers : ResourceKey -> Z) (k : ResourceKey)
    (v : Z) :
  (forall k0, 0 <= workers k0) -> 0 <= v ->
  forall k0, 0 <= record_set workers k v k0.
Proof.
  intros Hworkers Hv k0. unfold record_set.
  destruct (decide (k0 = k)); [exact Hv | apply Hworkers].
Qed.

Lemma catalogue_rateDelta_ok (n : nat) (action : Action) (d : ResourceDelta) :
  ACTIONS !! n = Some action -> rateDelta action = Some d ->
  Forall (fun entry => boost_ok (snd entry)) d.
Proof.
  intros Hn Hd.
  do 4 (destruct n as [|n];
        [injection Hn as <-; simpl in Hd;
         first [discriminate Hd | injection Hd as <-];
         repeat constructor; simpl;
         first [discriminate | eexists; reflexivity] |]).
  discriminate Hn.
Qed.

Ltac rate_step :=
  intros Hrates;
  repeat first
    [ exact Hrates
    | apply applyResourceDelta_rate_ok
    | apply applyCapacityDelta_rate_ok
    | apply produce_rate_ok
    | apply rate_ok_map;
      [intros ?;
       repeat match goal with
              | |- context [if ?b then _ else _] => destruct b
              end; split; reflexivity |] ].

Ltac keep_rates Hinv :=
  unfold rates_invariant in *; cbn;
  first
    [ exact Hinv
    | apply (rates_fields_resources _ _ _ _ Hinv); rate_step ].

Lemma handleAction_rates (n : nat) (action : Action) (s : Game) :
  ACTIONS !! n = Some action ->
  rates_invariant s -> rates_invariant (handleAction action s).
Proof.
  intros Hn Hinv. unfold handleAction.
  destruct (negb (canExecute s action)); [exact Hinv|].
  assert (Hres :
    Forall (rate_ok (districts s)) (resources s) ->
    Forall (rate_ok (districts s))
      (match capacityDelta action with
       | Some d =>
           applyCapacityDelta
             (match rateDelta action with
              | Some d0 =>
                  if truthyZ (duration action)
                  then match delta action with
                       | Some d1 => applyResourceDelta (resources s) d1
                       | None => resources s
                       end
                  else applyRateDelta
                         (match delta action with
                          | Some d1 => applyResourceDelta (resources s) d1
                          | None => resources s
                          end) d0
              | None =>
                  match delta action with
                  | Some d1 => applyResourceDelta (resources s) d1
                  | None => resources s
                  end
              end) d
       | None =>
           match rateDelta action with
           | Some d0 =>
               if truthyZ (duration action)
               then match delta action with
                    | Some d1 => applyResourceDelta (resources s) d1
                    | None => resources s
                    end
               else applyRateDelta
                      (match delta action with
                       | Some d1 => applyResourceDelta (resources s) d1
                       | None => resources s
                       end) d0
           | None =>
               match delta action with
               | Some d1 => applyResourceDelta (resources s) d1
               | None => resources s
               end
           end
       end)).
  { intros Hrates.
    assert (Hdelta :
      Forall (rate_ok (districts s))
        (match delta action with
         | Some d1 => applyResourceDelta (resources s) d1
         | None => resources s
         end)).
    { destruct (delta action);
        [apply applyResourceDelta_rate_ok|]; exact Hrates. }
    assert (Hrate :
      Forall (rate_ok (districts s))
        (match rateDelta action with
         | Some d0 =>
             if truthyZ (duration action)
             then match delta action with
                  | Some d1 => applyResourceDelta (resources s) d1
                  | None => resources s
                  end
             else applyRateDelta
                    (match delta action with
                     | Some d1 => applyResourceDelta (resources s) d1
                     | None => resources s
                     end) d0
         | None =>
             match delta action with
             | Some d1 => applyResourceDelta (resources s) d1
             | None => resources s
             end
         end)).
    { destruct (rateDelta action) as [d0|] eqn:Hd0; [|exact Hdelta].
      destruct (truthyZ (duration action)); [exact Hdelta|].
      pose proof (catalogue_rateDelta_ok n action d0 Hn Hd0) as Hok.
      apply applyRateDelta_adds with (ds := districts s).
      - apply boost_ok_tenths. exact Hok.
      - intros k. pose proof (boost_ok_default d0 k Hok). lra.
      - exact Hdelta. }
    destruct (capacityDelta action);
      [apply applyCapacityDelta_rate_ok|]; exact Hrate. }
  unfold pushLog, rates_invariant in *.
  destruct (duration action) as [d|], (rateDelta action) as [rd|];
    try destruct (negb (d =? 0)); cbn;
    apply (rates_fields_resources _ _ _ _ Hinv); exact Hres.
Qed.

Lemma attritionEffect_rates (rnd : nat -> Q) (s : Game) :
  rates_invariant s -> rates_invariant (attritionEffect rnd s).
Proof.
  intros Hinv. unfold attritionEffect.
  destruct ((assignedTenants s =? 0)
            || (Z.of_nat (length (tenantMorale s)) =? 0)); [exact Hinv|].
  destruct (day (tick s) =? lastPayDay s); [exact Hinv|].
  destruct (attritionFilter rnd 0 (tenantMorale s)) as [[kept departures] c].
  destruct (0 <? departures); [|exact Hinv].
  unfold pushLog, rates_invariant in *.
  destruct (0 <? totalAssignedWorkers s - (assignedTenants s - departures));
    cbn; [|exact Hinv].
  apply (rates_fields_workers _ _ _ _ Hinv).
  destruct Hinv as (_ & _ & Hworkers & _).
  intros k.
  apply (removeExcessWorkers_bounds RESOURCE_KEYS (resourceWorkers s)
           _ Hworkers k).
Qed.

Lemma initialGame_rates : rates_invariant initialGame.
Proof.
  unfold rates_invariant, rates_fields. cbn.
  split; [|split; [|split]].
  - repeat constructor.
  - repeat constructor; simpl; lia.
  - intros k. destruct k; cbv; discriminate.
  - repeat constructor; simpl;
      first [exists 0; reflexivity | discriminate].
Qed.

Lemma boostRateEffect_rates (s : Game) :
  rates_invariant s -> rates_invariant (boostRateEffect s).
Proof.
  intros Hinv. unfold boostRateEffect, rates_invariant in *. cbn.
  apply (rates_fields_resources _ _ _ _ Hinv). intros Hrates.
  apply (boostRate_rate_ok (districts s)
           (totalRateBoost (activeBoosts s))). exact Hrates.
Qed.

Lemma handlePayWages_rates (s : Game) :
  rates_invariant s -> rates_invariant (snd (handlePayWages s)).
Proof.
  intros Hinv. unfold handlePayWages, pushLog.
  destruct (find_resource (resources s) sunleaf) as [sunleafResource|];
    [|exact Hinv].
  destruct (Qlt_bool (amount sunleafResource)
              (inject_Z (assignedTenants s * WAGE_PER_TENANT_PER_DAY)));
    [exact Hinv|].
  unfold rates_invariant in *. cbn.
  apply (rates_fields_resources _ _ _ _ Hinv).
  apply rate_ok_map. intros res.
  destruct (bool_decide (key res = sunleaf)); split; reflexivity.
Qed.

Lemma wagesEffect_rates (s : Game) :
  rates_invariant s -> rates_invariant (wagesEffect s).
Proof.
  intros Hinv. unfold wagesEffect.
  destruct ((day (tick s) =? lastPayDay s) || (assignedTenants s =? 0));
    [exact Hinv|].
  assert (Hpaid :
    rates_invariant
      (snd (if autoPayWages s then handlePayWages s else (false, s)))).
  { destruct (autoPayWages s); [apply handlePayWages_rates|]; exact Hinv. }
  destruct (if autoPayWages s then handlePayWages s else (false, s))
    as [paid s1].
  simpl in Hpaid. unfold pushLog.
  destruct paid; [exact Hpaid|].
  destruct (lastPayDay s + 1 <? day (tick s)); exact Hpaid.
Qed.

Lemma handleAllocateCapacity_rates (k : ResourceKey) (s : Game) :
  rates_invariant s -> rates_invariant (handleAllocateCapacity k s).
Proof.
  intros Hinv. unfold handleAllocateCapacity, pushLog.
  destruct (pendingAllocation s) as [pending|]; [|exact Hinv].
  destruct (find_recipe (pending_recipeId pending)); [|exact Hinv].
  unfold rates_invariant in *. cbn.
  apply (rates_fields_resources _ _ _ _ Hinv).
  apply rate_ok_map. intros res.
  destruct (bool_decide (key res = k)); split; reflexivity.
Qed.

Lemma handleAssignWorker_rates (k : ResourceKey) (s : Game) :
  rates_invariant s -> rates_invariant (handleAssignWorker k s).
Proof.
  intros Hinv. unfold handleAssignWorker, pushLog.
  destruct (idleWorkers s <=? 0); [exact Hinv|].
  unfold rates_invariant in *. cbn.
  apply (rates_fields_workers _ _ _ _ Hinv).
  destruct Hinv as (_ & _ & Hworkers & _).
  apply record_set_nonneg; [exact Hworkers|].
  specialize (Hworkers k). lia.
Qed.

Lemma handleUnassignWorker_rates (k : ResourceKey) (s : Game) :
  rates_invariant s -> rates_invariant (handleUnassignWorker k s).
Proof.
  intros Hinv. unfold handleUnassignWorker, pushLog.
  destruct (resourceWorkers s k <=? 0) eqn:Ecurrent; [exact Hinv|].
  apply Z.leb_gt in Ecurrent.
  unfold rates_invariant in *. cbn.
  apply (rates_fields_workers _ _ _ _ Hinv).
  destruct Hinv as (_ & _ & Hworkers & _).
  apply record_set_nonneg; [exact Hworkers | lia].
Qed.

(** Every event of a session keeps the rate invariant. *)
Lemma step_rates (e : Event) (s : Game) :
  rates_invariant s -> rates_invariant (step e s).
Proof.
  intros Hinv.
  destruct e;
    try (handler_cases; solve [keep_rates Hinv]); unfold step.
  all: try (apply attritionEffect_rates; exact Hinv).
  all: try (apply boostRateEffect_rates; exact Hinv).
  all: try (apply wagesEffect_rates; exact Hinv).
  all: try (apply handlePayWages_rates; exact Hinv).
  all: try (apply handleAllocateCapacity_rates; exact Hinv).
  all: try (apply handleAssignWorker_rates; exact Hinv).
  all: try (apply handleUnassignWorker_rates; exact Hinv).
  all: try (apply handleExpand_rates; exact Hinv).
  all: try (apply handleDemolish_rates; exact Hinv).
  all: try (destruct (ACTIONS !! n) as [action|] eqn:Hn; [|exact Hinv];
            eapply handleAction_rates; eassumption).
Qed.

Lemma reachable_rates (s : Game) : reachable s -> rates_invariant s.
Proof.
  induction 1 as [|e s _ IH].
  - apply initialGame_rates.
  - apply step_rates. exact IH.
Qed.

(** In every state a session reaches, the ledger holds nothing negative:
    rates, amounts, worker counts, building counts and district boosts.
    This is the hypothesis under which the production formula is
    stated. *)
Lemma reachable_ledger_nonneg (s : Game) : reachable s -> ledger_nonneg s.
Proof.
  intros Hreach.
  pose proof (reachable_invariant s Hreach) as ((_ & Hled) & _).
  destruct (reachable_rates s Hreach) as (Hshape & Hcounts & Hworkers & Hrates).
  pose proof (districts_nonneg_of_shape _ Hshape Hcounts) as Hds.
  split; [|split; [exact Hworkers | exact Hds]].
  rewrite Forall_forall in Hled, Hrates |- *.
  intros r Hr. destruct (Hled r Hr) as (Hamount & _).
  destruct (Hrates r Hr) as (_ & Hle).
  split; [|exact Hamount].
  pose proof (spec_passiveRate_nonneg (districts s) (key r) Hds). lra.
Qed.

(** ** The save manager on a disk *)

(** *** Strings *)

Lemma append_cons (c : Ascii.ascii) (a b : string) :
  String.append (String c a) b = String c (String.append a b).
Proof. reflexivity. Qed.

Lemma append_nil_l (b : string) : String.append "" b = b.
Proof. reflexivity. Qed.

Ltac string_step := rewrite ?append_nil_l, ?append_cons; simpl.

Lemma append_assoc (a b c : string) :
  String.append (String.append a b) c = String.append a (String.append b c).
Proof.
  induction a as [|x a IH]; string_step; [reflexivity|].
  rewrite IH. reflexivity.
Qed.

Lemma append_inj_l (a x y : string) :
  String.append a x = String.append a y -> x = y.
Proof.
  induction a as [|c a IH]; rewrite ?append_nil_l, ?append_cons; intros H;
    [exact H|].
  injection H as H. apply IH. exact H.
Qed.

Lemma list_ascii_append (a b : string) :
  list_ascii_of_string (String.append a b)
  = list_ascii_of_string a ++ list_ascii_of_string b.
Proof.
  induction a as [|c a IH]; string_step; [reflexivity|].
  rewrite IH. reflexivity.
Qed.

Lemma list_ascii_inj (a b : string) :
  list_ascii_of_string a = list_ascii_of_string b -> a = b.
Proof.
  intros H. rewrite <- (string_of_list_ascii_of_string a),
    <- (string_of_list_ascii_of_string b), H. reflexivity.
Qed.

Lemma append_inj_r (x y b : string) :
  String.append x b = String.append y b -> x = y.
Proof.
  intros H. apply list_ascii_inj.
  apply (f_equal list_ascii_of_string) in H.
  rewrite !list_ascii_append in H.
  apply app_inv_tail in H. exact H.
Qed.

Lemma length_append (a b : string) :
  String.length (String.append a b)
  = (String.length a + String.length b)%nat.
Proof.
  induction a as [|c a IH]; string_step; [reflexivity|].
  rewrite IH. reflexivity.
Qed.

Lemma substring_whole (s : string) :
  String.substring 0 (String.length s) s = s.
Proof.
  induction s as [|c s IH]; simpl; [reflexivity | rewrite IH; reflexivity].
Qed.

Lemma substring_skip (a b : string) (m : nat) :
  String.substring (String.length a) m (String.append a b)
  = String.substring 0 m b.
Proof. induction a as [|c a IH]; string_step; [reflexivity | exact IH]. Qed.

Lemma substring_take (a b : string) :
  String.substring 0 (String.length a) (String.append a b) = a.
Proof.
  induction a as [|c a IH]; string_step.
  - destruct b; reflexivity.
  - rewrite IH. reflexivity.
Qed.

Lemma substring_split (s : string) (k : nat) :
  (k <= String.length s)%nat ->
  String.append (String.substring 0 k s)
    (String.substring k (String.length s - k) s) = s.
Proof.
  revert k. induction s as [|c s IH]; intros k Hk.
  - destruct k; simpl in *; [reflexivity | lia].
  - destruct k as [|k]; simpl.
    + rewrite substring_whole. reflexivity.
    + rewrite append_cons, IH by (simpl in Hk; lia). reflexivity.
Qed.

Lemma HasSuffix_append (name suffix : string) :
  SaveManager.HasSuffix (String.append name suffix) suffix = true.
Proof.
  unfold SaveManager.HasSuffix. rewrite length_append.
  destruct (Nat.leb_spec (String.length suffix)
              (String.length name + String.length suffix)) as [_|Hlt];
    [|lia].
  replace (String.length name + String.length suffix
           - String.length suffix)%nat with (String.length name) by lia.
  rewrite substring_skip, substring_whole. apply String.eqb_refl.
Qed.

Lemma TrimSuffix_append (name suffix : string) :
  SaveManager.TrimSuffix (String.append name suffix) suffix = name.
Proof.
  unfold SaveManager.TrimSuffix. rewrite HasSuffix_append, length_append.
  replace (String.length name + String.length suffix
           - String.length suffix)%nat with (String.length name) by lia.
  apply substring_take.
Qed.

Lemma HasSuffix_split (s suffix : string) :
  SaveManager.HasSuffix s suffix = true ->
  s = String.append (SaveManager.TrimSuffix s suffix) suffix.
Proof.
  intros H. unfold SaveManager.TrimSuffix. rewrite H.
  unfold SaveManager.HasSuffix in H.
  destruct (Nat.leb_spec (String.length suffix) (String.length s))
    as [Hle|_]; [|discriminate].
  apply String.eqb_eq in H.
  pose proof (substring_split s (String.length s - String.length suffix)
                ltac:(lia)) as Hsplit.
  replace (String.length s - (String.length s - String.length suffix))%nat
    with (String.length suffix) in Hsplit by lia.
  rewrite H in Hsplit. symmetry. exact Hsplit.
Qed.

Lemma append_nil_r (a : string) : String.append a "" = a.
Proof.
  induction a as [|c a IH]; string_step; [reflexivity|].
  rewrite IH. reflexivity.
Qed.

(** *** Paths *)

Lemma no_separator_append (a b : string) :
  SaveDisk.no_separator (String.append a b)
  = SaveDisk.no_separator a && SaveDisk.no_separator b.
Proof.
  induction a as [|c a IH]; string_step; [reflexivity|].
  rewrite IH. destruct (Ascii.eqb c SaveManager.Separator); reflexivity.
Qed.

Lemma path_elements_single (name : string) :
  SaveDisk.no_separator name = true ->
  SaveManager.path_elements name = [name].
Proof.
  induction name as [|c name IH]; simpl; [reflexivity|].
  destruct (Ascii.eqb c SaveManager.Separator); [discriminate|].
  simpl. intros Hname. rewrite IH by exact Hname. reflexivity.
Qed.

(** Text without a separator that follows a path lengthens the last
    element of the path. *)
Lemma path_elements_tail (a b : string) :
  SaveDisk.no_separator b = true ->
  exists before last,
    SaveManager.path_elements a = before ++ [last]
    /\ SaveManager.path_elements (String.append a b)
       = before ++ [String.append last b].
Proof.
  intros Hb. induction a as [|c a (before & last & Ha & Hab)].
  - exists [], "". rewrite append_nil_l, (path_elements_single b Hb).
    split; reflexivity.
  - rewrite append_cons. simpl.
    destruct (Ascii.eqb c SaveManager.Separator).
    + exists ("" :: before), last. rewrite Ha, Hab. split; reflexivity.
    + rewrite Ha, Hab. destruct before as [|first before]; simpl.
      * exists [], (String c last). split; reflexivity.
      * exists (String c first :: before), last. split; reflexivity.
Qed.

Lemma path_elements_nonempty (path : string) :
  SaveManager.path_elements path <> [].
Proof.
  destruct path as [|c path]; simpl; [discriminate|].
  destruct (Ascii.eqb c SaveManager.Separator); [discriminate|].
  destruct (SaveManager.path_elements path); discriminate.
Qed.

Lemma path_elements_separator (a b : string) :
  SaveManager.path_elements (String.append a (String.append "/" b))
  = SaveManager.path_elements a ++ SaveManager.path_elements b.
Proof.
  induction a as [|c a IH].
  - rewrite append_nil_l, append_cons, append_nil_l. reflexivity.
  - rewrite append_cons. simpl.
    destruct (Ascii.eqb c SaveManager.Separator).
    + rewrite IH. reflexivity.
    + rewrite IH. pose proof (path_elements_nonempty a) as Hne.
      destruct (SaveManager.path_elements a); [contradiction | reflexivity].
Qed.

Lemma join_elements_snoc (elems : list string) (last : string) :
  elems <> [] ->
  SaveManager.join_elements (elems ++ [last])
  = String.append (SaveManager.join_elements elems)
      (String.append "/" last).
Proof.
  induction elems as [|first elems IH]; [contradiction|]. intros _.
  destruct elems as [|second elems]; [reflexivity|].
  change (SaveManager.join_elements ((first :: second :: elems) ++ [last]))
    with (String.append first
            (String.append "/"
               (SaveManager.join_elements ((second :: elems) ++ [last])))).
  rewrite IH by discriminate.
  change (SaveManager.join_elements (first :: second :: elems))
    with (String.append first
            (String.append "/"
               (SaveManager.join_elements (second :: elems)))).
  rewrite !append_assoc. reflexivity.
Qed.

Lemma clean_element_kept (rooted : bool) (out : list string)
    (elem : string) :
  SaveDisk.kept_by_Clean elem = true ->
  SaveManager.clean_element rooted out elem = elem :: out.
Proof.
  unfold SaveDisk.kept_by_Clean, SaveManager.clean_element. intros Hkept.
  apply negb_true_iff in Hkept.
  apply orb_false_elim in Hkept. destruct Hkept as (Hhead & ->).
  rewrite Hhead. reflexivity.
Qed.

(** A path whose last element [filepath.Clean] keeps is cleaned into a
    prefix, which the elements before it decide, followed by that
    element. *)
Lemma Clean_last_element (path : string) (before : list string)
    (last : string) :
  path <> "" ->
  SaveManager.path_elements path = before ++ [last] ->
  SaveDisk.kept_by_Clean last = true ->
  SaveManager.Clean path
  = String.append
      (SaveDisk.clean_prefix (SaveManager.is_rooted path) before) last.
Proof.
  intros Hpath Helements Hkept.
  destruct path as [|c path]; [contradiction|].
  unfold SaveManager.Clean, SaveDisk.clean_prefix.
  rewrite Helements, foldl_app. cbn [foldl].
  rewrite clean_element_kept by exact Hkept. cbn [rev].
  destruct (rev (foldl (SaveManager.clean_element
                          (SaveManager.is_rooted (String c path)))
                   [] before)) as [|first out].
  - cbn [app SaveManager.join_elements].
    rewrite append_nil_r. reflexivity.
  - change ((first :: out) ++ [last]) with (first :: (out ++ [last])).
    cbv iota.
    change (first :: (out ++ [last])) with ((first :: out) ++ [last]).
    rewrite join_elements_snoc by discriminate.
    rewrite !append_assoc. reflexivity.
Qed.

Lemma json_name_kept (name : string) :
  SaveDisk.kept_by_Clean (String.append name ".json") = true.
Proof.
  unfold SaveDisk.kept_by_Clean. apply negb_true_iff.
  repeat (apply orb_false_intro);
    apply String.eqb_neq; intros H;
    apply (f_equal String.length) in H;
    rewrite length_append in H; simpl in H; lia.
Qed.

Lemma no_separator_not_rooted (name : string) :
  SaveDisk.no_separator name = true -> SaveManager.is_rooted name = false.
Proof.
  destruct name as [|c name]; [reflexivity|]. simpl.
  destruct (Ascii.eqb c SaveManager.Separator); [discriminate | reflexivity].
Qed.

(** [filepath.Join] of a directory and a one-element name that
    [filepath.Clean] keeps is a prefix, which the directory decides,
    followed by the name. *)
Lemma Join_one_element (dir name : string) :
  SaveDisk.no_separator name = true ->
  SaveDisk.kept_by_Clean name = true ->
  SaveManager.Join dir name = String.append (SaveDisk.join_prefix dir) name.
Proof.
  intros Hname Hkept. unfold SaveManager.Join, SaveDisk.join_prefix.
  destruct (String.eqb_spec dir "") as [-> | Hdir]; cbn [negb].
  - assert (Hne : name <> "").
    { intros ->. discriminate Hkept. }
    apply String.eqb_neq in Hne as Hneb. rewrite Hneb. cbn [negb].
    rewrite (Clean_last_element name [] name Hne
               (path_elements_single name Hname) Hkept).
    rewrite (no_separator_not_rooted name Hname). reflexivity.
  - assert (Hpath : String.append dir (String.append "/" name) <> "").
    { destruct dir; [contradiction | discriminate]. }
    rewrite (Clean_last_element _ (SaveManager.path_elements dir) name
               Hpath); [| |exact Hkept].
    + destruct dir; [contradiction | reflexivity].
    + rewrite path_elements_separator, (path_elements_single name Hname).
      reflexivity.
Qed.

(** Whatever the save name, the path of its file ends in [.json]. *)
Lemma Join_json_suffix (dir name : string) :
  exists before,
    SaveManager.Join dir (String.append name ".json")
    = String.append before ".json".
Proof.
  assert (Hclean : forall path,
            path <> "" ->
            exists before,
              SaveManager.Clean (String.append path ".json")
              = String.append before ".json").
  { intros path Hpath.
    destruct (path_elements_tail path ".json" eq_refl)
      as (before & last & _ & Helements).
    assert (Hne : String.append path ".json" <> "").
    { destruct path; [contradiction | discriminate]. }
    rewrite (Clean_last_element _ before _ Hne Helements
               (json_name_kept last)).
    eexists. rewrite <- append_assoc. reflexivity. }
  unfold SaveManager.Join.
  destruct (String.eqb_spec dir "") as [-> | Hdir]; cbn [negb].
  - destruct (String.eqb_spec (String.append name ".json") "") as [H | _].
    + apply (f_equal String.length) in H. rewrite length_append in H.
      simpl in H. lia.
    + cbn [negb]. destruct name as [|c name].
      * exists "". reflexivity.
      * apply Hclean. discriminate.
  - rewrite <- !append_assoc. apply Hclean.
    destruct dir; [contradiction | discriminate].
Qed.

Lemma save_paths_differ (dir a b : string) :
  SaveDisk.no_separator a = true ->
  SaveDisk.no_separator b = true ->
  a <> b ->
  SaveManager.Join dir (String.append a ".json")
  <> SaveManager.Join dir (String.append b ".json").
Proof.
  intros Ha Hb Hab H.
  rewrite !Join_one_element in H
    by (rewrite ?no_separator_append, ?Ha, ?Hb; try reflexivity;
        apply json_name_kept).
  apply append_inj_l, append_inj_r in H. contradiction.
Qed.

Lemma sentinel_is_no_save (dir name : string) :
  SaveManager.Join dir (String.append name ".json")
  <> SaveManager.Join dir ".last_save".
Proof.
  destruct (Join_json_suffix dir name) as (before & ->).
  rewrite (Join_one_element dir ".last_save" eq_refl eq_refl).
  intros H.
  apply (f_equal (fun s => rev (list_ascii_of_string s))) in H.
  rewrite !list_ascii_append, !rev_app_distr in H. discriminate H.
Qed.

Lemma strip_prefix_append (prefix s : string) :
  SaveDisk.strip_prefix prefix (String.append prefix s) = Some s.
Proof.
  induction prefix as [|c prefix IH]; string_step; [reflexivity|].
  rewrite Ascii.eqb_refl. exact IH.
Qed.

(** *** The listing as a filter *)

Lemma GetAllSaves_fold (entries : list SaveManager.FileInfo)
    (saves : list string) :
  foldl (fun saves file =>
           if negb (SaveManager.IsDir file)
              && SaveManager.HasSuffix (SaveManager.Name file) ".json"
           then saves ++ [SaveManager.TrimSuffix (SaveManager.Name file)
                            ".json"]
           else saves)
    saves entries
  = saves ++ SaveDisk.save_names entries.
Proof.
  revert saves. unfold SaveDisk.save_names.
  induction entries as [|file entries IH]; intros saves; simpl.
  - rewrite app_nil_r. reflexivity.
  - rewrite IH. unfold SaveDisk.is_save_file at 2.
    destruct (negb (SaveManager.IsDir file)
              && SaveManager.HasSuffix (SaveManager.Name file) ".json");
      simpl; [rewrite <- app_assoc|]; reflexivity.
Qed.

Lemma GetAllSaves_save_names fs s entries :
  SaveManager.ReadDir fs (SaveManager.dataDir s) = inl entries ->
  SaveManager.GetAllSaves fs s = (SaveDisk.save_names entries, None).
Proof.
  intros Hdir. unfold SaveManager.GetAllSaves. rewrite Hdir.
  rewrite (GetAllSaves_fold entries []). reflexivity.
Qed.

(** *** The disk in memory keeps the laws *)

Lemma memory_disk_laws : SaveDisk.DiskLaws SaveDisk.memory_disk.
Proof.
  constructor; simpl.
  - intros path data st st' H. injection H as <-.
    rewrite lookup_insert_eq. reflexivity.
  - intros path data st st' err other H Hne. injection H as <- _.
    rewrite lookup_insert_ne by congruence. reflexivity.
  - intros dir name data st st' entries H Hname Hkept Hdir.
    injection H as <-. injection Hdir as <-.
    apply list_elem_of_In, list_elem_of_omap.
    exists (SaveManager.Join dir name, data). split.
    + apply elem_of_map_to_list. apply lookup_insert_eq.
    + simpl. unfold SaveDisk.entry_of.
      rewrite (Join_one_element dir name Hname Hkept).
      rewrite strip_prefix_append, Hname, Hkept. reflexivity.
  - intros path st st' H.
    destruct (st !! path) eqn:Hlook; [|discriminate].
    injection H as <-. exists SaveManager.ErrNotExist.
    rewrite lookup_delete_eq. reflexivity.
  - intros path st st' err other H Hne.
    destruct (st !! path) eqn:Hlook; injection H as <- _; [|reflexivity].
    rewrite lookup_delete_ne by congruence. reflexivity.
  - intros path st st' err H.
    destruct (st !! path) eqn:Hlook; [discriminate|].
    injection H as <- _. reflexivity.
Qed.

(** *** Properties of the save manager *)



(** The hypothesis on the names is needed: [filepath.Join] cleans the path,
    so that saving under [draft/../autumn] replaces the save [autumn]. *)
Example save_name_with_dots_replaces_another_save :
  SaveManager.Join "/home/player/.valley-legend/data" "draft/../autumn.json"
  = "/home/player/.valley-legend/data/autumn.json"
  /\ SaveManager.LoadGame
       (SaveDisk.memory_files
          (fst (SaveDisk.SaveGame (D := SaveDisk.memory_disk) home_manager
                  "draft/../autumn" "{}" autumn_disk)))
       home_manager "autumn" = ("{}", None).
Proof. vm_compute. split; reflexivity. Qed.

(** [GetAllSaves] returns, in the order of the directory listing, the names
    of the regular entries that end in [.json], without that suffix; so
    every name it returns is, with [.json] appended, the name of a regular
    entry of the data directory. *)
Theorem GetAllSaves_lists_regular_json_entries
    (fs : SaveManager.FileSystem) (s : SaveManager.SaveManager)
    (entries : list SaveManager.FileInfo) :
  SaveManager.ReadDir fs (SaveManager.dataDir s) = inl entries ->
  SaveManager.GetAllSaves fs s = (SaveDisk.save_names entries, None)
  /\ (forall name,
        In name (fst (SaveManager.GetAllSaves fs s)) ->
        In (SaveManager.mkFileInfo (String.append name ".json") false)
          entries).
Proof.
  intros Hdir. rewrite (GetAllSaves_save_names _ _ _ Hdir).
  split; [reflexivity|]. simpl. unfold SaveDisk.save_names.
  intros name Hin. apply in_map_iff in Hin.
  destruct Hin as (file & Hname & Hfile).
  apply filter_In in Hfile. destruct Hfile as (Hfile & Hsave).
  unfold SaveDisk.is_save_file in Hsave.
  apply andb_prop in Hsave. destruct Hsave as (Hreg & Hsuffix).
  apply HasSuffix_split in Hsuffix. rewrite Hname in Hsuffix.
  destruct file as [fname fdir]. simpl in *.
  apply negb_true_iff in Hreg. subst fdir fname. exact Hfile.
Qed.

Lemma GetAllSaves_lists_regular_json_entries_witness :
  SaveManager.GetAllSaves listing_fs home_manager = (["alpha"; ""], None).
Proof.
  exact (proj1 (GetAllSaves_lists_regular_json_entries listing_fs
                  home_manager _ eq_refl)).
Defined.



(** The name [SetLastSave] wrote without error is what [GetLastSave]
    returns; writing it changes no save, and writing a save does not change
    what [GetLastSave] returns. *)
Theorem last_save_round_trip (D : SaveDisk.Disk)
    (s : SaveManager.SaveManager) (saveName : string)
    (st st' : SaveDisk.disk D) :
  SaveDisk.DiskLaws D ->
  SaveDisk.SetLastSave s saveName st = (st', None) ->
  SaveManager.GetLastSave (SaveDisk.files st') s = (saveName, None)
  /\ (forall other,
        SaveManager.LoadGame (SaveDisk.files st') s other
        = SaveManager.LoadGame (SaveDisk.files st) s other)
  /\ (forall other data st'' err,
        SaveDisk.SaveGame s other data st' = (st'', err) ->
        SaveManager.GetLastSave (SaveDisk.files st'') s = (saveName, None)).
Proof.
  intros Hlaws Hlast. unfold SaveDisk.SetLastSave in Hlast.
  assert (Hread :
    SaveManager.GetLastSave (SaveDisk.files st') s = (saveName, None)).
  { unfold SaveManager.GetLastSave.
    rewrite (SaveDisk.write_read D Hlaws _ _ _ _ Hlast). reflexivity. }
  split; [exact Hread | split].
  - intros other. unfold SaveManager.LoadGame.
    rewrite (SaveDisk.write_other D Hlaws _ _ _ _ _ _ Hlast
               (sentinel_is_no_save _ _)).
    reflexivity.
  - intros other data st'' err Hsave. unfold SaveDisk.SaveGame in Hsave.
    unfold SaveManager.GetLastSave in *.
    rewrite (SaveDisk.write_other D Hlaws _ _ _ _ _ _ Hsave
               (not_eq_sym (sentinel_is_no_save _ _))).
    exact Hread.
Qed.

Lemma last_save_round_trip_witness :
  SaveManager.GetLastSave
    (SaveDisk.memory_files
       (<[SaveManager.Join "/home/player/.valley-legend/data" ".last_save"
          := "spring"]> ∅))
    home_manager = ("spring", None).
Proof.
  exact (proj1 (last_save_round_trip SaveDisk.memory_disk home_manager
                  "spring" ∅ _ memory_disk_laws eq_refl)).
Defined.



(** Here too the hypothesis on the names is needed: deleting
    [draft/../autumn] removes the save [autumn]. *)
Example delete_name_with_dots_removes_another_save :
  exists err,
    SaveManager.LoadGame
      (SaveDisk.memory_files
         (fst (SaveDisk.DeleteSave (D := SaveDisk.memory_disk) home_manager
                 "draft/../autumn" autumn_disk)))
      home_manager "autumn" = ("", Some err).
Proof. eexists. vm_compute. reflexivity. Qed.

(** ** Sessions

    The invariants of [step] carry over to the wider [session]: the phase
    line only touches the log, a chapter button only the active chapter, and
    a new game writes the initial value of every cell it resets. *)

Lemma session_run_session (events : list SessionEvent) (s : Game) :
  session s -> session (run_session events s).
Proof.
  unfold run_session. revert s.
  induction events as [|e events IH]; intros s Hs; [exact Hs|].
  simpl. apply IH. constructor. exact Hs.
Qed.

Lemma reachable_session (s : Game) : reachable s -> session s.
Proof.
  induction 1 as [|e s _ IH]; [constructor|].
  apply (session_next (SeStep e)). exact IH.
Qed.

Lemma session_step_invariant (e : SessionEvent) (s : Game) :
  session_invariant s -> session_invariant (session_step e s).
Proof.
  intros Hinv. destruct e as [e| |chapterId|trimmedName]; simpl.
  - apply step_invariant. exact Hinv.
  - unfold phaseLogEffect, pushLog.
    destruct ((tick s =? 0)
              || negb (Z.rem (tick s) (PHASES_length * 2) =? 0));
      exact Hinv.
  - unfold selectChapter.
    match goal with |- context [if ?b then _ else _] => destruct b end;
      exact Hinv.
  - unfold handleNewGame. destruct (String.eqb trimmedName ""); [exact Hinv|].
    unfold session_invariant in *. cbn.
    apply (inv_fields_pending _ _ _ None); [exact initialGame_invariant|].
    destruct Hinv as (_ & _ & Hpending). exact Hpending.
Qed.

Lemma session_step_rates (e : SessionEvent) (s : Game) :
  rates_invariant s -> rates_invariant (session_step e s).
Proof.
  intros Hinv. destruct e as [e| |chapterId|trimmedName]; simpl.
  - apply step_rates. exact Hinv.
  - unfold phaseLogEffect, pushLog.
    destruct ((tick s =? 0)
              || negb (Z.rem (tick s) (PHASES_length * 2) =? 0));
      exact Hinv.
  - unfold selectChapter.
    match goal with |- context [if ?b then _ else _] => destruct b end;
      exact Hinv.
  - unfold handleNewGame. destruct (String.eqb trimmedName ""); [exact Hinv|].
    exact initialGame_rates.
Qed.

Lemma session_step_shape (e : SessionEvent) (s : Game) :
  shape_fields (districts s) (skills s) (log s) (facilityCounts s) ->
  shape_fields (districts (session_step e s)) (skills (session_step e s))
    (log (session_step e s)) (facilityCounts (session_step e s)).
Proof.
  intros Hshape. destruct e as [e| |chapterId|trimmedName]; simpl.
  - apply step_shape. exact Hshape.
  - unfold phaseLogEffect, pushLog.
    destruct ((tick s =? 0)
              || negb (Z.rem (tick s) (PHASES_length * 2) =? 0));
      [exact Hshape|].
    cbn. apply (shape_fields_log _ _ _ _ _ Hshape). log_bound.
  - unfold selectChapter.
    match goal with |- context [if ?b then _ else _] => destruct b end;
      exact Hshape.
  - unfold handleNewGame. destruct (String.eqb trimmedName ""); [exact Hshape|].
    exact initialGame_shape.
Qed.

Lemma session_ledger (s : Game) :
  session s -> session_invariant s /\ rates_invariant s /\ codec_wf s.
Proof.
  induction 1 as [|e s _ (Hinv & Hrates & Hkeys & Hshape)].
  - split; [apply initialGame_invariant | split; [apply initialGame_rates|]].
    split; [reflexivity | apply initialGame_shape].
  - pose proof (session_step_invariant e s Hinv) as Hinv'.
    split; [exact Hinv' | split; [apply session_step_rates; exact Hrates|]].
    split; [|apply session_step_shape; exact Hshape].
    destruct Hinv' as ((Hkeys' & _) & _). exact Hkeys'.
Qed.

(** *** Workers, tenants and housing *)

Arguments workforce_fields : simpl never.

Ltac workforce_split :=
  split; [|split; [|split; [|split; [|split; [|split]]]]].

Lemma totalAssignedWorkers_sum (s : Game) :
  totalAssignedWorkers s = sum_workers RESOURCE_KEYS (resourceWorkers s).
Proof. unfold totalAssignedWorkers, sum_workers. simpl. lia. Qed.

Lemma totalHousingCapacity_counts (s : Game) :
  totalHousingCapacity s
  = foldl (fun total facility =>
             total
             + default 0 (facilityCounts s !! facility_id facility)
               * facility_capacity facility)
      0 FACILITIES.
Proof. reflexivity. Qed.

Lemma RESOURCE_KEYS_NoDup : NoDup RESOURCE_KEYS.
Proof.
  unfold RESOURCE_KEYS.
  repeat (apply NoDup_cons_2; [rewrite list_elem_of_In; simpl; intuition discriminate|]).
  apply NoDup_nil_2.
Qed.

Lemma sum_workers_record_set (w : ResourceKey -> Z) (k : ResourceKey)
    (v : Z) :
  sum_workers RESOURCE_KEYS (record_set w k v)
  = sum_workers RESOURCE_KEYS w - w k + v.
Proof.
  unfold sum_workers, record_set, RESOURCE_KEYS. simpl.
  destruct k; simpl; lia.
Qed.

Lemma attritionFilter_Forall (P : Z -> Prop) (rnd : nat -> Q) (calls : nat)
    (morale : list Z) :
  Forall P morale -> Forall P (fst (fst (attritionFilter rnd calls morale))).
Proof.
  intros H. revert calls.
  induction H as [|m morale Hm _ IH]; intros calls; [constructor|].
  simpl. destruct (m <? 50).
  - specialize (IH (S calls)).
    destruct (attritionFilter rnd (S calls) morale) as ((kept & dep) & n).
    destruct (Qlt_bool (rnd calls) (1 # 2)); simpl in *;
      [exact IH | constructor; assumption].
  - specialize (IH calls).
    destruct (attritionFilter rnd calls morale) as ((kept & dep) & n).
    simpl in *. constructor; assumption.
Qed.

Lemma handlePayWages_workforce (s : Game) :
  workforce_invariant s -> workforce_invariant (snd (handlePayWages s)).
Proof.
  intros Hinv. unfold handlePayWages, pushLog.
  destruct (find_resource (resources s) sunleaf) as [sunleafResource|];
    [|exact Hinv].
  destruct (Qlt_bool (amount sunleafResource)
              (inject_Z (assignedTenants s * WAGE_PER_TENANT_PER_DAY)));
    exact Hinv.
Qed.

Lemma wagesEffect_workforce (s : Game) :
  workforce_invariant s -> workforce_invariant (wagesEffect s).
Proof.
  intros Hinv. unfold wagesEffect.
  destruct ((day (tick s) =? lastPayDay s) || (assignedTenants s =? 0));
    [exact Hinv|].
  assert (Hpaid :
    workforce_invariant
      (snd (if autoPayWages s then handlePayWages s else (false, s)))).
  { destruct (autoPayWages s); [apply handlePayWages_workforce|]; exact Hinv. }
  destruct (if autoPayWages s then handlePayWages s else (false, s))
    as [paid s1].
  simpl in Hpaid. unfold pushLog.
  destruct paid; [exact Hpaid|].
  destruct (lastPayDay s + 1 <? day (tick s)); [|exact Hpaid].
  unfold workforce_invariant in *. cbn.
  destruct Hpaid as (Hw & Hsum & Hlen & Hmorale & Hrest).
  split; [exact Hw | split; [exact Hsum | split; [|split; [|exact Hrest]]]].
  - rewrite length_map. exact Hlen.
  - apply Forall_map. eapply Forall_impl; [exact Hmorale|].
    intros m Hm. simpl in *. lia.
Qed.

Lemma attritionEffect_workforce (rnd : nat -> Q) (s : Game) :
  workforce_invariant s -> workforce_invariant (attritionEffect rnd s).
Proof.
  intros Hinv. unfold attritionEffect.
  destruct ((assignedTenants s =? 0)
            || (Z.of_nat (length (tenantMorale s)) =? 0)); [exact Hinv|].
  destruct (day (tick s) =? lastPayDay s); [exact Hinv|].
  pose proof (attritionFilter_counts rnd 0 (tenantMorale s)) as (Hdep & Hlen').
  destruct Hinv as (Hw & Hsum & Hlen & Hmorale & Hpending & Hcounts & Hhouse).
  pose proof (attritionFilter_Forall _ rnd 0 _ Hmorale) as Hkept.
  destruct (attritionFilter rnd 0 (tenantMorale s)) as [[kept departures] c].
  simpl in Hdep, Hlen', Hkept.
  destruct (0 <? departures) eqn:Epos; [|workforce_split; assumption].
  rewrite totalAssignedWorkers_sum. unfold pushLog, workforce_invariant.
  destruct (0 <? sum_workers RESOURCE_KEYS (resourceWorkers s)
                 - (assignedTenants s - departures)) eqn:Eexcess;
    cbn -[sum_workers removeExcessWorkers RESOURCE_KEYS].
  - apply Z.ltb_lt in Eexcess.
    workforce_split;
      try assumption; try lia.
    + intros k.
      apply (removeExcessWorkers_bounds RESOURCE_KEYS (resourceWorkers s)
               _ Hw k).
    + rewrite removeExcessWorkers_sum;
        [lia | apply RESOURCE_KEYS_NoDup | exact Hw | lia].
  - apply Z.ltb_ge in Eexcess.
    workforce_split;
      try assumption; lia.
Qed.

Lemma find_facility_cases (facilityId : string) (facility : Facility) :
  find_facility facilityId = Some facility ->
  facility_id facility = facilityId
  /\ (facilityId = "cabin" \/ facilityId = "city-hall")
  /\ 0 <= facility_capacity facility.
Proof.
  intros H. apply find_some in H. destruct H as (Hin & Heq).
  apply String.eqb_eq in Heq. split; [exact Heq|]. subst facilityId.
  unfold FACILITIES in Hin. simpl in Hin.
  destruct Hin as [<- | [<- | []]]; simpl; split; auto; lia.
Qed.

Lemma handleBuildFacility_workforce (facilityId : string) (s : Game) :
  workforce_invariant s -> workforce_invariant (handleBuildFacility facilityId s).
Proof.
  intros Hinv. unfold handleBuildFacility.
  destruct (find_facility facilityId) as [facility|] eqn:Hfind; [|exact Hinv].
  destruct (stageIndex s <? facility_requiredStage facility); [exact Hinv|].
  destruct (negb (canAffordFacility s facility)); [exact Hinv|].
  destruct (find_facility_cases _ _ Hfind) as (_ & Hid & _).
  destruct Hinv as (Hw & Hsum & Hlen & Hmorale & Hpending & Hcounts & Hhouse).
  unfold pushLog, workforce_invariant. cbn.
  assert (Hcount : 0 <= default 0 (facilityCounts s !! facilityId)).
  { destruct (facilityCounts s !! facilityId) as [count|] eqn:Hlook;
      simpl; [|lia].
    apply (Hcounts _ _ Hlook). }
  workforce_split; try assumption.
  - apply map_Forall_insert_2; [lia | exact Hcounts].
  - unfold FACILITIES in *. simpl in *.
    destruct Hid as [-> | ->].
    + rewrite lookup_insert_eq, lookup_insert_ne by discriminate. simpl. lia.
    + rewrite lookup_insert_eq, lookup_insert_ne by discriminate. simpl. lia.
Qed.

Lemma handleAssignTenants_workforce (s : Game) :
  workforce_invariant s -> workforce_invariant (handleAssignTenants s).
Proof.
  intros Hinv. unfold handleAssignTenants.
  destruct (pendingTenants s <=? 0) eqn:Epending; [exact Hinv|].
  destruct (Z.min (pendingTenants s) (availableHousing s) <=? 0) eqn:Eassign;
    [exact Hinv|].
  apply Z.leb_gt in Epending, Eassign.
  destruct Hinv as (Hw & Hsum & Hlen & Hmorale & Hpending & Hcounts & Hhouse).
  unfold pushLog, workforce_invariant. cbn.
  unfold availableHousing in *. rewrite totalHousingCapacity_counts in *.
  workforce_split;
    try assumption; try lia.
  - rewrite length_app, repeat_length. lia.
  - apply Forall_app. split; [exact Hmorale|].
    apply Forall_forall. intros m Hm. apply list_elem_of_In in Hm.
    apply repeat_spec in Hm. lia.
Qed.

Lemma initialGame_workforce : workforce_invariant initialGame.
Proof.
  unfold workforce_invariant, workforce_fields. cbn.
  split; [intros k; unfold all_zero; lia|].
  split; [vm_compute; discriminate|].
  split; [reflexivity|]. split; [constructor|]. split; [lia|].
  split; [|vm_compute; discriminate].
  unfold INITIAL_FACILITY_COUNTS, FACILITIES. simpl.
  apply map_Forall_insert_2; [lia|].
  apply map_Forall_insert_2; [lia|]. apply map_Forall_empty.
Qed.

Lemma step_workforce (e : Event) (s : Game) :
  workforce_invariant s -> workforce_invariant (step e s).
Proof.
  intros Hinv.
  destruct e;
    try (handler_cases; solve [exact Hinv]); unfold step.
  all: try (apply wagesEffect_workforce; exact Hinv).
  all: try (apply attritionEffect_workforce; exact Hinv).
  all: try (apply handlePayWages_workforce; exact Hinv).
  all: try (apply handleBuildFacility_workforce; exact Hinv).
  all: try (apply handleAssignTenants_workforce; exact Hinv).
  - (* tenant timeout *)
    unfold tenantTimeoutSecond, pushLog.
    destruct ((tenantTimeout s <=? 0) || (pendingTenants s <=? 0));
      [exact Hinv|].
    destruct Hinv as (Hw & Hsum & Hlen & Hmorale & Hpending & Hrest).
    destruct ((Z.max 0 (tenantTimeout s - 1) =? 0) && (0 <? pendingTenants s));
      unfold workforce_invariant; cbn;
      (split; [|split; [|split; [|split; [|split]]]]; try assumption; lia).
  - (* recruit *)
    unfold handleRecruitTenants, pushLog.
    destruct (negb (hasCityHall s)); [exact Hinv|].
    destruct (0 <? tenantRecruitCooldown s); [exact Hinv|].
    destruct Hinv as (Hw & Hsum & Hlen & Hmorale & Hpending & Hrest).
    unfold workforce_invariant; cbn.
    split; [|split; [|split; [|split; [|split]]]]; try assumption; lia.
  - (* assign a worker *)
    unfold handleAssignWorker, pushLog, idleWorkers.
    rewrite totalAssignedWorkers_sum.
    destruct (assignedTenants s
              - sum_workers RESOURCE_KEYS (resourceWorkers s) <=? 0)
      eqn:Eidle; [exact Hinv|].
    apply Z.leb_gt in Eidle.
    destruct Hinv as (Hw & Hsum & Hrest).
    unfold workforce_invariant; cbn.
    split; [|split; [|exact Hrest]].
    + apply record_set_nonneg; [exact Hw|]. specialize (Hw k). lia.
    + rewrite sum_workers_record_set. lia.
  - (* unassign a worker *)
    unfold handleUnassignWorker, pushLog.
    destruct (resourceWorkers s k <=? 0) eqn:Ecurrent; [exact Hinv|].
    apply Z.leb_gt in Ecurrent.
    destruct Hinv as (Hw & Hsum & Hrest).
    unfold workforce_invariant; cbn.
    split; [|split; [|exact Hrest]].
    + apply record_set_nonneg; [exact Hw | lia].
    + rewrite sum_workers_record_set. lia.
Qed.

Lemma session_step_workforce (e : SessionEvent) (s : Game) :
  workforce_invariant s -> workforce_invariant (session_step e s).
Proof.
  intros Hinv. destruct e as [e| |chapterId|trimmedName]; simpl.
  - apply step_workforce. exact Hinv.
  - unfold phaseLogEffect, pushLog.
    destruct ((tick s =? 0)
              || negb (Z.rem (tick s) (PHASES_length * 2) =? 0));
      exact Hinv.
  - unfold selectChapter.
    match goal with |- context [if ?b then _ else _] => destruct b end;
      exact Hinv.
  - unfold handleNewGame. destruct (String.eqb trimmedName ""); [exact Hinv|].
    exact initialGame_workforce.
Qed.

Lemma session_workforce (s : Game) : session s -> workforce_invariant s.
Proof.
  induction 1 as [|e s _ IH]; [apply initialGame_workforce|].
  apply session_step_workforce. exact IH.
Qed.

(** *** Story *)

Arguments story_fields : simpl never.

Lemma NoDup_map_filter {A B : Type} (g : A -> B) (f : A -> bool)
    (l : list A) :
  NoDup (map g l) -> NoDup (map g (List.filter f l)).
Proof.
  induction l as [|x l IH]; simpl; intros Hnodup; [exact Hnodup|].
  apply NoDup_cons in Hnodup. destruct Hnodup as (Hfresh & Hnodup).
  destruct (f x); simpl; [|apply IH; exact Hnodup].
  apply NoDup_cons_2; [|apply IH; exact Hnodup].
  intros Hin. apply Hfresh.
  apply list_elem_of_In in Hin. apply list_elem_of_In.
  apply in_map_iff in Hin. destruct Hin as (y & Hy & Hin).
  apply filter_In in Hin. apply in_map_iff. exists y. tauto.
Qed.

Lemma STORY_CHAPTERS_NoDup : NoDup (map chapter_id STORY_CHAPTERS).
Proof.
  unfold STORY_CHAPTERS. simpl.
  repeat (apply NoDup_cons_2;
          [rewrite list_elem_of_In; simpl; intuition discriminate|]).
  apply NoDup_nil_2.
Qed.

(** With no purchase recorded and no milestone but the dismissal of the
    overlay, the triggers of chapters 6, 8 and 10 are not met. *)
Lemma met_trigger_reachable (s : Game) (c : StoryChapter) :
  completedPurchases s = [] ->
  Forall (fun label => label = "tutorial-overlay-dismissed") (milestones s) ->
  In c STORY_CHAPTERS ->
  isTriggerMet s (trigger c) = true ->
  In (chapter_id c) REACHABLE_CHAPTERS.
Proof.
  intros Hpurchases Hlabels Hin Hmet.
  assert (Hlabel : forall label,
            label <> "tutorial-overlay-dismissed" ->
            includes (milestones s) label = false).
  { intros label Hne. destruct (includes (milestones s) label) eqn:E;
      [|reflexivity].
    apply includes_In in E. rewrite Forall_forall in Hlabels.
    apply list_elem_of_In in E. specialize (Hlabels _ E). contradiction. }
  unfold STORY_CHAPTERS in Hin. simpl in Hin.
  repeat (destruct Hin as [<- | Hin];
          [first [ simpl; tauto
                 | exfalso; simpl in Hmet;
                   first [ rewrite Hpurchases in Hmet; discriminate Hmet
                         | rewrite Hlabel in Hmet by discriminate;
                           discriminate Hmet ] ]|]).
  destruct Hin.
Qed.

Lemma chapterUnlockEffect_story (s : Game) :
  story_invariant s -> story_invariant (chapterUnlockEffect s).
Proof.
  intros Hinv.
  destruct (chapterUnlockEffect_cases s) as [(_ & ->) | (latest & Hlast & ->)];
    [exact Hinv|].
  destruct Hinv as (Hp & Hc & Hciv & Hlabels & Hreach & Hnodup & Hactive).
  unfold pushLog, story_invariant. cbn -[newlyUnlocked].
  split; [exact Hp | split; [exact Hc | split; [exact Hciv|]]].
  split; [exact Hlabels|]. split; [|split].
  - apply Forall_app. split; [exact Hreach|].
    apply Forall_forall. intros id Hid.
    apply list_elem_of_In, in_map_iff in Hid.
    destruct Hid as (c & <- & Hc'). apply newlyUnlocked_In in Hc'.
    destruct Hc' as (Hcat & _ & Hmet).
    apply (met_trigger_reachable s); assumption.
  - apply NoDup_app. split; [exact Hnodup | split].
    + intros id Hid Hnew.
      apply list_elem_of_In, in_map_iff in Hnew.
      destruct Hnew as (c & <- & Hc'). apply newlyUnlocked_In in Hc'.
      destruct Hc' as (_ & Hnot & _).
      apply list_elem_of_In, includes_In in Hid. congruence.
    + apply NoDup_map_filter. exact STORY_CHAPTERS_NoDup.
  - apply in_or_app. right. apply in_map. apply last_Some_In. exact Hlast.
Qed.

Lemma initialGame_story : story_invariant initialGame.
Proof.
  unfold story_invariant, story_fields. cbn.
  rewrite bool_decide_eq_false_2 by discriminate.
  split; [reflexivity | split; [reflexivity | split; [reflexivity|]]].
  split; [constructor|]. split; [|split].
  - repeat constructor.
  - apply NoDup_cons_2; [rewrite list_elem_of_In; simpl; tauto|].
    apply NoDup_nil_2.
  - simpl. tauto.
Qed.

Lemma step_story (e : Event) (s : Game) :
  story_invariant s -> story_invariant (step e s).
Proof.
  intros Hinv.
  destruct e;
    try (handler_cases; solve [exact Hinv]); unfold step.
  - apply chapterUnlockEffect_story. exact Hinv.
  - (* the overlay is dismissed *)
    unfold handleDismissTutorial, registerMilestone.
    destruct (0 <? stageIndex s); [|exact Hinv].
    destruct (existsb (String.eqb "tutorial-overlay-dismissed")
                (milestones (setShowTutorial false s))); [exact Hinv|].
    destruct Hinv as (Hp & Hc & Hciv & Hlabels & Hrest).
    unfold story_invariant. cbn.
    split; [exact Hp | split; [exact Hc | split; [exact Hciv|]]].
    split; [|exact Hrest].
    apply Forall_app. split; [exact Hlabels|]. repeat constructor.
Qed.

Lemma session_step_story (e : SessionEvent) (s : Game) :
  story_invariant s -> story_invariant (session_step e s).
Proof.
  intros Hinv. destruct e as [e| |chapterId|trimmedName]; simpl.
  - apply step_story. exact Hinv.
  - unfold phaseLogEffect, pushLog.
    destruct ((tick s =? 0)
              || negb (Z.rem (tick s) (PHASES_length * 2) =? 0));
      exact Hinv.
  - unfold selectChapter.
    destruct (1 <? Z.of_nat (length (unlockedChapters s))); [|exact Hinv].
    destruct (includes (unlockedChapters s) chapterId) eqn:Hinc;
      [|exact Hinv].
    destruct (existsb _ STORY_CHAPTERS); [|exact Hinv]. simpl.
    destruct Hinv as (Hp & Hc & Hciv & Hlabels & Hreach & Hnodup & _).
    unfold story_invariant. cbn.
    split; [exact Hp | split; [exact Hc | split; [exact Hciv|]]].
    split; [exact Hlabels | split; [exact Hreach | split; [exact Hnodup|]]].
    apply includes_In. exact Hinc.
  - unfold handleNewGame. destruct (String.eqb trimmedName ""); [exact Hinv|].
    exact initialGame_story.
Qed.

Lemma session_story (s : Game) : session s -> story_invariant s.
Proof.
  induction 1 as [|e s _ IH]; [apply initialGame_story|].
  apply session_step_story. exact IH.
Qed.

(** *** Counters and timers *)

Ltac bool_hyps :=
  repeat match goal with
         | H : (_ || _) = false |- _ =>
             apply orb_false_elim in H; destruct H
         | H : (_ && _) = true |- _ => apply andb_prop in H; destruct H
         | H : negb _ = true |- _ => apply negb_true_iff in H
         | H : negb _ = false |- _ => apply negb_false_iff in H
         | H : (_ <? _) = true |- _ => apply Z.ltb_lt in H
         | H : (_ <? _) = false |- _ => apply Z.ltb_ge in H
         | H : (_ <=? _) = true |- _ => apply Z.leb_le in H
         | H : (_ <=? _) = false |- _ => apply Z.leb_gt in H
         | H : (_ =? _) = true |- _ => apply Z.eqb_eq in H
         | H : (_ =? _) = false |- _ => apply Z.eqb_neq in H
         end.

Ltac counters_close Hinv :=
  unfold counters_invariant, counters_fields in *; cbn;
  destruct Hinv as
    (Htick & Hstage & Hintro & Hprogress & Hrecruit & Htimeout & Hcallbacks
     & Hcooldowns & Hlog);
  bool_hyps;
  unfold TUTORIAL_STAGES_length, INTRO_DIALOGUE_length in *; simpl in *;
  repeat split; try assumption; try apply Hcooldowns;
  try lia; try (rewrite ?length_take; lia).

Lemma foldl_record_set_lookup {V : Type} (f : ResourceKey -> V)
    (keys : list ResourceKey) (acc : ResourceKey -> V) (k : ResourceKey) :
  (In k keys ->
   foldl (fun acc k => record_set acc k (f k)) acc keys k = f k)
  /\ (~ In k keys ->
      foldl (fun acc k => record_set acc k (f k)) acc keys k = acc k).
Proof.
  revert acc. induction keys as [|k0 keys IH]; intros acc.
  - split; [intros [] | reflexivity].
  - simpl. destruct (IH (record_set acc k0 (f k0))) as (IHin & IHout).
    split.
    + intros [-> | Hin].
      * destruct (in_dec ResourceKey_eq_dec k keys) as [Hin | Hout];
          [exact (IHin Hin)|].
        rewrite (IHout Hout). unfold record_set.
        destruct (decide (k = k)); [reflexivity | contradiction].
      * exact (IHin Hin).
    + intros Hout. rewrite IHout by tauto. unfold record_set.
      destruct (decide (k = k0)); [subst; tauto | reflexivity].
Qed.

Lemma In_RESOURCE_KEYS (k : ResourceKey) : In k RESOURCE_KEYS.
Proof. destruct k; simpl; tauto. Qed.

(** One second of the cooldown timer, key by key: an active key loses one
    second and is switched off when it reaches zero; the other keys are
    left alone. *)
Lemma cooldownSecond_cooldowns (s : Game) (k : ResourceKey) :
  manualCooldowns (cooldownSecond s) k
  = if manualHarvestActive s k then Z.max 0 (manualCooldowns s k - 1)
    else manualCooldowns s k.
Proof.
  unfold cooldownSecond.
  destruct (foldl_record_set_lookup
              (fun k => Z.max 0 (manualCooldowns s k - 1))
              (List.filter (manualHarvestActive s) RESOURCE_KEYS)
              (manualCooldowns s) k) as (Hin & Hout).
  rewrite filter_In in Hin, Hout.
  destruct (List.filter (manualHarvestActive s) RESOURCE_KEYS) as [|k0 ks]
    eqn:Hactive.
  - destruct (manualHarvestActive s k) eqn:Ek; [|reflexivity].
    exfalso.
    assert (Hk : In k (List.filter (manualHarvestActive s) RESOURCE_KEYS))
      by (apply filter_In; split; [apply In_RESOURCE_KEYS | exact Ek]).
    rewrite Hactive in Hk. destruct Hk.
  - cbn [manualCooldowns setManualCooldowns].
    destruct (manualHarvestActive s k) eqn:Ek.
    + apply Hin. split; [apply In_RESOURCE_KEYS | reflexivity].
    + apply Hout. intros (_ & Hk). discriminate Hk.
Qed.

Lemma cooldownSecond_active (s : Game) (k : ResourceKey) :
  manualHarvestActive (cooldownSecond s) k
  = manualHarvestActive s k && (0 <? manualCooldowns s k - 1).
Proof.
  unfold cooldownSecond.
  set (activeKeys := List.filter (manualHarvestActive s) RESOURCE_KEYS).
  set (cooledKeys :=
         List.filter
           (fun k => Z.max 0 (manualCooldowns s k - 1) <=? 0) activeKeys).
  destruct (foldl_record_set_lookup (fun _ => false) cooledKeys
              (manualHarvestActive s) k) as (Hin & Hout).
  assert (Hcooled :
    In k cooledKeys
    <-> manualHarvestActive s k = true /\ manualCooldowns s k - 1 <= 0).
  { unfold cooledKeys, activeKeys. rewrite !filter_In, Z.leb_le.
    pose proof (In_RESOURCE_KEYS k). split; [intros ((_ & ?) & ?) | intros (? & ?)];
      repeat split; try assumption; lia. }
  assert (Hfold :
    manualHarvestActive
      (match activeKeys with
       | [] => s
       | _ :: _ =>
           setManualCooldowns
             (foldl (fun acc k =>
                       record_set acc k (Z.max 0 (manualCooldowns s k - 1)))
                (manualCooldowns s) activeKeys)
             (match cooledKeys with
              | [] => s
              | _ :: _ =>
                  setManualHarvestActive
                    (foldl (fun acc k => record_set acc k false)
                       (manualHarvestActive s) cooledKeys) s
              end)
       end) k
    = foldl (fun acc k => record_set acc k false) (manualHarvestActive s)
        cooledKeys k).
  { clear Hin Hout Hcooled. subst cooledKeys.
    destruct activeKeys as [|k0 ks]; [reflexivity|].
    destruct (List.filter _ (k0 :: ks)); reflexivity. }
  cbv zeta. fold activeKeys. fold cooledKeys. rewrite Hfold.
  destruct (in_dec ResourceKey_eq_dec k cooledKeys) as [Hk | Hk].
  - rewrite (Hin Hk). apply Hcooled in Hk. destruct Hk as (-> & Hle).
    destruct (0 <? manualCooldowns s k - 1) eqn:E; [lia | reflexivity].
  - rewrite (Hout Hk).
    destruct (manualHarvestActive s k) eqn:Ek; [|reflexivity].
    destruct (0 <? manualCooldowns s k - 1) eqn:E; [reflexivity|].
    exfalso. apply Hk, Hcooled. split; [reflexivity | lia].
Qed.

Lemma cooldownSecond_log (s : Game) : log (cooldownSecond s) = log s.
Proof. handler_cases; reflexivity. Qed.

Lemma toolBonus_reduction_range (s : Game) (k : ResourceKey) :
  0 <= bonus_cooldownReduction (getEquippedToolBonus s k) <= 15.
Proof.
  unfold getEquippedToolBonus.
  destruct (String.eqb (toolTypeMap k) ""); [simpl; lia|].
  destruct (equippedTools s !! toolTypeMap k) as [toolId|]; [|simpl; lia].
  destruct (String.eqb toolId ""); [simpl; lia|].
  destruct (find_tool toolId) as [tool|] eqn:Hfind; [|simpl; lia].
  apply find_some in Hfind. destruct Hfind as (Hin & _).
  unfold TOOL_RECIPES in Hin. simpl in Hin.
  repeat (destruct Hin as [<- | Hin]; [simpl; lia|]). destruct Hin.
Qed.

Lemma counters_fields_timers (t stage intro progress recruit timeout : Z)
    (pendingTimeouts : list Timeout) (cooldowns cooldowns' : ResourceKey -> Z)
    (lines lines' : list LogEntry) :
  counters_fields t stage intro progress recruit timeout pendingTimeouts
    cooldowns lines ->
  (forall k, 0 <= cooldowns' k <= MANUAL_HARVEST_COOLDOWN_SECONDS) ->
  (1 <= length lines' <= 6)%nat ->
  counters_fields t stage intro progress recruit timeout pendingTimeouts
    cooldowns' lines'.
Proof.
  intros (Ht & Hstage & Hintro & Hprogress & Hrecruit & Htimeout & Hcallbacks
          & _ & _) Hcooldowns Hlog.
  repeat (split; [assumption|]). exact Hlog.
Qed.

Lemma cooldownSecond_fields (s : Game) :
  tick (cooldownSecond s) = tick s
  /\ stageIndex (cooldownSecond s) = stageIndex s
  /\ introIndex (cooldownSecond s) = introIndex s
  /\ craftingProgress (cooldownSecond s) = craftingProgress s
  /\ tenantRecruitCooldown (cooldownSecond s) = tenantRecruitCooldown s
  /\ tenantTimeout (cooldownSecond s) = tenantTimeout s
  /\ timeouts (cooldownSecond s) = timeouts s.
Proof. handler_cases; repeat split; reflexivity. Qed.

Lemma cooldownSecond_counters (s : Game) :
  counters_invariant s -> counters_invariant (cooldownSecond s).
Proof.
  intros Hinv. unfold counters_invariant.
  destruct (cooldownSecond_fields s) as (-> & -> & -> & -> & -> & -> & ->).
  rewrite cooldownSecond_log.
  apply (counters_fields_timers _ _ _ _ _ _ _ _ _ _ _ Hinv).
  - intros k. rewrite cooldownSecond_cooldowns.
    destruct Hinv as (_ & _ & _ & _ & _ & _ & _ & Hcooldowns & _).
    specialize (Hcooldowns k). unfold MANUAL_HARVEST_COOLDOWN_SECONDS in *.
    destruct (manualHarvestActive s k); lia.
  - destruct Hinv as (_ & _ & _ & _ & _ & _ & _ & _ & Hlog). exact Hlog.
Qed.

Lemma handleManualHarvest_fields (k : ResourceKey) (s : Game) :
  tick (handleManualHarvest k s) = tick s
  /\ stageIndex (handleManualHarvest k s) = stageIndex s
  /\ introIndex (handleManualHarvest k s) = introIndex s
  /\ craftingProgress (handleManualHarvest k s) = craftingProgress s
  /\ tenantRecruitCooldown (handleManualHarvest k s) = tenantRecruitCooldown s
  /\ tenantTimeout (handleManualHarvest k s) = tenantTimeout s
  /\ timeouts (handleManualHarvest k s) = timeouts s
  /\ (1 <= length (log s) <= 6 ->
      1 <= length (log (handleManualHarvest k s)) <= 6)%nat.
Proof.
  handler_cases; repeat split; try reflexivity; try tauto;
    rewrite ?length_take; lia.
Qed.

Lemma handleManualHarvest_counters (k : ResourceKey) (s : Game) :
  counters_invariant s -> counters_invariant (handleManualHarvest k s).
Proof.
  intros Hinv. unfold counters_invariant.
  destruct (handleManualHarvest_fields k s)
    as (-> & -> & -> & -> & -> & -> & -> & Hlog').
  apply (counters_fields_timers _ _ _ _ _ _ _ _ _ _ _ Hinv).
  - destruct Hinv as (_ & _ & _ & _ & _ & _ & _ & Hcooldowns & _).
    intros k0.
    destruct (Z_lt_le_dec 0 (manualCooldowns s k)) as [Hcool | Hready].
    + rewrite harvest_rejected_when_cooling by exact Hcool.
      apply Hcooldowns.
    + destruct (harvest_sets_cooldown s k Hready) as (-> & _).
      unfold record_set. destruct (decide (k0 = k)); [|apply Hcooldowns].
      pose proof (toolBonus_reduction_range s k).
      unfold MANUAL_HARVEST_COOLDOWN_SECONDS. lia.
  - apply Hlog'.
    destruct Hinv as (_ & _ & _ & _ & _ & _ & _ & _ & Hlog). exact Hlog.
Qed.

Lemma stageAdvanceEffect_counters (s : Game) :
  counters_invariant s -> counters_invariant (stageAdvanceEffect s).
Proof.
  intros Hinv. unfold stageAdvanceEffect.
  destruct (js_index TUTORIAL_STAGES (stageIndex s)) as [activeStage|];
    [|exact Hinv].
  destruct (forallb (goalMet (resources s)) (goals activeStage)
            && (stageIndex s <? TUTORIAL_STAGES_length - 1)) eqn:Emet;
    [|exact Hinv].
  apply andb_prop in Emet. destruct Emet as (_ & Hbelow).
  apply Z.ltb_lt in Hbelow.
  destruct Hinv as
    (Htick & Hstage & Hintro & Hprogress & Hrecruit & Htimeout & Hcallbacks
     & Hcooldowns & Hlog).
  assert (Hnew :
    Forall (fun callback =>
              0 < timeout_nextIndex callback < TUTORIAL_STAGES_length)
      [mkTimeout 750 (stageIndex s + 1)])
    by (repeat constructor; simpl; lia).
  unfold pushLog.
  destruct (negb (nextStageRef s =? stageIndex s + 1));
    unfold counters_invariant, counters_fields; cbn;
    (repeat (split; [assumption|]));
    (split; [apply Forall_app; split; assumption|]);
    (split; [assumption|]); rewrite ?length_take; lia.
Qed.

Lemma fireTimeout_counters (s : Game) :
  counters_invariant s -> counters_invariant (fireTimeout s).
Proof.
  intros Hinv. unfold fireTimeout, runTimeout.
  destruct (timeouts s) as [|t rest] eqn:Htimeouts; [exact Hinv|].
  destruct Hinv as
    (Htick & Hstage & Hintro & Hprogress & Hrecruit & Htimeout & Hcallbacks
     & Hcooldowns & Hlog).
  rewrite Htimeouts in Hcallbacks.
  apply Forall_cons in Hcallbacks. destruct Hcallbacks as (Ht & Hrest).
  unfold counters_invariant, counters_fields; cbn.
  split; [assumption|]. split; [lia|].
  repeat (split; [assumption|]). assumption.
Qed.

Lemma initialGame_counters : counters_invariant initialGame.
Proof.
  unfold counters_invariant, counters_fields. cbn.
  unfold TUTORIAL_STAGES_length, INTRO_DIALOGUE_length,
    MANUAL_HARVEST_COOLDOWN_SECONDS, all_zero. simpl.
  repeat split; try lia; try constructor.
Qed.

Lemma step_counters (e : Event) (s : Game) :
  counters_invariant s -> counters_invariant (step e s).
Proof.
  intros Hinv.
  destruct e;
    try (handler_cases; solve [counters_close Hinv]); unfold step.
  - apply stageAdvanceEffect_counters. exact Hinv.
  - apply fireTimeout_counters. exact Hinv.
  - apply cooldownSecond_counters. exact Hinv.
  - apply handleManualHarvest_counters. exact Hinv.
Qed.

Lemma session_step_counters (e : SessionEvent) (s : Game) :
  counters_invariant s -> counters_invariant (session_step e s).
Proof.
  intros Hinv. destruct e as [e| |chapterId|trimmedName]; simpl.
  - apply step_counters. exact Hinv.
  - unfold phaseLogEffect, pushLog.
    destruct ((tick s =? 0)
              || negb (Z.rem (tick s) (PHASES_length * 2) =? 0));
      [exact Hinv | counters_close Hinv].
  - unfold selectChapter.
    match goal with |- context [if ?b then _ else _] => destruct b end;
      exact Hinv.
  - unfold handleNewGame. destruct (String.eqb trimmedName ""); [exact Hinv|].
    destruct Hinv as (_ & _ & _ & _ & _ & _ & Hcallbacks & _).
    unfold counters_invariant, counters_fields in *. cbn.
    unfold TUTORIAL_STAGES_length, INTRO_DIALOGUE_length,
      MANUAL_HARVEST_COOLDOWN_SECONDS, all_zero in *. simpl in *.
    repeat split; try lia; assumption.
Qed.

Lemma session_counters (s : Game) : session s -> counters_invariant s.
Proof.
  induction 1 as [|e s _ IH]; [apply initialGame_counters|].
  apply session_step_counters. exact IH.
Qed.

(** *** Timed boosts *)

Lemma boostExpiryEffect_boosts (s : Game) :
  boosts_ok (activeBoosts s) -> boosts_ok (activeBoosts (boostExpiryEffect s)).
Proof.
  intros (Hnodup & Hticks). unfold boostExpiryEffect.
  destruct (activeBoosts s) as [|b boosts] eqn:Hboosts;
    [rewrite Hboosts; split; assumption|].
  cbn [activeBoosts setActiveBoosts]. revert Hnodup Hticks.
  generalize (b :: boosts). clear. intros boosts Hnodup Hticks.
  split.
  - apply NoDup_map_filter. rewrite map_map. exact Hnodup.
  - induction Hticks as [|b boosts Hb _ IH]; [constructor|].
    simpl in *. apply NoDup_cons in Hnodup. destruct Hnodup as (_ & Hnodup).
    destruct (0 <? remainingTicks b - 1) eqn:E; [|exact (IH Hnodup)].
    apply Z.ltb_lt in E. constructor; [simpl; lia | exact (IH Hnodup)].
Qed.

Lemma catalogue_duration_positive (n : nat) (action : Action) (d : Z) :
  ACTIONS !! n = Some action -> duration action = Some d ->
  0 < durationInTicks d.
Proof.
  intros Hn Hd.
  do 4 (destruct n as [|n];
        [injection Hn as <-; simpl in Hd;
         first [discriminate Hd | injection Hd as <-; reflexivity] |]).
  discriminate Hn.
Qed.

Lemma handleAction_boosts (n : nat) (action : Action) (s : Game) :
  ACTIONS !! n = Some action ->
  boosts_ok (activeBoosts s) ->
  boosts_ok (activeBoosts (handleAction action s)).
Proof.
  intros Hn (Hnodup & Hticks). unfold handleAction.
  destruct (negb (canExecute s action)); [split; assumption|].
  unfold pushLog.
  destruct (duration action) as [d|] eqn:Hd; [|split; assumption].
  destruct (rateDelta action) as [rd|]; [|split; assumption].
  destruct (negb (d =? 0)); [|split; assumption].
  cbn [activeBoosts setActiveBoosts setLog setResources].
  pose proof (catalogue_duration_positive n action d Hn Hd) as Hpos.
  split.
  - rewrite map_app. apply NoDup_app. split; [|split].
    + apply NoDup_map_filter. exact Hnodup.
    + intros id Hid Hnew. apply list_elem_of_In in Hnew.
      destruct Hnew as [<- | []]. simpl in Hid.
      apply list_elem_of_In, in_map_iff in Hid.
      destruct Hid as (b & Hb & Hin). apply filter_In in Hin.
      destruct Hin as (_ & Hne). rewrite Hb, String.eqb_refl in Hne.
      discriminate Hne.
    + simpl. apply NoDup_cons_2; [rewrite list_elem_of_In; simpl; tauto|].
      apply NoDup_nil_2.
  - apply Forall_app. split.
    + apply Forall_forall. intros b Hb.
      apply list_elem_of_In, filter_In in Hb. destruct Hb as (Hb & _).
      rewrite Forall_forall in Hticks. apply Hticks.
      apply list_elem_of_In. exact Hb.
    + repeat constructor; simpl; lia.
Qed.

Lemma step_boosts (e : Event) (s : Game) :
  boosts_ok (activeBoosts s) -> boosts_ok (activeBoosts (step e s)).
Proof.
  intros Hinv.
  destruct e;
    try (handler_cases; solve [exact Hinv]); unfold step.
  - apply boostExpiryEffect_boosts. exact Hinv.
  - destruct (ACTIONS !! n) as [action|] eqn:Hn; [|exact Hinv].
    eapply handleAction_boosts; eassumption.
Qed.

Lemma session_boosts (s : Game) : session s -> boosts_ok (activeBoosts s).
Proof.
  induction 1 as [|e s _ IH].
  - split; [apply NoDup_nil_2 | constructor].
  - destruct e as [e| |chapterId|trimmedName]; simpl.
    + apply step_boosts. exact IH.
    + unfold phaseLogEffect, pushLog.
      destruct ((tick s =? 0)
                || negb (Z.rem (tick s) (PHASES_length * 2) =? 0));
        exact IH.
    + unfold selectChapter.
      match goal with |- context [if ?b then _ else _] => destruct b end;
        exact IH.
    + unfold handleNewGame. destruct (String.eqb trimmedName ""); exact IH.
Qed.

(** *** The sessions of the examples *)

Lemma settlement_is_session : session settlement.
Proof. apply session_run_session. constructor. Qed.

Lemma foraging_is_session : session foraging.
Proof. apply session_run_session. constructor. Qed.

Lemma Forall2_map_same {A : Type} (P : A -> A -> Prop) (f : A -> A)
    (l : list A) :
  Forall (fun x => P x (f x)) l -> Forall2 P l (map f l).
Proof. induction 1; constructor; assumption. Qed.


(** ** Persistence codec, over a session *)

Section CodecOverSessions.

Variable language : string.
Variable render : LogEntry -> string.


End CodecOverSessions.



(** ** Per-tick production, over a session *)

Lemma session_ledger_nonneg (s : Game) : session s -> ledger_nonneg s.
Proof.
  intros Hs.
  destruct (session_ledger s Hs)
    as (((_ & Hled) & _) & (Hshape & Hcounts & Hworkers & Hrates) & _).
  pose proof (districts_nonneg_of_shape _ Hshape Hcounts) as Hds.
  split; [|split; [exact Hworkers | exact Hds]].
  rewrite Forall_forall in Hled, Hrates |- *.
  intros r Hr. destruct (Hled r Hr) as (Hamount & _).
  destruct (Hrates r Hr) as (_ & Hle).
  split; [|exact Hamount].
  pose proof (spec_passiveRate_nonneg (districts s) (key r) Hds). lra.
Qed.

Lemma same_catalogue_boost_keys (ds : list District) :
  Forall2 same_catalogue_district ds DISTRICTS ->
  Forall (fun d => NoDup (map fst (productionBoost d))) ds.
Proof.
  assert (Hcat : Forall (fun d0 => NoDup (map fst (productionBoost d0)))
                   DISTRICTS).
  { unfold DISTRICTS. repeat constructor; simpl;
      rewrite ?elem_of_cons, ?elem_of_nil; intuition discriminate. }
  revert Hcat. generalize DISTRICTS.
  induction ds as [|d ds IH]; intros l Hcat H;
    inversion H as [|? d0 ? l0 (_ & _ & _ & Hboost) Hrest]; subst;
    [constructor|].
  inversion Hcat; subst. constructor; [rewrite Hboost; assumption|].
  apply (IH l0); assumption.
Qed.

Lemma seasonMultiplier_is_spec (seasonIdx : Z) :
  0 <= seasonIdx -> seasonMultiplier seasonIdx = spec_seasonMultiplier seasonIdx.
Proof.
  intros H. unfold seasonMultiplier, spec_seasonMultiplier, js_index.
  destruct (seasonIdx <? 0) eqn:E; [apply Z.ltb_lt in E; lia|].
  destruct (Z.to_nat seasonIdx) as [|[|[|[|n]]]]; reflexivity.
Qed.

Lemma spec_nextAmount_passive (workers : Z) (p q m : Q) (r : Resource) :
  (p == q)%Q ->
  (spec_nextAmount workers p m r == spec_nextAmount workers q m r)%Q.
Proof.
  intros Hpq. unfold spec_nextAmount, spec_totalRate, clamp.
  apply clamp_Qeq.
  destruct (bool_decide (key r = sunleaf)); rewrite Hpq; reflexivity.
Qed.

(** One run of the effect at a tick other than 0, in a session. *)
Lemma productionEffect_formula (s : Game) :
  session s ->
  tick s <> 0 ->
  Forall2 (advanced_by_formula s (tick s))
    (resources s) (resources (productionEffect s)).
Proof.
  intros Hs Hnonzero.
  destruct (session_ledger_nonneg s Hs) as (Hledger & Hworkers & Hdistricts).
  destruct (session_ledger s Hs) as (_ & (Hshape & _) & _).
  pose proof (same_catalogue_boost_keys _ Hshape) as Hkeys.
  destruct (session_counters s Hs) as (Htick & _).
  pose proof (seasonIndex_range (tick s) Htick) as (Hseason & _).
  unfold productionEffect.
  destruct (tick s =? 0) eqn:E; [apply Z.eqb_eq in E; contradiction|].
  cbn. clear E.
  induction Hledger as [|r rs (Hrate & Hamount) _ IH]; [constructor|].
  simpl. constructor; [|exact IH].
  destruct (produce_matches_spec (resourceWorkers s)
              (passiveRates (districts s)) (seasonIndex (tick s)) r
              Hrate Hamount (Hworkers (key r))
              (passiveRates_nonneg _ _ Hdistricts))
    as (Hk & Hr & Hc & Ha).
  split; [exact Hk | split; [exact Hr | split; [exact Hc|]]].
  rewrite Ha, (seasonMultiplier_is_spec _ Hseason).
  apply spec_nextAmount_passive.
  apply passiveRates_matches_spec. exact Hkeys.
Qed.



Lemma year_end_is_session : session year_end.
Proof. apply session_run_session. constructor. Qed.


(** ** Crafting, over a session *)

Lemma toFixed1_Qeq (x y : Q) : (x == y)%Q -> (toFixed1 x == toFixed1 y)%Q.
Proof.
  intros Hxy. unfold toFixed1, round_half_up_tenth.
  assert (Hsign : Qle_bool 0 x = Qle_bool 0 y).
  { destruct (Qle_bool 0 x) eqn:Ex, (Qle_bool 0 y) eqn:Ey; try reflexivity.
    - apply Qle_bool_iff in Ex.
      assert (~ (0 <= y)%Q) by (rewrite <- Qle_bool_iff; congruence). lra.
    - apply Qle_bool_iff in Ey.
      assert (~ (0 <= x)%Q) by (rewrite <- Qle_bool_iff; congruence). lra. }
  rewrite Hsign. destruct (Qle_bool 0 y).
  - assert (H : (x * 10 + (1 # 2) == y * 10 + (1 # 2))%Q)
      by (rewrite Hxy; reflexivity).
    rewrite (Qfloor_comp _ _ H). reflexivity.
  - assert (H : (- x * 10 + (1 # 2) == - y * 10 + (1 # 2))%Q)
      by (rewrite Hxy; reflexivity).
    rewrite (Qfloor_comp _ _ H). reflexivity.
Qed.

Lemma find_resource_own (rs : list Resource) (r : Resource) :
  NoDup (map key rs) -> In r rs -> find_resource rs (key r) = Some r.
Proof.
  unfold find_resource.
  induction rs as [|r0 rs IH]; intros Hnodup Hin; [contradiction|].
  simpl in Hnodup. apply NoDup_cons in Hnodup.
  destruct Hnodup as (Hfresh & Hnodup). simpl.
  destruct Hin as [-> | Hin].
  - rewrite bool_decide_eq_true_2 by reflexivity. reflexivity.
  - rewrite bool_decide_eq_false_2; [apply IH; assumption|].
    intros Hkey. apply Hfresh. rewrite Hkey.
    apply list_elem_of_In, in_map. exact Hin.
Qed.

(** What [applyResourceDelta] does with a cost the ledger can pay: the
    clamping is idle, every entry is taken from its resource. *)
Lemma applyResourceDelta_paid (rs : list Resource) (cost : ResourceDelta) :
  NoDup (map key rs) ->
  Forall within_capacity rs ->
  canAffordCost rs cost = true ->
  Forall (fun entry => (snd entry < 0)%Q /\ whole_tenths (snd entry)) cost ->
  Forall2 (cost_paid cost) rs (applyResourceDelta rs cost).
Proof.
  intros Hnodup Hwithin Hafford Hcost. unfold applyResourceDelta.
  apply Forall2_map_same. apply Forall_forall. intros r Hr.
  apply list_elem_of_In in Hr as Hin.
  unfold cost_paid.
  destruct (delta_get cost (key r)) as [entry|] eqn:Hget;
    [|repeat split; reflexivity].
  apply delta_get_In in Hget.
  rewrite Forall_forall in Hcost. rewrite Forall_forall in Hwithin.
  destruct (Hcost (key r, entry) ltac:(apply list_elem_of_In; exact Hget))
    as (Hneg & Htenths).
  simpl in Hneg, Htenths.
  destruct (Hwithin r Hr) as (Hlow & Hhigh).
  assert (Hpay : (0 <= amount r + entry)%Q).
  { unfold canAffordCost in Hafford. rewrite forallb_forall in Hafford.
    specialize (Hafford (key r, entry) Hget). simpl in Hafford.
    rewrite (find_resource_own rs r Hnodup Hin) in Hafford.
    apply Qle_bool_iff in Hafford. exact Hafford. }
  assert (Hfalsy : falsyQ entry = false).
  { unfold falsyQ. destruct (Qeq_bool entry 0) eqn:E; [|reflexivity].
    apply Qeq_bool_iff in E. lra. }
  rewrite Hfalsy. cbn [key rate capacity amount].
  assert (Hidle : (Math_min (capacity r) (Math_max 0 (amount r + entry))
                   == amount r + entry)%Q)
    by (apply clamp_id; lra).
  split; [reflexivity | split; [reflexivity | split; [reflexivity|]]].
  split.
  - apply toFixed1_Qeq. exact Hidle.
  - intros Hamount. rewrite (toFixed1_Qeq _ _ Hidle).
    apply toFixed1_tenths. apply whole_tenths_plus; assumption.
Qed.

Lemma catalogue_costs_negative :
  Forall (fun recipe =>
            Forall (fun entry =>
                      (snd entry < 0)%Q /\ whole_tenths (snd entry))
              (recipe_cost recipe)) RECIPES
  /\ Forall (fun tool =>
               Forall (fun entry =>
                         (snd entry < 0)%Q /\ whole_tenths (snd entry))
                 (tool_cost tool)) TOOL_RECIPES.
Proof.
  assert (Hint : forall z : Z, (z < 0)%Z ->
            (inject_Z z < 0)%Q /\ whole_tenths (inject_Z z)).
  { intros z Hz. split.
    - change 0%Q with (inject_Z 0). rewrite <- Zlt_Qlt. exact Hz.
    - exists (z * 10). unfold Qeq, inject_Z. simpl. lia. }
  unfold RECIPES, TOOL_RECIPES.
  split; repeat constructor; cbn [snd]; apply Hint; lia.
Qed.

Lemma session_ledger_within (s : Game) :
  session s ->
  NoDup (map key (resources s)) /\ Forall within_capacity (resources s).
Proof.
  intros Hs. destruct (session_ledger s Hs) as (((Hkeys & Hled) & _) & _).
  split.
  - rewrite Hkeys. apply RESOURCE_KEYS_NoDup.
  - eapply Forall_impl; [exact Hled|]. intros r (Hwithin & _). exact Hwithin.
Qed.

(** C5: while a craft is in progress, starting an item or a tool craft
    changes nothing.  A craft that starts takes the recipe cost from the
    ledger at that moment: every resource the cost names loses its entry,
    the others keep their amount; and no later second of crafting,
    completion included, touches the ledger again. *)
Theorem crafting_single_slot_cost_once (s : Game) (recipeId : string) :
  (forall current,
      craftingRecipe s = Some current -> current <> "" ->
      handleStartCraft recipeId s = s
      /\ handleStartToolCraft recipeId s = s)
  /\ (forall recipe,
        find_recipe recipeId = Some recipe ->
        canAffordRecipe s recipe = true ->
        truthy_id (craftingRecipe s) = false ->
        craftingRecipe (handleStartCraft recipeId s) = Some recipeId
        /\ forall seconds,
             resources (Nat.iter seconds craftingSecond
                          (handleStartCraft recipeId s))
             = applyResourceDelta (resources s) (recipe_cost recipe)
             /\ (session s ->
                 Forall2 (cost_paid (recipe_cost recipe)) (resources s)
                   (resources (Nat.iter seconds craftingSecond
                                 (handleStartCraft recipeId s)))))
  /\ (forall tool,
        find_tool recipeId = Some tool ->
        canAffordToolRecipe s tool = true ->
        truthy_id (craftingRecipe s) = false ->
        craftingRecipe (handleStartToolCraft recipeId s) = Some recipeId
        /\ forall seconds,
             resources (Nat.iter seconds craftingSecond
                          (handleStartToolCraft recipeId s))
             = applyResourceDelta (resources s) (tool_cost tool)
             /\ (session s ->
                 Forall2 (cost_paid (tool_cost tool)) (resources s)
                   (resources (Nat.iter seconds craftingSecond
                                 (handleStartToolCraft recipeId s))))).
Proof.
  destruct catalogue_costs_negative as (Hrecipes & Htools).
  split; [|split].
  - intros current Hcur Hne.
    assert (Hbusy : truthy_id (craftingRecipe s) = true).
    { rewrite Hcur. unfold truthy_id.
      destruct (String.eqb_spec current ""); [contradiction | reflexivity]. }
    unfold handleStartCraft, handleStartToolCraft. rewrite Hbusy.
    split.
    + destruct (find_recipe recipeId); [|reflexivity].
      rewrite orb_true_r. reflexivity.
    + destruct (find_tool recipeId); [|reflexivity].
      rewrite orb_true_r. reflexivity.
  - intros recipe Hfind Hafford Hfree.
    assert (Hstart :
              handleStartCraft recipeId s
              = pushLog (LogCraftStart recipeId)
                  (setCraftingProgress 0
                     (setCraftingRecipe (Some recipeId)
                        (setResources
                           (applyResourceDelta (resources s)
                              (recipe_cost recipe)) s)))).
    { unfold handleStartCraft. rewrite Hfind, Hafford, Hfree. reflexivity. }
    split; [rewrite Hstart; reflexivity|].
    intros seconds.
    assert (Hledger :
      resources (Nat.iter seconds craftingSecond
                   (handleStartCraft recipeId s))
      = applyResourceDelta (resources s) (recipe_cost recipe)).
    { rewrite craftingSeconds_resources, Hstart. reflexivity. }
    split; [exact Hledger|]. intros Hs. rewrite Hledger.
    destruct (session_ledger_within s Hs) as (Hnodup & Hwithin).
    apply applyResourceDelta_paid; try assumption.
    apply find_some in Hfind. destruct Hfind as (Hin & _).
    rewrite Forall_forall in Hrecipes.
    apply Hrecipes, list_elem_of_In. exact Hin.
  - intros tool Hfind Hafford Hfree.
    assert (Hstart :
              handleStartToolCraft recipeId s
              = pushLog (LogCraftStart recipeId)
                  (setCraftingProgress 0
                     (setCraftingRecipe (Some recipeId)
                        (setResources
                           (applyResourceDelta (resources s)
                              (tool_cost tool)) s)))).
    { unfold handleStartToolCraft. rewrite Hfind, Hafford, Hfree.
      reflexivity. }
    split; [rewrite Hstart; reflexivity|].
    intros seconds.
    assert (Hledger :
      resources (Nat.iter seconds craftingSecond
                   (handleStartToolCraft recipeId s))
      = applyResourceDelta (resources s) (tool_cost tool)).
    { rewrite craftingSeconds_resources, Hstart. reflexivity. }
    split; [exact Hledger|]. intros Hs. rewrite Hledger.
    destruct (session_ledger_within s Hs) as (Hnodup & Hwithin).
    apply applyResourceDelta_paid; try assumption.
    apply find_some in Hfind. destruct Hfind as (Hin & _).
    rewrite Forall_forall in Htools.
    apply Htools, list_elem_of_In. exact Hin.
Qed.

Lemma crafting_single_slot_cost_once_witness :
  (handleStartCraft "storage-chest" busy_crafting = busy_crafting
   /\ handleStartToolCraft "wooden-saw" busy_crafting = busy_crafting)
  /\ (exists timber,
        resources (Nat.iter 60 craftingSecond
                     (handleStartCraft "storage-chest" settlement))
        !! 1%nat = Some timber
        /\ (amount timber == (100 # 10) + -10)%Q)
  /\ (exists timber,
        resources (Nat.iter 25 craftingSecond
                     (handleStartToolCraft "wooden-shears" settlement))
        !! 1%nat = Some timber
        /\ (amount timber == (100 # 10) + -4)%Q).
Proof.
  destruct (crafting_single_slot_cost_once busy_crafting "storage-chest")
    as (Hbusy1 & _ & _).
  destruct (crafting_single_slot_cost_once busy_crafting "wooden-saw")
    as (Hbusy2 & _ & _).
  destruct (crafting_single_slot_cost_once settlement "storage-chest")
    as (_ & Hitem & _).
  destruct (crafting_single_slot_cost_once settlement "wooden-shears")
    as (_ & _ & Htool).
  assert (Hwood : resources settlement !! 1%nat
                  = Some (mkResource wood (100 # 10) 0 40))
    by (vm_compute; reflexivity).
  split; [split|split].
  - apply (Hbusy1 "storage-chest"); [reflexivity | discriminate].
  - apply (Hbusy2 "storage-chest"); [reflexivity | discriminate].
  - destruct (Hitem (mkRecipe "storage-chest" [(wood, -10)%Q] 60 10 0)
                eq_refl eq_refl eq_refl) as (_ & Hledger).
    destruct (Hledger 60%nat) as (_ & Hpaid).
    specialize (Hpaid settlement_is_session).
    destruct (Forall2_lookup_l _ _ _ _ _ Hpaid Hwood)
      as (timber & Htimber & _ & _ & _ & _ & Hexact).
    exists timber. split; [exact Htimber|].
    apply Hexact. exists 100. reflexivity.
  - destruct (Htool (mkToolRecipe "wooden-shears" [(wood, -4)%Q] 25 "shears"
                       [(sunleaf, 2%Q)] 5 0)
                eq_refl eq_refl eq_refl) as (_ & Hledger).
    destruct (Hledger 25%nat) as (_ & Hpaid).
    specialize (Hpaid settlement_is_session).
    destruct (Forall2_lookup_l _ _ _ _ _ Hpaid Hwood)
      as (timber & Htimber & _ & _ & _ & _ & Hexact).
    exists timber. split; [exact Htimber|].
    apply Hexact. exists 100. reflexivity.
Defined.

(** ** Manual harvest, over a session *)

Lemma TOOL_RECIPES_ids :
  NoDup (map tool_id TOOL_RECIPES)
  /\ Forall (fun tool =>
               tool_id tool <> "" /\ 5 <= cooldownReduction tool <= 15)
       TOOL_RECIPES.
Proof.
  unfold TOOL_RECIPES. split.
  - simpl.
    repeat (apply NoDup_cons_2;
            [rewrite ?elem_of_cons, ?elem_of_nil; intuition discriminate|]).
    apply NoDup_nil_2.
  - repeat constructor; simpl; discriminate || lia.
Qed.

Lemma find_tool_own (tool : ToolRecipe) :
  In tool TOOL_RECIPES -> find_tool (tool_id tool) = Some tool.
Proof.
  unfold find_tool, TOOL_RECIPES. simpl.
  intros Hin.
  repeat (destruct Hin as [<- | Hin]; [reflexivity|]). destruct Hin.
Qed.

(** The reduction [getEquippedToolBonus] returns is that of the tool
    equipped for the resource. *)
Lemma getEquippedToolBonus_reduction (s : Game) (k : ResourceKey)
    (reduction : Z) :
  tool_reduction s k reduction ->
  bonus_cooldownReduction (getEquippedToolBonus s k) = reduction
  /\ 0 <= reduction <= 15.
Proof.
  destruct TOOL_RECIPES_ids as (_ & Hcatalogue).
  rewrite Forall_forall in Hcatalogue.
  intros [(toolType & toolId & tool & Htype & Hequipped & Hin & Hid & ->)
         | (Hnone & ->)].
  - destruct (Hcatalogue tool ltac:(apply list_elem_of_In; exact Hin))
      as (Hname & Hrange).
    split; [|lia].
    assert (Hmap : toolTypeMap k = toolType /\ toolType <> "").
    { unfold TOOL_OF_RESOURCE in Htype. simpl in Htype.
      destruct Htype as [H | [H | [H | []]]]; injection H as <- <-;
        split; reflexivity || discriminate. }
    destruct Hmap as (Hmap & Hne).
    unfold getEquippedToolBonus. rewrite Hmap.
    apply String.eqb_neq in Hne. rewrite Hne, Hequipped.
    subst toolId. apply String.eqb_neq in Hname. rewrite Hname.
    rewrite (find_tool_own tool Hin). reflexivity.
  - split; [|lia]. unfold getEquippedToolBonus.
    destruct k; simpl; try reflexivity;
      rewrite Hnone by (unfold TOOL_OF_RESOURCE; simpl; tauto);
      reflexivity.
Qed.


Lemma shears_equipped_is_session : session shears_equipped.
Proof. apply session_run_session. constructor. Qed.

Lemma shears_equipped_reduction : tool_reduction shears_equipped sunleaf 5.
Proof.
  left. exists "shears", "wooden-shears",
    (mkToolRecipe "wooden-shears" [(wood, -4)%Q] 25 "shears"
       [(sunleaf, 2%Q)] 5 0).
  split; [unfold TOOL_OF_RESOURCE; simpl; tauto|].
  split; [vm_compute; reflexivity|].
  split; [unfold TOOL_RECIPES; simpl; tauto|].
  split; reflexivity.
Qed.


(** ** What every session keeps true *)

(** In every state of a session the ledger lists the six resources in the
    order of the catalogue, no production rate is negative and no district
    has a negative building count: demolishing a building can never push a
    rate below zero. *)
Theorem session_rates_never_negative (s : Game) :
  session s ->
  map key (resources s) = RESOURCE_KEYS
  /\ Forall (fun r => (0 <= rate r)%Q) (resources s)
  /\ Forall (fun d => 0 <= buildingCount d) (districts s).
Proof.
  intros Hs.
  destruct (session_ledger s Hs) as (((Hkeys & _) & _) & Hrates & _).
  destruct (session_ledger_nonneg s Hs) as (Hledger & _).
  destruct Hrates as (_ & Hcounts & _).
  split; [exact Hkeys | split; [|exact Hcounts]].
  eapply Forall_impl; [exact Hledger|]. intros r (Hrate & _). exact Hrate.
Qed.

Lemma session_rates_never_negative_witness :
  map key (resources settlement) = RESOURCE_KEYS
  /\ Forall (fun r => (0 <= rate r)%Q) (resources settlement)
  /\ Forall (fun d => 0 <= buildingCount d) (districts settlement).
Proof. exact (session_rates_never_negative settlement settlement_is_session). Defined.

(** In every state of a session no resource has a negative number of
    workers and the workers assigned never outnumber the tenants: the
    count of idle workers is never negative. *)
Theorem session_workers_within_tenants (s : Game) :
  session s ->
  (forall k, 0 <= resourceWorkers s k)
  /\ totalAssignedWorkers s <= assignedTenants s
  /\ 0 <= idleWorkers s.
Proof.
  intros Hs. destruct (session_workforce s Hs) as (Hw & Hsum & _).
  unfold idleWorkers. rewrite totalAssignedWorkers_sum.
  split; [exact Hw | split; lia].
Qed.

Lemma session_workers_within_tenants_witness :
  (forall k, 0 <= resourceWorkers settlement k)
  /\ totalAssignedWorkers settlement <= assignedTenants settlement
  /\ 0 <= idleWorkers settlement.
Proof.
  exact (session_workers_within_tenants settlement settlement_is_session).
Defined.

(** In every state of a session there is one morale entry per tenant, each
    between 0 and 100; the tenants fit the housing that stands, so the
    available housing is never negative; and no negative number of tenants
    waits at City Hall. *)
Theorem session_tenants_housed (s : Game) :
  session s ->
  Z.of_nat (length (tenantMorale s)) = assignedTenants s
  /\ Forall (fun morale => 0 <= morale <= 100) (tenantMorale s)
  /\ 0 <= availableHousing s
  /\ 0 <= pendingTenants s.
Proof.
  intros Hs.
  destruct (session_workforce s Hs)
    as (_ & _ & Hlen & Hmorale & Hpending & _ & Hhouse).
  unfold availableHousing. rewrite totalHousingCapacity_counts.
  split; [exact Hlen | split; [exact Hmorale | split; lia]].
Qed.

Lemma session_tenants_housed_witness :
  Z.of_nat (length (tenantMorale settlement)) = assignedTenants settlement
  /\ Forall (fun morale => 0 <= morale <= 100) (tenantMorale settlement)
  /\ 0 <= availableHousing settlement
  /\ 0 <= pendingTenants settlement.
Proof. exact (session_tenants_housed settlement settlement_is_session). Defined.

(** No event of a session records a purchase, changes the civilisation
    level or registers a milestone other than the dismissal of the
    tutorial overlay; so chapters 6, 8 and 10, whose triggers are a
    milestone or a purchase of that kind, are never unlocked. *)
Theorem session_never_unlocks_store_chapters (s : Game) :
  session s ->
  completedPurchases s = []
  /\ purchaseCounts s = ∅
  /\ civilizationLevel s = 0
  /\ (forall label,
        In label (milestones s) -> label = "tutorial-overlay-dismissed")
  /\ ~ In "chapter-6" (unlockedChapters s)
  /\ ~ In "chapter-8" (unlockedChapters s)
  /\ ~ In "chapter-10" (unlockedChapters s).
Proof.
  intros Hs.
  destruct (session_story s Hs) as (Hp & Hc & Hciv & Hlabels & Hreach & _).
  rewrite Forall_forall in Hlabels, Hreach.
  split; [exact Hp | split; [exact Hc | split; [exact Hciv | split]]].
  - intros label Hin. apply Hlabels, list_elem_of_In. exact Hin.
  - repeat split; intros Hin; apply list_elem_of_In, Hreach in Hin;
      simpl in Hin; intuition discriminate.
Qed.

Lemma session_never_unlocks_store_chapters_witness :
  completedPurchases settlement = []
  /\ purchaseCounts settlement = ∅
  /\ civilizationLevel settlement = 0
  /\ (forall label,
        In label (milestones settlement) ->
        label = "tutorial-overlay-dismissed")
  /\ ~ In "chapter-6" (unlockedChapters settlement)
  /\ ~ In "chapter-8" (unlockedChapters settlement)
  /\ ~ In "chapter-10" (unlockedChapters settlement).
Proof.
  exact (session_never_unlocks_store_chapters settlement
           settlement_is_session).
Defined.

(** In every state of a session no chapter is unlocked twice, the active
    chapter is one of the unlocked chapters, and the story panel finds it
    in the catalogue instead of falling back on the first chapter. *)
Theorem session_active_chapter_unlocked (s : Game) :
  session s ->
  NoDup (unlockedChapters s)
  /\ In (activeChapterId s) (unlockedChapters s)
  /\ exists chapter,
       activeChapter s = Some chapter
       /\ chapter_id chapter = activeChapterId s.
Proof.
  intros Hs.
  destruct (session_story s Hs) as (_ & _ & _ & _ & Hreach & Hnodup & Hactive).
  split; [exact Hnodup | split; [exact Hactive|]].
  rewrite Forall_forall in Hreach.
  pose proof (Hreach _ (proj2 (list_elem_of_In _ _) Hactive)) as Hid.
  unfold activeChapter, find_chapter.
  simpl in Hid.
  repeat (destruct Hid as [<- | Hid]; [eexists; split; reflexivity|]).
  destruct Hid.
Qed.

Lemma session_active_chapter_unlocked_witness :
  NoDup (unlockedChapters settlement)
  /\ In (activeChapterId settlement) (unlockedChapters settlement)
  /\ exists chapter,
       activeChapter settlement = Some chapter
       /\ chapter_id chapter = activeChapterId settlement.
Proof.
  exact (session_active_chapter_unlocked settlement settlement_is_session).
Defined.

(** In every state of a session the stage index names a stage of the
    tutorial, so that the active stage is defined, and every callback the
    stage-advance effect has registered and that has not run yet leads to
    a stage of the tutorial. *)
Theorem session_stage_in_range (s : Game) :
  session s ->
  0 <= stageIndex s < TUTORIAL_STAGES_length
  /\ is_Some (js_index TUTORIAL_STAGES (stageIndex s))
  /\ Forall (fun callback =>
               0 < timeout_nextIndex callback < TUTORIAL_STAGES_length)
       (timeouts s).
Proof.
  intros Hs.
  destruct (session_counters s Hs) as (_ & Hstage & _ & _ & _ & _ & Hcb & _).
  split; [exact Hstage | split; [|exact Hcb]].
  unfold js_index, TUTORIAL_STAGES_length in *. simpl in Hstage.
  destruct (stageIndex s <? 0) eqn:E; [lia|].
  apply lookup_lt_is_Some. simpl. lia.
Qed.

Lemma session_stage_in_range_witness :
  0 <= stageIndex settlement < TUTORIAL_STAGES_length
  /\ is_Some (js_index TUTORIAL_STAGES (stageIndex settlement))
  /\ Forall (fun callback =>
               0 < timeout_nextIndex callback < TUTORIAL_STAGES_length)
       (timeouts settlement).
Proof. exact (session_stage_in_range settlement settlement_is_session). Defined.

(** In every state of a session the timers stay within their ranges: the
    tick is not negative, a harvest cooldown lies between 0 and 30
    seconds, the recruitment cooldown between 0 and 300, the tenants'
    timeout between 0 and 120, the crafting progress between 0 and 100 and
    the line of the introductory dialogue between 0 and 6; the council log
    holds between one and six lines. *)
Theorem session_timers_in_range (s : Game) :
  session s ->
  0 <= tick s
  /\ (forall k, 0 <= manualCooldowns s k <= MANUAL_HARVEST_COOLDOWN_SECONDS)
  /\ 0 <= tenantRecruitCooldown s <= 300
  /\ 0 <= tenantTimeout s <= 120
  /\ 0 <= craftingProgress s <= 100
  /\ 0 <= introIndex s < INTRO_DIALOGUE_length
  /\ (1 <= length (log s) <= 6)%nat.
Proof.
  intros Hs.
  destruct (session_counters s Hs)
    as (Ht & _ & Hintro & Hprogress & Hrecruit & Htimeout & _ & Hcd & Hlog).
  repeat (split; [assumption|]). exact Hlog.
Qed.

Lemma session_timers_in_range_witness :
  0 <= tick settlement
  /\ (forall k,
        0 <= manualCooldowns settlement k <= MANUAL_HARVEST_COOLDOWN_SECONDS)
  /\ 0 <= tenantRecruitCooldown settlement <= 300
  /\ 0 <= tenantTimeout settlement <= 120
  /\ 0 <= craftingProgress settlement <= 100
  /\ 0 <= introIndex settlement < INTRO_DIALOGUE_length
  /\ (1 <= length (log settlement) <= 6)%nat.
Proof. exact (session_timers_in_range settlement settlement_is_session). Defined.

(** In every state of a session a directive has at most one boost running,
    and every running boost has between one tick and its whole duration
    left. *)
Theorem session_one_boost_per_directive (s : Game) :
  session s ->
  NoDup (map boost_actionId (activeBoosts s))
  /\ Forall (fun b => 0 < remainingTicks b <= totalDuration b)
       (activeBoosts s).
Proof. intros Hs. exact (session_boosts s Hs). Qed.

Lemma session_one_boost_per_directive_witness :
  NoDup (map boost_actionId (activeBoosts foraging))
  /\ Forall (fun b => 0 < remainingTicks b <= totalDuration b)
       (activeBoosts foraging).
Proof.
  exact (session_one_boost_per_directive foraging foraging_is_session).
Defined.



(** The directive of the example is enacted, not refused: its boost runs
    for 60 ticks afterwards. *)
Example forage_sunleaf_is_enacted :
  canExecute council_ready forage_sunleaf = true
  /\ map remainingTicks
       (activeBoosts (handleAction forage_sunleaf council_ready)) = [60].
Proof. vm_compute. split; reflexivity. Qed.

(** ** Timers that run out *)

(** After a harvest that was accepted, the cooldown of the resource is
    [max 5 (30 - reduction)] seconds, where the reduction is that of the
    catalogue's tool equipped for the resource and 0 without one; every
    second of the cooldown timer takes one second off; until the last of
    them the same harvest is refused, and at the last one the cooldown is
    zero and the resource is no longer counted down. *)
Theorem harvest_cooldown_counts_down (s : Game) (k : ResourceKey)
    (reduction : Z) (n : nat) :
  manualCooldowns s k <= 0 ->
  tool_reduction s k reduction ->
  let c := Z.max 5 (MANUAL_HARVEST_COOLDOWN_SECONDS - reduction) in
  let s' := repeated n cooldownSecond (handleManualHarvest k s) in
  Z.of_nat n <= c ->
  manualCooldowns s' k = c - Z.of_nat n
  /\ manualHarvestActive s' k = (Z.of_nat n <? c)
  /\ (Z.of_nat n < c -> handleManualHarvest k s' = s').
Proof.
  intros Hready Htool c s' Hn.
  destruct (getEquippedToolBonus_reduction s k reduction Htool)
    as (Hreduction & _).
  assert (Hstate :
    manualCooldowns s' k = c - Z.of_nat n
    /\ manualHarvestActive s' k = (Z.of_nat n <? c)).
  { subst s'. induction n as [|n IH].
    - destruct (harvest_sets_cooldown s k Hready) as (Hc & Ha).
      unfold repeated. simpl Nat.iter. rewrite Hc, Ha, Hreduction.
      unfold record_set. destruct (decide (k = k)); [|contradiction].
      unfold MANUAL_HARVEST_COOLDOWN_SECONDS in c. subst c.
      split; [simpl; lia|].
      symmetry. apply Z.ltb_lt. simpl. lia.
    - destruct IH as (IHc & IHa); [lia|].
      unfold repeated in *. simpl Nat.iter.
      rewrite cooldownSecond_cooldowns, cooldownSecond_active, IHc, IHa.
      destruct (Z.of_nat n <? c) eqn:E; [|apply Z.ltb_ge in E; lia].
      split; [lia|]. simpl.
      destruct (Z.of_nat (S n) <? c) eqn:E'.
      + apply Z.ltb_lt in E'. apply Z.ltb_lt. lia.
      + apply Z.ltb_ge in E'. apply Z.ltb_ge. lia. }
  destruct Hstate as (Hc & Ha). split; [exact Hc | split; [exact Ha|]].
  intros Hlt. apply harvest_rejected_when_cooling. lia.
Qed.

Lemma harvest_cooldown_counts_down_witness :
  manualCooldowns
    (repeated 10 cooldownSecond (handleManualHarvest sunleaf shears_equipped))
    sunleaf = 15
  /\ manualCooldowns
       (repeated 25 cooldownSecond
          (handleManualHarvest sunleaf shears_equipped))
       sunleaf = 0
  /\ manualHarvestActive
       (repeated 25 cooldownSecond
          (handleManualHarvest sunleaf shears_equipped))
       sunleaf = false.
Proof.
  destruct (harvest_cooldown_counts_down shears_equipped sunleaf 5 10)
    as (Hten & _).
  - vm_compute. discriminate.
  - exact shears_equipped_reduction.
  - vm_compute. discriminate.
  - destruct (harvest_cooldown_counts_down shears_equipped sunleaf 5 25)
      as (Hc & Ha & _).
    + vm_compute. discriminate.
    + exact shears_equipped_reduction.
    + vm_compute. discriminate.
    + split; [exact Hten | split; [exact Hc | exact Ha]].
Defined.

Lemma find_recipe_id (recipeId : string) (recipe : Recipe) :
  find_recipe recipeId = Some recipe ->
  recipe_id recipe = recipeId /\ String.eqb recipeId "" = false.
Proof.
  intros H. apply find_some in H. destruct H as (Hin & Heq).
  apply String.eqb_eq in Heq. split; [exact Heq|]. subst recipeId.
  unfold RECIPES in Hin. simpl in Hin.
  destruct Hin as [<- | [<- | []]]; reflexivity.
Qed.

Lemma craftingSecond_item (st : Game) (recipeId : string) (recipe : Recipe) :
  craftingRecipe st = Some recipeId ->
  find_recipe recipeId = Some recipe ->
  craftingProgress st < 100 ->
  (craftingProgress st + 1 < recipe_craftTime recipe ->
   craftingRecipe (craftingSecond st) = Some recipeId
   /\ craftingProgress (craftingSecond st) = craftingProgress st + 1
   /\ pendingAllocation (craftingSecond st) = pendingAllocation st)
  /\ (recipe_craftTime recipe <= craftingProgress st + 1 ->
      craftingRecipe (craftingSecond st) = None
      /\ craftingProgress (craftingSecond st) = 0
      /\ pendingAllocation (craftingSecond st)
         = Some (mkPending recipeId (capacityBoost recipe))).
Proof.
  intros Hcraft Hfind Hbelow.
  destruct (find_recipe_id _ _ Hfind) as (_ & Hid).
  unfold craftingSecond. rewrite Hcraft, Hid, Hfind.
  destruct (100 <=? craftingProgress st) eqn:E; [apply Z.leb_le in E; lia|].
  simpl orb. cbv iota.
  split; intros Htime.
  - destruct (recipe_craftTime recipe <=? craftingProgress st + 1) eqn:E';
      [apply Z.leb_le in E'; lia|].
    cbn. rewrite Hcraft. repeat split; reflexivity.
  - destruct (recipe_craftTime recipe <=? craftingProgress st + 1) eqn:E';
      [|apply Z.leb_gt in E'; lia].
    unfold pushLog. cbn. repeat split; reflexivity.
Qed.

Lemma crafting_in_progress (st : Game) (recipeId : string) (recipe : Recipe)
    (n : nat) :
  craftingRecipe st = Some recipeId ->
  find_recipe recipeId = Some recipe ->
  craftingProgress st = 0 ->
  Z.of_nat n < recipe_craftTime recipe ->
  Z.of_nat n <= 100 ->
  craftingRecipe (repeated n craftingSecond st) = Some recipeId
  /\ craftingProgress (repeated n craftingSecond st) = Z.of_nat n
  /\ pendingAllocation (repeated n craftingSecond st) = pendingAllocation st.
Proof.
  intros Hcraft Hfind Hzero. induction n as [|n IH]; intros Htime Hcap.
  - unfold repeated. simpl. repeat split; assumption.
  - destruct IH as (IHcraft & IHprogress & IHpending); [lia | lia|].
    unfold repeated in *. simpl Nat.iter.
    destruct (craftingSecond_item _ _ _ IHcraft Hfind ltac:(lia))
      as (Hnext & _).
    destruct Hnext as (H1 & H2 & H3); [lia|].
    rewrite H1, H2, H3, IHprogress, IHpending.
    repeat split; try reflexivity. lia.
Qed.

(** A craft that [handleStartCraft] accepted counts one second of progress
    per second.  When the craft time of the recipe is at most 100 seconds,
    the item is finished at the second that reaches it: the slot is free
    again and the recipe's capacity boost waits to be allocated.  When the
    craft time is above 100 seconds, the progress stops at 100 and the
    recipe stays in the slot for ever. *)
Theorem craft_finishes_unless_longer_than_100 (s : Game) (recipeId : string)
    (recipe : Recipe) :
  find_recipe recipeId = Some recipe ->
  canAffordRecipe s recipe = true ->
  truthy_id (craftingRecipe s) = false ->
  0 < recipe_craftTime recipe ->
  let started := handleStartCraft recipeId s in
  (forall n,
      Z.of_nat n < recipe_craftTime recipe -> Z.of_nat n <= 100 ->
      craftingRecipe (repeated n craftingSecond started) = Some recipeId
      /\ craftingProgress (repeated n craftingSecond started) = Z.of_nat n)
  /\ (recipe_craftTime recipe <= 100 ->
      let finished :=
        repeated (Z.to_nat (recipe_craftTime recipe)) craftingSecond started in
      craftingRecipe finished = None
      /\ craftingProgress finished = 0
      /\ pendingAllocation finished
         = Some (mkPending recipeId (capacityBoost recipe)))
  /\ (100 < recipe_craftTime recipe ->
      forall n,
        craftingRecipe (repeated n craftingSecond started) = Some recipeId
        /\ craftingProgress (repeated n craftingSecond started)
           = Z.min (Z.of_nat n) 100).
Proof.
  intros Hfind Hafford Hfree Htime started.
  assert (Hcraft : craftingRecipe started = Some recipeId
                   /\ craftingProgress started = 0).
  { subst started. unfold handleStartCraft, pushLog.
    rewrite Hfind, Hafford, Hfree. split; reflexivity. }
  destruct Hcraft as (Hcraft & Hzero).
  split; [|split].
  - intros n Hn Hcap.
    destruct (crafting_in_progress started recipeId recipe n)
      as (H1 & H2 & _); try assumption.
    split; assumption.
  - intros Hshort finished. subst finished.
    destruct (Z.to_nat (recipe_craftTime recipe)) as [|m] eqn:Hm; [lia|].
    destruct (crafting_in_progress started recipeId recipe m)
      as (H1 & H2 & _); try assumption; try lia.
    unfold repeated in *. simpl Nat.iter.
    destruct (craftingSecond_item _ _ _ H1 Hfind ltac:(lia)) as (_ & Hdone).
    apply Hdone. lia.
  - intros Hlong n.
    destruct (Nat.le_gt_cases n 100) as [Hle | Hgt].
    + destruct (crafting_in_progress started recipeId recipe n)
        as (H1 & H2 & _); try assumption; try lia.
      split; [exact H1 | lia].
    + assert (Hhundred : exists h, Z.of_nat h = 100 /\ (h < n)%nat)
        by (exists 100%nat; split; [reflexivity | exact Hgt]).
      destruct Hhundred as (h & Hh & Hhn).
      destruct (crafting_in_progress started recipeId recipe h)
        as (H1 & H2 & _); try assumption; try lia.
      unfold repeated in *.
      replace n with ((n - h) + h)%nat by lia.
      rewrite Nat.iter_add.
      remember (Nat.iter h craftingSecond started) as stalled eqn:Hstalled.
      assert (Hstall : forall m, Nat.iter m craftingSecond stalled = stalled).
      { induction m as [|m IH]; [reflexivity|].
        rewrite Nat.iter_succ, IH. apply craft_stalls_at_hundred. lia. }
      rewrite Hstall. split; [exact H1 | lia].
Qed.

Lemma craft_finishes_unless_longer_than_100_witness :
  (let finished :=
     repeated 60 craftingSecond (handleStartCraft "storage-chest" wood_stocked)
   in
   craftingRecipe finished = None
   /\ craftingProgress finished = 0
   /\ pendingAllocation finished = Some (mkPending "storage-chest" 10)).
Proof.
  destruct (craft_finishes_unless_longer_than_100 wood_stocked
              "storage-chest" (mkRecipe "storage-chest" [(wood, -10)%Q] 60 10 0))
    as (_ & Hdone & _).
  - reflexivity.
  - vm_compute. reflexivity.
  - reflexivity.
  - reflexivity.
  - apply Hdone. vm_compute. discriminate.
Defined.

(** ** Districts *)

Lemma find_district_updated (f : District -> Z) (id : string)
    (ds : list District) (district : District) :
  find_district ds id = Some district ->
  find_district
    (map (fun d =>
            if String.eqb (district_id d) id then setBuildingCount d (f d)
            else d) ds) id
  = Some (setBuildingCount district (f district)).
Proof.
  unfold find_district.
  induction ds as [|d ds IH]; intros Hfind; [discriminate|].
  simpl in *. destruct (String.eqb (district_id d) id) eqn:E.
  - injection Hfind as ->. simpl. rewrite E. reflexivity.
  - rewrite E. apply IH. exact Hfind.
Qed.

Lemma falsyQ_opp (q : Q) : falsyQ (- q) = falsyQ q.
Proof.
  unfold falsyQ. destruct (Qeq_bool q 0) eqn:E.
  - apply Qeq_bool_iff in E. apply Qeq_bool_iff. rewrite E. reflexivity.
  - apply Qeq_bool_neq in E.
    destruct (Qeq_bool (- q) 0) eqn:E'; [|reflexivity].
    apply Qeq_bool_iff in E'. exfalso. apply E.
    rewrite <- (Qopp_involutive q), E'. reflexivity.
Qed.

(** In a session, demolishing the building that an expansion has just added
    brings every production rate and every building count back to what it
    was; the resources the expansion cost are not given back. *)
Theorem demolish_undoes_expand_but_keeps_cost (s : Game) (districtId : string)
    (district : District) :
  session s ->
  find_district (districts s) districtId = Some district ->
  canAffordExpansion s district = true ->
  let expanded := handleExpand districtId s in
  let demolished := handleDemolish districtId expanded in
  map buildingCount (districts demolished) = map buildingCount (districts s)
  /\ Forall2
       (fun r r' =>
          key r' = key r /\ (rate r' == rate r)%Q
          /\ capacity r' = capacity r)
       (resources s) (resources demolished)
  /\ map amount (resources demolished)
     = map amount (applyResourceDelta (resources s) (expansionCost district)).
Proof.
  intros Hs Hfind Hafford expanded demolished.
  destruct (session_ledger s Hs)
    as (_ & (Hshape & Hcounts & _ & Hrates) & _).
  pose proof (same_catalogue_boosts_ok _ Hshape) as Hboosts.
  destruct (find_district_In _ _ _ Hfind) as (Hin & Hid).
  assert (Hb : Forall (fun entry => boost_ok (snd entry))
                 (productionBoost district)).
  { rewrite Forall_forall in Hboosts. apply Hboosts.
    apply list_elem_of_In. exact Hin. }
  assert (Hcount : 0 <= buildingCount district).
  { rewrite Forall_forall in Hcounts. apply Hcounts.
    apply list_elem_of_In. exact Hin. }
  assert (Hexpanded :
    expanded
    = pushLog (LogExpand districtId)
        (setDistricts
           (map (fun d =>
                   if String.eqb (district_id d) districtId
                   then setBuildingCount d (buildingCount d + 1) else d)
              (districts s))
           (setResources
              (applyRateDelta
                 (applyResourceDelta (resources s) (expansionCost district))
                 (productionBoost district)) s))).
  { subst expanded. unfold handleExpand. rewrite Hfind, Hafford. reflexivity. }
  assert (Hdemolished :
    demolished
    = pushLog (LogDemolish districtId)
        (setDistricts
           (map (fun d =>
                   if String.eqb (district_id d) districtId
                   then setBuildingCount d (buildingCount d - 1) else d)
              (districts expanded))
           (setResources
              (applyRateDelta (resources expanded)
                 (map (fun '(k, value) => (k, (- value)%Q))
                    (productionBoost district)))
              expanded))).
  { subst demolished. unfold handleDemolish.
    rewrite Hexpanded at 1. unfold pushLog at 1. cbn [districts setLog setDistricts].
    rewrite (find_district_updated (fun d => buildingCount d + 1) _ _ _ Hfind).
    cbn [buildingCount setBuildingCount productionBoost].
    destruct (buildingCount district + 1 <=? 0) eqn:E;
      [apply Z.leb_le in E; lia|].
    reflexivity. }
  rewrite Hdemolished. unfold pushLog.
  cbn [districts resources setLog setDistricts setResources].
  rewrite Hexpanded. unfold pushLog.
  cbn [districts resources setLog setDistricts setResources].
  split; [|split].
  - rewrite !map_map. apply map_ext. intros d.
    destruct (String.eqb (district_id d) districtId) eqn:E; simpl;
      [rewrite E; simpl; lia | rewrite E; reflexivity].
  - unfold applyRateDelta, applyResourceDelta. rewrite !map_map.
    apply Forall2_map_same.
    eapply Forall_impl; [exact Hrates|]. intros r (Hten & _).
    assert (Hsame :
      key match delta_get (expansionCost district) (key r) with
          | Some change =>
              if falsyQ change then r
              else
                mkResource (key r)
                  (toFixed1
                     (Math_min (capacity r)
                        (Math_max 0 (amount r + change))))
                  (rate r) (capacity r)
          | None => r
          end = key r
      /\ rate match delta_get (expansionCost district) (key r) with
              | Some change =>
                  if falsyQ change then r
                  else
                    mkResource (key r)
                      (toFixed1
                         (Math_min (capacity r)
                            (Math_max 0 (amount r + change))))
                      (rate r) (capacity r)
              | None => r
              end = rate r
      /\ capacity match delta_get (expansionCost district) (key r) with
                  | Some change =>
                      if falsyQ change then r
                      else
                        mkResource (key r)
                          (toFixed1
                             (Math_min (capacity r)
                                (Math_max 0 (amount r + change))))
                          (rate r) (capacity r)
                  | None => r
                  end = capacity r).
    { destruct (delta_get (expansionCost district) (key r)) as [c|];
        [destruct (falsyQ c)|]; repeat split; reflexivity. }
    destruct Hsame as (Hkey & Hrate & Hcapacity).
    cbv zeta.
    set (paid := match delta_get (expansionCost district) (key r) with
                 | Some change => _
                 | None => r
                 end) in *.
    rewrite Hkey.
    destruct (delta_get (productionBoost district) (key r)) as [b|] eqn:Hboost.
    + assert (Hbt : whole_tenths b).
      { apply delta_get_In, list_elem_of_In in Hboost.
        rewrite Forall_forall in Hb. apply (Hb _ Hboost). }
      destruct (falsyQ b) eqn:Ezero.
      * rewrite Hkey, delta_get_negate, Hboost. simpl.
        rewrite falsyQ_opp, Ezero. rewrite Hkey, Hrate, Hcapacity.
        repeat split; reflexivity.
      * cbn [key]. rewrite delta_get_negate, Hboost. simpl.
        rewrite falsyQ_opp, Ezero. cbn [key rate capacity].
        rewrite Hrate, Hcapacity.
        split; [reflexivity | split; [|reflexivity]].
        rewrite toFixed1_tenths.
        -- rewrite toFixed1_tenths by (apply whole_tenths_plus; assumption).
           ring.
        -- apply whole_tenths_plus;
             [apply toFixed1_is_tenths | apply whole_tenths_opp; exact Hbt].
    + rewrite Hkey, delta_get_negate, Hboost. simpl.
      rewrite Hkey, Hrate, Hcapacity. repeat split; reflexivity.
  - unfold applyRateDelta. rewrite !map_map. apply map_ext. intros r.
    destruct (delta_get (productionBoost district) (key r)) as [b|] eqn:Hboost.
    + destruct (falsyQ b) eqn:Ezero.
      * rewrite delta_get_negate, Hboost. simpl.
        rewrite falsyQ_opp, Ezero. reflexivity.
      * cbn [key]. rewrite delta_get_negate, Hboost. simpl.
        rewrite falsyQ_opp, Ezero. reflexivity.
    + rewrite delta_get_negate, Hboost. reflexivity.
Qed.

Lemma demolish_undoes_expand_but_keeps_cost_witness :
  let demolished :=
    handleDemolish "terraced-fields"
      (handleExpand "terraced-fields" settlement) in
  map buildingCount (districts demolished)
  = map buildingCount (districts settlement)
  /\ Forall2
       (fun r r' =>
          key r' = key r /\ (rate r' == rate r)%Q
          /\ capacity r' = capacity r)
       (resources settlement) (resources demolished).
Proof.
  assert (Hfind :
    find_district (districts settlement) "terraced-fields"
    = Some (mkDistrict "terraced-fields" 0 0 0 1
              [(sunleaf, -10)%Q; (wood, -5)%Q] [(sunleaf, 1 # 2)%Q]))
    by (vm_compute; reflexivity).
  destruct (demolish_undoes_expand_but_keeps_cost settlement
              "terraced-fields" _ settlement_is_session Hfind)
    as (Hcounts & Hrates & _).
  - vm_compute. reflexivity.
  - split; [exact Hcounts | exact Hrates].
Defined.

(** ** Wages and attrition *)

Lemma wagesEffect_cases (s : Game) :
  wagesEffect s = s
  \/ (lastPayDay (wagesEffect s) = day (tick (wagesEffect s))
      /\ assignedTenants (wagesEffect s) = assignedTenants s)
  \/ (exists lines, wagesEffect s = setLog lines s).
Proof.
  unfold wagesEffect, handlePayWages, pushLog.
  destruct ((day (tick s) =? lastPayDay s) || (assignedTenants s =? 0));
    [left; reflexivity|].
  destruct (autoPayWages s).
  - destruct (find_resource (resources s) sunleaf) as [sunleafResource|].
    + destruct (Qlt_bool (amount sunleafResource)
                  (inject_Z (assignedTenants s * WAGE_PER_TENANT_PER_DAY))).
      * destruct (lastPayDay s + 1 <? day (tick s));
          [right; left; split; reflexivity|].
        right; right. eexists. reflexivity.
      * right; left. split; reflexivity.
    + destruct (lastPayDay s + 1 <? day (tick s));
        [right; left; split; reflexivity|].
      right; right. eexists. reflexivity.
  - destruct (lastPayDay s + 1 <? day (tick s));
      [right; left; split; reflexivity | left; reflexivity].
Qed.

Lemma wagesEffect_after_log (lines : list LogEntry) (s : Game) :
  tenantMorale (wagesEffect (setLog lines s)) = tenantMorale (wagesEffect s)
  /\ resources (wagesEffect (setLog lines s)) = resources (wagesEffect s)
  /\ lastPayDay (wagesEffect (setLog lines s)) = lastPayDay (wagesEffect s).
Proof.
  unfold wagesEffect, handlePayWages, pushLog, find_resource. cbn.
  split_tests; cbn; repeat split; reflexivity.
Qed.

(** The wages effect settles a day once: when it runs again before the day
    changes, however often, it takes no more sunleaf, lowers no morale a
    second time and leaves the day of the last settlement alone.  (A
    refused automatic payment may repeat its log line.) *)
Theorem wages_settled_once_a_day (s : Game) :
  let settled := wagesEffect s in
  resources (wagesEffect settled) = resources settled
  /\ tenantMorale (wagesEffect settled) = tenantMorale settled
  /\ lastPayDay (wagesEffect settled) = lastPayDay settled
  /\ assignedTenants (wagesEffect settled) = assignedTenants settled.
Proof.
  cbv zeta.
  assert (Htenants : forall st,
            assignedTenants (wagesEffect st) = assignedTenants st).
  { intros st. unfold wagesEffect, handlePayWages, pushLog.
    destruct ((day (tick st) =? lastPayDay st) || (assignedTenants st =? 0));
      [reflexivity|].
    destruct (autoPayWages st);
      [destruct (find_resource (resources st) sunleaf) as [res|];
       [destruct (Qlt_bool (amount res)
                    (inject_Z (assignedTenants st * WAGE_PER_TENANT_PER_DAY)))|]|];
      try destruct (lastPayDay st + 1 <? day (tick st)); reflexivity. }
  split; [|split; [|split; [|apply Htenants]]].
  all: destruct (wagesEffect_cases s) as [Hsame | [(Hpaid & _) | (lines & Hlog)]].
  all: try (rewrite Hsame, Hsame; reflexivity).
  all: try (assert (Hidle : wagesEffect (wagesEffect s) = wagesEffect s)
              by (unfold wagesEffect at 1; rewrite Hpaid, Z.eqb_refl;
                  reflexivity);
            rewrite Hidle; reflexivity).
  all: rewrite Hlog;
    destruct (wagesEffect_after_log lines s) as (Hm & Hr & Hl);
    rewrite ?Hm, ?Hr, ?Hl, Hlog; reflexivity.
Qed.

(** ** Saving and loading from the menu *)

Lemma roundtrip_districts_load (ds : list District) :
  Forall2 same_catalogue_district ds DISTRICTS ->
  districts_cell reconcileDistrictLoad
    (JObj {[ "districts" := JArr (map district_json ds) ]})
  = JArr (map district_json ds).
Proof.
  intros Hds. unfold DISTRICTS in Hds.
  repeat match goal with
         | H : Forall2 _ _ (_ :: _) |- _ =>
             apply Forall2_cons_inv_r in H;
             destruct H as (? & ? & (? & ? & ? & ?) & ? & ->)
         | H : Forall2 _ _ [] |- _ => apply Forall2_nil_inv_r in H; subst
         end.
  repeat match goal with
         | d : District |- _ => destruct d
         end.
  simpl in *. subst. reflexivity.
Qed.

Section MenuSaves.

Variable language : string.
Variable render : LogEntry -> string.

(** The document [saveGame] writes for a state of a session, read by
    [loadGame] in any state of the page, brings back every saved cell but
    two: the morale list keeps the value it had before the load, because
    [loadGame] only takes a number for it, and the selected facility keeps
    its value when the saved game had none selected. *)
Theorem loadGame_restores_a_saved_game (g : Game) (cur : Cells) :
  session g ->
  let loaded :=
    loadGameBody render cur
      (serializeState language (cells_of_game render g)) in
  Forall (fun entry =>
            fst (fst entry) <> "tenantMorale" ->
            fst (fst entry) <> "selectedFacilityId" ->
            snd entry loaded = snd entry (cells_of_game render g))
    CELLS
  /\ cell_tenantMorale loaded = cell_tenantMorale cur
  /\ cell_selectedFacilityId loaded
     = match selectedFacilityId g with
       | Some id => JStr id
       | None => cell_selectedFacilityId cur
       end.
Proof.
  intros Hs loaded.
  destruct (session_ledger g Hs)
    as (_ & _ & Hkeys & Hds & Hsks & Hlog & Hcabin & Hhall).
  subst loaded.
  split; [|split; [reflexivity|]].
  2: { unfold loadGameBody, cells_of_game.
       cbn [cell_selectedFacilityId].
       destruct (selectedFacilityId g); reflexivity. }
  unfold CELLS.
  repeat constructor; cbn [fst snd]; intros Hmorale Hfacility;
    try congruence; try reflexivity.
  - unfold loadGameBody, cells_of_game. cbn [cell_resources].
    rewrite <- (roundtrip_resources (resources g) Hkeys) at 2. reflexivity.
  - unfold loadGameBody, cells_of_game. cbn [cell_log]. unfold log_cell.
    change (get_prop _ "log")
      with (Some (JArr (map (fun e => JStr (render e)) (log g)))).
    cbv iota. rewrite take_ge; [reflexivity|].
    rewrite length_map. exact Hlog.
  - unfold loadGameBody, cells_of_game. cbn [cell_districts].
    rewrite <- (roundtrip_districts_load (districts g) Hds) at 2. reflexivity.
  - unfold loadGameBody, cells_of_game. cbn [cell_craftingRecipe].
    destruct (craftingRecipe g); reflexivity.
Qed.

End MenuSaves.

Lemma loadGame_restores_a_saved_game_witness :
  let loaded :=
    loadGameBody render_kind mid_game_cells
      (serializeState "en" (cells_of_game render_kind settlement)) in
  cell_resources loaded = cell_resources (cells_of_game render_kind settlement)
  /\ cell_tenantMorale loaded = cell_tenantMorale mid_game_cells.
Proof.
  destruct (loadGame_restores_a_saved_game "en" render_kind settlement
              mid_game_cells settlement_is_session) as (Hcells & Hmorale & _).
  split; [|exact Hmorale].
  apply Forall_cons in Hcells. destruct Hcells as (Hresources & _).
  apply Hresources; discriminate.
Defined.

(** ** The calendar *)

(** For a tick that is not negative: the phase index is the tick modulo
    four and a day lasts four ticks; the day of the year runs from 0 to 364
    and the season index is that day divided by 91, so that it lies between
    0 and 4 and is 4, outside the four seasons, exactly on the last day of
    a year; it is night exactly in the fourth phase. *)
Theorem calendar_of_ticks (t : Z) :
  0 <= t ->
  (0 <= phaseIndex t < 4 /\ t = 4 * (day t - 1) + phaseIndex t)
  /\ day (t + 4) = day t + 1
  /\ phaseIndex (t + 4) = phaseIndex t
  /\ 1 <= yearCount t
  /\ (let dayOfYear := day t - 1 - DAYS_PER_YEAR * (yearCount t - 1) in
      0 <= dayOfYear < DAYS_PER_YEAR
      /\ seasonIndex t = dayOfYear / DAYS_PER_SEASON
      /\ 0 <= seasonIndex t <= 4
      /\ (seasonIndex t = 4 <-> dayOfYear = 364))
  /\ (isNight t = true <-> phaseIndex t = 3).
Proof.
  intros Ht.
  unfold isNight, seasonIndex, yearCount, day, cycle, phaseIndex,
    PHASES_length, DAYS_PER_YEAR, DAYS_PER_SEASON.
  rewrite !Z.rem_mod_nonneg by lia.
  assert (Hcycle : 0 <= t / 4) by (apply Z.div_pos; lia).
  replace (t / 4 + 1 - 1) with (t / 4) by lia.
  rewrite Z.rem_mod_nonneg by lia.
  rewrite Z.eqb_eq.
  cbv zeta.
  repeat split; try (Z.to_euclidean_division_equations; lia).
Qed.

Lemma calendar_of_ticks_witness :
  day (1456 + 4) = day 1456 + 1
  /\ (seasonIndex 1456 = 4
      <-> day 1456 - 1 - DAYS_PER_YEAR * (yearCount 1456 - 1) = 364)
  /\ (isNight 1456 = true <-> phaseIndex 1456 = 3).
Proof.
  destruct (calendar_of_ticks 1456)
    as (_ & Hday & _ & _ & (_ & _ & _ & Hlast) & Hnight).
  - vm_compute. discriminate.
  - split; [exact Hday | split; [exact Hlast | exact Hnight]].
Defined.

(** ** Progress of the tutorial *)

Lemma session_find_resource (s : Game) (k : ResourceKey) :
  session s ->
  exists r,
    find_resource (resources s) k = Some r /\ key r = k
    /\ (0 <= amount r <= capacity r)%Q.
Proof.
  intros Hs. destruct (session_ledger s Hs) as (((Hkeys & Hled) & _) & _).
  assert (Hin : forall r, In r (resources s) ->
                          (0 <= amount r <= capacity r)%Q).
  { intros r Hr. rewrite Forall_forall in Hled.
    apply list_elem_of_In in Hr. destruct (Hled r Hr) as (Hwithin & _).
    exact Hwithin. }
  unfold find_resource.
  destruct (resources s) as [|r1 [|r2 [|r3 [|r4 [|r5 [|r6 [|r7 rest]]]]]]];
    try discriminate Hkeys.
  simpl in Hkeys. injection Hkeys as H1 H2 H3 H4 H5 H6.
  simpl. rewrite H1, H2, H3, H4, H5, H6.
  destruct k; simpl;
    eexists; (split; [reflexivity|]); (split; [assumption|]);
    apply Hin; simpl; tauto.
Qed.

Lemma stageGoals_targets (s : Game) :
  Forall (fun goal => (0 < target goal)%Q) (stageGoals s).
Proof.
  unfold stageGoals, js_index.
  destruct (stageIndex s <? 0); [constructor|].
  destruct (Z.to_nat (stageIndex s)) as [|[|[|[|n]]]]; simpl;
    repeat constructor.
Qed.

Lemma completion_term_range (v t : Q) :
  (0 <= v)%Q -> (0 < t)%Q ->
  (0 <= Math_min 1 (v / t) <= 1)%Q
  /\ ((t <= v)%Q -> Math_min 1 (v / t) = 1%Q).
Proof.
  intros Hv Ht.
  assert (Hdiv : (0 <= v / t)%Q).
  { unfold Qdiv. apply Qmult_le_0_compat; [exact Hv|].
    apply Qinv_le_0_compat. lra. }
  unfold Math_min. destruct (Qle_bool 1 (v / t)) eqn:E.
  - split; [lra | reflexivity].
  - assert (Hlt : (v / t < 1)%Q).
    { apply Qnot_le_lt. intros Hle. apply Qle_bool_iff in Hle. congruence. }
    split; [lra|]. intros Hmet. exfalso.
    assert (1 <= v / t)%Q; [|lra].
    apply Qle_shift_div_l; lra.
Qed.

Lemma completion_total_range (s : Game) (goalList : list TutorialGoal)
    (acc : Q) :
  session s ->
  Forall (fun goal => (0 < target goal)%Q) goalList ->
  let total :=
    foldl (fun acc goal =>
             match find_resource (resources s) (goal_resource goal) with
             | None => acc
             | Some resource =>
                 (acc + Math_min 1 (goalValue goal resource / target goal))%Q
             end)
      acc goalList in
  (acc <= total <= acc + inject_Z (Z.of_nat (length goalList)))%Q
  /\ (forallb (goalMet (resources s)) goalList = true ->
      (total == acc + inject_Z (Z.of_nat (length goalList)))%Q).
Proof.
  intros Hs Htargets. revert acc.
  induction Htargets as [|goal goalList Htarget _ IH]; intros acc; cbv zeta.
  - cbn [foldl length]. change (inject_Z (Z.of_nat 0)) with 0%Q.
    split; [lra | intros _; ring].
  - cbn [foldl length forallb].
    destruct (session_find_resource s (goal_resource goal) Hs)
      as (r & Hfind & _ & Hamount).
    rewrite Hfind.
    assert (Hvalue : (0 <= goalValue goal r)%Q).
    { unfold goalValue. destruct (metric goal) as [[|]|]; lra. }
    destruct (completion_term_range _ _ Hvalue Htarget) as (Hterm & Hmet).
    specialize (IH (acc + Math_min 1 (goalValue goal r / target goal))%Q).
    cbv zeta in IH. destruct IH as (IHrange & IHmet).
    rewrite Nat2Z.inj_succ, <- Z.add_1_l, inject_Z_plus.
    change (inject_Z 1) with 1%Q.
    split; [lra|].
    intros Hall. apply andb_prop in Hall. destruct Hall as (Hgoal & Hrest).
    rewrite (IHmet Hrest).
    unfold goalMet in Hgoal. rewrite Hfind in Hgoal.
    apply Qle_bool_iff in Hgoal.
    rewrite Hmet; [ring|]. exact Hgoal.
Qed.

(** In a session the completion shown for the active stage lies between 0
    and 100, and it is 100 whenever every goal of the stage is met. *)
Theorem stage_completion_percent_range (s : Game) :
  session s ->
  0 <= stageCompletionPercent s <= 100
  /\ (goalsSatisfied s = true -> stageCompletionPercent s = 100).
Proof.
  intros Hs. unfold stageCompletionPercent, goalsSatisfied.
  pose proof (stageGoals_targets s) as Htargets.
  destruct (completion_total_range s (stageGoals s) 0 Hs Htargets)
    as (Hrange & Hmet).
  unfold stageGoals in *.
  destruct (js_index TUTORIAL_STAGES (stageIndex s)) as [activeStage|];
    [|split; [lia | discriminate]].
  destruct (goals activeStage) as [|goal rest];
    [split; [lia | reflexivity]|].
  set (total := foldl _ 0%Q (goal :: rest)) in *.
  set (n := inject_Z (Z.of_nat (length (goal :: rest)))) in *.
  assert (Hn : (1 <= n)%Q).
  { subst n. change 1%Q with (inject_Z 1). rewrite <- Zle_Qle.
    simpl length. lia. }
  assert (Hratio : (0 <= total / n * 100 <= 100)%Q).
  { assert (H0 : (0 <= total / n)%Q).
    { unfold Qdiv. apply Qmult_le_0_compat; [lra|].
      apply Qinv_le_0_compat. lra. }
    assert (H1 : (total / n <= 1)%Q) by (apply Qle_shift_div_r; lra).
    lra. }
  unfold Math_round. split.
  - split.
    + assert (Hlow : (0 <= total / n * 100 + (1 # 2))%Q) by lra.
      apply Qfloor_resp_le in Hlow. exact Hlow.
    + assert (Hhigh : (total / n * 100 + (1 # 2) <= 100 + (1 # 2))%Q) by lra.
      apply Qfloor_resp_le in Hhigh. exact Hhigh.
  - intros Hall. specialize (Hmet Hall).
    assert (Hfull : (total / n * 100 + (1 # 2) == 100 + (1 # 2))%Q).
    { rewrite Hmet. field. lra. }
    rewrite (Qfloor_comp _ _ Hfull). reflexivity.
Qed.

Lemma stage_completion_percent_range_witness :
  0 <= stageCompletionPercent settlement <= 100
  /\ stageCompletionPercent settlement = 100.
Proof.
  destruct (stage_completion_percent_range settlement settlement_is_session)
    as (Hrange & Hfull).
  split; [exact Hrange | apply Hfull; vm_compute; reflexivity].
Defined.

(** ** Skills *)

Lemma harvestSkill_ok (t : SkillType) (skill : Skill) :
  skill_ok skill ->
  skill_ok (fst (harvestSkill t skill))
  /\ skill_type (fst (harvestSkill t skill)) = skill_type skill.
Proof.
  intros (Hmax & Hlevel & Hexp & Hten). unfold harvestSkill.
  destruct (negb (bool_decide (skill_type skill = t))
            || (maxLevel skill <=? level skill)) eqn:Eskip;
    [simpl; split; [repeat split; assumption || lia | reflexivity]|].
  apply orb_false_elim in Eskip. destruct Eskip as (_ & Ebelow).
  apply Z.leb_gt in Ebelow.
  unfold SKILL_EXP_PER_LEVEL, MAX_SKILL_LEVEL in *.
  rewrite Z.rem_mod_nonneg in Hten by lia.
  destruct (level skill * 100 <=? experience skill + 10) eqn:Eup; simpl;
    [apply Z.leb_le in Eup | apply Z.leb_gt in Eup];
    (split; [|reflexivity]); unfold skill_ok; simpl;
    unfold SKILL_EXP_PER_LEVEL, MAX_SKILL_LEVEL;
    rewrite Z.rem_mod_nonneg by lia;
    repeat split; try lia;
    Z.to_euclidean_division_equations; lia.
Qed.

Lemma step_skills (e : Event) (s : Game) :
  Forall skill_ok (skills s) -> Forall skill_ok (skills (step e s)).
Proof.
  intros Hinv.
  destruct e; try (handler_cases; solve [exact Hinv]); unfold step.
  unfold handleManualHarvest, pushLog.
  destruct (0 <? manualCooldowns s k); [exact Hinv|].
  destruct (SKILL_RESOURCE_MAP k) as [skillType|]; [|exact Hinv].
  rewrite pushLogs_only_log. cbn [skills setLog setSkills].
  rewrite Forall_forall in Hinv. apply Forall_forall. intros sk Hsk.
  apply list_elem_of_In, in_map_iff in Hsk.
  destruct Hsk as ([sk' line] & <- & Hsk).
  apply in_map_iff in Hsk. destruct Hsk as (sk0 & Heq & Hsk0).
  apply list_elem_of_In, Hinv in Hsk0.
  destruct (harvestSkill_ok skillType sk0 Hsk0) as (Hok & _).
  rewrite Heq in Hok. exact Hok.
Qed.

Lemma session_skills (s : Game) : session s -> Forall skill_ok (skills s).
Proof.
  assert (Hinitial : Forall skill_ok INITIAL_SKILLS).
  { unfold INITIAL_SKILLS, skill_ok, MAX_SKILL_LEVEL, SKILL_EXP_PER_LEVEL.
    repeat constructor; simpl; lia. }
  induction 1 as [|e s _ IH]; [exact Hinitial|].
  destruct e as [e| |chapterId|trimmedName]; simpl.
  - apply step_skills. exact IH.
  - unfold phaseLogEffect, pushLog.
    destruct ((tick s =? 0)
              || negb (Z.rem (tick s) (PHASES_length * 2) =? 0));
      exact IH.
  - unfold selectChapter.
    match goal with |- context [if ?b then _ else _] => destruct b end;
      exact IH.
  - unfold handleNewGame. destruct (String.eqb trimmedName "");
      [exact IH | exact Hinitial].
Qed.

(** In every state of a session the two skills are those of the catalogue,
    mining first; each level lies between 1 and 100 and each experience is
    a multiple of ten below the hundred points per level that the next
    level asks for. *)
Theorem session_skills_in_range (s : Game) :
  session s ->
  map skill_type (skills s) = [mining; gathering]
  /\ Forall skill_ok (skills s).
Proof.
  intros Hs. split; [|apply session_skills; exact Hs].
  destruct (session_ledger s Hs) as (_ & _ & _ & _ & Hsks & _).
  unfold INITIAL_SKILLS in Hsks.
  repeat match goal with
         | H : Forall2 _ _ (_ :: _) |- _ =>
             apply Forall2_cons_inv_r in H;
             destruct H as (? & ? & (? & ? & ?) & ? & ->)
         | H : Forall2 _ _ [] |- _ => apply Forall2_nil_inv_r in H; subst
         end.
  simpl in *. congruence.
Qed.

Lemma session_skills_in_range_witness :
  map skill_type (skills settlement) = [mining; gathering]
  /\ Forall skill_ok (skills settlement).
Proof. exact (session_skills_in_range settlement settlement_is_session). Defined.

Lemma trained_steps (skill : Skill) (j : nat) :
  skill_ok skill ->
  experience skill = 0 ->
  level skill < MAX_SKILL_LEVEL ->
  Z.of_nat j < 10 * level skill ->
  trained j skill
  = mkSkill (skill_type skill) (level skill) (10 * Z.of_nat j)
      (maxLevel skill).
Proof.
  intros (Hmax & Hlevel & _ & _) Hzero Hbelow.
  induction j as [|j IH]; intros Hj.
  - unfold trained. simpl. destruct skill; simpl in *. subst. reflexivity.
  - unfold trained in *. simpl Nat.iter. rewrite IH by lia.
    unfold harvestSkill. simpl.
    rewrite bool_decide_eq_true_2 by reflexivity. simpl.
    destruct (maxLevel skill <=? level skill) eqn:E;
      [apply Z.leb_le in E; lia|].
    unfold SKILL_EXP_PER_LEVEL.
    destruct (level skill * 100 <=? 10 * Z.of_nat j + 10) eqn:E';
      [apply Z.leb_le in E'; lia|].
    simpl. f_equal. lia.
Qed.

(** A skill of level [L] below the maximum that has no experience yet
    reaches level [L + 1], again without experience, at the [10 * L]-th
    harvest that trains it, and not before. *)
Theorem skill_levels_up_after_ten_times_level (skill : Skill) :
  skill_ok skill ->
  experience skill = 0 ->
  level skill < MAX_SKILL_LEVEL ->
  (forall j,
      Z.of_nat j < 10 * level skill ->
      level (trained j skill) = level skill)
  /\ trained (Z.to_nat (10 * level skill)) skill
     = mkSkill (skill_type skill) (level skill + 1) 0 (maxLevel skill).
Proof.
  intros Hok Hzero Hbelow. split.
  - intros j Hj. rewrite (trained_steps skill j) by assumption. reflexivity.
  - destruct Hok as (Hmax & Hlevel & Hrest).
    assert (Hok : skill_ok skill) by (split; [|split]; assumption).
    destruct (Z.to_nat (10 * level skill)) as [|j] eqn:Hn; [lia|].
    pose proof (trained_steps skill j Hok Hzero Hbelow ltac:(lia)) as Hj.
    unfold trained in *. simpl Nat.iter. rewrite Hj.
    unfold harvestSkill. simpl.
    rewrite bool_decide_eq_true_2 by reflexivity. simpl.
    destruct (maxLevel skill <=? level skill) eqn:E;
      [apply Z.leb_le in E; lia|].
    unfold SKILL_EXP_PER_LEVEL.
    destruct (level skill * 100 <=? 10 * Z.of_nat j + 10) eqn:E';
      [|apply Z.leb_gt in E'; lia].
    simpl. f_equal. lia.
Qed.

Lemma skill_levels_up_after_ten_times_level_witness :
  trained 10 (mkSkill mining 1 0 MAX_SKILL_LEVEL)
  = mkSkill mining 2 0 MAX_SKILL_LEVEL.
Proof.
  destruct (skill_levels_up_after_ten_times_level
              (mkSkill mining 1 0 MAX_SKILL_LEVEL)) as (_ & Hup).
  - unfold skill_ok. simpl. unfold MAX_SKILL_LEVEL, SKILL_EXP_PER_LEVEL.
    repeat split; lia.
  - reflexivity.
  - reflexivity.
  - exact Hup.
Defined.

(** ** Recruits *)

Lemma tenantTimeoutSecond_fields (st : Game) :
  0 < tenantTimeout st ->
  0 < pendingTenants st ->
  tenantTimeout (tenantTimeoutSecond st) = tenantTimeout st - 1
  /\ pendingTenants (tenantTimeoutSecond st)
     = (if tenantTimeout st =? 1 then 0 else pendingTenants st)
  /\ assignedTenants (tenantTimeoutSecond st) = assignedTenants st
  /\ tenantRecruitCooldown (tenantTimeoutSecond st)
     = tenantRecruitCooldown st.
Proof.
  intros Htimeout Hpending. unfold tenantTimeoutSecond, pushLog.
  destruct (tenantTimeout st <=? 0) eqn:E1; [apply Z.leb_le in E1; lia|].
  destruct (pendingTenants st <=? 0) eqn:E2; [apply Z.leb_le in E2; lia|].
  cbn [orb].
  replace (Z.max 0 (tenantTimeout st - 1)) with (tenantTimeout st - 1) by lia.
  destruct (0 <? pendingTenants st) eqn:E3; [|apply Z.ltb_ge in E3; lia].
  destruct (tenantTimeout st =? 1) eqn:E4.
  - apply Z.eqb_eq in E4.
    replace (tenantTimeout st - 1 =? 0) with true
      by (symmetry; apply Z.eqb_eq; lia).
    cbn. repeat split; reflexivity.
  - apply Z.eqb_neq in E4.
    replace (tenantTimeout st - 1 =? 0) with false
      by (symmetry; apply Z.eqb_neq; lia).
    cbn. repeat split; reflexivity.
Qed.

Lemma handleRecruitTenants_fields (s : Game) :
  hasCityHall s = true ->
  tenantRecruitCooldown s <= 0 ->
  tenantTimeout (handleRecruitTenants s) = 120
  /\ pendingTenants (handleRecruitTenants s) = pendingTenants s + 5
  /\ assignedTenants (handleRecruitTenants s) = assignedTenants s
  /\ tenantRecruitCooldown (handleRecruitTenants s) = 300
  /\ hasCityHall (handleRecruitTenants s) = true.
Proof.
  intros Hhall Hcool. unfold handleRecruitTenants, pushLog. rewrite Hhall.
  destruct (0 <? tenantRecruitCooldown s) eqn:E; [apply Z.ltb_lt in E; lia|].
  cbn. repeat split; try reflexivity. exact Hhall.
Qed.

(** Recruiting in a settlement with a city hall, once the recruit cooldown
    is over, adds five pending tenants and starts a timer of 120 seconds.
    While nobody is assigned, each second of that timer takes one second
    off and keeps the pending tenants; at the 120th second all of them are
    gone.  The tenants in the settlement are the same throughout. *)
Theorem unassigned_recruits_leave_after_120_seconds (s : Game) (n : nat) :
  hasCityHall s = true ->
  tenantRecruitCooldown s <= 0 ->
  0 <= pendingTenants s ->
  (n <= 120)%nat ->
  let s' := repeated n tenantTimeoutSecond (handleRecruitTenants s) in
  tenantTimeout s' = 120 - Z.of_nat n
  /\ pendingTenants s'
     = (if Z.of_nat n <? 120 then pendingTenants s + 5 else 0)
  /\ assignedTenants s' = assignedTenants s.
Proof.
  intros Hhall Hcool Hpending Hn s'. subst s'.
  destruct (handleRecruitTenants_fields s Hhall Hcool)
    as (Htimeout & Hadded & Hassigned & _).
  induction n as [|n IH].
  - unfold repeated. simpl Nat.iter. rewrite Htimeout, Hadded, Hassigned.
    repeat split; reflexivity.
  - destruct IH as (IHt & IHp & IHa); [lia|].
    unfold repeated in *. simpl Nat.iter.
    destruct (Z.of_nat n <? 120) eqn:E; [|apply Z.ltb_ge in E; lia].
    apply Z.ltb_lt in E.
    destruct (tenantTimeoutSecond_fields
                (Nat.iter n tenantTimeoutSecond (handleRecruitTenants s)))
      as (Ht & Hp & Ha & _); [lia | lia |].
    rewrite Ht, Hp, Ha, IHt, IHp, IHa.
    split; [lia | split; [|reflexivity]].
    destruct (Z.of_nat (S n) <? 120) eqn:E'.
    + apply Z.ltb_lt in E'.
      replace (120 - Z.of_nat n =? 1) with false
        by (symmetry; apply Z.eqb_neq; lia).
      reflexivity.
    + apply Z.ltb_ge in E'.
      replace (120 - Z.of_nat n =? 1) with true
        by (symmetry; apply Z.eqb_eq; lia).
      reflexivity.
Qed.

Lemma unassigned_recruits_leave_after_120_seconds_witness :
  pendingTenants
    (repeated 120 tenantTimeoutSecond (handleRecruitTenants rested_settlement)) = 0
  /\ assignedTenants
       (repeated 120 tenantTimeoutSecond (handleRecruitTenants rested_settlement))
     = 2.
Proof.
  destruct (unassigned_recruits_leave_after_120_seconds rested_settlement 120)
    as (_ & Hp & Ha).
  - vm_compute. reflexivity.
  - vm_compute. discriminate.
  - vm_compute. discriminate.
  - lia.
  - split; [exact Hp | exact Ha].
Defined.

(** After a recruit that was accepted the recruit cooldown is 300 seconds;
    every second of its timer takes one second off, and until the 300th a
    further recruit changes nothing. *)
Theorem recruit_cooldown_lasts_300_seconds (s : Game) (n : nat) :
  hasCityHall s = true ->
  tenantRecruitCooldown s <= 0 ->
  (n <= 300)%nat ->
  let s' := repeated n recruitCooldownSecond (handleRecruitTenants s) in
  tenantRecruitCooldown s' = 300 - Z.of_nat n
  /\ (Z.of_nat n < 300 -> handleRecruitTenants s' = s').
Proof.
  intros Hhall Hcool Hn s'. subst s'.
  destruct (handleRecruitTenants_fields s Hhall Hcool)
    as (_ & _ & _ & Hstart & _).
  assert (Hcount :
    tenantRecruitCooldown
      (repeated n recruitCooldownSecond (handleRecruitTenants s))
    = 300 - Z.of_nat n).
  { induction n as [|n IH].
    - unfold repeated. simpl Nat.iter. rewrite Hstart. reflexivity.
    - unfold repeated in *. simpl Nat.iter. specialize (IH ltac:(lia)).
      unfold recruitCooldownSecond at 1. rewrite IH.
      destruct (300 - Z.of_nat n <=? 0) eqn:E; [apply Z.leb_le in E; lia|].
      cbn. lia. }
  split; [exact Hcount|]. intros Hlt.
  unfold handleRecruitTenants at 1. rewrite Hcount.
  destruct (negb _); [reflexivity|].
  destruct (0 <? 300 - Z.of_nat n) eqn:E; [reflexivity|].
  apply Z.ltb_ge in E. lia.
Qed.

Lemma recruit_cooldown_lasts_300_seconds_witness :
  tenantRecruitCooldown
    (repeated 300 recruitCooldownSecond (handleRecruitTenants rested_settlement))
  = 0.
Proof.
  destruct (recruit_cooldown_lasts_300_seconds rested_settlement 300) as (Hc & _).
  - vm_compute. reflexivity.
  - vm_compute. discriminate.
  - lia.
  - exact Hc.
Defined.

(** ** Locked and unlocked views *)

Lemma filter_complement {A : Type} (p q : A -> bool) (l : list A) :
  (forall x, q x = negb (p x)) ->
  (forall x, In x (List.filter p l) \/ In x (List.filter q l) <-> In x l)
  /\ (forall x, ~ (In x (List.filter p l) /\ In x (List.filter q l))).
Proof.
  intros Hq. split; intros x.
  - rewrite !filter_In, Hq. destruct (p x); simpl; intuition congruence.
  - rewrite !filter_In, Hq. destruct (p x); simpl; intuition congruence.
Qed.

(** The locked and the unlocked views are two halves of one list: every
    resource of the state is shown in exactly one of [unlockedResources] and
    [lockedResources], every directive in exactly one of [unlockedActions]
    and [lockedActions], and every recipe in exactly one of
    [unlockedRecipes] and [lockedRecipes]. *)
Theorem locked_and_unlocked_views_split (s : Game) :
  ((forall r,
       In r (unlockedResources s) \/ In r (lockedResources s)
       <-> In r (resources s))
   /\ (forall r,
          ~ (In r (unlockedResources s) /\ In r (lockedResources s))))
  /\ ((forall a,
          In a (unlockedActions s) \/ In a (lockedActions s) <-> In a ACTIONS)
      /\ (forall a, ~ (In a (unlockedActions s) /\ In a (lockedActions s))))
  /\ ((forall r,
          In r (unlockedRecipes s) \/ In r (lockedRecipes s) <-> In r RECIPES)
      /\ (forall r,
             ~ (In r (unlockedRecipes s) /\ In r (lockedRecipes s)))).
Proof.
  split; [|split].
  - apply filter_complement. intros r. cbv zeta.
    destruct (stage_reached s (unlock_stage (RESOURCE_UNLOCK_DATA (key r))));
      [reflexivity|].
    destruct (includes_key (manuallyUnlockedResources s) (key r));
      reflexivity.
  - apply filter_complement. intros a.
    destruct (action_requiredStage a <=? stageIndex s) eqn:E;
      [apply Z.leb_le in E; apply Z.ltb_ge; lia
      | apply Z.leb_gt in E; apply Z.ltb_lt; lia].
  - apply filter_complement. intros r.
    destruct (recipe_requiredStage r <=? stageIndex s) eqn:E;
      [apply Z.leb_le in E; apply Z.ltb_ge; lia
      | apply Z.leb_gt in E; apply Z.ltb_lt; lia].
Qed.

Lemma includes_key_app (l : list ResourceKey) (k : ResourceKey) :
  includes_key (l ++ [k]) k = true.
Proof.
  unfold includes_key. rewrite existsb_app. simpl.
  rewrite bool_decide_eq_true_2 by reflexivity.
  rewrite orb_true_r. reflexivity.
Qed.

(** An unlock that the ledger can pay for moves the resource from the
    locked view to the unlocked one: afterwards every resource of the state
    with that key is in [unlockedResources] and none is in
    [lockedResources]. *)
Theorem paid_unlock_shows_the_resource (s : Game) (k : ResourceKey)
    (cost : ResourceDelta) :
  unlock_cost (RESOURCE_UNLOCK_DATA k) = Some cost ->
  forallb (fun resource =>
             Qle_bool 0
               (amount resource
                + default 0%Q (delta_get cost (key resource))))
    (resources s) = true ->
  forall r,
    In r (resources (handleUnlockResource k s)) ->
    key r = k ->
    In r (unlockedResources (handleUnlockResource k s))
    /\ ~ In r (lockedResources (handleUnlockResource k s)).
Proof.
  intros Hcost Hafford r Hin Hkey.
  unfold unlockedResources, lockedResources. rewrite !filter_In.
  assert (Hlisted :
    includes_key (manuallyUnlockedResources (handleUnlockResource k s)) k
    = true).
  { unfold handleUnlockResource, pushLog. rewrite Hcost, Hafford. cbn.
    apply includes_key_app. }
  rewrite Hkey, Hlisted.
  destruct (stage_reached _ _); split; try (split; [exact Hin | reflexivity]);
    intros (_ & Hno); discriminate.
Qed.

Lemma paid_unlock_shows_the_resource_witness :
  In (mkResource wood 15 0 40)
    (unlockedResources (handleUnlockResource wood two_triggers_met))
  /\ ~ In (mkResource wood 15 0 40)
         (lockedResources (handleUnlockResource wood two_triggers_met)).
Proof.
  apply (paid_unlock_shows_the_resource two_triggers_met wood
           [(sunleaf, -40)%Q]).
  - reflexivity.
  - vm_compute. reflexivity.
  - vm_compute. right. left. reflexivity.
  - reflexivity.
Defined.

(** ** The store *)

(** A cost that one snapshot can pay can be paid by every snapshot that
    holds at least as much of each resource; a resource the cost names with
    a zero price is never looked up. *)
Theorem canAfford_with_more_resources (cost : Store.ResourceCost)
    (poorer richer : Store.StorePurchaseSnapshot) :
  Store.holds_at_least richer poorer ->
  Store.canAfford cost poorer = true ->
  Store.canAfford cost richer = true.
Proof.
  intros Hmore. unfold Store.canAfford. rewrite !forallb_forall.
  intros Hpaid (key & value) Hin. specialize (Hpaid (key, value) Hin).
  simpl in *. destruct (falsyQ value); [reflexivity|].
  destruct (poorer key) as [details|] eqn:Hpoor; [|discriminate].
  destruct (Hmore key details Hpoor) as (details' & -> & Hle).
  apply Qle_bool_iff. apply Qle_bool_iff in Hpaid. lra.
Qed.

Lemma canAfford_with_more_resources_witness :
  Store.canAfford [(Store.store_wood, 25%Q); (Store.store_sunleaf, 20%Q)]
    full_snapshot = true.
Proof.
  apply (canAfford_with_more_resources _ lean_snapshot full_snapshot).
  - intros key details Hkey.
    destruct key; try discriminate; injection Hkey as <-;
      eexists; (split; [reflexivity|]); simpl; lra.
  - vm_compute. reflexivity.
Defined.
